(** * Peer-logic core of SuperBitcoin: [src/p2p/net_processing.cpp]

    A shallow embedding of the per-peer state table, the in-flight block
    book-keeping, the misbehaviour score, the headers-message handler, the
    handshake handlers and the eviction timers, together with the properties
    the specification states about them.

    Conventions.
    - [int] and [int64_t] values are integers of [Z]; every arithmetic
      operation of the source is followed by the two's-complement wrap-around
      of its width ([wrap32], [wrap64]).
    - [uint256] and [arith_uint256] values are naturals of [N]; the null hash
      is [0].
    - A [const CBlockIndex *] is an optional handle into the block index owned
      by the chain engine ([None] is [nullptr]).
    - A [std::list<QueuedBlock>::iterator] is the address of a list node.
    - A function that dereferences a null pointer or fails an [assert]
      returns [None]. *)

From Stdlib Require Import ZArith NArith Lia String.
From stdpp Require Import base option list gmap fin_maps.

Local Open Scope Z_scope.

(** ** Machine integers *)

Definition INT_MIN : Z := - 2 ^ 31.
Definition INT_MAX : Z := 2 ^ 31 - 1.
Definition INT64_MIN : Z := - 2 ^ 63.
Definition INT64_MAX : Z := 2 ^ 63 - 1.

Definition wrap32 (z : Z) : Z := (z + 2 ^ 31) mod 2 ^ 32 - 2 ^ 31.
Definition wrap64 (z : Z) : Z := (z + 2 ^ 63) mod 2 ^ 64 - 2 ^ 63.

Definition int_range (z : Z) : Prop := INT_MIN <= z <= INT_MAX.
Definition int64_range (z : Z) : Prop := INT64_MIN <= z <= INT64_MAX.

(** ** Identifiers and handles *)

Abbreviation NodeId := Z (only parsing).
Abbreviation uint256 := N (only parsing).
Abbreviation BlockPtr := positive (only parsing).
Abbreviation ListNode := positive (only parsing).

Definition IsNull (h : uint256) : bool := N.eqb h 0.

(** [assert(b)] *)
Definition assert_ (b : bool) : option unit := if b then Some tt else None.

(** ** Data carried by the peer table *)

Record CAddress := {
  addr_key : N;
  addr_services : N;
  addr_IsLocal : bool;
  addr_IsRoutable : bool
}.

Record CBlockReject := {
  chRejectCode : Z;
  strRejectReason : string;
  hashBlock : uint256
}.

Inductive PartiallyDownloadedBlock : Type := NewPartiallyDownloadedBlock.

Record QueuedBlock := {
  hash : uint256;
  pindex : option BlockPtr;
  fValidatedHeaders : bool;
  partialBlock : option PartiallyDownloadedBlock
}.

Record ChainSyncTimeoutState := {
  m_timeout : Z;
  m_work_header : option BlockPtr;
  m_sent_getheaders : bool;
  m_protect : bool
}.

Record CNodeState := {
  address : CAddress;
  fCurrentlyConnected : bool;
  nMisbehavior : Z;  (* int *)
  fShouldBan : bool;
  name : string;
  rejects : list CBlockReject;
  pindexBestKnownBlock : option BlockPtr;
  hashLastUnknownBlock : uint256;
  pindexLastCommonBlock : option BlockPtr;
  pindexBestHeaderSent : option BlockPtr;
  nUnconnectingHeaders : Z;  (* int *)
  fSyncStarted : bool;
  nHeadersSyncTimeout : Z;  (* int64_t *)
  nStallingSince : Z;  (* int64_t *)
  vBlocksInFlight : list (ListNode * QueuedBlock);  (* std::list, each node with its address *)
  nDownloadingSince : Z;  (* int64_t *)
  nBlocksInFlight : Z;  (* int *)
  nBlocksInFlightValidHeaders : Z;  (* int *)
  fPreferredDownload : bool;
  fPreferHeaders : bool;
  fPreferHeaderAndIDs : bool;
  fProvidesHeaderAndIDs : bool;
  fHaveWitness : bool;
  fWantsCmpctWitness : bool;
  fSupportsDesiredCmpctVersion : bool;
  m_chain_sync : ChainSyncTimeoutState;
  m_last_block_announcement : Z  (* int64_t *)
}.

Definition set_fCurrentlyConnected (v : bool) (s : CNodeState) : CNodeState :=
  {| address := address s; fCurrentlyConnected := v; nMisbehavior := nMisbehavior s;
     fShouldBan := fShouldBan s; name := name s; rejects := rejects s; pindexBestKnownBlock
     := pindexBestKnownBlock s; hashLastUnknownBlock := hashLastUnknownBlock s;
     pindexLastCommonBlock := pindexLastCommonBlock s; pindexBestHeaderSent :=
     pindexBestHeaderSent s; nUnconnectingHeaders := nUnconnectingHeaders s; fSyncStarted
     := fSyncStarted s; nHeadersSyncTimeout := nHeadersSyncTimeout s; nStallingSince :=
     nStallingSince s; vBlocksInFlight := vBlocksInFlight s; nDownloadingSince :=
     nDownloadingSince s; nBlocksInFlight := nBlocksInFlight s; nBlocksInFlightValidHeaders
     := nBlocksInFlightValidHeaders s; fPreferredDownload := fPreferredDownload s;
     fPreferHeaders := fPreferHeaders s; fPreferHeaderAndIDs := fPreferHeaderAndIDs s;
     fProvidesHeaderAndIDs := fProvidesHeaderAndIDs s; fHaveWitness := fHaveWitness s;
     fWantsCmpctWitness := fWantsCmpctWitness s; fSupportsDesiredCmpctVersion :=
     fSupportsDesiredCmpctVersion s; m_chain_sync := m_chain_sync s;
     m_last_block_announcement := m_last_block_announcement s |}.

Definition set_nMisbehavior (v : Z) (s : CNodeState) : CNodeState :=
  {| address := address s; fCurrentlyConnected := fCurrentlyConnected s; nMisbehavior := v;
     fShouldBan := fShouldBan s; name := name s; rejects := rejects s; pindexBestKnownBlock
     := pindexBestKnownBlock s; hashLastUnknownBlock := hashLastUnknownBlock s;
     pindexLastCommonBlock := pindexLastCommonBlock s; pindexBestHeaderSent :=
     pindexBestHeaderSent s; nUnconnectingHeaders := nUnconnectingHeaders s; fSyncStarted
     := fSyncStarted s; nHeadersSyncTimeout := nHeadersSyncTimeout s; nStallingSince :=
     nStallingSince s; vBlocksInFlight := vBlocksInFlight s; nDownloadingSince :=
     nDownloadingSince s; nBlocksInFlight := nBlocksInFlight s; nBlocksInFlightValidHeaders
     := nBlocksInFlightValidHeaders s; fPreferredDownload := fPreferredDownload s;
     fPreferHeaders := fPreferHeaders s; fPreferHeaderAndIDs := fPreferHeaderAndIDs s;
     fProvidesHeaderAndIDs := fProvidesHeaderAndIDs s; fHaveWitness := fHaveWitness s;
     fWantsCmpctWitness := fWantsCmpctWitness s; fSupportsDesiredCmpctVersion :=
     fSupportsDesiredCmpctVersion s; m_chain_sync := m_chain_sync s;
     m_last_block_announcement := m_last_block_announcement s |}.

Definition set_fShouldBan (v : bool) (s : CNodeState) : CNodeState :=
  {| address := address s; fCurrentlyConnected := fCurrentlyConnected s; nMisbehavior :=
     nMisbehavior s; fShouldBan := v; name := name s; rejects := rejects s;
     pindexBestKnownBlock := pindexBestKnownBlock s; hashLastUnknownBlock :=
     hashLastUnknownBlock s; pindexLastCommonBlock := pindexLastCommonBlock s;
     pindexBestHeaderSent := pindexBestHeaderSent s; nUnconnectingHeaders :=
     nUnconnectingHeaders s; fSyncStarted := fSyncStarted s; nHeadersSyncTimeout :=
     nHeadersSyncTimeout s; nStallingSince := nStallingSince s; vBlocksInFlight :=
     vBlocksInFlight s; nDownloadingSince := nDownloadingSince s; nBlocksInFlight :=
     nBlocksInFlight s; nBlocksInFlightValidHeaders := nBlocksInFlightValidHeaders s;
     fPreferredDownload := fPreferredDownload s; fPreferHeaders := fPreferHeaders s;
     fPreferHeaderAndIDs := fPreferHeaderAndIDs s; fProvidesHeaderAndIDs :=
     fProvidesHeaderAndIDs s; fHaveWitness := fHaveWitness s; fWantsCmpctWitness :=
     fWantsCmpctWitness s; fSupportsDesiredCmpctVersion := fSupportsDesiredCmpctVersion s;
     m_chain_sync := m_chain_sync s; m_last_block_announcement := m_last_block_announcement
     s |}.

Definition set_rejects (v : list CBlockReject) (s : CNodeState) : CNodeState :=
  {| address := address s; fCurrentlyConnected := fCurrentlyConnected s; nMisbehavior :=
     nMisbehavior s; fShouldBan := fShouldBan s; name := name s; rejects := v;
     pindexBestKnownBlock := pindexBestKnownBlock s; hashLastUnknownBlock :=
     hashLastUnknownBlock s; pindexLastCommonBlock := pindexLastCommonBlock s;
     pindexBestHeaderSent := pindexBestHeaderSent s; nUnconnectingHeaders :=
     nUnconnectingHeaders s; fSyncStarted := fSyncStarted s; nHeadersSyncTimeout :=
     nHeadersSyncTimeout s; nStallingSince := nStallingSince s; vBlocksInFlight :=
     vBlocksInFlight s; nDownloadingSince := nDownloadingSince s; nBlocksInFlight :=
     nBlocksInFlight s; nBlocksInFlightValidHeaders := nBlocksInFlightValidHeaders s;
     fPreferredDownload := fPreferredDownload s; fPreferHeaders := fPreferHeaders s;
     fPreferHeaderAndIDs := fPreferHeaderAndIDs s; fProvidesHeaderAndIDs :=
     fProvidesHeaderAndIDs s; fHaveWitness := fHaveWitness s; fWantsCmpctWitness :=
     fWantsCmpctWitness s; fSupportsDesiredCmpctVersion := fSupportsDesiredCmpctVersion s;
     m_chain_sync := m_chain_sync s; m_last_block_announcement := m_last_block_announcement
     s |}.

Definition set_pindexBestKnownBlock (v : option BlockPtr) (s : CNodeState) : CNodeState :=
  {| address := address s; fCurrentlyConnected := fCurrentlyConnected s; nMisbehavior :=
     nMisbehavior s; fShouldBan := fShouldBan s; name := name s; rejects := rejects s;
     pindexBestKnownBlock := v; hashLastUnknownBlock := hashLastUnknownBlock s;
     pindexLastCommonBlock := pindexLastCommonBlock s; pindexBestHeaderSent :=
     pindexBestHeaderSent s; nUnconnectingHeaders := nUnconnectingHeaders s; fSyncStarted
     := fSyncStarted s; nHeadersSyncTimeout := nHeadersSyncTimeout s; nStallingSince :=
     nStallingSince s; vBlocksInFlight := vBlocksInFlight s; nDownloadingSince :=
     nDownloadingSince s; nBlocksInFlight := nBlocksInFlight s; nBlocksInFlightValidHeaders
     := nBlocksInFlightValidHeaders s; fPreferredDownload := fPreferredDownload s;
     fPreferHeaders := fPreferHeaders s; fPreferHeaderAndIDs := fPreferHeaderAndIDs s;
     fProvidesHeaderAndIDs := fProvidesHeaderAndIDs s; fHaveWitness := fHaveWitness s;
     fWantsCmpctWitness := fWantsCmpctWitness s; fSupportsDesiredCmpctVersion :=
     fSupportsDesiredCmpctVersion s; m_chain_sync := m_chain_sync s;
     m_last_block_announcement := m_last_block_announcement s |}.

Definition set_hashLastUnknownBlock (v : uint256) (s : CNodeState) : CNodeState :=
  {| address := address s; fCurrentlyConnected := fCurrentlyConnected s; nMisbehavior :=
     nMisbehavior s; fShouldBan := fShouldBan s; name := name s; rejects := rejects s;
     pindexBestKnownBlock := pindexBestKnownBlock s; hashLastUnknownBlock := v;
     pindexLastCommonBlock := pindexLastCommonBlock s; pindexBestHeaderSent :=
     pindexBestHeaderSent s; nUnconnectingHeaders := nUnconnectingHeaders s; fSyncStarted
     := fSyncStarted s; nHeadersSyncTimeout := nHeadersSyncTimeout s; nStallingSince :=
     nStallingSince s; vBlocksInFlight := vBlocksInFlight s; nDownloadingSince :=
     nDownloadingSince s; nBlocksInFlight := nBlocksInFlight s; nBlocksInFlightValidHeaders
     := nBlocksInFlightValidHeaders s; fPreferredDownload := fPreferredDownload s;
     fPreferHeaders := fPreferHeaders s; fPreferHeaderAndIDs := fPreferHeaderAndIDs s;
     fProvidesHeaderAndIDs := fProvidesHeaderAndIDs s; fHaveWitness := fHaveWitness s;
     fWantsCmpctWitness := fWantsCmpctWitness s; fSupportsDesiredCmpctVersion :=
     fSupportsDesiredCmpctVersion s; m_chain_sync := m_chain_sync s;
     m_last_block_announcement := m_last_block_announcement s |}.

Definition set_pindexLastCommonBlock (v : option BlockPtr) (s : CNodeState) : CNodeState :=
  {| address := address s; fCurrentlyConnected := fCurrentlyConnected s; nMisbehavior :=
     nMisbehavior s; fShouldBan := fShouldBan s; name := name s; rejects := rejects s;
     pindexBestKnownBlock := pindexBestKnownBlock s; hashLastUnknownBlock :=
     hashLastUnknownBlock s; pindexLastCommonBlock := v; pindexBestHeaderSent :=
     pindexBestHeaderSent s; nUnconnectingHeaders := nUnconnectingHeaders s; fSyncStarted
     := fSyncStarted s; nHeadersSyncTimeout := nHeadersSyncTimeout s; nStallingSince :=
     nStallingSince s; vBlocksInFlight := vBlocksInFlight s; nDownloadingSince :=
     nDownloadingSince s; nBlocksInFlight := nBlocksInFlight s; nBlocksInFlightValidHeaders
     := nBlocksInFlightValidHeaders s; fPreferredDownload := fPreferredDownload s;
     fPreferHeaders := fPreferHeaders s; fPreferHeaderAndIDs := fPreferHeaderAndIDs s;
     fProvidesHeaderAndIDs := fProvidesHeaderAndIDs s; fHaveWitness := fHaveWitness s;
     fWantsCmpctWitness := fWantsCmpctWitness s; fSupportsDesiredCmpctVersion :=
     fSupportsDesiredCmpctVersion s; m_chain_sync := m_chain_sync s;
     m_last_block_announcement := m_last_block_announcement s |}.

Definition set_nUnconnectingHeaders (v : Z) (s : CNodeState) : CNodeState :=
  {| address := address s; fCurrentlyConnected := fCurrentlyConnected s; nMisbehavior :=
     nMisbehavior s; fShouldBan := fShouldBan s; name := name s; rejects := rejects s;
     pindexBestKnownBlock := pindexBestKnownBlock s; hashLastUnknownBlock :=
     hashLastUnknownBlock s; pindexLastCommonBlock := pindexLastCommonBlock s;
     pindexBestHeaderSent := pindexBestHeaderSent s; nUnconnectingHeaders := v;
     fSyncStarted := fSyncStarted s; nHeadersSyncTimeout := nHeadersSyncTimeout s;
     nStallingSince := nStallingSince s; vBlocksInFlight := vBlocksInFlight s;
     nDownloadingSince := nDownloadingSince s; nBlocksInFlight := nBlocksInFlight s;
     nBlocksInFlightValidHeaders := nBlocksInFlightValidHeaders s; fPreferredDownload :=
     fPreferredDownload s; fPreferHeaders := fPreferHeaders s; fPreferHeaderAndIDs :=
     fPreferHeaderAndIDs s; fProvidesHeaderAndIDs := fProvidesHeaderAndIDs s; fHaveWitness
     := fHaveWitness s; fWantsCmpctWitness := fWantsCmpctWitness s;
     fSupportsDesiredCmpctVersion := fSupportsDesiredCmpctVersion s; m_chain_sync :=
     m_chain_sync s; m_last_block_announcement := m_last_block_announcement s |}.

Definition set_fSyncStarted (v : bool) (s : CNodeState) : CNodeState :=
  {| address := address s; fCurrentlyConnected := fCurrentlyConnected s; nMisbehavior :=
     nMisbehavior s; fShouldBan := fShouldBan s; name := name s; rejects := rejects s;
     pindexBestKnownBlock := pindexBestKnownBlock s; hashLastUnknownBlock :=
     hashLastUnknownBlock s; pindexLastCommonBlock := pindexLastCommonBlock s;
     pindexBestHeaderSent := pindexBestHeaderSent s; nUnconnectingHeaders :=
     nUnconnectingHeaders s; fSyncStarted := v; nHeadersSyncTimeout := nHeadersSyncTimeout
     s; nStallingSince := nStallingSince s; vBlocksInFlight := vBlocksInFlight s;
     nDownloadingSince := nDownloadingSince s; nBlocksInFlight := nBlocksInFlight s;
     nBlocksInFlightValidHeaders := nBlocksInFlightValidHeaders s; fPreferredDownload :=
     fPreferredDownload s; fPreferHeaders := fPreferHeaders s; fPreferHeaderAndIDs :=
     fPreferHeaderAndIDs s; fProvidesHeaderAndIDs := fProvidesHeaderAndIDs s; fHaveWitness
     := fHaveWitness s; fWantsCmpctWitness := fWantsCmpctWitness s;
     fSupportsDesiredCmpctVersion := fSupportsDesiredCmpctVersion s; m_chain_sync :=
     m_chain_sync s; m_last_block_announcement := m_last_block_announcement s |}.

Definition set_nHeadersSyncTimeout (v : Z) (s : CNodeState) : CNodeState :=
  {| address := address s; fCurrentlyConnected := fCurrentlyConnected s; nMisbehavior :=
     nMisbehavior s; fShouldBan := fShouldBan s; name := name s; rejects := rejects s;
     pindexBestKnownBlock := pindexBestKnownBlock s; hashLastUnknownBlock :=
     hashLastUnknownBlock s; pindexLastCommonBlock := pindexLastCommonBlock s;
     pindexBestHeaderSent := pindexBestHeaderSent s; nUnconnectingHeaders :=
     nUnconnectingHeaders s; fSyncStarted := fSyncStarted s; nHeadersSyncTimeout := v;
     nStallingSince := nStallingSince s; vBlocksInFlight := vBlocksInFlight s;
     nDownloadingSince := nDownloadingSince s; nBlocksInFlight := nBlocksInFlight s;
     nBlocksInFlightValidHeaders := nBlocksInFlightValidHeaders s; fPreferredDownload :=
     fPreferredDownload s; fPreferHeaders := fPreferHeaders s; fPreferHeaderAndIDs :=
     fPreferHeaderAndIDs s; fProvidesHeaderAndIDs := fProvidesHeaderAndIDs s; fHaveWitness
     := fHaveWitness s; fWantsCmpctWitness := fWantsCmpctWitness s;
     fSupportsDesiredCmpctVersion := fSupportsDesiredCmpctVersion s; m_chain_sync :=
     m_chain_sync s; m_last_block_announcement := m_last_block_announcement s |}.

Definition set_nStallingSince (v : Z) (s : CNodeState) : CNodeState :=
  {| address := address s; fCurrentlyConnected := fCurrentlyConnected s; nMisbehavior :=
     nMisbehavior s; fShouldBan := fShouldBan s; name := name s; rejects := rejects s;
     pindexBestKnownBlock := pindexBestKnownBlock s; hashLastUnknownBlock :=
     hashLastUnknownBlock s; pindexLastCommonBlock := pindexLastCommonBlock s;
     pindexBestHeaderSent := pindexBestHeaderSent s; nUnconnectingHeaders :=
     nUnconnectingHeaders s; fSyncStarted := fSyncStarted s; nHeadersSyncTimeout :=
     nHeadersSyncTimeout s; nStallingSince := v; vBlocksInFlight := vBlocksInFlight s;
     nDownloadingSince := nDownloadingSince s; nBlocksInFlight := nBlocksInFlight s;
     nBlocksInFlightValidHeaders := nBlocksInFlightValidHeaders s; fPreferredDownload :=
     fPreferredDownload s; fPreferHeaders := fPreferHeaders s; fPreferHeaderAndIDs :=
     fPreferHeaderAndIDs s; fProvidesHeaderAndIDs := fProvidesHeaderAndIDs s; fHaveWitness
     := fHaveWitness s; fWantsCmpctWitness := fWantsCmpctWitness s;
     fSupportsDesiredCmpctVersion := fSupportsDesiredCmpctVersion s; m_chain_sync :=
     m_chain_sync s; m_last_block_announcement := m_last_block_announcement s |}.

Definition set_vBlocksInFlight (v : list (ListNode * QueuedBlock)) (s : CNodeState) : CNodeState :=
  {| address := address s; fCurrentlyConnected := fCurrentlyConnected s; nMisbehavior :=
     nMisbehavior s; fShouldBan := fShouldBan s; name := name s; rejects := rejects s;
     pindexBestKnownBlock := pindexBestKnownBlock s; hashLastUnknownBlock :=
     hashLastUnknownBlock s; pindexLastCommonBlock := pindexLastCommonBlock s;
     pindexBestHeaderSent := pindexBestHeaderSent s; nUnconnectingHeaders :=
     nUnconnectingHeaders s; fSyncStarted := fSyncStarted s; nHeadersSyncTimeout :=
     nHeadersSyncTimeout s; nStallingSince := nStallingSince s; vBlocksInFlight := v;
     nDownloadingSince := nDownloadingSince s; nBlocksInFlight := nBlocksInFlight s;
     nBlocksInFlightValidHeaders := nBlocksInFlightValidHeaders s; fPreferredDownload :=
     fPreferredDownload s; fPreferHeaders := fPreferHeaders s; fPreferHeaderAndIDs :=
     fPreferHeaderAndIDs s; fProvidesHeaderAndIDs := fProvidesHeaderAndIDs s; fHaveWitness
     := fHaveWitness s; fWantsCmpctWitness := fWantsCmpctWitness s;
     fSupportsDesiredCmpctVersion := fSupportsDesiredCmpctVersion s; m_chain_sync :=
     m_chain_sync s; m_last_block_announcement := m_last_block_announcement s |}.

Definition set_nDownloadingSince (v : Z) (s : CNodeState) : CNodeState :=
  {| address := address s; fCurrentlyConnected := fCurrentlyConnected s; nMisbehavior :=
     nMisbehavior s; fShouldBan := fShouldBan s; name := name s; rejects := rejects s;
     pindexBestKnownBlock := pindexBestKnownBlock s; hashLastUnknownBlock :=
     hashLastUnknownBlock s; pindexLastCommonBlock := pindexLastCommonBlock s;
     pindexBestHeaderSent := pindexBestHeaderSent s; nUnconnectingHeaders :=
     nUnconnectingHeaders s; fSyncStarted := fSyncStarted s; nHeadersSyncTimeout :=
     nHeadersSyncTimeout s; nStallingSince := nStallingSince s; vBlocksInFlight :=
     vBlocksInFlight s; nDownloadingSince := v; nBlocksInFlight := nBlocksInFlight s;
     nBlocksInFlightValidHeaders := nBlocksInFlightValidHeaders s; fPreferredDownload :=
     fPreferredDownload s; fPreferHeaders := fPreferHeaders s; fPreferHeaderAndIDs :=
     fPreferHeaderAndIDs s; fProvidesHeaderAndIDs := fProvidesHeaderAndIDs s; fHaveWitness
     := fHaveWitness s; fWantsCmpctWitness := fWantsCmpctWitness s;
     fSupportsDesiredCmpctVersion := fSupportsDesiredCmpctVersion s; m_chain_sync :=
     m_chain_sync s; m_last_block_announcement := m_last_block_announcement s |}.

Definition set_nBlocksInFlight (v : Z) (s : CNodeState) : CNodeState :=
  {| address := address s; fCurrentlyConnected := fCurrentlyConnected s; nMisbehavior :=
     nMisbehavior s; fShouldBan := fShouldBan s; name := name s; rejects := rejects s;
     pindexBestKnownBlock := pindexBestKnownBlock s; hashLastUnknownBlock :=
     hashLastUnknownBlock s; pindexLastCommonBlock := pindexLastCommonBlock s;
     pindexBestHeaderSent := pindexBestHeaderSent s; nUnconnectingHeaders :=
     nUnconnectingHeaders s; fSyncStarted := fSyncStarted s; nHeadersSyncTimeout :=
     nHeadersSyncTimeout s; nStallingSince := nStallingSince s; vBlocksInFlight :=
     vBlocksInFlight s; nDownloadingSince := nDownloadingSince s; nBlocksInFlight := v;
     nBlocksInFlightValidHeaders := nBlocksInFlightValidHeaders s; fPreferredDownload :=
     fPreferredDownload s; fPreferHeaders := fPreferHeaders s; fPreferHeaderAndIDs :=
     fPreferHeaderAndIDs s; fProvidesHeaderAndIDs := fProvidesHeaderAndIDs s; fHaveWitness
     := fHaveWitness s; fWantsCmpctWitness := fWantsCmpctWitness s;
     fSupportsDesiredCmpctVersion := fSupportsDesiredCmpctVersion s; m_chain_sync :=
     m_chain_sync s; m_last_block_announcement := m_last_block_announcement s |}.

Definition set_nBlocksInFlightValidHeaders (v : Z) (s : CNodeState) : CNodeState :=
  {| address := address s; fCurrentlyConnected := fCurrentlyConnected s; nMisbehavior :=
     nMisbehavior s; fShouldBan := fShouldBan s; name := name s; rejects := rejects s;
     pindexBestKnownBlock := pindexBestKnownBlock s; hashLastUnknownBlock :=
     hashLastUnknownBlock s; pindexLastCommonBlock := pindexLastCommonBlock s;
     pindexBestHeaderSent := pindexBestHeaderSent s; nUnconnectingHeaders :=
     nUnconnectingHeaders s; fSyncStarted := fSyncStarted s; nHeadersSyncTimeout :=
     nHeadersSyncTimeout s; nStallingSince := nStallingSince s; vBlocksInFlight :=
     vBlocksInFlight s; nDownloadingSince := nDownloadingSince s; nBlocksInFlight :=
     nBlocksInFlight s; nBlocksInFlightValidHeaders := v; fPreferredDownload :=
     fPreferredDownload s; fPreferHeaders := fPreferHeaders s; fPreferHeaderAndIDs :=
     fPreferHeaderAndIDs s; fProvidesHeaderAndIDs := fProvidesHeaderAndIDs s; fHaveWitness
     := fHaveWitness s; fWantsCmpctWitness := fWantsCmpctWitness s;
     fSupportsDesiredCmpctVersion := fSupportsDesiredCmpctVersion s; m_chain_sync :=
     m_chain_sync s; m_last_block_announcement := m_last_block_announcement s |}.

Definition set_fPreferredDownload (v : bool) (s : CNodeState) : CNodeState :=
  {| address := address s; fCurrentlyConnected := fCurrentlyConnected s; nMisbehavior :=
     nMisbehavior s; fShouldBan := fShouldBan s; name := name s; rejects := rejects s;
     pindexBestKnownBlock := pindexBestKnownBlock s; hashLastUnknownBlock :=
     hashLastUnknownBlock s; pindexLastCommonBlock := pindexLastCommonBlock s;
     pindexBestHeaderSent := pindexBestHeaderSent s; nUnconnectingHeaders :=
     nUnconnectingHeaders s; fSyncStarted := fSyncStarted s; nHeadersSyncTimeout :=
     nHeadersSyncTimeout s; nStallingSince := nStallingSince s; vBlocksInFlight :=
     vBlocksInFlight s; nDownloadingSince := nDownloadingSince s; nBlocksInFlight :=
     nBlocksInFlight s; nBlocksInFlightValidHeaders := nBlocksInFlightValidHeaders s;
     fPreferredDownload := v; fPreferHeaders := fPreferHeaders s; fPreferHeaderAndIDs :=
     fPreferHeaderAndIDs s; fProvidesHeaderAndIDs := fProvidesHeaderAndIDs s; fHaveWitness
     := fHaveWitness s; fWantsCmpctWitness := fWantsCmpctWitness s;
     fSupportsDesiredCmpctVersion := fSupportsDesiredCmpctVersion s; m_chain_sync :=
     m_chain_sync s; m_last_block_announcement := m_last_block_announcement s |}.

Definition set_fHaveWitness (v : bool) (s : CNodeState) : CNodeState :=
  {| address := address s; fCurrentlyConnected := fCurrentlyConnected s; nMisbehavior :=
     nMisbehavior s; fShouldBan := fShouldBan s; name := name s; rejects := rejects s;
     pindexBestKnownBlock := pindexBestKnownBlock s; hashLastUnknownBlock :=
     hashLastUnknownBlock s; pindexLastCommonBlock := pindexLastCommonBlock s;
     pindexBestHeaderSent := pindexBestHeaderSent s; nUnconnectingHeaders :=
     nUnconnectingHeaders s; fSyncStarted := fSyncStarted s; nHeadersSyncTimeout :=
     nHeadersSyncTimeout s; nStallingSince := nStallingSince s; vBlocksInFlight :=
     vBlocksInFlight s; nDownloadingSince := nDownloadingSince s; nBlocksInFlight :=
     nBlocksInFlight s; nBlocksInFlightValidHeaders := nBlocksInFlightValidHeaders s;
     fPreferredDownload := fPreferredDownload s; fPreferHeaders := fPreferHeaders s;
     fPreferHeaderAndIDs := fPreferHeaderAndIDs s; fProvidesHeaderAndIDs :=
     fProvidesHeaderAndIDs s; fHaveWitness := v; fWantsCmpctWitness := fWantsCmpctWitness
     s; fSupportsDesiredCmpctVersion := fSupportsDesiredCmpctVersion s; m_chain_sync :=
     m_chain_sync s; m_last_block_announcement := m_last_block_announcement s |}.

Definition set_m_chain_sync (v : ChainSyncTimeoutState) (s : CNodeState) : CNodeState :=
  {| address := address s; fCurrentlyConnected := fCurrentlyConnected s; nMisbehavior :=
     nMisbehavior s; fShouldBan := fShouldBan s; name := name s; rejects := rejects s;
     pindexBestKnownBlock := pindexBestKnownBlock s; hashLastUnknownBlock :=
     hashLastUnknownBlock s; pindexLastCommonBlock := pindexLastCommonBlock s;
     pindexBestHeaderSent := pindexBestHeaderSent s; nUnconnectingHeaders :=
     nUnconnectingHeaders s; fSyncStarted := fSyncStarted s; nHeadersSyncTimeout :=
     nHeadersSyncTimeout s; nStallingSince := nStallingSince s; vBlocksInFlight :=
     vBlocksInFlight s; nDownloadingSince := nDownloadingSince s; nBlocksInFlight :=
     nBlocksInFlight s; nBlocksInFlightValidHeaders := nBlocksInFlightValidHeaders s;
     fPreferredDownload := fPreferredDownload s; fPreferHeaders := fPreferHeaders s;
     fPreferHeaderAndIDs := fPreferHeaderAndIDs s; fProvidesHeaderAndIDs :=
     fProvidesHeaderAndIDs s; fHaveWitness := fHaveWitness s; fWantsCmpctWitness :=
     fWantsCmpctWitness s; fSupportsDesiredCmpctVersion := fSupportsDesiredCmpctVersion s;
     m_chain_sync := v; m_last_block_announcement := m_last_block_announcement s |}.

Definition set_m_last_block_announcement (v : Z) (s : CNodeState) : CNodeState :=
  {| address := address s; fCurrentlyConnected := fCurrentlyConnected s; nMisbehavior :=
     nMisbehavior s; fShouldBan := fShouldBan s; name := name s; rejects := rejects s;
     pindexBestKnownBlock := pindexBestKnownBlock s; hashLastUnknownBlock :=
     hashLastUnknownBlock s; pindexLastCommonBlock := pindexLastCommonBlock s;
     pindexBestHeaderSent := pindexBestHeaderSent s; nUnconnectingHeaders :=
     nUnconnectingHeaders s; fSyncStarted := fSyncStarted s; nHeadersSyncTimeout :=
     nHeadersSyncTimeout s; nStallingSince := nStallingSince s; vBlocksInFlight :=
     vBlocksInFlight s; nDownloadingSince := nDownloadingSince s; nBlocksInFlight :=
     nBlocksInFlight s; nBlocksInFlightValidHeaders := nBlocksInFlightValidHeaders s;
     fPreferredDownload := fPreferredDownload s; fPreferHeaders := fPreferHeaders s;
     fPreferHeaderAndIDs := fPreferHeaderAndIDs s; fProvidesHeaderAndIDs :=
     fProvidesHeaderAndIDs s; fHaveWitness := fHaveWitness s; fWantsCmpctWitness :=
     fWantsCmpctWitness s; fSupportsDesiredCmpctVersion := fSupportsDesiredCmpctVersion s;
     m_chain_sync := m_chain_sync s; m_last_block_announcement := v |}.

Record GState := {
  mapNodeState : gmap NodeId CNodeState;
  mapBlocksInFlight : gmap uint256 (NodeId * ListNode);
  nSyncStarted : Z;  (* int *)
  nPreferredDownload : Z;  (* int *)
  nPeersWithValidatedDownloads : Z;  (* int *)
  g_outbound_peers_with_protect_from_disconnect : Z;  (* int *)
  next_list_node : ListNode  (* next free list-node address *)
}.

Definition set_mapNodeState (v : gmap NodeId CNodeState) (s : GState) : GState :=
  {| mapNodeState := v; mapBlocksInFlight := mapBlocksInFlight s; nSyncStarted :=
     nSyncStarted s; nPreferredDownload := nPreferredDownload s;
     nPeersWithValidatedDownloads := nPeersWithValidatedDownloads s;
     g_outbound_peers_with_protect_from_disconnect :=
     g_outbound_peers_with_protect_from_disconnect s; next_list_node := next_list_node s |}.

Definition set_mapBlocksInFlight (v : gmap uint256 (NodeId * ListNode)) (s : GState) : GState :=
  {| mapNodeState := mapNodeState s; mapBlocksInFlight := v; nSyncStarted := nSyncStarted
     s; nPreferredDownload := nPreferredDownload s; nPeersWithValidatedDownloads :=
     nPeersWithValidatedDownloads s; g_outbound_peers_with_protect_from_disconnect :=
     g_outbound_peers_with_protect_from_disconnect s; next_list_node := next_list_node s |}.

Definition set_nSyncStarted (v : Z) (s : GState) : GState :=
  {| mapNodeState := mapNodeState s; mapBlocksInFlight := mapBlocksInFlight s; nSyncStarted
     := v; nPreferredDownload := nPreferredDownload s; nPeersWithValidatedDownloads :=
     nPeersWithValidatedDownloads s; g_outbound_peers_with_protect_from_disconnect :=
     g_outbound_peers_with_protect_from_disconnect s; next_list_node := next_list_node s |}.

Definition set_nPreferredDownload (v : Z) (s : GState) : GState :=
  {| mapNodeState := mapNodeState s; mapBlocksInFlight := mapBlocksInFlight s; nSyncStarted
     := nSyncStarted s; nPreferredDownload := v; nPeersWithValidatedDownloads :=
     nPeersWithValidatedDownloads s; g_outbound_peers_with_protect_from_disconnect :=
     g_outbound_peers_with_protect_from_disconnect s; next_list_node := next_list_node s |}.

Definition set_nPeersWithValidatedDownloads (v : Z) (s : GState) : GState :=
  {| mapNodeState := mapNodeState s; mapBlocksInFlight := mapBlocksInFlight s; nSyncStarted
     := nSyncStarted s; nPreferredDownload := nPreferredDownload s;
     nPeersWithValidatedDownloads := v; g_outbound_peers_with_protect_from_disconnect :=
     g_outbound_peers_with_protect_from_disconnect s; next_list_node := next_list_node s |}.

Definition set_g_outbound_peers_with_protect_from_disconnect (v : Z) (s : GState) : GState :=
  {| mapNodeState := mapNodeState s; mapBlocksInFlight := mapBlocksInFlight s; nSyncStarted
     := nSyncStarted s; nPreferredDownload := nPreferredDownload s;
     nPeersWithValidatedDownloads := nPeersWithValidatedDownloads s;
     g_outbound_peers_with_protect_from_disconnect := v; next_list_node := next_list_node s |}.

Definition set_next_list_node (v : ListNode) (s : GState) : GState :=
  {| mapNodeState := mapNodeState s; mapBlocksInFlight := mapBlocksInFlight s; nSyncStarted
     := nSyncStarted s; nPreferredDownload := nPreferredDownload s;
     nPeersWithValidatedDownloads := nPeersWithValidatedDownloads s;
     g_outbound_peers_with_protect_from_disconnect :=
     g_outbound_peers_with_protect_from_disconnect s; next_list_node := v |}.

Record CNode := {
  GetId : NodeId;
  addr : CAddress;
  fInbound : bool;
  fWhitelisted : bool;
  fOneShot : bool;
  fClient : bool;
  fFeeler : bool;
  m_manual_connection : bool;
  fDisconnect : bool;
  fSuccessfullyConnected : bool;
  nVersion : Z;  (* int *)
  nSendVersion : Z;  (* int *)
  nRecvVersion : Z;  (* int *)
  nServices : N;  (* ServiceFlags, uint64_t *)
  nServicesExpected : N;
  nLocalServices : N;
  nStartingHeight : Z;  (* int *)
  fRelayTxes : bool;
  fGetAddr : bool;
  nTimeOffset : Z;  (* int64_t *)
  addrLocal : option CAddress;
  strSubVer : string;
  cleanSubVer : string
}.

Definition set_fClient (v : bool) (s : CNode) : CNode :=
  {| GetId := GetId s; addr := addr s; fInbound := fInbound s; fWhitelisted := fWhitelisted
     s; fOneShot := fOneShot s; fClient := v; fFeeler := fFeeler s; m_manual_connection :=
     m_manual_connection s; fDisconnect := fDisconnect s; fSuccessfullyConnected :=
     fSuccessfullyConnected s; nVersion := nVersion s; nSendVersion := nSendVersion s;
     nRecvVersion := nRecvVersion s; nServices := nServices s; nServicesExpected :=
     nServicesExpected s; nLocalServices := nLocalServices s; nStartingHeight :=
     nStartingHeight s; fRelayTxes := fRelayTxes s; fGetAddr := fGetAddr s; nTimeOffset :=
     nTimeOffset s; addrLocal := addrLocal s; strSubVer := strSubVer s; cleanSubVer :=
     cleanSubVer s |}.

Definition set_fDisconnect (v : bool) (s : CNode) : CNode :=
  {| GetId := GetId s; addr := addr s; fInbound := fInbound s; fWhitelisted := fWhitelisted
     s; fOneShot := fOneShot s; fClient := fClient s; fFeeler := fFeeler s;
     m_manual_connection := m_manual_connection s; fDisconnect := v; fSuccessfullyConnected
     := fSuccessfullyConnected s; nVersion := nVersion s; nSendVersion := nSendVersion s;
     nRecvVersion := nRecvVersion s; nServices := nServices s; nServicesExpected :=
     nServicesExpected s; nLocalServices := nLocalServices s; nStartingHeight :=
     nStartingHeight s; fRelayTxes := fRelayTxes s; fGetAddr := fGetAddr s; nTimeOffset :=
     nTimeOffset s; addrLocal := addrLocal s; strSubVer := strSubVer s; cleanSubVer :=
     cleanSubVer s |}.

Definition set_fSuccessfullyConnected (v : bool) (s : CNode) : CNode :=
  {| GetId := GetId s; addr := addr s; fInbound := fInbound s; fWhitelisted := fWhitelisted
     s; fOneShot := fOneShot s; fClient := fClient s; fFeeler := fFeeler s;
     m_manual_connection := m_manual_connection s; fDisconnect := fDisconnect s;
     fSuccessfullyConnected := v; nVersion := nVersion s; nSendVersion := nSendVersion s;
     nRecvVersion := nRecvVersion s; nServices := nServices s; nServicesExpected :=
     nServicesExpected s; nLocalServices := nLocalServices s; nStartingHeight :=
     nStartingHeight s; fRelayTxes := fRelayTxes s; fGetAddr := fGetAddr s; nTimeOffset :=
     nTimeOffset s; addrLocal := addrLocal s; strSubVer := strSubVer s; cleanSubVer :=
     cleanSubVer s |}.

Definition set_nVersion (v : Z) (s : CNode) : CNode :=
  {| GetId := GetId s; addr := addr s; fInbound := fInbound s; fWhitelisted := fWhitelisted
     s; fOneShot := fOneShot s; fClient := fClient s; fFeeler := fFeeler s;
     m_manual_connection := m_manual_connection s; fDisconnect := fDisconnect s;
     fSuccessfullyConnected := fSuccessfullyConnected s; nVersion := v; nSendVersion :=
     nSendVersion s; nRecvVersion := nRecvVersion s; nServices := nServices s;
     nServicesExpected := nServicesExpected s; nLocalServices := nLocalServices s;
     nStartingHeight := nStartingHeight s; fRelayTxes := fRelayTxes s; fGetAddr := fGetAddr
     s; nTimeOffset := nTimeOffset s; addrLocal := addrLocal s; strSubVer := strSubVer s;
     cleanSubVer := cleanSubVer s |}.

Definition set_nSendVersion (v : Z) (s : CNode) : CNode :=
  {| GetId := GetId s; addr := addr s; fInbound := fInbound s; fWhitelisted := fWhitelisted
     s; fOneShot := fOneShot s; fClient := fClient s; fFeeler := fFeeler s;
     m_manual_connection := m_manual_connection s; fDisconnect := fDisconnect s;
     fSuccessfullyConnected := fSuccessfullyConnected s; nVersion := nVersion s;
     nSendVersion := v; nRecvVersion := nRecvVersion s; nServices := nServices s;
     nServicesExpected := nServicesExpected s; nLocalServices := nLocalServices s;
     nStartingHeight := nStartingHeight s; fRelayTxes := fRelayTxes s; fGetAddr := fGetAddr
     s; nTimeOffset := nTimeOffset s; addrLocal := addrLocal s; strSubVer := strSubVer s;
     cleanSubVer := cleanSubVer s |}.

Definition set_nRecvVersion (v : Z) (s : CNode) : CNode :=
  {| GetId := GetId s; addr := addr s; fInbound := fInbound s; fWhitelisted := fWhitelisted
     s; fOneShot := fOneShot s; fClient := fClient s; fFeeler := fFeeler s;
     m_manual_connection := m_manual_connection s; fDisconnect := fDisconnect s;
     fSuccessfullyConnected := fSuccessfullyConnected s; nVersion := nVersion s;
     nSendVersion := nSendVersion s; nRecvVersion := v; nServices := nServices s;
     nServicesExpected := nServicesExpected s; nLocalServices := nLocalServices s;
     nStartingHeight := nStartingHeight s; fRelayTxes := fRelayTxes s; fGetAddr := fGetAddr
     s; nTimeOffset := nTimeOffset s; addrLocal := addrLocal s; strSubVer := strSubVer s;
     cleanSubVer := cleanSubVer s |}.

Definition set_nServices (v : N) (s : CNode) : CNode :=
  {| GetId := GetId s; addr := addr s; fInbound := fInbound s; fWhitelisted := fWhitelisted
     s; fOneShot := fOneShot s; fClient := fClient s; fFeeler := fFeeler s;
     m_manual_connection := m_manual_connection s; fDisconnect := fDisconnect s;
     fSuccessfullyConnected := fSuccessfullyConnected s; nVersion := nVersion s;
     nSendVersion := nSendVersion s; nRecvVersion := nRecvVersion s; nServices := v;
     nServicesExpected := nServicesExpected s; nLocalServices := nLocalServices s;
     nStartingHeight := nStartingHeight s; fRelayTxes := fRelayTxes s; fGetAddr := fGetAddr
     s; nTimeOffset := nTimeOffset s; addrLocal := addrLocal s; strSubVer := strSubVer s;
     cleanSubVer := cleanSubVer s |}.

Definition set_nStartingHeight (v : Z) (s : CNode) : CNode :=
  {| GetId := GetId s; addr := addr s; fInbound := fInbound s; fWhitelisted := fWhitelisted
     s; fOneShot := fOneShot s; fClient := fClient s; fFeeler := fFeeler s;
     m_manual_connection := m_manual_connection s; fDisconnect := fDisconnect s;
     fSuccessfullyConnected := fSuccessfullyConnected s; nVersion := nVersion s;
     nSendVersion := nSendVersion s; nRecvVersion := nRecvVersion s; nServices := nServices
     s; nServicesExpected := nServicesExpected s; nLocalServices := nLocalServices s;
     nStartingHeight := v; fRelayTxes := fRelayTxes s; fGetAddr := fGetAddr s; nTimeOffset
     := nTimeOffset s; addrLocal := addrLocal s; strSubVer := strSubVer s; cleanSubVer :=
     cleanSubVer s |}.

Definition set_fRelayTxes (v : bool) (s : CNode) : CNode :=
  {| GetId := GetId s; addr := addr s; fInbound := fInbound s; fWhitelisted := fWhitelisted
     s; fOneShot := fOneShot s; fClient := fClient s; fFeeler := fFeeler s;
     m_manual_connection := m_manual_connection s; fDisconnect := fDisconnect s;
     fSuccessfullyConnected := fSuccessfullyConnected s; nVersion := nVersion s;
     nSendVersion := nSendVersion s; nRecvVersion := nRecvVersion s; nServices := nServices
     s; nServicesExpected := nServicesExpected s; nLocalServices := nLocalServices s;
     nStartingHeight := nStartingHeight s; fRelayTxes := v; fGetAddr := fGetAddr s;
     nTimeOffset := nTimeOffset s; addrLocal := addrLocal s; strSubVer := strSubVer s;
     cleanSubVer := cleanSubVer s |}.

Definition set_fGetAddr (v : bool) (s : CNode) : CNode :=
  {| GetId := GetId s; addr := addr s; fInbound := fInbound s; fWhitelisted := fWhitelisted
     s; fOneShot := fOneShot s; fClient := fClient s; fFeeler := fFeeler s;
     m_manual_connection := m_manual_connection s; fDisconnect := fDisconnect s;
     fSuccessfullyConnected := fSuccessfullyConnected s; nVersion := nVersion s;
     nSendVersion := nSendVersion s; nRecvVersion := nRecvVersion s; nServices := nServices
     s; nServicesExpected := nServicesExpected s; nLocalServices := nLocalServices s;
     nStartingHeight := nStartingHeight s; fRelayTxes := fRelayTxes s; fGetAddr := v;
     nTimeOffset := nTimeOffset s; addrLocal := addrLocal s; strSubVer := strSubVer s;
     cleanSubVer := cleanSubVer s |}.

Definition set_nTimeOffset (v : Z) (s : CNode) : CNode :=
  {| GetId := GetId s; addr := addr s; fInbound := fInbound s; fWhitelisted := fWhitelisted
     s; fOneShot := fOneShot s; fClient := fClient s; fFeeler := fFeeler s;
     m_manual_connection := m_manual_connection s; fDisconnect := fDisconnect s;
     fSuccessfullyConnected := fSuccessfullyConnected s; nVersion := nVersion s;
     nSendVersion := nSendVersion s; nRecvVersion := nRecvVersion s; nServices := nServices
     s; nServicesExpected := nServicesExpected s; nLocalServices := nLocalServices s;
     nStartingHeight := nStartingHeight s; fRelayTxes := fRelayTxes s; fGetAddr := fGetAddr
     s; nTimeOffset := v; addrLocal := addrLocal s; strSubVer := strSubVer s; cleanSubVer
     := cleanSubVer s |}.

Definition set_addrLocal (v : option CAddress) (s : CNode) : CNode :=
  {| GetId := GetId s; addr := addr s; fInbound := fInbound s; fWhitelisted := fWhitelisted
     s; fOneShot := fOneShot s; fClient := fClient s; fFeeler := fFeeler s;
     m_manual_connection := m_manual_connection s; fDisconnect := fDisconnect s;
     fSuccessfullyConnected := fSuccessfullyConnected s; nVersion := nVersion s;
     nSendVersion := nSendVersion s; nRecvVersion := nRecvVersion s; nServices := nServices
     s; nServicesExpected := nServicesExpected s; nLocalServices := nLocalServices s;
     nStartingHeight := nStartingHeight s; fRelayTxes := fRelayTxes s; fGetAddr := fGetAddr
     s; nTimeOffset := nTimeOffset s; addrLocal := v; strSubVer := strSubVer s; cleanSubVer
     := cleanSubVer s |}.

Definition set_strSubVer (v : string) (s : CNode) : CNode :=
  {| GetId := GetId s; addr := addr s; fInbound := fInbound s; fWhitelisted := fWhitelisted
     s; fOneShot := fOneShot s; fClient := fClient s; fFeeler := fFeeler s;
     m_manual_connection := m_manual_connection s; fDisconnect := fDisconnect s;
     fSuccessfullyConnected := fSuccessfullyConnected s; nVersion := nVersion s;
     nSendVersion := nSendVersion s; nRecvVersion := nRecvVersion s; nServices := nServices
     s; nServicesExpected := nServicesExpected s; nLocalServices := nLocalServices s;
     nStartingHeight := nStartingHeight s; fRelayTxes := fRelayTxes s; fGetAddr := fGetAddr
     s; nTimeOffset := nTimeOffset s; addrLocal := addrLocal s; strSubVer := v; cleanSubVer
     := cleanSubVer s |}.

Definition set_cleanSubVer (v : string) (s : CNode) : CNode :=
  {| GetId := GetId s; addr := addr s; fInbound := fInbound s; fWhitelisted := fWhitelisted
     s; fOneShot := fOneShot s; fClient := fClient s; fFeeler := fFeeler s;
     m_manual_connection := m_manual_connection s; fDisconnect := fDisconnect s;
     fSuccessfullyConnected := fSuccessfullyConnected s; nVersion := nVersion s;
     nSendVersion := nSendVersion s; nRecvVersion := nRecvVersion s; nServices := nServices
     s; nServicesExpected := nServicesExpected s; nLocalServices := nLocalServices s;
     nStartingHeight := nStartingHeight s; fRelayTxes := fRelayTxes s; fGetAddr := fGetAddr
     s; nTimeOffset := nTimeOffset s; addrLocal := addrLocal s; strSubVer := strSubVer s;
     cleanSubVer := v |}.

(** ** Constants

    Modelled from the spec: the constants below are declared in
    [net_processing.h] and [validation.h], which are not part of the sources at
    hand; their values are those of the specification's table of constants. *)

Definition MAX_HEADERS_RESULTS : Z := 2000.
Definition MAX_BLOCKS_IN_TRANSIT_PER_PEER : Z := 16.
Definition BLOCK_DOWNLOAD_WINDOW : Z := 1024.
Definition MAX_BLOCKS_TO_ANNOUNCE : Z := 8.
Definition MAX_UNCONNECTING_HEADERS : Z := 10.
Definition BLOCK_STALLING_TIMEOUT : Z := 2.
Definition CHAIN_SYNC_TIMEOUT : Z := 1200.
Definition MAX_OUTBOUND_PEERS_TO_PROTECT_FROM_DISCONNECT : Z := 4.
Definition DEFAULT_BANSCORE_THRESHOLD : Z := 100.

(** Modelled from the spec: [BLOCK_DOWNLOAD_TIMEOUT_BASE] and
    [BLOCK_DOWNLOAD_TIMEOUT_PER_PEER] of [net_processing.h]; the table of
    constants gives them as "1000 · target_spacing (µs)" and
    "500 · target_spacing (µs)". *)
Definition BLOCK_DOWNLOAD_TIMEOUT_BASE (target_spacing : Z) : Z := 1000 * target_spacing.
Definition BLOCK_DOWNLOAD_TIMEOUT_PER_PEER (target_spacing : Z) : Z := 500 * target_spacing.

(** [constexpr int64_t HEADERS_RESPONSE_TIME = 120] in [ConsiderEviction]. *)
Definition HEADERS_RESPONSE_TIME : Z := 120.

(** Protocol constants of [version.h], [protocol.h], [chain.h] and
    [consensus/validation.h]: declared outside the sources at hand and taken
    as parameters. *)
Record ProtoConsts := {
  PROTOCOL_VERSION : Z;
  INIT_PROTO_VERSION : Z;
  MIN_PEER_PROTO_VERSION : Z;
  SBTC_CONTRACT_VERSION : Z;
  VERSIONBITS_SBTC_CONTRACT : Z;
  CADDR_TIME_VERSION : Z;
  SENDHEADERS_VERSION : Z;
  SHORT_IDS_BLOCKS_VERSION : Z;
  NO_BLOOM_VERSION : Z;
  NODE_NETWORK : N;
  NODE_BLOOM : N;
  NODE_WITNESS : N;
  MSG_BLOCK : N;
  MSG_CMPCT_BLOCK : N;
  MSG_WITNESS_FLAG : N;
  BLOCK_HAVE_DATA : N;
  REJECT_DUPLICATE : Z;
  REJECT_NONSTANDARD : Z;
  REJECT_OBSOLETE : Z
}.

(** ** The chain engine as seen from the peer logic *)

Record CBlockIndex := {
  phashBlock : uint256;          (* GetBlockHash() *)
  pprev : option BlockPtr;
  nHeight : Z;                   (* int *)
  nChainWork : N;                (* arith_uint256 *)
  nStatus : N;                   (* uint32_t *)
  nChainTx : N;                  (* unsigned int *)
  nBlockVersion : Z;             (* nVersion *)
  nBlockTime : Z                 (* GetBlockTime() *)
}.

Record CBlockHeader := {
  hdr_nVersion : Z;
  hashPrevBlock : uint256;
  hashMerkleRoot : uint256;
  hdr_nTime : Z;
  hdr_nBits : Z;
  hdr_nNonce : Z
}.

(** The interface [ifChainObj] and the objects it hands out. *)
Record ChainEnv := {
  blk : BlockPtr -> CBlockIndex;                    (* *pindex *)
  GetHash : CBlockHeader -> uint256;                (* CBlockHeader::GetHash *)
  GetBlockIndex : uint256 -> option BlockPtr;
  DoesBlockExist : uint256 -> bool;
  GetIndexBestHeader : option BlockPtr;
  IsInitialBlockDownload : bool;
  IsReindexing : bool;
  fImporting : bool;
  Tip : option BlockPtr;                            (* chainActive.Tip() *)
  Height : Z;                                       (* chainActive.Height() *)
  ChainAt : Z -> option BlockPtr;                   (* chainActive[h] *)
  Contains : BlockPtr -> bool;                      (* chainActive.Contains *)
  GetAncestor : BlockPtr -> Z -> option BlockPtr;   (* pindex->GetAncestor(h) *)
  LastCommonAncestor : BlockPtr -> BlockPtr -> option BlockPtr;
  IsValid_TREE : BlockPtr -> bool;                  (* IsValid(BLOCK_VALID_TREE) *)
  IsValid_CHAIN : BlockPtr -> bool;                 (* IsValid(BLOCK_VALID_CHAIN) *)
  IsWitnessEnabled : option BlockPtr -> bool;
  nMinimumChainWork : N;
  SBTCContractForkHeight : Z;                       (* consensusParams *)
  nPowTargetSpacing : Z                             (* consensusParams *)
}.

(** ** Messages and calls into the connection manager *)

Record CInv := {
  inv_type : N;
  inv_hash : uint256
}.

Inductive NetMsg : Type :=
| VERSION (nVersion_ : Z) (nLocalServices_ : N) (nTime : Z)
| VERACK
| GETADDR
| SENDHEADERS
| SENDCMPCT (fAnnounceUsingCMPCTBLOCK : bool) (nCMPCTBLOCKVersion : Z)
| GETHEADERS (locator : option BlockPtr) (hashStop : uint256)
| GETDATA (vGetData : list CInv)
| REJECT (strCommand : string) (code : Z) (reason : string) (h : option uint256)
| ALERT.

Inductive Event : Type :=
| PushMessage (pnode : NodeId) (nSerVersion : Z) (msg : NetMsg)
| Ban (a : CAddress)
| SetServices (a : CAddress) (nServices_ : N)
| MarkAddressGood (a : CAddress)
| SeenLocal (a : CAddress)
| PushAddress (pnode : NodeId) (a : CAddress)
| AddTimeData (a : CAddress) (nTimeOffset_ : Z)
| RemoveOrphanTxForNode (pnode : NodeId)
| ProcessNewBlockHeaders (headers : list CBlockHeader).

(** ** The global tables *)

Definition State (st : GState) (pnode : NodeId) : option CNodeState :=
  mapNodeState st !! pnode.

(** Write through a [CNodeState *] obtained from [State]. *)
Definition upd_state (pnode : NodeId) (f : CNodeState -> CNodeState) (st : GState) : GState :=
  set_mapNodeState (alter f pnode (mapNodeState st)) st.

(** Write back a row read through [State]. *)
Definition put_state (pnode : NodeId) (s : CNodeState) (st : GState) : GState :=
  set_mapNodeState (<[pnode := s]> (mapNodeState st)) st.

(** [CNodeState(addrIn, addrNameIn)] *)
Definition new_CNodeState (addrIn : CAddress) (addrNameIn : string) : CNodeState :=
  {| address := addrIn; fCurrentlyConnected := false; nMisbehavior := 0;
     fShouldBan := false; name := addrNameIn; rejects := [];
     pindexBestKnownBlock := None; hashLastUnknownBlock := 0%N;
     pindexLastCommonBlock := None; pindexBestHeaderSent := None;
     nUnconnectingHeaders := 0; fSyncStarted := false; nHeadersSyncTimeout := 0;
     nStallingSince := 0; vBlocksInFlight := []; nDownloadingSince := 0;
     nBlocksInFlight := 0; nBlocksInFlightValidHeaders := 0;
     fPreferredDownload := false; fPreferHeaders := false;
     fPreferHeaderAndIDs := false; fProvidesHeaderAndIDs := false;
     fHaveWitness := false; fWantsCmpctWitness := false;
     fSupportsDesiredCmpctVersion := false;
     m_chain_sync := {| m_timeout := 0; m_work_header := None;
                        m_sent_getheaders := false; m_protect := false |};
     m_last_block_announcement := 0 |}.

(** The state of a freshly started process. *)
Definition initial_state : GState :=
  {| mapNodeState := ∅; mapBlocksInFlight := ∅; nSyncStarted := 0;
     nPreferredDownload := 0; nPeersWithValidatedDownloads := 0;
     g_outbound_peers_with_protect_from_disconnect := 0;
     next_list_node := 1%positive |}.

(** [UpdatePreferredDownload(node, state)] with [state = State(node->GetId())]. *)
Definition UpdatePreferredDownload (node : CNode) (st : GState) : option GState :=
  state ← State st (GetId node);
  let st1 := set_nPreferredDownload
               (wrap32 (nPreferredDownload st - Z.b2z (fPreferredDownload state))) st in
  let pref := (negb (fInbound node) || fWhitelisted node)
              && negb (fOneShot node) && negb (fClient node) in
  let st2 := upd_state (GetId node) (set_fPreferredDownload pref) st1 in
  Some (set_nPreferredDownload (wrap32 (nPreferredDownload st2 + Z.b2z pref)) st2).

(** Dereference, erase and comparison with [begin()] of a [std::list] iterator. *)
Fixpoint list_deref (it : ListNode) (l : list (ListNode * QueuedBlock)) : option QueuedBlock :=
  match l with
  | [] => None
  | (a, q) :: l' => if Pos.eqb a it then Some q else list_deref it l'
  end.

Fixpoint list_erase (it : ListNode) (l : list (ListNode * QueuedBlock))
  : list (ListNode * QueuedBlock) :=
  match l with
  | [] => []
  | (a, q) :: l' => if Pos.eqb a it then l' else (a, q) :: list_erase it l'
  end.

Definition is_begin (it : ListNode) (l : list (ListNode * QueuedBlock)) : bool :=
  match l with
  | (a, _) :: _ => Pos.eqb a it
  | [] => false
  end.

(** The compact block handlers set and fill the [partialBlock] of a queued
    block through its list iterator [it]. *)
Fixpoint list_write_partialBlock (it : ListNode) (p : option PartiallyDownloadedBlock)
    (l : list (ListNode * QueuedBlock)) : list (ListNode * QueuedBlock) :=
  match l with
  | [] => []
  | (a, q) :: l' =>
      if Pos.eqb a it
      then (a, {| hash := hash q; pindex := pindex q;
                  fValidatedHeaders := fValidatedHeaders q; partialBlock := p |}) :: l'
      else (a, q) :: list_write_partialBlock it p l'
  end.

Definition write_partialBlock (it : ListNode) (p : option PartiallyDownloadedBlock)
    (s : CNodeState) : CNodeState :=
  set_vBlocksInFlight (list_write_partialBlock it p (vBlocksInFlight s)) s.

(** What [MarkBlockAsReceived] does to the row of the peer the block was in
    flight from; [it] is the iterator of the block and [entry] the block. *)
Definition dequeue (nNow : Z) (it : ListNode) (entry : QueuedBlock) (state : CNodeState)
  : CNodeState :=
  let s1 := set_nBlocksInFlightValidHeaders
              (wrap32 (nBlocksInFlightValidHeaders state - Z.b2z (fValidatedHeaders entry)))
              state in
  let s2 := if is_begin it (vBlocksInFlight s1)
            then set_nDownloadingSince (Z.max (nDownloadingSince s1) nNow) s1 else s1 in
  let s3 := set_vBlocksInFlight (list_erase it (vBlocksInFlight s2)) s2 in
  let s4 := set_nBlocksInFlight (wrap32 (nBlocksInFlight s3 - 1)) s3 in
  set_nStallingSince 0 s4.

(** [MarkBlockAsReceived(hash)]; [nNow] is the reading of [GetTimeMicros()]. *)
Definition MarkBlockAsReceived (nNow : Z) (h : uint256) (st : GState) : option (bool * GState) :=
  match mapBlocksInFlight st !! h with
  | Some (peer, it) =>
      state ← State st peer;
      entry ← list_deref it (vBlocksInFlight state);
      let state1 := dequeue nNow it entry state in
      let st1 := put_state peer state1 st in
      let st2 := set_nPeersWithValidatedDownloads
                   (if (nBlocksInFlightValidHeaders state1 =? 0) && fValidatedHeaders entry
                    then wrap32 (nPeersWithValidatedDownloads st1 - 1)
                    else nPeersWithValidatedDownloads st1) st1 in
      Some (true, set_mapBlocksInFlight (delete h (mapBlocksInFlight st2)) st2)
  | None => Some (false, st)
  end.

(** [std::map::insert]: an existing key keeps its value. *)
Definition map_insert_new {V} (k : uint256) (v : V) (m : gmap uint256 V) : gmap uint256 V :=
  match m !! k with
  | Some _ => m
  | None => <[k := v]> m
  end.

(** What [MarkBlockAsInFlight] does to the row of the peer when it queues
    [entry] in a new list node [it]. *)
Definition enqueue (nNow : Z) (it : ListNode) (entry : QueuedBlock) (state : CNodeState)
  : CNodeState :=
  let s1 := set_vBlocksInFlight (vBlocksInFlight state ++ [(it, entry)]) state in
  let s2 := set_nBlocksInFlight (wrap32 (nBlocksInFlight s1 + 1)) s1 in
  let s3 := set_nBlocksInFlightValidHeaders
              (wrap32 (nBlocksInFlightValidHeaders s2 + Z.b2z (fValidatedHeaders entry))) s2 in
  if nBlocksInFlight s3 =? 1 then set_nDownloadingSince nNow s3 else s3.

(** [MarkBlockAsInFlight(nodeid, hash, pindex, pit)]; [want_pit] says whether
    the caller passes a non-null [pit], and the second component of the result
    is the iterator [**pit] then refers to. *)
Definition MarkBlockAsInFlight (nNow : Z) (nodeid : NodeId) (h : uint256)
    (pindex_ : option BlockPtr) (want_pit : bool) (st : GState)
  : option (bool * option ListNode * GState) :=
  _ ← State st nodeid;
  let short_circuit :=
    match mapBlocksInFlight st !! h with
    | Some (peer, it) => if Z.eqb peer nodeid then Some it else None
    | None => None
    end in
  match short_circuit with
  | Some it => Some (false, if want_pit then Some it else None, st)
  | None =>
      '(_, st1) ← MarkBlockAsReceived nNow h st;
      state ← State st1 nodeid;
      let it := next_list_node st1 in
      let entry := {| hash := h; pindex := pindex_;
                      fValidatedHeaders := bool_decide (pindex_ ≠ None);
                      partialBlock := if want_pit then Some NewPartiallyDownloadedBlock
                                      else None |} in
      let state1 := enqueue nNow it entry state in
      let st2 := put_state nodeid state1 (set_next_list_node (Pos.succ it) st1) in
      let st3 := set_nPeersWithValidatedDownloads
                   (if (nBlocksInFlightValidHeaders state1 =? 1)
                       && bool_decide (pindex_ ≠ None)
                    then wrap32 (nPeersWithValidatedDownloads st2 + 1)
                    else nPeersWithValidatedDownloads st2) st2 in
      let st4 := set_mapBlocksInFlight
                   (map_insert_new h (nodeid, it) (mapBlocksInFlight st3)) st3 in
      Some (true,
            if want_pit then snd <$> (mapBlocksInFlight st4 !! h) else None,
            st4)
  end.

(** Whether a block announced by a peer replaces its best known block. *)
Definition replaces_best (env : ChainEnv) (pIndex : BlockPtr) (state : CNodeState) : bool :=
  match pindexBestKnownBlock state with
  | None => true
  | Some best => (nChainWork (blk env best) <=? nChainWork (blk env pIndex))%N
  end.

(** What [ProcessBlockAvailability] does to the row of the peer. *)
Definition ProcessBlockAvailability_row (env : ChainEnv) (state : CNodeState) : CNodeState :=
  if negb (IsNull (hashLastUnknownBlock state)) then
    match GetBlockIndex env (hashLastUnknownBlock state) with
    | Some pIndexOld =>
        if (0 <? nChainWork (blk env pIndexOld))%N then
          set_hashLastUnknownBlock 0%N
            (if replaces_best env pIndexOld state
             then set_pindexBestKnownBlock (Some pIndexOld) state
             else state)
        else state
    | None => state
    end
  else state.

(** [ProcessBlockAvailability(nodeid)] *)
Definition ProcessBlockAvailability (env : ChainEnv) (nodeid : NodeId) (st : GState)
  : option GState :=
  state ← State st nodeid;
  Some (put_state nodeid (ProcessBlockAvailability_row env state) st).

(** What [UpdateBlockAvailability] does to the row of the peer. *)
Definition UpdateBlockAvailability_row (env : ChainEnv) (h : uint256) (state : CNodeState)
  : CNodeState :=
  let state1 := ProcessBlockAvailability_row env state in
  let known :=
    match GetBlockIndex env h with
    | Some pIndex => if (0 <? nChainWork (blk env pIndex))%N then Some pIndex else None
    | None => None
    end in
  match known with
  | Some pIndex =>
      if replaces_best env pIndex state1
      then set_pindexBestKnownBlock (Some pIndex) state1
      else state1
  | None => set_hashLastUnknownBlock h state1
  end.

(** [UpdateBlockAvailability(nodeid, hash)] *)
Definition UpdateBlockAvailability (env : ChainEnv) (nodeid : NodeId) (h : uint256)
    (st : GState) : option GState :=
  state ← State st nodeid;
  Some (put_state nodeid (UpdateBlockAvailability_row env h state) st).

(** [IsOutboundDisconnectionCandidate(node)] *)
Definition IsOutboundDisconnectionCandidate (node : CNode) : bool :=
  negb (fInbound node || m_manual_connection node || fFeeler node || fOneShot node).

(** [Misbehaving(pnode, howmuch)]; [banscore] is the value of the [-banscore]
    argument ([DEFAULT_BANSCORE_THRESHOLD] when it is not given). *)
Definition Misbehaving (banscore : Z) (pnode : NodeId) (howmuch : Z) (st : GState) : GState :=
  if howmuch =? 0 then st
  else
    match State st pnode with
    | None => st
    | Some state =>
        let state1 := set_nMisbehavior (wrap32 (nMisbehavior state + howmuch)) state in
        put_state pnode
          (if (banscore <=? nMisbehavior state1)
              && (wrap32 (nMisbehavior state1 - howmuch) <? banscore)
           then set_fShouldBan true state1
           else state1) st
    end.

(** [PushNodeVersion(pnode, connman, nTime)] *)
Definition PushNodeVersion (pc : ProtoConsts) (pnode : CNode) (nTime : Z) : list Event :=
  [PushMessage (GetId pnode) (INIT_PROTO_VERSION pc)
     (VERSION (PROTOCOL_VERSION pc) (nLocalServices pnode) nTime)].

(** [PeerLogicValidation::InitializeNode(pnode)]; [emplace_hint] leaves an
    existing row alone. *)
Definition InitializeNode (pc : ProtoConsts) (nTime : Z) (pnode : CNode) (addrName : string)
    (st : GState) : GState * list Event :=
  let st1 := match State st (GetId pnode) with
             | Some _ => st
             | None => set_mapNodeState
                         (<[GetId pnode := new_CNodeState (addr pnode) addrName]>
                            (mapNodeState st)) st
             end in
  (st1, if fInbound pnode then [] else PushNodeVersion pc pnode nTime).

(** [PeerLogicValidation::FinalizeNode(nodeid, fUpdateConnectionTime)] *)
Definition FinalizeNode (nodeid : NodeId) (st : GState) : option (bool * GState * list Event) :=
  state ← State st nodeid;
  let st1 := set_nSyncStarted
               (if fSyncStarted state then wrap32 (nSyncStarted st - 1)
                else nSyncStarted st) st in
  let fUpdateConnectionTime := (nMisbehavior state =? 0) && fCurrentlyConnected state in
  let st2 := set_mapBlocksInFlight
               (foldl (fun m entry => delete (hash entry.2) m)
                      (mapBlocksInFlight st1) (vBlocksInFlight state)) st1 in
  let st3 := set_nPreferredDownload
               (wrap32 (nPreferredDownload st2 - Z.b2z (fPreferredDownload state))) st2 in
  let st4 := set_nPeersWithValidatedDownloads
               (wrap32 (nPeersWithValidatedDownloads st3
                        - Z.b2z (negb (nBlocksInFlightValidHeaders state =? 0)))) st3 in
  _ ← assert_ (0 <=? nPeersWithValidatedDownloads st4);
  let st5 := set_g_outbound_peers_with_protect_from_disconnect
               (wrap32 (g_outbound_peers_with_protect_from_disconnect st4
                        - Z.b2z (m_protect (m_chain_sync state)))) st4 in
  _ ← assert_ (0 <=? g_outbound_peers_with_protect_from_disconnect st5);
  let st6 := set_mapNodeState (delete nodeid (mapNodeState st5)) st5 in
  _ ← assert_ (implb (bool_decide (mapNodeState st6 = ∅))
                 (bool_decide (mapBlocksInFlight st6 = ∅)
                  && (nPreferredDownload st6 =? 0)
                  && (nPeersWithValidatedDownloads st6 =? 0)
                  && (g_outbound_peers_with_protect_from_disconnect st6 =? 0)));
  Some (fUpdateConnectionTime, st6, [RemoveOrphanTxForNode nodeid]).

(** [PeerLogicValidation::SendRejectsAndCheckIfBanned(pnode)] *)
Definition SendRejectsAndCheckIfBanned (pc : ProtoConsts) (pnode : CNode) (st : GState)
  : option (bool * CNode * GState * list Event) :=
  state ← State st (GetId pnode);
  let sent := map (fun reject =>
                     PushMessage (GetId pnode) (INIT_PROTO_VERSION pc)
                       (REJECT "block" (chRejectCode reject) (strRejectReason reject)
                               (Some (hashBlock reject))))
                  (rejects state) in
  let st1 := put_state (GetId pnode) (set_rejects [] state) st in
  if fShouldBan state then
    let st2 := put_state (GetId pnode) (set_fShouldBan false (set_rejects [] state)) st in
    if fWhitelisted pnode then Some (true, pnode, st2, sent)
    else if m_manual_connection pnode then Some (true, pnode, st2, sent)
    else
      let pnode1 := set_fDisconnect true pnode in
      if addr_IsLocal (addr pnode) then Some (true, pnode1, st2, sent)
      else Some (true, pnode1, st2, sent ++ [Ban (addr pnode)])
  else Some (false, pnode, st1, sent).

(** [PeerLogicValidation::ConsiderEviction(pto, time_in_seconds)] *)
Definition ConsiderEviction (env : ChainEnv) (time_in_seconds : Z) (pto : CNode) (st : GState)
  : option (CNode * GState * list Event) :=
  state ← State st (GetId pto);
  let cs := m_chain_sync state in
  if negb (m_protect cs) && IsOutboundDisconnectionCandidate pto && fSyncStarted state then
    caught_up ←
      match pindexBestKnownBlock state with
      | None => Some false
      | Some best =>
          tip ← Tip env;
          Some (nChainWork (blk env tip) <=? nChainWork (blk env best))%N
      end;
    if caught_up : bool then
      if negb (m_timeout cs =? 0) then
        Some (pto,
              upd_state (GetId pto)
                (set_m_chain_sync {| m_timeout := 0; m_work_header := None;
                                     m_sent_getheaders := false;
                                     m_protect := m_protect cs |}) st,
              [])
      else Some (pto, st, [])
    else if (m_timeout cs =? 0)
            || match m_work_header cs, pindexBestKnownBlock state with
               | Some wh, Some best =>
                   (nChainWork (blk env wh) <=? nChainWork (blk env best))%N
               | _, _ => false
               end
    then
      Some (pto,
            upd_state (GetId pto)
              (set_m_chain_sync {| m_timeout := wrap64 (time_in_seconds + CHAIN_SYNC_TIMEOUT);
                                   m_work_header := Tip env;
                                   m_sent_getheaders := false;
                                   m_protect := m_protect cs |}) st,
            [])
    else if (0 <? m_timeout cs) && (m_timeout cs <? time_in_seconds) then
      if m_sent_getheaders cs then Some (set_fDisconnect true pto, st, [])
      else
        wh ← m_work_header cs;
        Some (pto,
              upd_state (GetId pto)
                (set_m_chain_sync {| m_timeout := wrap64 (time_in_seconds + HEADERS_RESPONSE_TIME);
                                     m_work_header := m_work_header cs;
                                     m_sent_getheaders := true;
                                     m_protect := m_protect cs |}) st,
              [PushMessage (GetId pto) (nSendVersion pto)
                 (GETHEADERS (pprev (blk env wh)) 0%N)])
    else Some (pto, st, [])
  else Some (pto, st, []).

(** *** Fragments of [PeerLogicValidation::SendMessages]

    [SendMessages] runs, under [cs_main] and in this order: the ban check, the
    start of the headers synchronisation, the stalling check, the block
    download timeout, the headers synchronisation timeout, [ConsiderEviction]
    and the block requests.  Each fragment returns [true] in its first
    component when [SendMessages] returns at that point. *)

(** "Start block sync": the part that updates the peer table. [nNow] is
    [GetTimeMicros()], [nAdjusted] is [GetAdjustedTime()]; the constants of the
    headers timeout are those of [net_processing.h]. *)
Definition SendMessages_start_sync (env : ChainEnv)
    (HEADERS_DOWNLOAD_TIMEOUT_BASE HEADERS_DOWNLOAD_TIMEOUT_PER_HEADER : Z)
    (nNow nAdjusted : Z) (pto : CNode) (st : GState)
  : option (GState * list Event) :=
  state ← State st (GetId pto);
  let fFetch := fPreferredDownload state
                || ((nPreferredDownload st =? 0) && negb (fClient pto) && negb (fOneShot pto)) in
  if negb (fSyncStarted state) && negb (fClient pto) && negb (fImporting env)
     && negb (IsReindexing env) then
    pindexBestHeader ← GetIndexBestHeader env;
    if ((nSyncStarted st =? 0) && fFetch)
       || (wrap64 (nAdjusted - 24 * 60 * 60) <? nBlockTime (blk env pindexBestHeader)) then
      let timeout :=
        wrap64 (wrap64 (nNow + HEADERS_DOWNLOAD_TIMEOUT_BASE)
                + Z.quot (wrap64 (HEADERS_DOWNLOAD_TIMEOUT_PER_HEADER
                                  * wrap64 (nAdjusted - nBlockTime (blk env pindexBestHeader))))
                         (nPowTargetSpacing env)) in
      let st2 := put_state (GetId pto)
                   (set_nHeadersSyncTimeout timeout (set_fSyncStarted true state)) st in
      let st3 := set_nSyncStarted (wrap32 (nSyncStarted st2 + 1)) st2 in
      let pindexStart := match pprev (blk env pindexBestHeader) with
                         | Some p => p
                         | None => pindexBestHeader
                         end in
      Some (st3, [PushMessage (GetId pto) (nSendVersion pto)
                    (GETHEADERS (Some pindexStart) 0%N)])
    else Some (st, [])
  else Some (st, []).

(** "Detect whether we're stalling". *)
Definition SendMessages_stalling (nNow : Z) (state : CNodeState) (pto : CNode)
  : bool * CNode :=
  if negb (nStallingSince state =? 0)
     && (nStallingSince state <? wrap64 (nNow - 1000000 * BLOCK_STALLING_TIMEOUT))
  then (true, set_fDisconnect true pto)
  else (false, pto).

(** The block download timeout; [base] and [per_peer] stand for
    [BLOCK_DOWNLOAD_TIMEOUT_BASE] and [BLOCK_DOWNLOAD_TIMEOUT_PER_PEER]. *)
Definition SendMessages_block_timeout (base per_peer : Z) (env : ChainEnv) (nNow : Z)
    (st : GState) (state : CNodeState) (pto : CNode) : bool * CNode :=
  if 0 <? Z.of_nat (length (vBlocksInFlight state)) then
    let nOtherPeersWithValidatedDownloads :=
      wrap32 (nPeersWithValidatedDownloads st
              - Z.b2z (0 <? nBlocksInFlightValidHeaders state)) in
    if wrap64 (nDownloadingSince state
               + wrap64 (nPowTargetSpacing env
                         * wrap64 (base
                                   + wrap64 (per_peer * nOtherPeersWithValidatedDownloads))))
       <? nNow
    then (true, set_fDisconnect true pto)
    else (false, pto)
  else (false, pto).

(** "Check for headers sync timeouts". *)
Definition SendMessages_headers_timeout (env : ChainEnv) (nNow nAdjusted : Z) (pto : CNode)
    (st : GState) : option (bool * CNode * GState) :=
  state ← State st (GetId pto);
  if fSyncStarted state && (nHeadersSyncTimeout state <? INT64_MAX) then
    pindexBestHeader ← GetIndexBestHeader env;
    if nBlockTime (blk env pindexBestHeader) <=? wrap64 (nAdjusted - 24 * 60 * 60) then
      if (nHeadersSyncTimeout state <? nNow) && (nSyncStarted st =? 1)
         && (1 <=? wrap32 (nPreferredDownload st - Z.b2z (fPreferredDownload state))) then
        if negb (fWhitelisted pto) then Some (true, set_fDisconnect true pto, st)
        else
          let st1 := put_state (GetId pto)
                       (set_nHeadersSyncTimeout 0 (set_fSyncStarted false state)) st in
          Some (false, pto, set_nSyncStarted (wrap32 (nSyncStarted st1 - 1)) st1)
      else Some (false, pto, st)
    else Some (false, pto, upd_state (GetId pto) (set_nHeadersSyncTimeout INT64_MAX) st)
  else Some (false, pto, st).

(** ** The block download scheduler *)

(** [vToFetch[i - 1] = vToFetch[i]->pprev], for [n] steps back from [p]. *)
Fixpoint walk_back (env : ChainEnv) (n : nat) (p : BlockPtr) (acc : list BlockPtr)
  : option (list BlockPtr) :=
  match n with
  | O => Some (p :: acc)
  | S n' => q ← pprev (blk env p); walk_back env n' q (p :: acc)
  end.

(** The [for] loop of [FindNextBlocksToDownload] over [vToFetch]; the first
    component of the result says whether the function returned inside it. *)
Fixpoint FindNext_scan (pc : ProtoConsts) (env : ChainEnv) (nodeid : NodeId) (count : Z)
    (nWindowEnd : Z) (vToFetch : list BlockPtr) (vBlocks : list BlockPtr)
    (nodeStaller waitingfor : NodeId) (st : GState)
  : option (bool * list BlockPtr * NodeId * NodeId * GState) :=
  match vToFetch with
  | [] => Some (false, vBlocks, nodeStaller, waitingfor, st)
  | pindex_ :: rest =>
      if negb (IsValid_TREE env pindex_) then
        Some (true, vBlocks, nodeStaller, waitingfor, st)
      else
        state ← State st nodeid;
        if negb (fHaveWitness state) && IsWitnessEnabled env (pprev (blk env pindex_)) then
          Some (true, vBlocks, nodeStaller, waitingfor, st)
        else if negb (N.land (nStatus (blk env pindex_)) (BLOCK_HAVE_DATA pc) =? 0)%N
                || Contains env pindex_ then
          let st1 := if negb (nChainTx (blk env pindex_) =? 0)%N
                     then upd_state nodeid (set_pindexLastCommonBlock (Some pindex_)) st
                     else st in
          FindNext_scan pc env nodeid count nWindowEnd rest vBlocks nodeStaller waitingfor st1
        else
          match mapBlocksInFlight st !! phashBlock (blk env pindex_) with
          | None =>
              if nWindowEnd <? nHeight (blk env pindex_) then
                Some (true, vBlocks,
                      if (Z.of_nat (length vBlocks) =? 0) && negb (waitingfor =? nodeid)
                      then waitingfor else nodeStaller,
                      waitingfor, st)
              else
                let vBlocks1 := vBlocks ++ [pindex_] in
                if Z.of_nat (length vBlocks1) =? count then
                  Some (true, vBlocks1, nodeStaller, waitingfor, st)
                else
                  FindNext_scan pc env nodeid count nWindowEnd rest vBlocks1 nodeStaller
                    waitingfor st
          | Some (peer, _) =>
              FindNext_scan pc env nodeid count nWindowEnd rest vBlocks nodeStaller
                (if waitingfor =? -1 then peer else waitingfor) st
          end
  end.

(** The [while] loop of [FindNextBlocksToDownload]; [fuel] bounds the number
    of its iterations. *)
Fixpoint FindNext_walk (pc : ProtoConsts) (env : ChainEnv) (nodeid : NodeId) (count : Z)
    (nWindowEnd nMaxHeight : Z) (best : BlockPtr) (fuel : nat) (pindexWalk : BlockPtr)
    (vBlocks : list BlockPtr) (nodeStaller waitingfor : NodeId) (st : GState)
  : option (list BlockPtr * NodeId * GState) :=
  if nHeight (blk env pindexWalk) <? nMaxHeight then
    match fuel with
    | O => None
    | S fuel' =>
        let nToFetch :=
          Z.min (wrap32 (nMaxHeight - nHeight (blk env pindexWalk)))
                (Z.max (wrap32 ((count - Z.of_nat (length vBlocks)) mod 2 ^ 64)) 128) in
        _ ← assert_ (1 <=? nToFetch);
        pindexWalk1 ← GetAncestor env best (wrap32 (nHeight (blk env pindexWalk) + nToFetch));
        vToFetch ← walk_back env (Z.to_nat (nToFetch - 1)) pindexWalk1 [];
        '(returned, vBlocks1, nodeStaller1, waitingfor1, st1) ←
          FindNext_scan pc env nodeid count nWindowEnd vToFetch vBlocks nodeStaller
            waitingfor st;
        if returned : bool then Some (vBlocks1, nodeStaller1, st1)
        else FindNext_walk pc env nodeid count nWindowEnd nMaxHeight best fuel' pindexWalk1
               vBlocks1 nodeStaller1 waitingfor1 st1
    end
  else Some (vBlocks, nodeStaller, st).

(** [FindNextBlocksToDownload(nodeid, count, vBlocks, nodeStaller, consensusParams)] *)
Definition FindNextBlocksToDownload (pc : ProtoConsts) (env : ChainEnv) (fuel : nat)
    (nodeid : NodeId) (count : Z) (vBlocks : list BlockPtr) (nodeStaller : NodeId)
    (st : GState) : option (list BlockPtr * NodeId * GState) :=
  if count =? 0 then Some (vBlocks, nodeStaller, st)
  else
    _ ← State st nodeid;
    st1 ← ProcessBlockAvailability env nodeid st;
    state ← State st1 nodeid;
    match pindexBestKnownBlock state with
    | None => Some (vBlocks, nodeStaller, st1)
    | Some best =>
        tip ← Tip env;
        if (nChainWork (blk env best) <? nChainWork (blk env tip))%N
           || (nChainWork (blk env best) <? nMinimumChainWork env)%N then
          Some (vBlocks, nodeStaller, st1)
        else
          guess ← match pindexLastCommonBlock state with
                  | Some p => Some p
                  | None => ChainAt env (Z.min (nHeight (blk env best)) (Height env))
                  end;
          let lca := LastCommonAncestor env guess best in
          let st2 := upd_state nodeid (set_pindexLastCommonBlock lca) st1 in
          if bool_decide (lca = Some best) then Some (vBlocks, nodeStaller, st2)
          else
            pindexWalk ← lca;
            let nWindowEnd := wrap32 (nHeight (blk env pindexWalk) + BLOCK_DOWNLOAD_WINDOW) in
            let nMaxHeight := Z.min (nHeight (blk env best)) (wrap32 (nWindowEnd + 1)) in
            FindNext_walk pc env nodeid count nWindowEnd nMaxHeight best fuel pindexWalk
              vBlocks nodeStaller (-1) st2
    end.

(** [GetFetchFlags(pfrom)] *)
Definition GetFetchFlags (pc : ProtoConsts) (pfrom : CNode) (st : GState) : option N :=
  if negb (N.land (nLocalServices pfrom) (NODE_WITNESS pc) =? 0)%N then
    state ← State st (GetId pfrom);
    Some (if fHaveWitness state then MSG_WITNESS_FLAG pc else 0%N)
  else Some 0%N.

(** The requests of "Message: getdata (blocks)" in [SendMessages]. *)
Fixpoint request_blocks (pc : ProtoConsts) (env : ChainEnv) (nNow : Z) (pto : CNode)
    (vToDownload : list BlockPtr) (vGetData : list CInv) (st : GState)
  : option (list CInv * GState) :=
  match vToDownload with
  | [] => Some (vGetData, st)
  | pindex_ :: rest =>
      nFetchFlags ← GetFetchFlags pc pto st;
      '(_, _, st1) ← MarkBlockAsInFlight nNow (GetId pto) (phashBlock (blk env pindex_))
                       (Some pindex_) false st;
      request_blocks pc env nNow pto rest
        (vGetData ++ [{| inv_type := N.lor (MSG_BLOCK pc) nFetchFlags;
                         inv_hash := phashBlock (blk env pindex_) |}]) st1
  end.

(** "Message: getdata (blocks)": the part that updates the peer table and
    collects [vGetData]; [fFetch] is the flag computed at "Start block sync". *)
Definition SendMessages_getdata_blocks (pc : ProtoConsts) (env : ChainEnv) (fuel : nat)
    (nNow : Z) (fFetch : bool) (pto : CNode) (st : GState)
  : option (list CInv * GState) :=
  state ← State st (GetId pto);
  if negb (fClient pto) && (fFetch || negb (IsInitialBlockDownload env))
     && (nBlocksInFlight state <? MAX_BLOCKS_IN_TRANSIT_PER_PEER) then
    '(vToDownload, staller, st1) ←
      FindNextBlocksToDownload pc env fuel (GetId pto)
        ((MAX_BLOCKS_IN_TRANSIT_PER_PEER - nBlocksInFlight state) mod 2 ^ 32) [] (-1) st;
    '(vGetData, st2) ← request_blocks pc env nNow pto vToDownload [] st1;
    state2 ← State st2 (GetId pto);
    if (nBlocksInFlight state2 =? 0) && negb (staller =? -1) then
      stalling ← State st2 staller;
      Some (vGetData,
            if nStallingSince stalling =? 0
            then upd_state staller (set_nStallingSince nNow) st2 else st2)
    else Some (vGetData, st2)
  else Some ([], st).

(** ** The headers synchronisation engine *)

(** What [ifChainObj->ProcessNewBlockHeaders] reports, and the chain engine
    as it is after the call. *)
Record HeadersVerdict := {
  pnbh_accepted : bool;                (* the value returned *)
  pnbh_IsInvalid : bool;               (* state.IsInvalid(nDoS) *)
  pnbh_nDoS : Z;
  pnbh_pindexLast : option BlockPtr;
  pnbh_first_invalid_header : CBlockHeader;
  pnbh_env : ChainEnv
}.

(** The continuity loop of [ProcessHeadersMessage]: [None] when a header does
    not follow its predecessor, otherwise the final [hashLastBlock]. *)
Fixpoint headers_continuity (env : ChainEnv) (hashLastBlock : uint256)
    (headers : list CBlockHeader) : option uint256 :=
  match headers with
  | [] => Some hashLastBlock
  | header :: rest =>
      if negb (IsNull hashLastBlock) && negb (hashPrevBlock header =? hashLastBlock)%N
      then None
      else headers_continuity env (GetHash env header) rest
  end.

(** [CanDirectFetch(consensusParams)]; [nAdjusted] is [GetAdjustedTime()]. *)
Definition CanDirectFetch (env : ChainEnv) (nAdjusted : Z) : option bool :=
  tip ← Tip env;
  Some (wrap64 (nAdjusted - wrap64 (nPowTargetSpacing env * 20)) <? nBlockTime (blk env tip)).

(** The [while] loop of the direct fetch: the blocks needed to switch to
    [pindexLast], and the block the walk stopped at. *)
Fixpoint direct_fetch_walk (pc : ProtoConsts) (env : ChainEnv) (nodeid : NodeId) (st : GState)
    (fuel : nat) (pindexWalk : option BlockPtr) (vToFetch : list BlockPtr)
  : option (option BlockPtr * list BlockPtr) :=
  match pindexWalk with
  | None => Some (None, vToFetch)
  | Some p =>
      if negb (Contains env p)
         && (Z.of_nat (length vToFetch) <=? MAX_BLOCKS_IN_TRANSIT_PER_PEER) then
        match fuel with
        | O => None
        | S fuel' =>
            wanted ←
              (if (N.land (nStatus (blk env p)) (BLOCK_HAVE_DATA pc) =? 0)%N
                  && bool_decide (mapBlocksInFlight st !! phashBlock (blk env p) = None)
               then
                 if negb (IsWitnessEnabled env (pprev (blk env p))) then Some true
                 else state ← State st nodeid; Some (fHaveWitness state)
               else Some false);
            direct_fetch_walk pc env nodeid st fuel' (pprev (blk env p))
              (if wanted : bool then vToFetch ++ [p] else vToFetch)
        end
      else Some (Some p, vToFetch)
  end.

(** The [for] loop of the direct fetch over [reverse_iterate(vToFetch)]. *)
Fixpoint direct_fetch_request (pc : ProtoConsts) (env : ChainEnv) (nNow : Z) (pfrom : CNode)
    (blocks : list BlockPtr) (vGetData : list CInv) (st : GState)
  : option (list CInv * GState) :=
  match blocks with
  | [] => Some (vGetData, st)
  | pindex_ :: rest =>
      nodestate ← State st (GetId pfrom);
      if MAX_BLOCKS_IN_TRANSIT_PER_PEER <=? nBlocksInFlight nodestate then Some (vGetData, st)
      else
        nFetchFlags ← GetFetchFlags pc pfrom st;
        '(_, _, st1) ← MarkBlockAsInFlight nNow (GetId pfrom) (phashBlock (blk env pindex_))
                         (Some pindex_) false st;
        direct_fetch_request pc env nNow pfrom rest
          (vGetData ++ [{| inv_type := N.lor (MSG_BLOCK pc) nFetchFlags;
                           inv_hash := phashBlock (blk env pindex_) |}]) st1
  end.

(** The direct fetch of [ProcessHeadersMessage]. *)
Definition ProcessHeaders_direct_fetch (pc : ProtoConsts) (env : ChainEnv) (fuel : nat)
    (nNow nAdjusted : Z) (pfrom : CNode) (pindexLast : BlockPtr) (st : GState)
  : option (GState * list Event) :=
  fCanDirectFetch ← CanDirectFetch env nAdjusted;
  tip ← Tip env;
  if (fCanDirectFetch : bool) && IsValid_TREE env pindexLast
     && (nChainWork (blk env tip) <=? nChainWork (blk env pindexLast))%N then
    '(pindexWalk, vToFetch) ←
      direct_fetch_walk pc env (GetId pfrom) st fuel (Some pindexLast) [];
    stop ← pindexWalk;
    if negb (Contains env stop) then Some (st, [])
    else
      '(vGetData, st1) ← direct_fetch_request pc env nNow pfrom (rev vToFetch) [] st;
      match vGetData with
      | [] => Some (st1, [])
      | first :: others =>
          nodestate ← State st1 (GetId pfrom);
          as_cmpct ←
            (if fSupportsDesiredCmpctVersion nodestate
                && (Z.of_nat (length vGetData) =? 1)
                && (Z.of_nat (size (mapBlocksInFlight st1)) =? 1)
             then prev ← pprev (blk env pindexLast); Some (IsValid_CHAIN env prev)
             else Some false);
          let vGetData1 :=
            if as_cmpct : bool
            then {| inv_type := MSG_CMPCT_BLOCK pc; inv_hash := inv_hash first |} :: others
            else vGetData in
          Some (st1, [PushMessage (GetId pfrom) (nSendVersion pfrom) (GETDATA vGetData1)])
      end
  else Some (st, []).

(** The culling of peers with too little work during the initial download. *)
Definition ProcessHeaders_ibd_cull (env : ChainEnv) (nCount : Z) (pfrom : CNode) (st : GState)
  : option CNode :=
  nodestate ← State st (GetId pfrom);
  if IsInitialBlockDownload env && negb (nCount =? MAX_HEADERS_RESULTS) then
    match pindexBestKnownBlock nodestate with
    | Some best =>
        if (nChainWork (blk env best) <? nMinimumChainWork env)%N
           && IsOutboundDisconnectionCandidate pfrom
        then Some (set_fDisconnect true pfrom)
        else Some pfrom
    | None => Some pfrom
    end
  else Some pfrom.

(** The protection of outbound peers from the chain-sync eviction. *)
Definition ProcessHeaders_protect (env : ChainEnv) (pfrom : CNode) (st : GState)
  : option GState :=
  nodestate ← State st (GetId pfrom);
  if negb (fDisconnect pfrom) && IsOutboundDisconnectionCandidate pfrom then
    match pindexBestKnownBlock nodestate with
    | Some best =>
        if g_outbound_peers_with_protect_from_disconnect st
           <? MAX_OUTBOUND_PEERS_TO_PROTECT_FROM_DISCONNECT then
          tip ← Tip env;
          if (nChainWork (blk env tip) <=? nChainWork (blk env best))%N
             && negb (m_protect (m_chain_sync nodestate)) then
            let st1 := upd_state (GetId pfrom)
                         (fun s => set_m_chain_sync
                                     {| m_timeout := m_timeout (m_chain_sync s);
                                        m_work_header := m_work_header (m_chain_sync s);
                                        m_sent_getheaders := m_sent_getheaders (m_chain_sync s);
                                        m_protect := true |} s) st in
            Some (set_g_outbound_peers_with_protect_from_disconnect
                    (wrap32 (g_outbound_peers_with_protect_from_disconnect st1 + 1)) st1)
          else Some st
        else Some st
    | None => Some st
    end
  else Some st.

(** The last block of [ProcessHeadersMessage], entered once the headers were
    accepted. [nTime] is [GetTime()]. *)
Definition ProcessHeaders_accepted (pc : ProtoConsts) (env : ChainEnv) (fuel : nat)
    (nNow nTime nAdjusted : Z) (pfrom : CNode) (nCount : Z) (received_new_header : bool)
    (pindexLast_ : option BlockPtr) (st : GState)
  : option (bool * CNode * GState * list Event) :=
  _ ← State st (GetId pfrom);
  let st1 := upd_state (GetId pfrom) (set_nUnconnectingHeaders 0) st in
  pindexLast ← pindexLast_;
  st2 ← UpdateBlockAvailability env (GetId pfrom) (phashBlock (blk env pindexLast)) st1;
  tip ← Tip env;
  let st3 := if received_new_header
                && (nChainWork (blk env tip) <? nChainWork (blk env pindexLast))%N
             then upd_state (GetId pfrom) (set_m_last_block_announcement nTime) st2
             else st2 in
  let more := if nCount =? MAX_HEADERS_RESULTS
              then [PushMessage (GetId pfrom) (nSendVersion pfrom)
                      (GETHEADERS (Some pindexLast) 0%N)]
              else [] in
  '(st4, fetch) ← ProcessHeaders_direct_fetch pc env fuel nNow nAdjusted pfrom pindexLast st3;
  pfrom1 ← ProcessHeaders_ibd_cull env nCount pfrom st4;
  st5 ← ProcessHeaders_protect env pfrom1 st4;
  Some (true, pfrom1, st5, more ++ fetch).

(** [ProcessHeadersMessage(pfrom, connman, headers, chainparams,
    punish_duplicate_invalid)]; [verdict] is the answer of the chain engine
    should the headers be submitted to it. *)
Definition ProcessHeadersMessage (pc : ProtoConsts) (env : ChainEnv) (verdict : HeadersVerdict)
    (banscore : Z) (fuel : nat) (nNow nTime nAdjusted : Z) (pfrom : CNode)
    (headers : list CBlockHeader) (punish_duplicate_invalid : bool) (st : GState)
  : option (bool * CNode * GState * list Event) :=
  let nCount := Z.of_nat (length headers) in
  match headers with
  | [] => Some (true, pfrom, st, [])
  | first :: _ =>
      if negb (DoesBlockExist env (hashPrevBlock first)) && (nCount <? MAX_BLOCKS_TO_ANNOUNCE)
      then
        _ ← State st (GetId pfrom);
        let st1 := upd_state (GetId pfrom)
                     (fun s => set_nUnconnectingHeaders
                                 (wrap32 (nUnconnectingHeaders s + 1)) s) st in
        let sent := [PushMessage (GetId pfrom) (nSendVersion pfrom)
                       (GETHEADERS (GetIndexBestHeader env) 0%N)] in
        st2 ← UpdateBlockAvailability env (GetId pfrom)
                (GetHash env (List.last headers first)) st1;
        nodestate ← State st2 (GetId pfrom);
        let st3 := if Z.rem (nUnconnectingHeaders nodestate) MAX_UNCONNECTING_HEADERS =? 0
                   then Misbehaving banscore (GetId pfrom) 20 st2
                   else st2 in
        Some (true, pfrom, st3, sent)
      else
        match headers_continuity env 0%N headers with
        | None => Some (false, pfrom, Misbehaving banscore (GetId pfrom) 20 st, [])
        | Some hashLastBlock =>
            let received_new_header := negb (DoesBlockExist env hashLastBlock) in
            let submitted := [ProcessNewBlockHeaders headers] in
            let env1 := pnbh_env verdict in
            if negb (pnbh_accepted verdict) && pnbh_IsInvalid verdict then
              let st1 := if 0 <? pnbh_nDoS verdict
                         then Misbehaving banscore (GetId pfrom) (pnbh_nDoS verdict) st
                         else st in
              let pfrom1 :=
                if punish_duplicate_invalid
                   && DoesBlockExist env1 (GetHash env1 (pnbh_first_invalid_header verdict))
                then set_fDisconnect true pfrom else pfrom in
              Some (false, pfrom1, st1, submitted)
            else
              '(r, pfrom1, st1, sent) ←
                ProcessHeaders_accepted pc env1 fuel nNow nTime nAdjusted pfrom nCount
                  received_new_header (pnbh_pindexLast verdict) st;
              Some (r, pfrom1, st1, submitted ++ sent)
        end
  end.

(** ** The handshake *)

(** The connection manager and the clock as the handshake handlers see them. *)
Record ConnEnv := {
  GetTime : Z;
  GetAdjustedTime : Z;
  CheckIncomingNonce : N -> bool;
  fListen : bool;
  GetLocalAddress : CAddress;
  IsPeerAddrLocalGood : bool;
  SetIP : CAddress -> CAddress -> CAddress;
  GetAddressCount : Z;
  SanitizeString : string -> string
}.

(** The fields of a [version] message, as read from [vRecv]; the optional
    ones are read while the stream is not empty. *)
Record VersionPayload := {
  vp_nVersion : Z;
  vp_nServiceInt : N;
  vp_nTime : Z;
  vp_addrMe : CAddress;
  vp_addrFrom_nNonce : option (CAddress * N);
  vp_strSubVer : option string;
  vp_nStartingHeight : option Z;
  vp_fRelay : option bool
}.

(** [PeerLogicValidation::ProcessVersionMsg(pfrom, vRecv)]; the reason strings
    of the reject messages are given without their formatted numbers. *)
Definition ProcessVersionMsg (pc : ProtoConsts) (env : ChainEnv) (cm : ConnEnv)
    (banscore : Z) (pfrom : CNode) (vRecv : VersionPayload) (st : GState)
  : option (bool * CNode * GState * list Event) :=
  if negb (nVersion pfrom =? 0) then
    Some (false, pfrom, Misbehaving banscore (GetId pfrom) 1 st,
          [PushMessage (GetId pfrom) (INIT_PROTO_VERSION pc)
             (REJECT "version" (REJECT_DUPLICATE pc) "Duplicate version message" None)])
  else
    let nVersion0 := vp_nVersion vRecv in
    let nSendVersion_ := Z.min nVersion0 (PROTOCOL_VERSION pc) in
    let nServices_ := vp_nServiceInt vRecv in
    let ev1 := if negb (fInbound pfrom) then [SetServices (addr pfrom) nServices_] else [] in
    if negb (N.ldiff (nServicesExpected pfrom) nServices_ =? 0)%N then
      Some (false, set_fDisconnect true pfrom, st,
            ev1 ++ [PushMessage (GetId pfrom) (INIT_PROTO_VERSION pc)
                      (REJECT "version" (REJECT_NONSTANDARD pc)
                              "Expected to offer services" None)])
    else if negb (N.land nServices_ (N.lor (N.shiftl 1 7) (N.shiftl 1 5)) =? 0)%N
            && (GetTime cm <? 1533096000) then
      Some (false, set_fDisconnect true pfrom, st, ev1)
    else
      tip ← Tip env;
      let minVer := if Z.testbit (nBlockVersion (blk env tip)) (VERSIONBITS_SBTC_CONTRACT pc)
                    then SBTC_CONTRACT_VERSION pc else MIN_PEER_PROTO_VERSION pc in
      if nVersion0 <? minVer then
        Some (false, set_fDisconnect true pfrom, st,
              ev1 ++ [PushMessage (GetId pfrom) (INIT_PROTO_VERSION pc)
                        (REJECT "version" (REJECT_OBSOLETE pc)
                                "Version must be greater" None)])
      else
        let nVersion1 := if nVersion0 =? 10300 then 300 else nVersion0 in
        let nNonce := match vp_addrFrom_nNonce vRecv with
                      | Some (_, n) => n
                      | None => 1%N
                      end in
        let strSubVer_ := default EmptyString (vp_strSubVer vRecv) in
        let cleanSubVer_ := match vp_strSubVer vRecv with
                            | Some s => SanitizeString cm s
                            | None => EmptyString
                            end in
        let nStartingHeight_ := default (-1) (vp_nStartingHeight vRecv) in
        let fRelay := default true (vp_fRelay vRecv) in
        if fInbound pfrom && negb (CheckIncomingNonce cm nNonce) then
          Some (true, set_fDisconnect true pfrom, st, ev1)
        else
          let addrMe := vp_addrMe vRecv in
          let ev2 := if fInbound pfrom && addr_IsRoutable addrMe then [SeenLocal addrMe]
                     else [] in
          let ev3 := if fInbound pfrom then PushNodeVersion pc pfrom (GetAdjustedTime cm)
                     else [] in
          let ev4 := [PushMessage (GetId pfrom) (INIT_PROTO_VERSION pc) VERACK] in
          let pfrom1 :=
            set_nVersion nVersion1
              (set_nSendVersion nSendVersion_
                 (set_fRelayTxes fRelay
                    (set_fClient (N.land nServices_ (NODE_NETWORK pc) =? 0)%N
                       (set_nStartingHeight nStartingHeight_
                          (set_cleanSubVer cleanSubVer_
                             (set_strSubVer strSubVer_
                                (set_addrLocal (Some addrMe)
                                   (set_nServices nServices_ pfrom)))))))) in
          st1 ← (if negb (N.land nServices_ (NODE_WITNESS pc) =? 0)%N
                 then _ ← State st (GetId pfrom);
                      Some (upd_state (GetId pfrom) (set_fHaveWitness true) st)
                 else Some st);
          st2 ← UpdatePreferredDownload pfrom1 st1;
          let advertise :=
            if fListen cm && negb (IsInitialBlockDownload env) then
              if addr_IsRoutable (GetLocalAddress cm)
              then [PushAddress (GetId pfrom) (GetLocalAddress cm)]
              else if IsPeerAddrLocalGood cm
                   then [PushAddress (GetId pfrom) (SetIP cm (GetLocalAddress cm) addrMe)]
                   else []
            else [] in
          let ask := fOneShot pfrom1 || (CADDR_TIME_VERSION pc <=? nVersion pfrom1)
                     || (GetAddressCount cm <? 1000) in
          let ev5 :=
            if negb (fInbound pfrom) then
              advertise
              ++ (if ask then [PushMessage (GetId pfrom) nSendVersion_ GETADDR] else [])
              ++ [MarkAddressGood (addr pfrom)]
            else [] in
          let pfrom2 := if negb (fInbound pfrom) && ask then set_fGetAddr true pfrom1
                        else pfrom1 in
          let nTimeOffset_ := wrap64 (vp_nTime vRecv - GetTime cm) in
          let pfrom3 := set_nTimeOffset nTimeOffset_ pfrom2 in
          let ev6 := [AddTimeData (addr pfrom) nTimeOffset_] in
          let ev7 := if nVersion pfrom3 <=? 70012
                     then [PushMessage (GetId pfrom) nSendVersion_ ALERT] else [] in
          if fFeeler pfrom3 then
            _ ← assert_ (negb (fInbound pfrom3));
            Some (true, set_fDisconnect true pfrom3, st2,
                  ev1 ++ ev2 ++ ev3 ++ ev4 ++ ev5 ++ ev6 ++ ev7)
          else
            Some (true, pfrom3, st2, ev1 ++ ev2 ++ ev3 ++ ev4 ++ ev5 ++ ev6 ++ ev7).

(** [PeerLogicValidation::ProcessVerAckMsg(pfrom, vRecv)] *)
Definition ProcessVerAckMsg (pc : ProtoConsts) (pfrom : CNode) (st : GState)
  : option (bool * CNode * GState * list Event) :=
  let pfrom1 := set_nRecvVersion (Z.min (nVersion pfrom) (PROTOCOL_VERSION pc)) pfrom in
  st1 ← (if negb (fInbound pfrom1)
         then _ ← State st (GetId pfrom1);
              Some (upd_state (GetId pfrom1) (set_fCurrentlyConnected true) st)
         else Some st);
  let ev1 := if SENDHEADERS_VERSION pc <=? nVersion pfrom1
             then [PushMessage (GetId pfrom1) (nSendVersion pfrom1) SENDHEADERS] else [] in
  let ev2 :=
    if SHORT_IDS_BLOCKS_VERSION pc <=? nVersion pfrom1 then
      (if negb (N.land (nLocalServices pfrom1) (NODE_WITNESS pc) =? 0)%N
       then [PushMessage (GetId pfrom1) (nSendVersion pfrom1) (SENDCMPCT false 2)] else [])
      ++ [PushMessage (GetId pfrom1) (nSendVersion pfrom1) (SENDCMPCT false 1)]
    else [] in
  Some (true, set_fSuccessfullyConnected true pfrom1, st1, ev1 ++ ev2).

(** The commands [ProcessMessage] tells apart before the handshake is over. *)
Inductive Command : Type :=
| CmdVersion (vRecv : VersionPayload)
| CmdVerack
| CmdReject
| CmdFilterLoad
| CmdFilterAdd
| CmdOther (strCommand : string).

(** Where [ProcessMessage] leaves a message: it returned, or it handed the
    message to the handler of its command. *)
Inductive Dispatch : Type :=
| Returned (ret : bool)
| ToHandler (c : Command).

(** [PeerLogicValidation::ProcessMessage], up to the end of the handshake
    checks; [dropped] is the outcome of the [-dropmessagestest] draw. *)
Definition ProcessMessage (pc : ProtoConsts) (env : ChainEnv) (cm : ConnEnv) (banscore : Z)
    (dropped : bool) (pfrom : CNode) (c : Command) (st : GState)
  : option (Dispatch * CNode * GState * list Event) :=
  if dropped then Some (Returned true, pfrom, st, [])
  else
    tip ← Tip env;
    if (SBTCContractForkHeight env <? nHeight (blk env tip))
       && negb (nVersion pfrom =? 0) && (nVersion pfrom <? SBTC_CONTRACT_VERSION pc) then
      Some (Returned false, set_fDisconnect true pfrom, st,
            [PushMessage (GetId pfrom) (INIT_PROTO_VERSION pc)
               (REJECT "version" (REJECT_OBSOLETE pc) "Version must be greater" None)])
    else if (N.land (nLocalServices pfrom) (NODE_BLOOM pc) =? 0)%N
            && match c with CmdFilterLoad | CmdFilterAdd => true | _ => false end then
      if NO_BLOOM_VERSION pc <=? nVersion pfrom
      then Some (Returned false, pfrom, Misbehaving banscore (GetId pfrom) 100 st, [])
      else Some (Returned false, set_fDisconnect true pfrom, st, [])
    else
      match c with
      | CmdReject => Some (ToHandler c, pfrom, st, [])
      | CmdVersion vRecv =>
          '(r, pfrom1, st1, ev) ← ProcessVersionMsg pc env cm banscore pfrom vRecv st;
          Some (Returned r, pfrom1, st1, ev)
      | _ =>
          if nVersion pfrom =? 0 then
            Some (Returned false, pfrom, Misbehaving banscore (GetId pfrom) 1 st, [])
          else
            match c with
            | CmdVerack =>
                '(r, pfrom1, st1, ev) ← ProcessVerAckMsg pc pfrom st;
                Some (Returned r, pfrom1, st1, ev)
            | _ =>
                if negb (fSuccessfullyConnected pfrom) then
                  Some (Returned false, pfrom, Misbehaving banscore (GetId pfrom) 1 st, [])
                else Some (ToHandler c, pfrom, st, [])
            end
      end.

(** ** Consistency of the global tables *)

(** Number of rows of the peer table that satisfy [P]. *)
Definition tally (P : CNodeState -> bool) (m : gmap NodeId CNodeState) : Z :=
  map_fold (fun _ s acc => Z.b2z (P s) + acc) 0 m.

(** Number of queued blocks whose headers were validated at request time. *)
Fixpoint count_validated (l : list (ListNode * QueuedBlock)) : Z :=
  match l with
  | [] => 0
  | (_, q) :: l' => Z.b2z (fValidatedHeaders q) + count_validated l'
  end.

Definition has_validated (s : CNodeState) : bool :=
  negb (nBlocksInFlightValidHeaders s =? 0).

Definition is_protected (s : CNodeState) : bool := m_protect (m_chain_sync s).

(** The fields of a row the global tallies and the in-flight map depend on. *)
Definition same_tracked (s s' : CNodeState) : Prop :=
  fSyncStarted s' = fSyncStarted s
  /\ fPreferredDownload s' = fPreferredDownload s
  /\ is_protected s' = is_protected s
  /\ vBlocksInFlight s' = vBlocksInFlight s
  /\ nBlocksInFlight s' = nBlocksInFlight s
  /\ nBlocksInFlightValidHeaders s' = nBlocksInFlightValidHeaders s.

Record Inv (st : GState) : Prop := {
  inv_flight :
    forall h peer it, mapBlocksInFlight st !! h = Some (peer, it) ->
      exists state entry,
        State st peer = Some state
        /\ list_deref it (vBlocksInFlight state) = Some entry
        /\ hash entry = h;
  inv_fresh :
    forall peer state it entry, State st peer = Some state ->
      (it, entry) ∈ vBlocksInFlight state -> (it < next_list_node st)%positive;
  inv_length :
    forall peer state, State st peer = Some state ->
      nBlocksInFlight state = Z.of_nat (length (vBlocksInFlight state))
      /\ Z.of_nat (length (vBlocksInFlight state)) <= INT_MAX;
  inv_validated :
    forall peer state, State st peer = Some state ->
      nBlocksInFlightValidHeaders state = count_validated (vBlocksInFlight state);
  inv_size : Z.of_nat (size (mapNodeState st)) <= INT_MAX;
  inv_nSyncStarted : nSyncStarted st = tally fSyncStarted (mapNodeState st);
  inv_nPreferredDownload :
    nPreferredDownload st = tally fPreferredDownload (mapNodeState st);
  inv_nPeersWithValidatedDownloads :
    nPeersWithValidatedDownloads st = tally has_validated (mapNodeState st);
  inv_protect :
    g_outbound_peers_with_protect_from_disconnect st = tally is_protected (mapNodeState st)
}.

(** A peer has room for one more queued block without overflowing its
    [int] counters. *)
Definition queue_has_room (st : GState) (nodeid : NodeId) : Prop :=
  forall state, State st nodeid = Some state ->
    Z.of_nat (length (vBlocksInFlight state)) < INT_MAX.

(** The operations of the source that write the peer table, the in-flight
    map or the global tallies. *)
Inductive step (pc : ProtoConsts) : GState -> GState -> Prop :=
| step_InitializeNode nTime pnode addrName st :
    Z.of_nat (size (mapNodeState st)) < INT_MAX ->
    step pc st (InitializeNode pc nTime pnode addrName st).1
| step_FinalizeNode nodeid st r st' ev :
    FinalizeNode nodeid st = Some (r, st', ev) -> step pc st st'
| step_UpdatePreferredDownload node st st' :
    UpdatePreferredDownload node st = Some st' -> step pc st st'
| step_MarkBlockAsReceived nNow h st r st' :
    MarkBlockAsReceived nNow h st = Some (r, st') -> step pc st st'
| step_MarkBlockAsInFlight nNow nodeid h pindex_ want_pit st r pit st' :
    queue_has_room st nodeid ->
    MarkBlockAsInFlight nNow nodeid h pindex_ want_pit st = Some (r, pit, st') ->
    step pc st st'
| step_UpdateBlockAvailability env nodeid h st st' :
    UpdateBlockAvailability env nodeid h st = Some st' -> step pc st st'
| step_Misbehaving banscore pnode howmuch st :
    step pc st (Misbehaving banscore pnode howmuch st)
| step_SendRejectsAndCheckIfBanned pnode st r pnode' st' ev :
    SendRejectsAndCheckIfBanned pc pnode st = Some (r, pnode', st', ev) -> step pc st st'
| step_ConsiderEviction env t pto st pto' st' ev :
    ConsiderEviction env t pto st = Some (pto', st', ev) -> step pc st st'
| step_start_sync env base per_header nNow nAdjusted pto st st' ev :
    SendMessages_start_sync env base per_header nNow nAdjusted pto st = Some (st', ev) ->
    step pc st st'
| step_headers_timeout env nNow nAdjusted pto st r pto' st' :
    SendMessages_headers_timeout env nNow nAdjusted pto st = Some (r, pto', st') ->
    step pc st st'
| step_getdata_blocks env fuel nNow fFetch pto st vGetData st' :
    SendMessages_getdata_blocks pc env fuel nNow fFetch pto st = Some (vGetData, st') ->
    step pc st st'
| step_ProcessHeadersMessage env verdict banscore fuel nNow nTime nAdjusted pfrom headers
    punish st r pfrom' st' ev :
    ProcessHeadersMessage pc env verdict banscore fuel nNow nTime nAdjusted pfrom headers
      punish st = Some (r, pfrom', st', ev) ->
    step pc st st'
| step_ProcessMessage env cm banscore dropped pfrom c st d pfrom' st' ev :
    ProcessMessage pc env cm banscore dropped pfrom c st = Some (d, pfrom', st', ev) ->
    step pc st st'
| step_write_partialBlock pnode it p st :
    (* the compact block handlers, on a block they queued *)
    step pc st (upd_state pnode (write_partialBlock it p) st)
| step_other_fields pnode f st :
    (* the handlers not embedded here write other fields of a row only *)
    (forall s, same_tracked s (f s)) -> step pc st (upd_state pnode f st).

(** The states a process can be in. *)
Inductive reachable (pc : ProtoConsts) : GState -> Prop :=
| reachable_initial : reachable pc initial_state
| reachable_step st st' : reachable pc st -> step pc st st' -> reachable pc st'.

(** ** Events *)

Definition is_Ban (e : Event) : bool :=
  match e with
  | Ban _ => true
  | _ => false
  end.

(** ** Shapes of headers batches *)

(** Some header of the batch does not name the hash of the header before it
    as its predecessor. *)
Definition headers_broken (env : ChainEnv) (headers : list CBlockHeader) : Prop :=
  exists i h1 h2,
    headers !! i = Some h1 /\ headers !! S i = Some h2
    /\ hashPrevBlock h2 ≠ GetHash env h1.

(** No header of the batch hashes to the null hash. *)
Definition hashes_not_null (env : ChainEnv) (headers : list CBlockHeader) : Prop :=
  forall header, header ∈ headers -> GetHash env header ≠ 0%N.

(** The block [h] is in the block index with some chain work: the case in
    which [UpdateBlockAvailability] records it as a known block. *)
Definition is_indexed (env : ChainEnv) (h : uint256) : bool :=
  match GetBlockIndex env h with
  | Some pIndex => (0 <? nChainWork (blk env pIndex))%N
  | None => false
  end.

(** An observation of a row that the queueing and unqueueing of blocks
    leaves alone. *)
Definition queue_blind {A} (f : CNodeState -> A) : Prop :=
  forall nNow it entry s,
    f (dequeue nNow it entry s) = f s /\ f (enqueue nNow it entry s) = f s.

(** ** Cases of the chain-sync timeout *)

(** The best known block of the peer has less work than the active tip, or
    the peer has no best known block. *)
Definition peer_behind (env : ChainEnv) (state : CNodeState) : Prop :=
  match pindexBestKnownBlock state with
  | None => True
  | Some best =>
      exists tip, Tip env = Some tip
                  /\ (nChainWork (blk env best) < nChainWork (blk env tip))%N
  end.

(** The best known block of the peer has at least the work of the header
    recorded when the timeout was set. *)
Definition reached_work_header (env : ChainEnv) (state : CNodeState) : bool :=
  match m_work_header (m_chain_sync state), pindexBestKnownBlock state with
  | Some wh, Some best => (nChainWork (blk env wh) <=? nChainWork (blk env best))%N
  | _, _ => false
  end.

(** ** The handshake *)

(** A [version] message that [ProcessVersionMsg] accepts from [pfrom]: the
    first one of the connection, offering the expected services and none of
    the service bits 6 and 8 (before August 2018), of a protocol version that
    is not obsolete, not echoing a nonce of the local node, and not from an
    inbound feeler. *)
Definition valid_version (pc : ProtoConsts) (env : ChainEnv) (cm : ConnEnv) (pfrom : CNode)
    (vRecv : VersionPayload) : Prop :=
  nVersion pfrom = 0
  /\ N.ldiff (nServicesExpected pfrom) (vp_nServiceInt vRecv) = 0%N
  /\ (N.land (vp_nServiceInt vRecv) (N.lor (N.shiftl 1 7) (N.shiftl 1 5)) = 0%N
      \/ 1533096000 <= GetTime cm)
  /\ (exists tip,
        Tip env = Some tip
        /\ (if Z.testbit (nBlockVersion (blk env tip)) (VERSIONBITS_SBTC_CONTRACT pc)
            then SBTC_CONTRACT_VERSION pc else MIN_PEER_PROTO_VERSION pc)
           <= vp_nVersion vRecv)
  /\ vp_nVersion vRecv ≠ 0
  /\ (fInbound pfrom = true ->
      CheckIncomingNonce cm (match vp_addrFrom_nNonce vRecv with
                             | Some (_, n) => n
                             | None => 1%N
                             end) = true)
  /\ (fFeeler pfrom = true -> fInbound pfrom = false).

(** What [ProcessVerAckMsg] sends to a peer that announced [nVersion_]. *)
Definition verack_replies (pc : ProtoConsts) (pfrom : CNode) (nVersion_ : Z) : list Event :=
  (if SENDHEADERS_VERSION pc <=? nVersion_
   then [PushMessage (GetId pfrom) (nSendVersion pfrom) SENDHEADERS] else [])
  ++ (if SHORT_IDS_BLOCKS_VERSION pc <=? nVersion_
      then (if negb (N.land (nLocalServices pfrom) (NODE_WITNESS pc) =? 0)%N
            then [PushMessage (GetId pfrom) (nSendVersion pfrom) (SENDCMPCT false 2)]
            else [])
           ++ [PushMessage (GetId pfrom) (nSendVersion pfrom) (SENDCMPCT false 1)]
      else []).

(** ** The guard of the block download scheduler *)

(** The peer has no best known block, or one with less work than the active
    tip or than the minimum chain work. *)
Definition nothing_interesting (env : ChainEnv) (state : CNodeState) : Prop :=
  match pindexBestKnownBlock state with
  | None => True
  | Some best =>
      exists tip,
        Tip env = Some tip
        /\ ((nChainWork (blk env best) < nChainWork (blk env tip))%N
            \/ (nChainWork (blk env best) < nMinimumChainWork env)%N)
  end.

(** ** Concrete peers, tables and chains used in the examples *)

Definition ex_pc : ProtoConsts :=
  {| PROTOCOL_VERSION := 70015; INIT_PROTO_VERSION := 209; MIN_PEER_PROTO_VERSION := 31800;
     SBTC_CONTRACT_VERSION := 70016; VERSIONBITS_SBTC_CONTRACT := 3;
     CADDR_TIME_VERSION := 31402; SENDHEADERS_VERSION := 70012;
     SHORT_IDS_BLOCKS_VERSION := 70014; NO_BLOOM_VERSION := 70011;
     NODE_NETWORK := 1; NODE_BLOOM := 4; NODE_WITNESS := 8;
     MSG_BLOCK := 2; MSG_CMPCT_BLOCK := 4; MSG_WITNESS_FLAG := 1073741824;
     BLOCK_HAVE_DATA := 8;
     REJECT_DUPLICATE := 18; REJECT_NONSTANDARD := 64; REJECT_OBSOLETE := 17 |}.

Definition ex_addr : CAddress :=
  {| addr_key := 7; addr_services := 9; addr_IsLocal := false; addr_IsRoutable := true |}.

(** A peer that has not yet sent its [version]. *)
Definition ex_node (nodeid : NodeId) (inbound : bool) : CNode :=
  {| GetId := nodeid; addr := ex_addr; fInbound := inbound; fWhitelisted := false;
     fOneShot := false; fClient := false; fFeeler := false; m_manual_connection := false;
     fDisconnect := false; fSuccessfullyConnected := false; nVersion := 0;
     nSendVersion := 209; nRecvVersion := 209; nServices := 0; nServicesExpected := 1;
     nLocalServices := 9; nStartingHeight := -1; fRelayTxes := false; fGetAddr := false;
     nTimeOffset := 0; addrLocal := None; strSubVer := EmptyString;
     cleanSubVer := EmptyString |}.

Definition ex_row : CNodeState := new_CNodeState ex_addr "peer".

(** A table with the single row [s] for peer [nodeid]. *)
Definition ex_table (nodeid : NodeId) (s : CNodeState) : GState :=
  set_mapNodeState {[nodeid := s]} initial_state.

(** A linear block index. Block [p] has hash [99 + p], height [p - 1], chain
    work [p] and parent [p - 1]; the blocks up to [indexed] are in the index
    and those up to [active] form the active chain and are stored. The hash of
    a header is read off its Merkle root field. *)
Definition ex_block (active p : positive) : CBlockIndex :=
  {| phashBlock := 99 + N.pos p;
     pprev := if (p =? 1)%positive then None else Some (Pos.pred p);
     nHeight := Z.pos p - 1; nChainWork := N.pos p;
     nStatus := if (p <=? active)%positive then 8 else 0;
     nChainTx := if (p <=? active)%positive then 1 else 0;
     nBlockVersion := 1; nBlockTime := 1000 * Z.pos p |}.

Definition ex_env (indexed active : positive) : ChainEnv :=
  {| blk := ex_block active;
     GetHash := hashMerkleRoot;
     GetBlockIndex := fun h => if ((100 <=? h) && (h <=? 99 + N.pos indexed))%N
                               then Some (N.succ_pos (h - 100)) else None;
     DoesBlockExist := fun h => ((100 <=? h) && (h <=? 99 + N.pos indexed))%N;
     GetIndexBestHeader := Some indexed;
     IsInitialBlockDownload := false; IsReindexing := false; fImporting := false;
     Tip := Some active; Height := Z.pos active - 1;
     ChainAt := fun n => if (0 <=? n) && (n <? Z.pos active)
                         then Some (Z.to_pos (n + 1)) else None;
     Contains := fun p => (p <=? active)%positive;
     GetAncestor := fun p n => if (0 <=? n) && (n <? Z.pos p)
                               then Some (Z.to_pos (n + 1)) else None;
     LastCommonAncestor := fun a b => Some (Pos.min a b);
     IsValid_TREE := fun _ => true; IsValid_CHAIN := fun _ => true;
     IsWitnessEnabled := fun _ => false;
     nMinimumChainWork := 1; SBTCContractForkHeight := 1000000;
     nPowTargetSpacing := 600 |}.

Definition ex_header (prev h : N) : CBlockHeader :=
  {| hdr_nVersion := 1; hashPrevBlock := prev; hashMerkleRoot := h; hdr_nTime := 0;
     hdr_nBits := 0; hdr_nNonce := 0 |}.

(** The chain engine accepts the headers and reports [last] as their last
    block. *)
Definition ex_verdict (env : ChainEnv) (last : positive) : HeadersVerdict :=
  {| pnbh_accepted := true; pnbh_IsInvalid := false; pnbh_nDoS := 0;
     pnbh_pindexLast := Some last; pnbh_first_invalid_header := ex_header 0 0;
     pnbh_env := env |}.

(** A handshaken outbound peer. *)
Definition ex_peer (nodeid : NodeId) : CNode :=
  set_fSuccessfullyConnected true
    (set_nSendVersion 70015 (set_nVersion 70015 (ex_node nodeid false))).

(** The row of a sync peer whose chain-sync timeout was set to 100 against
    block 2 and for which no best block is known. *)
Definition ex_row_behind (sent : bool) : CNodeState :=
  set_m_chain_sync {| m_timeout := 100; m_work_header := Some 2%positive;
                      m_sent_getheaders := sent; m_protect := false |}
    (set_fSyncStarted true ex_row).

(** A row with block 4 in flight since time 0, and a table in which it is the
    only row with validated downloads. *)
Definition ex_row_downloading : CNodeState :=
  enqueue 0 1%positive
    {| hash := 103; pindex := Some 4%positive; fValidatedHeaders := true;
       partialBlock := None |} ex_row.

Definition ex_table_downloading : GState :=
  set_nPeersWithValidatedDownloads 1
    (set_next_list_node 2%positive
       (set_mapBlocksInFlight {[103%N := (7, 1%positive)]}
          (ex_table 7 ex_row_downloading))).

Definition ex_cm : ConnEnv :=
  {| GetTime := 1600000000; GetAdjustedTime := 1600000000;
     CheckIncomingNonce := fun _ => true; fListen := false;
     GetLocalAddress := ex_addr; IsPeerAddrLocalGood := false;
     SetIP := fun a _ => a; GetAddressCount := 5000;
     SanitizeString := fun s => s |}.

(** The [version] message of a current peer that offers the network and
    witness services. *)
Definition ex_version : VersionPayload :=
  {| vp_nVersion := 70015; vp_nServiceInt := 9; vp_nTime := 1600000000;
     vp_addrMe := ex_addr; vp_addrFrom_nNonce := Some (ex_addr, 12345%N);
     vp_strSubVer := Some "/peer:0.1/"%string; vp_nStartingHeight := Some 3;
     vp_fRelay := Some true |}.

(** The row of a peer that announced block 2 before it was indexed. *)
Definition ex_row_announced : CNodeState := set_hashLastUnknownBlock 101 ex_row.

(** A state reached by accepting peer 7 and requesting block 4 from it. *)
Definition ex_reached_1 : GState :=
  (InitializeNode ex_pc 0 (ex_peer 7) "peer" initial_state).1.

Definition ex_reached_2 : GState :=
  match MarkBlockAsInFlight 0 7 103 (Some 4%positive) false ex_reached_1 with
  | Some (_, _, st) => st
  | None => ex_reached_1
  end.

(** ** Further notions used in the properties of the tables *)

(** Chain work of a block that may be [nullptr]. *)
Definition work_of (env : ChainEnv) (p : option BlockPtr) : N :=
  match p with
  | Some b => nChainWork (blk env b)
  | None => 0%N
  end.

(** Every queued block is registered in the in-flight map, under its hash,
    for the peer that queues it and at its list node; and the list nodes of a
    queue are distinct. *)
Record Registered (st : GState) : Prop := {
  reg_map :
    forall peer state it entry, State st peer = Some state ->
      (it, entry) ∈ vBlocksInFlight state ->
      mapBlocksInFlight st !! hash entry = Some (peer, it);
  reg_nodes :
    forall peer state, State st peer = Some state ->
      NoDup (fst <$> vBlocksInFlight state)
}.

(** Two peers, 7 and 8, and block 4 in flight from peer 7. *)
Definition ex_two_peers : GState :=
  (InitializeNode ex_pc 0 (ex_peer 8) "peer8" ex_reached_1).1.

Definition ex_two_peers_downloading : GState :=
  match MarkBlockAsInFlight 0 7 103 (Some 4%positive) false ex_two_peers with
  | Some (_, _, st) => st
  | None => ex_two_peers
  end.

(** A block [FindNextBlocksToDownload] may hand out: its tree is valid, its
    data is not stored, it is not in the active chain and it is not in
    flight. *)
Definition downloadable (pc : ProtoConsts) (env : ChainEnv) (st : GState) (b : BlockPtr)
  : Prop :=
  IsValid_TREE env b = true
  /\ N.land (nStatus (blk env b)) (BLOCK_HAVE_DATA pc) = 0%N
  /\ Contains env b = false
  /\ mapBlocksInFlight st !! phashBlock (blk env b) = None.

(** Peer 7 announced block 5 of a chain whose blocks 1 to 5 are indexed. *)
Definition ex_reached_knows : GState :=
  match UpdateBlockAvailability (ex_env 5 3) 7 104 ex_reached_1 with
  | Some st => st
  | None => ex_reached_1
  end.

(** Peers 7 and 8: the headers sync was started with peer 7 at time 0, and
    peer 8 was then marked as preferred for download. *)
Definition ex_sync_started : GState :=
  match SendMessages_start_sync (ex_env 3 3) 900000000 1000 0 1000000 (ex_peer 7)
          ex_two_peers with
  | Some (st, _) => st
  | None => ex_two_peers
  end.

Definition ex_sync_preferred : GState :=
  match UpdatePreferredDownload (ex_peer 8) ex_sync_started with
  | Some st => st
  | None => ex_sync_started
  end.

(** The list nodes and hashes of the blocks a peer queues. *)
Definition queue_keys (s : CNodeState) : list (ListNode * uint256) :=
  (fun e => (e.1, hash e.2)) <$> vBlocksInFlight s.

(** [st'] has the in-flight map, the count of protected peers and, up to
    the contents of the queued blocks, the queues of [st]. *)
Definition frame (st st' : GState) : Prop :=
  mapBlocksInFlight st' = mapBlocksInFlight st
  /\ g_outbound_peers_with_protect_from_disconnect st'
     = g_outbound_peers_with_protect_from_disconnect st
  /\ forall pnode, queue_keys <$> State st' pnode = queue_keys <$> State st pnode.

(** Every queued block is registered, and no more than
    [MAX_OUTBOUND_PEERS_TO_PROTECT_FROM_DISCONNECT] peers are counted as
    protected. *)
Definition Inv2 (st : GState) : Prop :=
  Registered st
  /\ g_outbound_peers_with_protect_from_disconnect st
     <= MAX_OUTBOUND_PEERS_TO_PROTECT_FROM_DISCONNECT.

(** Peer 7 sent the header of block 5 on top of an active chain that ends at
    block 3, and was protected for it. *)
Definition ex_protected : GState :=
  match ProcessHeadersMessage ex_pc (ex_env 5 3) (ex_verdict (ex_env 5 3) 5) 100 0 0 0 1000000
          (ex_peer 7) [ex_header 103 104] false ex_reached_1 with
  | Some (_, _, st, _) => st
  | None => ex_reached_1
  end.

(** ** Further handlers and notifications

    The fields of a row written by the handlers below. *)

Definition set_pindexBestHeaderSent (v : option BlockPtr) (s : CNodeState) : CNodeState :=
  {| address := address s; fCurrentlyConnected := fCurrentlyConnected s; nMisbehavior :=
     nMisbehavior s; fShouldBan := fShouldBan s; name := name s; rejects := rejects s;
     pindexBestKnownBlock := pindexBestKnownBlock s; hashLastUnknownBlock :=
     hashLastUnknownBlock s; pindexLastCommonBlock := pindexLastCommonBlock s;
     pindexBestHeaderSent := v; nUnconnectingHeaders := nUnconnectingHeaders s;
     fSyncStarted := fSyncStarted s; nHeadersSyncTimeout := nHeadersSyncTimeout s;
     nStallingSince := nStallingSince s; vBlocksInFlight := vBlocksInFlight s;
     nDownloadingSince := nDownloadingSince s; nBlocksInFlight := nBlocksInFlight s;
     nBlocksInFlightValidHeaders := nBlocksInFlightValidHeaders s; fPreferredDownload :=
     fPreferredDownload s; fPreferHeaders := fPreferHeaders s; fPreferHeaderAndIDs :=
     fPreferHeaderAndIDs s; fProvidesHeaderAndIDs := fProvidesHeaderAndIDs s; fHaveWitness
     := fHaveWitness s; fWantsCmpctWitness := fWantsCmpctWitness s;
     fSupportsDesiredCmpctVersion := fSupportsDesiredCmpctVersion s; m_chain_sync :=
     m_chain_sync s; m_last_block_announcement := m_last_block_announcement s |}.

Definition set_fPreferHeaders (v : bool) (s : CNodeState) : CNodeState :=
  {| address := address s; fCurrentlyConnected := fCurrentlyConnected s; nMisbehavior :=
     nMisbehavior s; fShouldBan := fShouldBan s; name := name s; rejects := rejects s;
     pindexBestKnownBlock := pindexBestKnownBlock s; hashLastUnknownBlock :=
     hashLastUnknownBlock s; pindexLastCommonBlock := pindexLastCommonBlock s;
     pindexBestHeaderSent := pindexBestHeaderSent s; nUnconnectingHeaders :=
     nUnconnectingHeaders s; fSyncStarted := fSyncStarted s; nHeadersSyncTimeout :=
     nHeadersSyncTimeout s; nStallingSince := nStallingSince s; vBlocksInFlight :=
     vBlocksInFlight s; nDownloadingSince := nDownloadingSince s; nBlocksInFlight :=
     nBlocksInFlight s; nBlocksInFlightValidHeaders := nBlocksInFlightValidHeaders s;
     fPreferredDownload := fPreferredDownload s; fPreferHeaders := v; fPreferHeaderAndIDs
     := fPreferHeaderAndIDs s; fProvidesHeaderAndIDs := fProvidesHeaderAndIDs s;
     fHaveWitness := fHaveWitness s; fWantsCmpctWitness := fWantsCmpctWitness s;
     fSupportsDesiredCmpctVersion := fSupportsDesiredCmpctVersion s; m_chain_sync :=
     m_chain_sync s; m_last_block_announcement := m_last_block_announcement s |}.

Definition set_fPreferHeaderAndIDs (v : bool) (s : CNodeState) : CNodeState :=
  {| address := address s; fCurrentlyConnected := fCurrentlyConnected s; nMisbehavior :=
     nMisbehavior s; fShouldBan := fShouldBan s; name := name s; rejects := rejects s;
     pindexBestKnownBlock := pindexBestKnownBlock s; hashLastUnknownBlock :=
     hashLastUnknownBlock s; pindexLastCommonBlock := pindexLastCommonBlock s;
     pindexBestHeaderSent := pindexBestHeaderSent s; nUnconnectingHeaders :=
     nUnconnectingHeaders s; fSyncStarted := fSyncStarted s; nHeadersSyncTimeout :=
     nHeadersSyncTimeout s; nStallingSince := nStallingSince s; vBlocksInFlight :=
     vBlocksInFlight s; nDownloadingSince := nDownloadingSince s; nBlocksInFlight :=
     nBlocksInFlight s; nBlocksInFlightValidHeaders := nBlocksInFlightValidHeaders s;
     fPreferredDownload := fPreferredDownload s; fPreferHeaders := fPreferHeaders s;
     fPreferHeaderAndIDs := v; fProvidesHeaderAndIDs := fProvidesHeaderAndIDs s;
     fHaveWitness := fHaveWitness s; fWantsCmpctWitness := fWantsCmpctWitness s;
     fSupportsDesiredCmpctVersion := fSupportsDesiredCmpctVersion s; m_chain_sync :=
     m_chain_sync s; m_last_block_announcement := m_last_block_announcement s |}.

Definition set_fProvidesHeaderAndIDs (v : bool) (s : CNodeState) : CNodeState :=
  {| address := address s; fCurrentlyConnected := fCurrentlyConnected s; nMisbehavior :=
     nMisbehavior s; fShouldBan := fShouldBan s; name := name s; rejects := rejects s;
     pindexBestKnownBlock := pindexBestKnownBlock s; hashLastUnknownBlock :=
     hashLastUnknownBlock s; pindexLastCommonBlock := pindexLastCommonBlock s;
     pindexBestHeaderSent := pindexBestHeaderSent s; nUnconnectingHeaders :=
     nUnconnectingHeaders s; fSyncStarted := fSyncStarted s; nHeadersSyncTimeout :=
     nHeadersSyncTimeout s; nStallingSince := nStallingSince s; vBlocksInFlight :=
     vBlocksInFlight s; nDownloadingSince := nDownloadingSince s; nBlocksInFlight :=
     nBlocksInFlight s; nBlocksInFlightValidHeaders := nBlocksInFlightValidHeaders s;
     fPreferredDownload := fPreferredDownload s; fPreferHeaders := fPreferHeaders s;
     fPreferHeaderAndIDs := fPreferHeaderAndIDs s; fProvidesHeaderAndIDs := v; fHaveWitness
     := fHaveWitness s; fWantsCmpctWitness := fWantsCmpctWitness s;
     fSupportsDesiredCmpctVersion := fSupportsDesiredCmpctVersion s; m_chain_sync :=
     m_chain_sync s; m_last_block_announcement := m_last_block_announcement s |}.

Definition set_fWantsCmpctWitness (v : bool) (s : CNodeState) : CNodeState :=
  {| address := address s; fCurrentlyConnected := fCurrentlyConnected s; nMisbehavior :=
     nMisbehavior s; fShouldBan := fShouldBan s; name := name s; rejects := rejects s;
     pindexBestKnownBlock := pindexBestKnownBlock s; hashLastUnknownBlock :=
     hashLastUnknownBlock s; pindexLastCommonBlock := pindexLastCommonBlock s;
     pindexBestHeaderSent := pindexBestHeaderSent s; nUnconnectingHeaders :=
     nUnconnectingHeaders s; fSyncStarted := fSyncStarted s; nHeadersSyncTimeout :=
     nHeadersSyncTimeout s; nStallingSince := nStallingSince s; vBlocksInFlight :=
     vBlocksInFlight s; nDownloadingSince := nDownloadingSince s; nBlocksInFlight :=
     nBlocksInFlight s; nBlocksInFlightValidHeaders := nBlocksInFlightValidHeaders s;
     fPreferredDownload := fPreferredDownload s; fPreferHeaders := fPreferHeaders s;
     fPreferHeaderAndIDs := fPreferHeaderAndIDs s; fProvidesHeaderAndIDs :=
     fProvidesHeaderAndIDs s; fHaveWitness := fHaveWitness s; fWantsCmpctWitness := v;
     fSupportsDesiredCmpctVersion := fSupportsDesiredCmpctVersion s; m_chain_sync :=
     m_chain_sync s; m_last_block_announcement := m_last_block_announcement s |}.

Definition set_fSupportsDesiredCmpctVersion (v : bool) (s : CNodeState) : CNodeState :=
  {| address := address s; fCurrentlyConnected := fCurrentlyConnected s; nMisbehavior :=
     nMisbehavior s; fShouldBan := fShouldBan s; name := name s; rejects := rejects s;
     pindexBestKnownBlock := pindexBestKnownBlock s; hashLastUnknownBlock :=
     hashLastUnknownBlock s; pindexLastCommonBlock := pindexLastCommonBlock s;
     pindexBestHeaderSent := pindexBestHeaderSent s; nUnconnectingHeaders :=
     nUnconnectingHeaders s; fSyncStarted := fSyncStarted s; nHeadersSyncTimeout :=
     nHeadersSyncTimeout s; nStallingSince := nStallingSince s; vBlocksInFlight :=
     vBlocksInFlight s; nDownloadingSince := nDownloadingSince s; nBlocksInFlight :=
     nBlocksInFlight s; nBlocksInFlightValidHeaders := nBlocksInFlightValidHeaders s;
     fPreferredDownload := fPreferredDownload s; fPreferHeaders := fPreferHeaders s;
     fPreferHeaderAndIDs := fPreferHeaderAndIDs s; fProvidesHeaderAndIDs :=
     fProvidesHeaderAndIDs s; fHaveWitness := fHaveWitness s; fWantsCmpctWitness :=
     fWantsCmpctWitness s; fSupportsDesiredCmpctVersion := v; m_chain_sync := m_chain_sync
     s; m_last_block_announcement := m_last_block_announcement s |}.

(** [PeerLogicValidation::ProcessSendHeadersMsg(pfrom, vRecv)] *)
Definition ProcessSendHeadersMsg (pfrom : CNode) (st : GState) : option (bool * GState) :=
  _ ← State st (GetId pfrom);
  Some (true, upd_state (GetId pfrom) (set_fPreferHeaders true) st).

(** [PeerLogicValidation::ProcessSendCmpctMsg(pfrom, vRecv)]; the two
    arguments after [pfrom] are the values read from [vRecv]. *)
Definition ProcessSendCmpctMsg (pc : ProtoConsts) (pfrom : CNode)
    (fAnnounceUsingCMPCTBLOCK : bool) (nCMPCTBLOCKVersion : Z) (st : GState)
  : option (bool * GState) :=
  let witness := negb (N.land (nLocalServices pfrom) (NODE_WITNESS pc) =? 0)%N in
  if (nCMPCTBLOCKVersion =? 1) || (witness && (nCMPCTBLOCKVersion =? 2)) then
    state ← State st (GetId pfrom);
    let s1 := if negb (fProvidesHeaderAndIDs state)
              then set_fWantsCmpctWitness (nCMPCTBLOCKVersion =? 2)
                     (set_fProvidesHeaderAndIDs true state)
              else state in
    let s2 := if Bool.eqb (fWantsCmpctWitness s1) (nCMPCTBLOCKVersion =? 2)
              then set_fPreferHeaderAndIDs fAnnounceUsingCMPCTBLOCK s1
              else s1 in
    let s3 := if negb (fSupportsDesiredCmpctVersion s2)
              then set_fSupportsDesiredCmpctVersion
                     (if witness then nCMPCTBLOCKVersion =? 2 else nCMPCTBLOCKVersion =? 1) s2
              else s2 in
    Some (true, put_state (GetId pfrom) s3 st)
  else Some (true, st).

(** Successive [sendcmpct] messages of one peer. *)
Fixpoint ProcessSendCmpctMsg_all (pc : ProtoConsts) (pfrom : CNode) (msgs : list (bool * Z))
    (st : GState) : option GState :=
  match msgs with
  | [] => Some st
  | (fAnnounce, nVersion_) :: rest =>
      '(_, st1) ← ProcessSendCmpctMsg pc pfrom fAnnounce nVersion_ st;
      ProcessSendCmpctMsg_all pc pfrom rest st1
  end.

(** A compact block version [ProcessSendCmpctMsg] acts on. *)
Definition sendcmpct_known_version (pc : ProtoConsts) (pfrom : CNode) (msg : bool * Z) : bool :=
  (msg.2 =? 1)
  || (negb (N.land (nLocalServices pfrom) (NODE_WITNESS pc) =? 0)%N && (msg.2 =? 2)).

(** The four compact block flags of a row. *)
Definition set_cmpct_flags (provides wants prefers supports : bool) (s : CNodeState)
  : CNodeState :=
  set_fSupportsDesiredCmpctVersion supports
    (set_fPreferHeaderAndIDs prefers
       (set_fWantsCmpctWitness wants (set_fProvidesHeaderAndIDs provides s))).

(** [lNodesAnnouncingHeaderAndIDs.erase(it)] for the first [it] with
    [*it == nodeid]. *)
Fixpoint list_erase_first (nodeid : NodeId) (l : list NodeId) : list NodeId :=
  match l with
  | [] => []
  | a :: l' => if a =? nodeid then l' else a :: list_erase_first nodeid l'
  end.

(** [MaybeSetPeerAsAnnouncingHeaderAndIDs(nodeid, connman)] on the list
    [lNodesAnnouncingHeaderAndIDs]; [ForNode] gives the node the connection
    manager runs the callback on, if any. *)
Definition MaybeSetPeerAsAnnouncingHeaderAndIDs (pc : ProtoConsts)
    (ForNode : NodeId -> option CNode) (nodeid : NodeId)
    (lNodesAnnouncingHeaderAndIDs : list NodeId) (st : GState)
  : list NodeId * list Event :=
  match State st nodeid with
  | None => (lNodesAnnouncingHeaderAndIDs, [])
  | Some nodestate =>
      if negb (fSupportsDesiredCmpctVersion nodestate) then (lNodesAnnouncingHeaderAndIDs, [])
      else if fProvidesHeaderAndIDs nodestate then
        if existsb (Z.eqb nodeid) lNodesAnnouncingHeaderAndIDs then
          (list_erase_first nodeid lNodesAnnouncingHeaderAndIDs ++ [nodeid], [])
        else
          match ForNode nodeid with
          | None => (lNodesAnnouncingHeaderAndIDs, [])
          | Some pfrom =>
              let nCMPCTBLOCKVersion :=
                if negb (N.land (nLocalServices pfrom) (NODE_WITNESS pc) =? 0)%N
                then 2 else 1 in
              let '(l1, stop) :=
                if 3 <=? Z.of_nat (length lNodesAnnouncingHeaderAndIDs) then
                  (tail lNodesAnnouncingHeaderAndIDs,
                   match head lNodesAnnouncingHeaderAndIDs ≫= ForNode with
                   | Some pnodeStop =>
                       [PushMessage (GetId pnodeStop) (nSendVersion pnodeStop)
                          (SENDCMPCT false nCMPCTBLOCKVersion)]
                   | None => []
                   end)
                else (lNodesAnnouncingHeaderAndIDs, []) in
              (l1 ++ [GetId pfrom],
               stop ++ [PushMessage (GetId pfrom) (nSendVersion pfrom)
                          (SENDCMPCT true nCMPCTBLOCKVersion)])
          end
      else (lNodesAnnouncingHeaderAndIDs, [])
  end.

(** The lists [lNodesAnnouncingHeaderAndIDs] can hold: built from the empty
    list by calls of [MaybeSetPeerAsAnnouncingHeaderAndIDs]. *)
Inductive announcers (pc : ProtoConsts) (ForNode : NodeId -> option CNode)
  : list NodeId -> Prop :=
| announcers_nil : announcers pc ForNode []
| announcers_call nodeid l st :
    announcers pc ForNode l ->
    announcers pc ForNode (MaybeSetPeerAsAnnouncingHeaderAndIDs pc ForNode nodeid l st).1.

(** A row of a peer that negotiated compact blocks, and a connection manager
    that knows every peer. *)
Definition ex_row_cmpct : CNodeState :=
  set_fSupportsDesiredCmpctVersion true (set_fProvidesHeaderAndIDs true ex_row).

Definition ex_ForNode (nodeid : NodeId) : option CNode := Some (ex_peer nodeid).

(** What [BlockChecked] reads of a [CValidationState]. *)
Record CValidationState := {
  vs_IsValid : bool;
  vs_IsInvalid : bool;
  vs_nDoS : Z;                   (* int *)
  vs_GetRejectCode : Z;          (* unsigned int *)
  vs_GetRejectReason : string
}.

(** [PeerLogicValidation::BlockChecked(block, state)] on [mapBlockSource] and
    [lNodesAnnouncingHeaderAndIDs]; [hash] is [block.GetHash()], and
    [REJECT_INTERNAL] and [MAX_REJECT_MESSAGE_LENGTH] are the constants of
    [consensus/validation.h] and [validation.h]. *)
Definition BlockChecked (pc : ProtoConsts) (env : ChainEnv) (ForNode : NodeId -> option CNode)
    (banscore REJECT_INTERNAL : Z) (MAX_REJECT_MESSAGE_LENGTH : nat)
    (hash_ : uint256) (state : CValidationState)
    (mapBlockSource : gmap uint256 (NodeId * bool))
    (lNodesAnnouncingHeaderAndIDs : list NodeId) (st : GState)
  : gmap uint256 (NodeId * bool) * list NodeId * GState * list Event :=
  let it := mapBlockSource !! hash_ in
  let nDoS := if vs_IsInvalid state then vs_nDoS state else 0 in
  let '(l1, st1, ev) :=
    if vs_IsInvalid state then
      match it with
      | Some (source, punish) =>
          if bool_decide (is_Some (State st source)) && (0 <? vs_GetRejectCode state)
             && (vs_GetRejectCode state <? REJECT_INTERNAL) then
            let reject := {| chRejectCode := vs_GetRejectCode state mod 256;
                             strRejectReason :=
                               String.substring 0 MAX_REJECT_MESSAGE_LENGTH
                                 (vs_GetRejectReason state);
                             hashBlock := hash_ |} in
            let st1 := upd_state source (fun s => set_rejects (rejects s ++ [reject]) s) st in
            (lNodesAnnouncingHeaderAndIDs,
             if (0 <? nDoS) && punish then Misbehaving banscore source nDoS st1 else st1,
             [])
          else (lNodesAnnouncingHeaderAndIDs, st, [])
      | None => (lNodesAnnouncingHeaderAndIDs, st, [])
      end
    else if vs_IsValid state && negb (IsInitialBlockDownload env)
            && (Z.of_nat (if bool_decide (is_Some (mapBlocksInFlight st !! hash_))
                          then 1%nat else 0%nat)
                =? Z.of_nat (size (mapBlocksInFlight st))) then
      match it with
      | Some (source, _) =>
          let '(l1, ev) :=
            MaybeSetPeerAsAnnouncingHeaderAndIDs pc ForNode source
              lNodesAnnouncingHeaderAndIDs st in
          (l1, st, ev)
      | None => (lNodesAnnouncingHeaderAndIDs, st, [])
      end
    else (lNodesAnnouncingHeaderAndIDs, st, []) in
  (delete hash_ mapBlockSource, l1, st1, ev).

(** The message [SendRejectsAndCheckIfBanned] sends for a recorded reject. *)
Definition reject_message (pc : ProtoConsts) (pnode : CNode) (reject : CBlockReject) : Event :=
  PushMessage (GetId pnode) (INIT_PROTO_VERSION pc)
    (REJECT "block" (chRejectCode reject) (strRejectReason reject) (Some (hashBlock reject))).

(** An invalid block with a reject code a peer is told about, worth 100
    points. *)
Definition ex_invalid : CValidationState :=
  {| vs_IsValid := false; vs_IsInvalid := true; vs_nDoS := 100; vs_GetRejectCode := 16;
     vs_GetRejectReason := "bad-blk" |}.

(** [PeerHasHeader(state, pindex)]; [None] stands for the dereference of a
    null [pindex]. *)
Definition PeerHasHeader (env : ChainEnv) (state : CNodeState) (pindex_ : option BlockPtr)
  : option bool :=
  known ← match pindexBestKnownBlock state with
          | Some best =>
              p ← pindex_;
              Some (bool_decide (GetAncestor env best (nHeight (blk env p)) = Some p))
          | None => Some false
          end;
  if known : bool then Some true
  else
    match pindexBestHeaderSent state with
    | Some sent =>
        p ← pindex_;
        Some (bool_decide (GetAncestor env sent (nHeight (blk env p)) = Some p))
    | None => Some false
    end.

(** What the connection manager is asked to send by [RelayCmpctBlock]. *)
Inductive RelayEvent : Type :=
| PushCmpctBlock (pnode : NodeId) (nSerVersion : Z) (hashBlock_ : uint256).

(** What the callback of [RelayCmpctBlock] does to the row of a peer it does
    not skip, and whether it sends the block. *)
Definition RelayCmpctBlock_row (env : ChainEnv) (pindex_ : BlockPtr) (fWitnessEnabled : bool)
    (state0 : CNodeState) : option (CNodeState * bool) :=
  let state := ProcessBlockAvailability_row env state0 in
  if fPreferHeaderAndIDs state && (negb fWitnessEnabled || fWantsCmpctWitness state) then
    has ← PeerHasHeader env state (Some pindex_);
    if negb has then
      has_prev ← PeerHasHeader env state (pprev (blk env pindex_));
      if has_prev : bool
      then Some (set_pindexBestHeaderSent (Some pindex_) state, true)
      else Some (state, false)
    else Some (state, false)
  else Some (state, false).

(** The callback of [RelayCmpctBlock] over the nodes [ForEachNode] visits. *)
Fixpoint RelayCmpctBlock_nodes (pc : ProtoConsts) (env : ChainEnv)
    (INVALID_CB_NO_BAN_VERSION : Z) (pindex_ : BlockPtr) (fWitnessEnabled : bool)
    (nodes : list CNode) (st : GState) : option (GState * list RelayEvent) :=
  match nodes with
  | [] => Some (st, [])
  | pnode :: rest =>
      if (nVersion pnode <? INVALID_CB_NO_BAN_VERSION) || fDisconnect pnode then
        RelayCmpctBlock_nodes pc env INVALID_CB_NO_BAN_VERSION pindex_ fWitnessEnabled rest st
      else
        state0 ← State st (GetId pnode);
        '(state, sent) ← RelayCmpctBlock_row env pindex_ fWitnessEnabled state0;
        '(st', ev) ← RelayCmpctBlock_nodes pc env INVALID_CB_NO_BAN_VERSION pindex_
                       fWitnessEnabled rest (put_state (GetId pnode) state st);
        Some (st',
              (if sent : bool
               then [PushCmpctBlock (GetId pnode) (PROTOCOL_VERSION pc)
                       (phashBlock (blk env pindex_))]
               else []) ++ ev)
  end.

(** [PeerLogicValidation::RelayCmpctBlock(pindex, pcmpctblock, fWitnessEnabled)];
    [have_block] and [have_connman] say whether [pcmpctblock] and [connman]
    are non-null. *)
Definition RelayCmpctBlock (pc : ProtoConsts) (env : ChainEnv) (INVALID_CB_NO_BAN_VERSION : Z)
    (pindex_ : option BlockPtr) (have_block have_connman : bool) (fWitnessEnabled : bool)
    (nodes : list CNode) (st : GState) : option (bool * GState * list RelayEvent) :=
  match pindex_ with
  | Some p =>
      if have_block && have_connman then
        '(st', ev) ← RelayCmpctBlock_nodes pc env INVALID_CB_NO_BAN_VERSION p fWitnessEnabled
                       nodes st;
        Some (true, st', ev)
      else Some (false, st, [])
  | None => Some (false, st, [])
  end.

Definition relay_target (e : RelayEvent) : NodeId :=
  match e with
  | PushCmpctBlock pnode _ _ => pnode
  end.

(** The nodes the callback of [RelayCmpctBlock] does not skip. *)
Definition relay_visits (INVALID_CB_NO_BAN_VERSION : Z) (pnode : CNode) : bool :=
  negb ((nVersion pnode <? INVALID_CB_NO_BAN_VERSION) || fDisconnect pnode).

(** What [UpdatedBlockTip] asks of the connection manager and of the nodes. *)
Inductive TipEvent : Type :=
| SetBestHeight (nNewHeight : Z)
| PushBlockHash (pnode : NodeId) (h : uint256)
| WakeMessageHandler.

(** The [while] loop of [UpdatedBlockTip] that collects [vHashes]; [fuel]
    bounds the number of its iterations. *)
Fixpoint tip_hashes (env : ChainEnv) (fuel : nat) (pindexToAnnounce pindexFork : option BlockPtr)
    (vHashes : list uint256) : option (list uint256) :=
  if bool_decide (pindexToAnnounce = pindexFork) then Some vHashes
  else
    match fuel with
    | O => None
    | S fuel' =>
        p ← pindexToAnnounce;
        let vHashes1 := vHashes ++ [phashBlock (blk env p)] in
        if Z.of_nat (length vHashes1) =? MAX_BLOCKS_TO_ANNOUNCE then Some vHashes1
        else tip_hashes env fuel' (pprev (blk env p)) pindexFork vHashes1
    end.

(** [PeerLogicValidation::UpdatedBlockTip(pindexNew, pindexFork,
    fInitialDownload)]; [nodes] are the nodes [ForEachNode] visits, [nTime] is
    [GetTime()], and the result holds the new [nTimeBestReceived]. *)
Definition UpdatedBlockTip (env : ChainEnv) (fuel : nat) (nTime : Z)
    (pindexNew pindexFork : option BlockPtr) (fInitialDownload : bool) (nodes : list CNode)
  : option (Z * list TipEvent) :=
  pNew ← pindexNew;
  let nNewHeight := nHeight (blk env pNew) in
  relay ←
    (if negb fInitialDownload then
       vHashes ← tip_hashes env fuel pindexNew pindexFork [];
       Some (flat_map
               (fun pnode =>
                  if (if negb (nStartingHeight pnode =? -1)
                      then wrap32 (nStartingHeight pnode - 2000) else 0) <? nNewHeight
                  then PushBlockHash (GetId pnode) <$> rev vHashes
                  else [])
               nodes
             ++ [WakeMessageHandler])
     else Some []);
  Some (nTime, SetBestHeight nNewHeight :: relay).

(** The [n]-th predecessor of a block. *)
Fixpoint nth_back (env : ChainEnv) (n : nat) (p : option BlockPtr) : option BlockPtr :=
  match n with
  | O => p
  | S n' => nth_back env n' (p ≫= fun b => pprev (blk env b))
  end.

(** A node together with its [nTimeConnected], which [EvictExtraOutboundPeers]
    reads. *)
Record TimedNode := {
  tn_node :> CNode;
  nTimeConnected : Z  (* int64_t *)
}.

(** What the eviction of extra outbound peers and the stale-tip check ask of
    the connection manager and of the nodes. *)
Inductive TipCheckEvent : Type :=
| SetDisconnect (pnode : NodeId)
| SetTryNewOutboundPeer (flag : bool).

(** The body of the [ForEachNode] lambda of [EvictExtraOutboundPeers]; the
    accumulator holds [worst_peer] and [oldest_block_announcement]. *)
Definition evict_scan (st : GState) (acc : NodeId * Z) (pnode : TimedNode) : NodeId * Z :=
  if negb (IsOutboundDisconnectionCandidate pnode) || fDisconnect pnode then acc
  else
    match State st (GetId pnode) with
    | None => acc
    | Some state =>
        if m_protect (m_chain_sync state) then acc
        else if (m_last_block_announcement state <? acc.2)
                || ((m_last_block_announcement state =? acc.2) && (acc.1 <? GetId pnode))
        then (GetId pnode, m_last_block_announcement state)
        else acc
    end.

(** [PeerLogicValidation::EvictExtraOutboundPeers(time_in_seconds)];
    [extra_peers] is [connman->GetExtraOutboundCount()], [nodes] are the nodes
    [ForEachNode] visits and [ForNode] is the node look-up of the connection
    manager. *)
Definition EvictExtraOutboundPeers (MINIMUM_CONNECT_TIME : Z) (extra_peers : Z)
    (nodes : list TimedNode) (ForNode : NodeId -> option TimedNode)
    (time_in_seconds : Z) (st : GState) : option (list TipCheckEvent) :=
  if 0 <? extra_peers then
    let acc := foldl (evict_scan st) (-1, INT64_MAX) nodes in
    let worst_peer := acc.1 in
    if negb (worst_peer =? -1) then
      match ForNode worst_peer with
      | Some pnode =>
          state ← State st (GetId pnode);
          if (MINIMUM_CONNECT_TIME <? wrap64 (time_in_seconds - nTimeConnected pnode))
             && (nBlocksInFlight state =? 0)
          then Some [SetDisconnect (GetId pnode); SetTryNewOutboundPeer false]
          else Some []
      | None => Some []
      end
    else Some []
  else Some [].

(** The peers the scan of [EvictExtraOutboundPeers] considers. *)
Definition evictable (st : GState) (pnode : TimedNode) (state : CNodeState) : Prop :=
  IsOutboundDisconnectionCandidate pnode = true /\ fDisconnect pnode = false
  /\ State st (GetId pnode) = Some state /\ m_protect (m_chain_sync state) = false.

(** The variables of the stale-tip check: [g_last_tip_update],
    [m_stale_tip_check_time] and the flag of the connection manager behind
    [GetTryNewOutboundPeer] and [SetTryNewOutboundPeer]. *)
Record StaleTipState := {
  g_last_tip_update : Z;  (* int64_t *)
  m_stale_tip_check_time : Z;  (* int64_t *)
  fTryNewOutboundPeer : bool
}.

(** [PeerLogicValidation::BlockConnected]: the part that records the time of
    the tip update. *)
Definition BlockConnected (nTime : Z) (ts : StaleTipState) : StaleTipState :=
  {| g_last_tip_update := nTime; m_stale_tip_check_time := m_stale_tip_check_time ts;
     fTryNewOutboundPeer := fTryNewOutboundPeer ts |}.

(** [TipMayBeStale(consensusParams)]; [nTime1] and [nTime2] are the two
    readings of [GetTime()]. *)
Definition TipMayBeStale (nPowTargetSpacing : Z) (nTime1 nTime2 : Z) (st : GState)
    (ts : StaleTipState) : bool * StaleTipState :=
  let ts1 :=
    if g_last_tip_update ts =? 0
    then {| g_last_tip_update := nTime1; m_stale_tip_check_time := m_stale_tip_check_time ts;
            fTryNewOutboundPeer := fTryNewOutboundPeer ts |}
    else ts in
  ((g_last_tip_update ts1 <? wrap64 (nTime2 - wrap64 (nPowTargetSpacing * 3)))
   && bool_decide (mapBlocksInFlight st = ∅), ts1).

(** The effect of the calls of [SetTryNewOutboundPeer] among the events. *)
Definition apply_try_flag (ev : list TipCheckEvent) (flag : bool) : bool :=
  foldl (fun f e => match e with SetTryNewOutboundPeer b => b | _ => f end) flag ev.

(** [PeerLogicValidation::CheckForStaleTipAndEvictPeers(consensusParams)];
    [time_in_seconds] is the reading of [GetTime()] of this function. *)
Definition CheckForStaleTipAndEvictPeers (MINIMUM_CONNECT_TIME STALE_CHECK_INTERVAL : Z)
    (nPowTargetSpacing : Z) (have_connman : bool) (extra_peers : Z) (nodes : list TimedNode)
    (ForNode : NodeId -> option TimedNode) (time_in_seconds nTime1 nTime2 : Z)
    (st : GState) (ts : StaleTipState) : option (StaleTipState * list TipCheckEvent) :=
  if negb have_connman then Some (ts, [])
  else
    ev1 ← EvictExtraOutboundPeers MINIMUM_CONNECT_TIME extra_peers nodes ForNode
            time_in_seconds st;
    let ts1 := {| g_last_tip_update := g_last_tip_update ts;
                  m_stale_tip_check_time := m_stale_tip_check_time ts;
                  fTryNewOutboundPeer := apply_try_flag ev1 (fTryNewOutboundPeer ts) |} in
    if m_stale_tip_check_time ts1 <? time_in_seconds then
      let '(stale, ts2) := TipMayBeStale nPowTargetSpacing nTime1 nTime2 st ts1 in
      let ev2 :=
        if stale then [SetTryNewOutboundPeer true]
        else if fTryNewOutboundPeer ts2 then [SetTryNewOutboundPeer false]
        else [] in
      Some ({| g_last_tip_update := g_last_tip_update ts2;
               m_stale_tip_check_time := wrap64 (time_in_seconds + STALE_CHECK_INTERVAL);
               fTryNewOutboundPeer := apply_try_flag ev2 (fTryNewOutboundPeer ts2) |},
            ev1 ++ ev2)
    else Some (ts1, ev1).

(** Two outbound peers with rows: peer 7 last announced a block at time 50,
    peer 8 at time 20. *)
Definition ex_evict_table : GState :=
  put_state 8 (set_m_last_block_announcement 20 ex_row)
    (ex_table 7 (set_m_last_block_announcement 50 ex_row)).

Definition ex_timed (nodeid : NodeId) : TimedNode :=
  {| tn_node := ex_peer nodeid; nTimeConnected := 0 |}.

Definition ex_ForTimedNode (nodeid : NodeId) : option TimedNode :=
  if (nodeid =? 7) || (nodeid =? 8) then Some (ex_timed nodeid) else None.

(** The ping fields of [CNode]. *)
Record PingState := {
  fPingQueued : bool;
  nPingNonceSent : N;  (* uint64_t *)
  nPingUsecStart : Z;  (* int64_t *)
  nPingUsecTime : Z;  (* int64_t *)
  nMinPingUsecTime : Z  (* int64_t *)
}.

Inductive PingMsg : Type :=
| PING (nonce : option N)
| PONG (nonce : N).

(** The loop [while (nonce == 0) GetRandBytes(&nonce)] over the successive
    results of [GetRandBytes]. *)
Fixpoint draw_nonce (draws : list N) : option N :=
  match draws with
  | [] => None
  | nonce :: draws' => if (nonce =? 0)%N then draw_nonce draws' else Some nonce
  end.

(** The ping part of [PeerLogicValidation::SendMessages]; [PING_INTERVAL] is
    an [int] constant, [nTimeMicros1] and [nTimeMicros2] are the two readings
    of [GetTimeMicros()]. *)
Definition SendMessages_ping (PING_INTERVAL BIP0031_VERSION : Z) (nVersion_ : Z)
    (draws : list N) (nTimeMicros1 nTimeMicros2 : Z) (pto : PingState)
  : option (PingState * list PingMsg) :=
  let pingSend :=
    fPingQueued pto
    || ((nPingNonceSent pto =? 0)%N
        && (wrap64 (nPingUsecStart pto + wrap32 (PING_INTERVAL * 1000000)) <? nTimeMicros1)) in
  if pingSend then
    nonce ← draw_nonce draws;
    if BIP0031_VERSION <? nVersion_ then
      Some ({| fPingQueued := false; nPingNonceSent := nonce; nPingUsecStart := nTimeMicros2;
               nPingUsecTime := nPingUsecTime pto;
               nMinPingUsecTime := nMinPingUsecTime pto |},
            [PING (Some nonce)])
    else
      Some ({| fPingQueued := false; nPingNonceSent := 0; nPingUsecStart := nTimeMicros2;
               nPingUsecTime := nPingUsecTime pto;
               nMinPingUsecTime := nMinPingUsecTime pto |},
            [PING None])
  else Some (pto, []).

(** [PeerLogicValidation::ProcessPingMsg(pfrom, vRecv)]; [payload] is the
    nonce read from [vRecv], [None] when the stream is too short to hold one
    (the read throws). *)
Definition ProcessPingMsg (BIP0031_VERSION : Z) (nVersion_ : Z) (payload : option N)
  : option (bool * list PingMsg) :=
  if BIP0031_VERSION <? nVersion_ then
    nonce ← payload;
    Some (true, [PONG nonce])
  else Some (true, []).

(** [PeerLogicValidation::ProcessPongMsg(pfrom, vRecv, nTimeReceived)];
    [payload] is [None] when [vRecv.in_avail() < sizeof(nonce)]. *)
Definition ProcessPongMsg (payload : option N) (nTimeReceived : Z) (pfrom : PingState)
  : bool * PingState :=
  let finish (p : PingState) :=
    {| fPingQueued := fPingQueued p; nPingNonceSent := 0;
       nPingUsecStart := nPingUsecStart p; nPingUsecTime := nPingUsecTime p;
       nMinPingUsecTime := nMinPingUsecTime p |} in
  match payload with
  | Some nonce =>
      if negb (nPingNonceSent pfrom =? 0)%N then
        if (nonce =? nPingNonceSent pfrom)%N then
          let pingUsecTime := wrap64 (nTimeReceived - nPingUsecStart pfrom) in
          if 0 <? pingUsecTime then
            (true,
             finish {| fPingQueued := fPingQueued pfrom;
                       nPingNonceSent := nPingNonceSent pfrom;
                       nPingUsecStart := nPingUsecStart pfrom;
                       nPingUsecTime := pingUsecTime;
                       nMinPingUsecTime := Z.min (nMinPingUsecTime pfrom) pingUsecTime |})
          else (true, finish pfrom)
        else if (nonce =? 0)%N then (true, finish pfrom)
        else (true, pfrom)
      else (true, pfrom)
  | None => (true, finish pfrom)
  end.

Definition ex_ping_idle : PingState :=
  {| fPingQueued := false; nPingNonceSent := 0; nPingUsecStart := 0; nPingUsecTime := 0;
     nMinPingUsecTime := INT64_MAX |}.

(** An address as the address messages carry it: with its [nTime]. *)
Record CTimedAddress := {
  ta_addr :> CAddress;
  ta_nTime : Z  (* unsigned int *)
}.

(** What the address handlers ask of the nodes and of the connection
    manager. *)
Inductive AddrEvent : Type :=
| AddAddressKnown (pnode : NodeId) (a : CTimedAddress)
| PushTimedAddress (pnode : NodeId) (a : CTimedAddress)
| AddNewAddresses (vAddrOk : list CTimedAddress) (source : CAddress) (nTimePenalty : Z)
| ClearAddrToSend (pnode : NodeId).

(** [best], the array of two pairs of [RelayAddress]. *)
Definition RelayBest : Type := (N * option CNode) * (N * option CNode).

(** [sortfunc] of [RelayAddress]: the loop over [i < nRelayNodes], unrolled
    for the two slots of [best]; [hashKey pnode] is
    [CSipHasher(hasher).Write(pnode->GetId()).Finalize()]. The [std::copy]
    moves slot 0 to slot 1 when [nRelayNodes] is 2 and moves nothing when it
    is 1. *)
Definition RelayAddress_sortfunc (CADDR_TIME_VERSION : Z) (hashKey : NodeId -> N)
    (nRelayNodes : N) (best : RelayBest) (pnode : CNode) : RelayBest :=
  if CADDR_TIME_VERSION <=? nVersion pnode then
    let hashKey_ := hashKey (GetId pnode) in
    if (0 <? nRelayNodes)%N && (best.1.1 <? hashKey_)%N then
      ((hashKey_, Some pnode), if (1 <? nRelayNodes)%N then best.1 else best.2)
    else if (1 <? nRelayNodes)%N && (best.2.1 <? hashKey_)%N then
      (best.1, (hashKey_, Some pnode))
    else best
  else best.

(** [pushfunc] of [RelayAddress]. *)
Definition RelayAddress_pushfunc (addr_ : CTimedAddress) (nRelayNodes : N) (best : RelayBest)
  : option (list AddrEvent) :=
  if (0 <? nRelayNodes)%N && negb (best.1.1 =? 0)%N then
    p0 ← best.1.2;
    if (1 <? nRelayNodes)%N && negb (best.2.1 =? 0)%N then
      p1 ← best.2.2;
      Some [PushTimedAddress (GetId p0) addr_; PushTimedAddress (GetId p1) addr_]
    else Some [PushTimedAddress (GetId p0) addr_]
  else Some [].

(** [RelayAddress(addr, fReachable, connman)]; [nodes] are the nodes
    [ForEachNodeThen] visits. *)
Definition RelayAddress (CADDR_TIME_VERSION : Z) (hashKey : NodeId -> N)
    (addr_ : CTimedAddress) (fReachable : bool) (nodes : list CNode)
  : option (list AddrEvent) :=
  let nRelayNodes : N := if fReachable then 2%N else 1%N in
  let best :=
    foldl (RelayAddress_sortfunc CADDR_TIME_VERSION hashKey nRelayNodes)
      ((0%N, None), (0%N, None)) nodes in
  RelayAddress_pushfunc addr_ nRelayNodes best.

(** The nodes [sortfunc] of [RelayAddress] considers. *)
Definition relay_eligible (CADDR_TIME_VERSION : Z) (pnode : CNode) : Prop :=
  CADDR_TIME_VERSION <= nVersion pnode.

(** What [best] holds after the nodes [vis] were visited. *)
Definition relay_inv (CADDR_TIME_VERSION : Z) (hashKey : NodeId -> N) (two : bool)
    (vis : list CNode) (best : RelayBest) : Prop :=
  (forall p, p ∈ vis -> relay_eligible CADDR_TIME_VERSION p ->
     (hashKey (GetId p) <= best.1.1)%N)
  /\ (best.1.1 = 0%N -> best.1.2 = None /\ best.2 = (0%N, None))
  /\ (best.1.1 <> 0%N ->
      exists i a, vis !! i = Some a /\ best.1.2 = Some a
        /\ relay_eligible CADDR_TIME_VERSION a /\ hashKey (GetId a) = best.1.1
        /\ (two = true ->
            (best.2.1 <= best.1.1)%N
            /\ (forall j p, j <> i -> vis !! j = Some p ->
                  relay_eligible CADDR_TIME_VERSION p ->
                  (hashKey (GetId p) <= best.2.1)%N)
            /\ (best.2.1 <> 0%N ->
                exists j b, j <> i /\ vis !! j = Some b /\ best.2.2 = Some b
                            /\ relay_eligible CADDR_TIME_VERSION b
                            /\ hashKey (GetId b) = best.2.1)))
  /\ (best.2.1 = 0%N -> best.2.2 = None)
  /\ (two = false -> best.2 = (0%N, None)).

(** The [for] loop of [ProcessAddrMsg] over [vAddr]; [i] counts the
    iterations, [interruptMsgProc i] is the value of the flag read in
    iteration [i], [size] is [vAddr.size()]. The result is [None] in its first
    component when the loop returned early. *)
Fixpoint ProcessAddrMsg_loop (CADDR_TIME_VERSION : Z) (REQUIRED_SERVICES : N)
    (IsReachable : CTimedAddress -> bool) (hashKey : CTimedAddress -> NodeId -> N)
    (nodes : list CNode) (interruptMsgProc : nat -> bool) (pfrom : CNode) (size : nat)
    (nNow : Z) (i : nat) (vAddr vAddrOk : list CTimedAddress) (ev : list AddrEvent)
  : option (option (list CTimedAddress) * list AddrEvent) :=
  match vAddr with
  | [] => Some (Some vAddrOk, ev)
  | addr0 :: vAddr' =>
      if interruptMsgProc i then Some (None, ev)
      else if negb (N.land (addr_services addr0) REQUIRED_SERVICES =? REQUIRED_SERVICES)%N
      then ProcessAddrMsg_loop CADDR_TIME_VERSION REQUIRED_SERVICES IsReachable hashKey nodes
             interruptMsgProc pfrom size nNow (S i) vAddr' vAddrOk ev
      else
        let nSince := wrap64 (nNow - 10 * 60) in
        let addr1 :=
          if (ta_nTime addr0 <=? 100000000) || (wrap64 (nNow + 10 * 60) <? ta_nTime addr0)
          then {| ta_addr := ta_addr addr0;
                  ta_nTime := wrap64 (nNow - 5 * 24 * 60 * 60) mod 2 ^ 32 |}
          else addr0 in
        let fReachable := IsReachable addr1 in
        relay ←
          (if (nSince <? ta_nTime addr1) && negb (fGetAddr pfrom) && (size <=? 10)%nat
              && addr_IsRoutable addr1
           then RelayAddress CADDR_TIME_VERSION (hashKey addr1) addr1 fReachable nodes
           else Some []);
        ProcessAddrMsg_loop CADDR_TIME_VERSION REQUIRED_SERVICES IsReachable hashKey nodes
          interruptMsgProc pfrom size nNow (S i) vAddr'
          (if fReachable then vAddrOk ++ [addr1] else vAddrOk)
          (ev ++ AddAddressKnown (GetId pfrom) addr1 :: relay)
  end.

(** [PeerLogicValidation::ProcessAddrMsg(pfrom, vRecv, interruptMsgProc)];
    [vAddr] is the vector read from [vRecv], [nAddressCount] is
    [connman->GetAddressCount()] and [nNow] is [GetAdjustedTime()]. *)
Definition ProcessAddrMsg (CADDR_TIME_VERSION : Z) (REQUIRED_SERVICES : N) (banscore : Z)
    (IsReachable : CTimedAddress -> bool) (hashKey : CTimedAddress -> NodeId -> N)
    (nodes : list CNode) (interruptMsgProc : nat -> bool) (nAddressCount : N) (nNow : Z)
    (pfrom : CNode) (vAddr : list CTimedAddress) (st : GState)
  : option (bool * CNode * GState * list AddrEvent) :=
  if (nVersion pfrom <? CADDR_TIME_VERSION) && (1000 <? nAddressCount)%N
  then Some (true, pfrom, st, [])
  else if (1000 <? length vAddr)%nat
  then Some (false, pfrom, Misbehaving banscore (GetId pfrom) 20 st, [])
  else
    r ← ProcessAddrMsg_loop CADDR_TIME_VERSION REQUIRED_SERVICES IsReachable hashKey nodes
          interruptMsgProc pfrom (length vAddr) nNow 0 vAddr [] [];
    match r.1 with
    | None => Some (true, pfrom, st, r.2)
    | Some vAddrOk =>
        let pfrom1 := if (length vAddr <? 1000)%nat then set_fGetAddr false pfrom else pfrom in
        let pfrom2 := if fOneShot pfrom1 then set_fDisconnect true pfrom1 else pfrom1 in
        Some (true, pfrom2, st, r.2 ++ [AddNewAddresses vAddrOk (addr pfrom) (2 * 60 * 60)])
    end.

Definition is_PushTimedAddress (e : AddrEvent) : bool :=
  match e with PushTimedAddress _ _ => true | _ => false end.

Definition is_AddNewAddresses (e : AddrEvent) : bool :=
  match e with AddNewAddresses _ _ _ => true | _ => false end.

(** The addresses [ProcessAddrMsg] stores, relays and marks as known: the
    services are the required ones, and the time is the announced one when it
    is plausible and five days ago otherwise. *)
Definition addr_normalised (REQUIRED_SERVICES : N) (nNow : Z) (vAddr : list CTimedAddress)
    (a : CTimedAddress) : Prop :=
  N.land (addr_services a) REQUIRED_SERVICES = REQUIRED_SERVICES
  /\ exists a0, a0 ∈ vAddr /\ ta_addr a = ta_addr a0
       /\ (ta_nTime a = ta_nTime a0 /\ 100000000 < ta_nTime a <= wrap64 (nNow + 10 * 60)
           \/ ta_nTime a = wrap64 (nNow - 5 * 24 * 60 * 60) mod 2 ^ 32
              /\ (ta_nTime a0 <= 100000000 \/ wrap64 (nNow + 10 * 60) < ta_nTime a0)).

(** [PeerLogicValidation::ProcessGetAddrMsg(pfrom, vRecv)]; [fSentAddr] is
    the flag of the node and [vAddr] is [connman->GetAddresses()]. *)
Definition ProcessGetAddrMsg (pfrom : CNode) (vAddr : list CTimedAddress) (fSentAddr : bool)
  : bool * bool * list AddrEvent :=
  if negb (fInbound pfrom) then (true, fSentAddr, [])
  else if fSentAddr then (true, fSentAddr, [])
  else (true, true,
        ClearAddrToSend (GetId pfrom) :: (PushTimedAddress (GetId pfrom) <$> vAddr)).

(** A connection on which the [getaddr] messages answered by the address
    tables [tables] arrive one after the other. *)
Definition ProcessGetAddrMsg_all (pfrom : CNode) (tables : list (list CTimedAddress))
    (fSentAddr : bool) : bool * list AddrEvent :=
  foldl (fun acc vAddr =>
           let r := ProcessGetAddrMsg pfrom vAddr acc.1 in (r.1.2, acc.2 ++ r.2))
    (fSentAddr, []) tables.

(** What holds of an event of the loop of [ProcessAddrMsg]. *)
Definition addr_event_ok (REQUIRED_SERVICES : N) (nNow : Z) (pfrom : CNode)
    (vAddr : list CTimedAddress) (e : AddrEvent) : Prop :=
  match e with
  | AddAddressKnown pnode a =>
      pnode = GetId pfrom /\ addr_normalised REQUIRED_SERVICES nNow vAddr a
  | PushTimedAddress _ a =>
      (length vAddr <= 10)%nat /\ fGetAddr pfrom = false
      /\ addr_normalised REQUIRED_SERVICES nNow vAddr a
      /\ addr_IsRoutable a = true /\ wrap64 (nNow - 10 * 60) < ta_nTime a
  | _ => False
  end.

Definition ex_taddr (services : N) (nTime : Z) : CTimedAddress :=
  {| ta_addr := {| addr_key := 1; addr_services := services; addr_IsLocal := false;
                   addr_IsRoutable := true |};
     ta_nTime := nTime |}.

(** [UpdateLastBlockAnnounceTime(node, time_in_seconds)] *)
Definition UpdateLastBlockAnnounceTime (node : NodeId) (time_in_seconds : Z) (st : GState)
  : GState :=
  match State st node with
  | Some _ => upd_state node (set_m_last_block_announcement time_in_seconds) st
  | None => st
  end.

(** What [GetNodeStateStats] fills in. *)
Record CNodeStateStats := {
  stats_nMisbehavior : Z;  (* int *)
  stats_nSyncHeight : Z;  (* int *)
  stats_nCommonHeight : Z;  (* int *)
  stats_vHeightInFlight : list Z
}.

(** [GetNodeStateStats(nodeid, stats)]; [stats] is the value passed in. *)
Definition GetNodeStateStats (env : ChainEnv) (nodeid : NodeId) (stats : CNodeStateStats)
    (st : GState) : bool * CNodeStateStats :=
  match State st nodeid with
  | None => (false, stats)
  | Some state =>
      (true,
       {| stats_nMisbehavior := nMisbehavior state;
          stats_nSyncHeight :=
            match pindexBestKnownBlock state with
            | Some p => nHeight (blk env p)
            | None => -1
            end;
          stats_nCommonHeight :=
            match pindexLastCommonBlock state with
            | Some p => nHeight (blk env p)
            | None => -1
            end;
          stats_vHeightInFlight :=
            stats_vHeightInFlight stats
            ++ omap (fun e => (fun p => nHeight (blk env p)) <$> pindex e.2)
                 (vBlocksInFlight state) |})
  end.

(** [GetInFlightBlockCount()] *)
Definition GetInFlightBlockCount (st : GState) : Z :=
  wrap32 (Z.of_nat (size (mapBlocksInFlight st))).

(** [DoseBlockInFlight(hash)] *)
Definition DoseBlockInFlight (h : uint256) (st : GState) : bool :=
  bool_decide (is_Some (mapBlocksInFlight st !! h)).

(** The hashes of the blocks queued by the peers of a table, peer by peer. *)
Definition queued_hashes (m : gmap NodeId CNodeState) : list uint256 :=
  map_to_list m ≫= fun ps => (fun e => hash e.2) <$> vBlocksInFlight ps.2.

(** * Properties *)

(** The new row agrees with the old one on the tracked fields, by
    computation. *)
Ltac same_tracked :=
  unfold same_tracked, is_protected; simpl;
  repeat match goal with
         | |- context [if ?b then _ else _] => destruct b
         | |- context [match ?x with _ => _ end] => destruct x
         end;
  repeat split; reflexivity.

(** ** Machine integers *)

#[global] Arguments wrap32 : simpl never.
#[global] Arguments wrap64 : simpl never.
#[global] Arguments tally : simpl never.

Lemma wrap32_id z : int_range z -> wrap32 z = z.
Proof.
  unfold int_range, INT_MIN, INT_MAX, wrap32. intros H.
  rewrite Z.mod_small; lia.
Qed.

Lemma wrap64_id z : int64_range z -> wrap64 z = z.
Proof.
  unfold int64_range, INT64_MIN, INT64_MAX, wrap64. intros H.
  rewrite Z.mod_small; lia.
Qed.

Lemma wrap32_range z : int_range (wrap32 z).
Proof.
  unfold int_range, INT_MIN, INT_MAX, wrap32.
  pose proof (Z.mod_pos_bound (z + 2 ^ 31) (2 ^ 32)). lia.
Qed.

(** ** The peer table *)

Lemma State_upd_state_eq pnode f st :
  State (upd_state pnode f st) pnode = f <$> State st pnode.
Proof. unfold State, upd_state. simpl. apply lookup_alter_eq. Qed.

Lemma State_upd_state_ne pnode pnode' f st :
  pnode ≠ pnode' -> State (upd_state pnode f st) pnode' = State st pnode'.
Proof. intros H. unfold State, upd_state. simpl. by apply lookup_alter_ne. Qed.

Lemma upd_state_id pnode f st :
  (forall s, State st pnode = Some s -> f s = s) -> upd_state pnode f st = st.
Proof.
  intros H. unfold upd_state. rewrite alter_id by exact H. by destruct st.
Qed.

(** ** Misbehaviour and banning *)

Lemma State_put_state_eq pnode s st : State (put_state pnode s st) pnode = Some s.
Proof. unfold State, put_state. simpl. apply lookup_insert_eq. Qed.

Lemma State_put_state_ne pnode pnode' s st :
  pnode ≠ pnode' -> State (put_state pnode s st) pnode' = State st pnode'.
Proof. intros H. unfold State, put_state. simpl. by apply lookup_insert_ne. Qed.

Lemma put_state_id pnode s st : State st pnode = Some s -> put_state pnode s st = st.
Proof.
  intros H. unfold put_state. rewrite insert_id by exact H. by destruct st.
Qed.

Lemma upd_state_put pnode f st s :
  State st pnode = Some s -> upd_state pnode f st = put_state pnode (f s) st.
Proof.
  intros H. unfold upd_state, put_state. f_equal.
  apply map_eq. intros i. destruct (decide (pnode = i)) as [->|Hne].
  - rewrite lookup_alter_eq, lookup_insert_eq. unfold State in H. by rewrite H.
  - by rewrite lookup_alter_ne, lookup_insert_ne.
Qed.

(** ** Misbehaviour and banning *)

Lemma Misbehaving_State banscore pnode howmuch st state :
  State st pnode = Some state -> howmuch ≠ 0 ->
  State (Misbehaving banscore pnode howmuch st) pnode
  = Some (let state1 := set_nMisbehavior (wrap32 (nMisbehavior state + howmuch)) state in
          if (banscore <=? nMisbehavior state1)
             && (wrap32 (nMisbehavior state1 - howmuch) <? banscore)
          then set_fShouldBan true state1 else state1).
Proof.
  intros Hs Hne. unfold Misbehaving.
  destruct (Z.eqb_spec howmuch 0) as [|_]; [done|].
  rewrite Hs. cbv zeta. apply State_put_state_eq.
Qed.

Lemma Misbehaving_State_ne banscore pnode pnode' howmuch st :
  pnode ≠ pnode' ->
  State (Misbehaving banscore pnode howmuch st) pnode' = State st pnode'.
Proof.
  intros Hne. unfold Misbehaving.
  destruct (howmuch =? 0); [done|].
  destruct (State st pnode); [|done]. cbv zeta.
  by rewrite State_put_state_ne.
Qed.

Lemma SendRejectsAndCheckIfBanned_State pc pnode st r pnode' st' ev :
  SendRejectsAndCheckIfBanned pc pnode st = Some (r, pnode', st', ev) ->
  exists state,
    State st (GetId pnode) = Some state
    /\ GetId pnode' = GetId pnode
    /\ r = fShouldBan state
    /\ State st' (GetId pnode) = Some (set_fShouldBan false (set_rejects [] state)).
Proof.
  unfold SendRejectsAndCheckIfBanned. intros H.
  destruct (State st (GetId pnode)) as [state|] eqn:Hs; [|done].
  simpl in H. exists state. split; [done|].
  destruct (fShouldBan state) eqn:Hb.
  - repeat match type of H with
           | context [if ?b then _ else _] => destruct b
           end; simplify_eq; by rewrite State_put_state_eq.
  - simplify_eq. split; [done|]. split; [done|].
    rewrite State_put_state_eq. f_equal.
    destruct state; simpl in *; by subst.
Qed.

Lemma SendRejectsAndCheckIfBanned_quiet pc pnode st state :
  State st (GetId pnode) = Some state ->
  fShouldBan state = false -> rejects state = [] ->
  SendRejectsAndCheckIfBanned pc pnode st = Some (false, pnode, st, []).
Proof.
  intros Hs Hb Hr. unfold SendRejectsAndCheckIfBanned.
  rewrite Hs. simpl. rewrite Hb, Hr. simpl.
  rewrite put_state_id; [done|].
  rewrite Hs. f_equal. destruct state; simpl in *; by subst.
Qed.

Lemma SendRejectsAndCheckIfBanned_returns pc pnode st state :
  State st (GetId pnode) = Some state ->
  exists pnode' st' ev,
    SendRejectsAndCheckIfBanned pc pnode st = Some (fShouldBan state, pnode', st', ev)
    /\ (length (List.filter is_Ban ev) <= 1)%nat
    /\ (fShouldBan state = false -> pnode' = pnode /\ List.filter is_Ban ev = []).
Proof.
  intros Hs. unfold SendRejectsAndCheckIfBanned. rewrite Hs. cbn [mbind option_bind]. cbv zeta.
  assert (forall l : list CBlockReject,
            List.filter is_Ban
              (map (fun reject =>
                      PushMessage (GetId pnode) (INIT_PROTO_VERSION pc)
                        (REJECT "block" (chRejectCode reject) (strRejectReason reject)
                           (Some (hashBlock reject)))) l) = []) as Hnone.
  { induction l as [|r l IH]; [done|]. simpl. exact IH. }
  destruct (fShouldBan state).
  - repeat match goal with
           | |- context [if ?b then _ else _] => destruct b
           end;
      eexists _, _, _; (split; [reflexivity|]);
      rewrite ?List.filter_app, ?Hnone; simpl; (split; [lia | done]).
  - eexists _, _, _. split; [reflexivity|]. rewrite Hnone. simpl. split; [lia | done].
Qed.

(** C2: a call of [Misbehaving] with a positive score never lowers the
    misbehaviour score of a connected peer; it sets [fShouldBan] exactly when
    the score moves from below the ban threshold to the threshold or above;
    [SendRejectsAndCheckIfBanned] then returns the flag, bans at most once
    (and neither bans nor disconnects when the flag is clear) and clears the
    flag, so that a further call returns [false], leaves the peer and the
    table as they are and calls nothing. *)
Theorem Misbehaving_monotonic_ban_once pc banscore pnode howmuch st state :
  State st (GetId pnode) = Some state ->
  0 < howmuch ->
  int_range (nMisbehavior state) ->
  nMisbehavior state + howmuch <= INT_MAX ->
  exists state1,
    State (Misbehaving banscore (GetId pnode) howmuch st) (GetId pnode) = Some state1
    /\ nMisbehavior state1 = nMisbehavior state + howmuch
    /\ nMisbehavior state <= nMisbehavior state1
    /\ fShouldBan state1
       = fShouldBan state
         || ((banscore <=? nMisbehavior state1) && (nMisbehavior state <? banscore))
    /\ exists pnode' st2 ev state2,
         SendRejectsAndCheckIfBanned pc pnode
           (Misbehaving banscore (GetId pnode) howmuch st)
         = Some (fShouldBan state1, pnode', st2, ev)
         /\ (length (List.filter is_Ban ev) <= 1)%nat
         /\ (fShouldBan state1 = false -> pnode' = pnode /\ List.filter is_Ban ev = [])
         /\ State st2 (GetId pnode) = Some state2
         /\ fShouldBan state2 = false
         /\ nMisbehavior state2 = nMisbehavior state1
         /\ SendRejectsAndCheckIfBanned pc pnode' st2 = Some (false, pnode', st2, []).
Proof.
  intros Hs Hpos Hrange Hmax.
  assert (wrap32 (nMisbehavior state + howmuch) = nMisbehavior state + howmuch) as Hw.
  { apply wrap32_id. unfold int_range, INT_MIN, INT_MAX in *. lia. }
  assert (wrap32 (nMisbehavior state + howmuch - howmuch) = nMisbehavior state) as Hw'.
  { replace (nMisbehavior state + howmuch - howmuch) with (nMisbehavior state) by lia.
    by apply wrap32_id. }
  pose proof (Misbehaving_State banscore _ howmuch _ _ Hs ltac:(lia)) as Hs1.
  cbv zeta in Hs1. cbn [nMisbehavior set_nMisbehavior] in Hs1. rewrite Hw, Hw' in Hs1.
  eexists. split; [exact Hs1|].
  split; [by destruct (_ && _)|].
  split; [destruct (_ && _); simpl; lia|].
  split.
  { destruct (_ && _) eqn:Hc; simpl; rewrite ?Hc; [by rewrite orb_true_r|].
    by rewrite orb_false_r. }
  destruct (SendRejectsAndCheckIfBanned_returns pc _ _ _ Hs1)
    as (pnode' & st2 & ev & Hsend & Hone & Hquiet).
  apply SendRejectsAndCheckIfBanned_State in Hsend as Hst.
  destruct Hst as (s1 & Hs1' & Hid & _ & Hs2).
  rewrite Hs1 in Hs1'. injection Hs1' as <-.
  eexists pnode', st2, ev, _. split; [exact Hsend|]. split; [exact Hone|].
  split; [exact Hquiet|]. split; [exact Hs2|]. split; [done|].
  split; [by destruct (_ && _)|].
  eapply SendRejectsAndCheckIfBanned_quiet; [rewrite Hid; exact Hs2 | done | done].
Qed.

(** A peer at score 90 that misbehaves by 20 under the default threshold. *)
Lemma Misbehaving_monotonic_ban_once_witness :
  exists state1,
    State (Misbehaving 100 7 20 (ex_table 7 (set_nMisbehavior 90 ex_row))) 7 = Some state1
    /\ nMisbehavior state1 = 110
    /\ fShouldBan state1 = true.
Proof.
  destruct (Misbehaving_monotonic_ban_once ex_pc 100 (ex_node 7 false) 20
              (ex_table 7 (set_nMisbehavior 90 ex_row)) (set_nMisbehavior 90 ex_row))
    as (state1 & H1 & H2 & _ & H4 & _).
  - reflexivity.
  - lia.
  - unfold int_range, INT_MIN, INT_MAX. simpl. lia.
  - unfold INT_MAX. simpl. lia.
  - exists state1. split; [exact H1|]. split; [exact H2|].
    rewrite H4, H2. reflexivity.
Defined.

(** ** Blocks in flight *)

Lemma MarkBlockAsReceived_not_in_flight nNow h st r st' :
  MarkBlockAsReceived nNow h st = Some (r, st') -> mapBlocksInFlight st' !! h = None.
Proof.
  unfold MarkBlockAsReceived. intros H.
  destruct (mapBlocksInFlight st !! h) as [[peer it]|] eqn:Hin.
  - destruct (State st peer) as [state|]; [|done]. simpl in H.
    destruct (list_deref it (vBlocksInFlight state)) as [entry|]; [|done]. simpl in H.
    injection H as _ <-. simpl. apply lookup_delete_eq.
  - by injection H as _ <-.
Qed.

Lemma MarkBlockAsInFlight_again nNow nodeid h pindex_ want_pit st it :
  is_Some (State st nodeid) ->
  mapBlocksInFlight st !! h = Some (nodeid, it) ->
  MarkBlockAsInFlight nNow nodeid h pindex_ want_pit st
  = Some (false, if want_pit then Some it else None, st).
Proof.
  intros [s Hs] Hin. unfold MarkBlockAsInFlight.
  rewrite Hs. simpl. rewrite Hin. by rewrite Z.eqb_refl.
Qed.

Lemma MarkBlockAsInFlight_result nNow nodeid h pindex_ want_pit st r pit st1 :
  MarkBlockAsInFlight nNow nodeid h pindex_ want_pit st = Some (r, pit, st1) ->
  exists it,
    is_Some (State st1 nodeid)
    /\ mapBlocksInFlight st1 !! h = Some (nodeid, it)
    /\ pit = if want_pit then Some it else None.
Proof.
  unfold MarkBlockAsInFlight. intros H.
  destruct (State st nodeid) as [state|] eqn:Hs; [|done]. simpl in H.
  destruct (match mapBlocksInFlight st !! h with
            | Some (peer, it) => if peer =? nodeid then Some it else None
            | None => None
            end) as [it|] eqn:Hshort.
  - injection H as <- <- <-. exists it. split; [by eexists|]. split; [|done].
    destruct (mapBlocksInFlight st !! h) as [[peer it']|]; [|done].
    destruct (Z.eqb_spec peer nodeid); by simplify_eq.
  - clear Hshort.
    destruct (MarkBlockAsReceived nNow h st) as [[r0 st0]|] eqn:Hrecv; [|done].
    simpl in H. pose proof (MarkBlockAsReceived_not_in_flight _ _ _ _ _ Hrecv) as Hnone.
    destruct (State st0 nodeid) as [state0|] eqn:Hs0; [|done]. simpl in H.
    injection H as <- <- <-.
    exists (next_list_node st0).
    assert (forall (b : bool) m,
               m !! h = None ->
               map_insert_new h (nodeid, next_list_node st0) m !! h
               = Some (nodeid, next_list_node st0)) as Hins.
    { intros _ m Hm. unfold map_insert_new. rewrite Hm. apply lookup_insert_eq. }
    split; [|split].
    + unfold State; simpl; rewrite lookup_insert_eq; by eexists.
    + simpl; by apply Hins.
    + destruct want_pit; [|done]. simpl; rewrite Hins; done.
Qed.

(** ** Headers messages *)

Lemma headers_continuity_broken env hashLastBlock headers :
  hashes_not_null env headers -> headers_broken env headers ->
  headers_continuity env hashLastBlock headers = None.
Proof.
  revert hashLastBlock. induction headers as [|h1 rest IH]; intros hl Hnn Hbr.
  - destruct Hbr as (i & ? & ? & Hi & _). by destruct i.
  - simpl. destruct (negb (IsNull hl) && negb (hashPrevBlock h1 =? hl)%N); [done|].
    destruct Hbr as (i & a & b & Ha & Hb & Hne).
    assert (hashes_not_null env rest) as Hnn'.
    { intros x Hx. apply Hnn. by right. }
    destruct i as [|i].
    + simpl in Ha, Hb. injection Ha as ->.
      destruct rest as [|h2 rest']; [done|]. simpl in Hb. injection Hb as ->.
      simpl. unfold IsNull.
      destruct (N.eqb_spec (GetHash env a) 0) as [Hz|_].
      { exfalso. eapply Hnn; [|exact Hz]. by left. }
      destruct (N.eqb_spec (hashPrevBlock b) (GetHash env a)); done.
    + apply IH; [done|]. by exists i, a, b.
Qed.

(** C5: when the parent of the first header of a batch is known and some
    header of the batch does not name the hash of the header before it as its
    predecessor, [ProcessHeadersMessage] returns [false] without calling the
    chain engine or the connection manager, and the only change to the peer
    table is that the misbehaviour score of the sender went up by 20 (in [int]
    arithmetic, hence by exactly 20 when that does not overflow). Header
    hashes are taken not to be the null hash. *)
Theorem ProcessHeadersMessage_broken_batch pc env verdict banscore fuel nNow nTime nAdjusted
    pfrom headers punish st state first rest :
  headers = first :: rest ->
  DoesBlockExist env (hashPrevBlock first) = true ->
  hashes_not_null env headers ->
  headers_broken env headers ->
  State st (GetId pfrom) = Some state ->
  exists st1 state1,
    ProcessHeadersMessage pc env verdict banscore fuel nNow nTime nAdjusted pfrom headers
      punish st = Some (false, pfrom, st1, [])
    /\ st1 = Misbehaving banscore (GetId pfrom) 20 st
    /\ State st1 (GetId pfrom) = Some state1
    /\ nMisbehavior state1 = wrap32 (nMisbehavior state + 20)
    /\ (int_range (nMisbehavior state) -> nMisbehavior state + 20 <= INT_MAX ->
        nMisbehavior state1 = nMisbehavior state + 20)
    /\ (forall other, other ≠ GetId pfrom -> State st1 other = State st other).
Proof.
  intros -> Hknown Hnn Hbr Hs.
  unfold ProcessHeadersMessage. rewrite Hknown. cbn [negb andb].
  rewrite (headers_continuity_broken _ _ _ Hnn Hbr).
  eexists _, _. split; [reflexivity|]. split; [reflexivity|].
  split; [by apply Misbehaving_State|].
  cbv zeta. split; [by destruct (_ && _)|]. split.
  - intros Hr Hm. destruct (_ && _); cbn [nMisbehavior set_nMisbehavior set_fShouldBan];
      apply wrap32_id; unfold int_range, INT_MIN, INT_MAX in *; lia.
  - intros other Hne. by apply Misbehaving_State_ne.
Qed.

(** ** Rows of the peer table across the headers handler *)

Lemma MarkBlockAsReceived_rows {A} (f : CNodeState -> A) nNow h st r st' :
  queue_blind f ->
  MarkBlockAsReceived nNow h st = Some (r, st') ->
  forall pnode, f <$> State st' pnode = f <$> State st pnode.
Proof.
  intros Hf H pnode. unfold MarkBlockAsReceived in H.
  destruct (mapBlocksInFlight st !! h) as [[peer it]|]; [|by simplify_eq].
  destruct (State st peer) as [state|] eqn:Hs; [|done]. simpl in H.
  destruct (list_deref it (vBlocksInFlight state)) as [entry|]; [|done]. simpl in H.
  injection H as _ <-.
  change (State (set_mapBlocksInFlight ?x (set_nPeersWithValidatedDownloads ?y ?z)) pnode)
    with (State z pnode).
  destruct (decide (peer = pnode)) as [->|Hne].
  - rewrite State_put_state_eq, Hs. simpl. f_equal. apply Hf.
  - by rewrite State_put_state_ne.
Qed.

Lemma MarkBlockAsInFlight_rows {A} (f : CNodeState -> A) nNow nodeid h p w st r pit st' :
  queue_blind f ->
  MarkBlockAsInFlight nNow nodeid h p w st = Some (r, pit, st') ->
  forall pnode, f <$> State st' pnode = f <$> State st pnode.
Proof.
  intros Hf H pnode. unfold MarkBlockAsInFlight in H.
  destruct (State st nodeid) as [state|] eqn:Hs; [|done]. simpl in H.
  destruct (match mapBlocksInFlight st !! h with
            | Some (peer, it) => if peer =? nodeid then Some it else None
            | None => None
            end) as [it|].
  - by simplify_eq.
  - destruct (MarkBlockAsReceived nNow h st) as [[r0 st0]|] eqn:Hrecv; [|done].
    simpl in H.
    destruct (State st0 nodeid) as [state0|] eqn:Hs0; [|done]. simpl in H.
    injection H as _ _ <-.
    rewrite <- (MarkBlockAsReceived_rows f _ _ _ _ _ Hf Hrecv).
    change (State (set_mapBlocksInFlight ?x (set_nPeersWithValidatedDownloads ?y ?z)) pnode)
      with (State z pnode).
    destruct (decide (nodeid = pnode)) as [->|Hne].
    + rewrite State_put_state_eq, Hs0. simpl. f_equal. apply Hf.
    + by rewrite State_put_state_ne.
Qed.

Lemma direct_fetch_request_rows {A} (f : CNodeState -> A) pc env nNow pfrom blocks vGetData
    st vGetData' st' :
  queue_blind f ->
  direct_fetch_request pc env nNow pfrom blocks vGetData st = Some (vGetData', st') ->
  forall pnode, f <$> State st' pnode = f <$> State st pnode.
Proof.
  intros Hf. revert vGetData st. induction blocks as [|b rest IH]; intros vGetData st H pnode.
  - by simplify_eq/=.
  - simpl in H.
    destruct (State st (GetId pfrom)) as [nodestate|]; [|done]. simpl in H.
    destruct (MAX_BLOCKS_IN_TRANSIT_PER_PEER <=? nBlocksInFlight nodestate);
      [by simplify_eq|].
    destruct (GetFetchFlags pc pfrom st) as [flags|]; [|done]. simpl in H.
    destruct (MarkBlockAsInFlight _ _ _ _ _ st) as [[[r0 pit0] st0]|] eqn:Hm; [|done].
    simpl in H. rewrite (IH _ _ H).
    by eapply MarkBlockAsInFlight_rows.
Qed.

Lemma ProcessHeaders_direct_fetch_rows {A} (f : CNodeState -> A) pc env fuel nNow nAdjusted
    pfrom pindexLast st st' ev :
  queue_blind f ->
  ProcessHeaders_direct_fetch pc env fuel nNow nAdjusted pfrom pindexLast st = Some (st', ev) ->
  forall pnode, f <$> State st' pnode = f <$> State st pnode.
Proof.
  intros Hf H pnode. unfold ProcessHeaders_direct_fetch in H.
  destruct (CanDirectFetch env nAdjusted) as [can|]; [|done]. simpl in H.
  destruct (Tip env) as [tip|]; [|done]. simpl in H.
  destruct (can && _ && _); [|by simplify_eq].
  destruct (direct_fetch_walk _ _ _ _ _ _ _) as [[walk vToFetch]|]; [|done]. simpl in H.
  destruct walk as [stop|]; [|done]. simpl in H.
  destruct (negb (Contains env stop)); [by simplify_eq|].
  destruct (direct_fetch_request _ _ _ _ _ _ _) as [[vGetData st1]|] eqn:Hreq; [|done].
  simpl in H.
  pose proof (direct_fetch_request_rows f _ _ _ _ _ _ _ _ _ Hf Hreq pnode) as Hrows.
  destruct vGetData as [|first others]; [by simplify_eq|].
  destruct (State st1 (GetId pfrom)) as [nodestate|]; [|done]. simpl in H.
  destruct (_ && _ && _) in H; simpl in H.
  - destruct (pprev (blk env pindexLast)); [|done]. simpl in H. by simplify_eq.
  - by simplify_eq.
Qed.

Lemma ProcessHeaders_protect_rows {A} (f : CNodeState -> A) env pfrom st st' :
  (forall cs s, f (set_m_chain_sync cs s) = f s) ->
  ProcessHeaders_protect env pfrom st = Some st' ->
  forall pnode, f <$> State st' pnode = f <$> State st pnode.
Proof.
  intros Hf H pnode. unfold ProcessHeaders_protect in H.
  destruct (State st (GetId pfrom)) as [nodestate|] eqn:Hs; [|done]. simpl in H.
  destruct (_ && _); [|by simplify_eq].
  destruct (pindexBestKnownBlock nodestate) as [best|]; [|by simplify_eq].
  destruct (_ <? _); [|by simplify_eq].
  destruct (Tip env) as [tip|]; [|done]. simpl in H.
  destruct (_ && _); [|by simplify_eq].
  injection H as <-.
  change (State (set_g_outbound_peers_with_protect_from_disconnect ?x ?y) pnode)
    with (State y pnode).
  destruct (decide (GetId pfrom = pnode)) as [<-|Hne].
  - rewrite State_upd_state_eq, Hs. simpl. f_equal. apply Hf.
  - by rewrite State_upd_state_ne.
Qed.

Lemma UpdateBlockAvailability_rows {A} (f : CNodeState -> A) env nodeid h st st' :
  (forall v s, f (set_pindexBestKnownBlock v s) = f s) ->
  (forall v s, f (set_hashLastUnknownBlock v s) = f s) ->
  UpdateBlockAvailability env nodeid h st = Some st' ->
  forall pnode, f <$> State st' pnode = f <$> State st pnode.
Proof.
  intros Hf1 Hf2 H pnode. unfold UpdateBlockAvailability in H.
  destruct (State st nodeid) as [state|] eqn:Hs; [|done]. simpl in H.
  injection H as <-.
  destruct (decide (nodeid = pnode)) as [<-|Hne].
  - rewrite State_put_state_eq, Hs. simpl. f_equal.
    unfold UpdateBlockAvailability_row, ProcessBlockAvailability_row.
    repeat match goal with
           | |- context [match ?x with _ => _ end] => destruct x
           end; rewrite ?Hf1, ?Hf2; done.
  - by rewrite State_put_state_ne.
Qed.

Lemma nUnconnectingHeaders_queue_blind : queue_blind nUnconnectingHeaders.
Proof.
  intros nNow it entry s. unfold dequeue, enqueue. cbv zeta.
  split; repeat match goal with
                | |- context [if ?b then _ else _] => destruct b
                end; reflexivity.
Qed.

Lemma ProcessHeaders_accepted_streak pc env fuel nNow nTime nAdjusted pfrom nCount recv
    pindexLast st r pfrom' st' ev :
  ProcessHeaders_accepted pc env fuel nNow nTime nAdjusted pfrom nCount recv pindexLast st
  = Some (r, pfrom', st', ev) ->
  r = true /\ nUnconnectingHeaders <$> State st' (GetId pfrom) = Some 0.
Proof.
  unfold ProcessHeaders_accepted. intros H.
  destruct (State st (GetId pfrom)) as [state|] eqn:Hs; [|done]. simpl in H.
  destruct pindexLast as [pindexLast|]; [|done]. simpl in H.
  destruct (UpdateBlockAvailability _ _ _ _) as [st2|] eqn:Hu; [|done]. simpl in H.
  destruct (Tip env) as [tip|]; [|done]. simpl in H.
  destruct (ProcessHeaders_direct_fetch _ _ _ _ _ _ _ _) as [[st4 fetch]|] eqn:Hd; [|done].
  simpl in H.
  destruct (ProcessHeaders_ibd_cull _ _ _ _) as [pfrom1|] eqn:Hc; [|done]. simpl in H.
  destruct (ProcessHeaders_protect _ _ _) as [st5|] eqn:Hp; [|done]. simpl in H.
  injection H as <- <- <- <-. split; [done|].
  assert (GetId pfrom1 = GetId pfrom) as Hid.
  { unfold ProcessHeaders_ibd_cull in Hc.
    destruct (State st4 (GetId pfrom)); [|done]. simpl in Hc.
    repeat match type of Hc with
           | context [if ?b then _ else _] => destruct b
           | context [match ?x with _ => _ end] => destruct x
           end; by simplify_eq. }
  rewrite (ProcessHeaders_protect_rows nUnconnectingHeaders _ _ _ _ ltac:(done) Hp).
  rewrite (ProcessHeaders_direct_fetch_rows nUnconnectingHeaders _ _ _ _ _ _ _ _ _ _
             nUnconnectingHeaders_queue_blind Hd).
  match type of Hd with
  | ProcessHeaders_direct_fetch _ _ _ _ _ _ _ (if ?b then ?x else ?y) = _ =>
      assert (nUnconnectingHeaders <$> State (if b then x else y) (GetId pfrom)
              = nUnconnectingHeaders <$> State st2 (GetId pfrom)) as ->
  end.
  { destruct (_ && _); [|done].
    destruct (State st2 (GetId pfrom)) as [s2|] eqn:Hs2.
    - by rewrite State_upd_state_eq, Hs2.
    - by rewrite State_upd_state_eq, Hs2. }
  rewrite (UpdateBlockAvailability_rows nUnconnectingHeaders _ _ _ _ _
             ltac:(done) ltac:(done) Hu).
  by rewrite State_upd_state_eq, Hs.
Qed.

(** C6 (amended): a non-empty batch of fewer than [MAX_BLOCKS_TO_ANNOUNCE]
    headers whose first header has an unknown parent is answered with one
    [getheaders], increments the streak of unconnecting headers, adds 20 to
    the misbehaviour score exactly when the new streak is a multiple of
    [MAX_UNCONNECTING_HEADERS], and records the hash of the last header as
    the last unknown block of the peer when that hash is not in the block
    index with chain work; and a batch that is not handled as such an
    announcement and is processed successfully leaves the streak at 0. *)
Theorem ProcessHeadersMessage_unconnecting pc env verdict banscore fuel nNow nTime nAdjusted
    pfrom headers punish st state first rest :
  headers = first :: rest ->
  State st (GetId pfrom) = Some state ->
  (DoesBlockExist env (hashPrevBlock first) = false ->
   Z.of_nat (length headers) < MAX_BLOCKS_TO_ANNOUNCE ->
   exists st1 state1,
     ProcessHeadersMessage pc env verdict banscore fuel nNow nTime nAdjusted pfrom headers
       punish st
     = Some (true, pfrom, st1,
             [PushMessage (GetId pfrom) (nSendVersion pfrom)
                (GETHEADERS (GetIndexBestHeader env) 0%N)])
     /\ State st1 (GetId pfrom) = Some state1
     /\ nUnconnectingHeaders state1 = wrap32 (nUnconnectingHeaders state + 1)
     /\ (is_indexed env (GetHash env (List.last headers first)) = false ->
         hashLastUnknownBlock state1 = GetHash env (List.last headers first))
     /\ nMisbehavior state1
        = if Z.rem (nUnconnectingHeaders state1) MAX_UNCONNECTING_HEADERS =? 0
          then wrap32 (nMisbehavior state + 20) else nMisbehavior state)
  /\ (DoesBlockExist env (hashPrevBlock first) = true
      \/ MAX_BLOCKS_TO_ANNOUNCE <= Z.of_nat (length headers) ->
      forall pfrom' st' ev,
        ProcessHeadersMessage pc env verdict banscore fuel nNow nTime nAdjusted pfrom headers
          punish st = Some (true, pfrom', st', ev) ->
        exists state', State st' (GetId pfrom) = Some state'
                       /\ nUnconnectingHeaders state' = 0).
Proof.
  intros -> Hs. split.
  - intros Hunk Hlen. unfold ProcessHeadersMessage.
    rewrite Hunk. apply Z.ltb_lt in Hlen. rewrite Hlen. cbn [negb andb].
    rewrite Hs. cbn [mbind option_bind].
    rewrite (upd_state_put _ _ _ _ Hs).
    unfold UpdateBlockAvailability. rewrite State_put_state_eq. cbn [mbind option_bind].
    rewrite State_put_state_eq. cbn [mbind option_bind].
    set (row := UpdateBlockAvailability_row env _ _).
    assert (nUnconnectingHeaders row = wrap32 (nUnconnectingHeaders state + 1)) as Hstreak.
    { unfold row, UpdateBlockAvailability_row, ProcessBlockAvailability_row.
      repeat match goal with
             | |- context [match ?x with _ => _ end] => destruct x
             end; reflexivity. }
    assert (nMisbehavior row = nMisbehavior state) as Hscore.
    { unfold row, UpdateBlockAvailability_row, ProcessBlockAvailability_row.
      repeat match goal with
             | |- context [match ?x with _ => _ end] => destruct x
             end; reflexivity. }
    assert (is_indexed env (GetHash env (List.last (first :: rest) first)) = false ->
            hashLastUnknownBlock row = GetHash env (List.last (first :: rest) first)) as Hlast.
    { unfold is_indexed, row, UpdateBlockAvailability_row. intros Hidx.
      destruct (GetBlockIndex env _) as [p|]; [|reflexivity].
      by rewrite Hidx. }
    rewrite Hstreak.
    destruct (Z.rem _ _ =? 0) eqn:Hrem.
    + eexists _, _. split; [reflexivity|]. split.
      { apply Misbehaving_State; [apply State_put_state_eq | done]. }
      cbv zeta. rewrite Hscore.
      split; [by destruct (_ && _)|]. split; [by destruct (_ && _)|].
      destruct (_ && _); cbn [nUnconnectingHeaders nMisbehavior set_nMisbehavior set_fShouldBan];
        by rewrite Hstreak, Hrem.
    + eexists _, _. split; [reflexivity|]. split; [apply State_put_state_eq|].
      split; [done|]. split; [done|]. by rewrite Hstreak, Hrem.
  - intros Hconn pfrom' st' ev H. unfold ProcessHeadersMessage in H.
    assert (negb (DoesBlockExist env (hashPrevBlock first))
            && (Z.of_nat (length (first :: rest)) <? MAX_BLOCKS_TO_ANNOUNCE) = false) as Hc.
    { destruct Hconn as [-> | Hlen]; [done|].
      apply andb_false_iff. right. by apply Z.ltb_ge. }
    rewrite Hc in H.
    destruct (headers_continuity env 0%N (first :: rest)); [|done].
    destruct (negb (pnbh_accepted verdict) && pnbh_IsInvalid verdict); [done|].
    destruct (ProcessHeaders_accepted _ _ _ _ _ _ _ _ _ _ _)
      as [[[[r pfrom1] st1] sent]|] eqn:Hacc; [|done].
    simpl in H. injection H as -> <- <- <-.
    apply ProcessHeaders_accepted_streak in Hacc as [_ Hz].
    destruct (State st1 (GetId pfrom)) as [s|]; [|done].
    exists s. split; [done|]. by injection Hz.
Qed.

(** A batch of two headers on a known parent whose second header does not
    follow the first. *)
Lemma ProcessHeadersMessage_broken_batch_witness :
  exists st1 state1,
    ProcessHeadersMessage ex_pc (ex_env 3 3) (ex_verdict (ex_env 3 3) 3) 100 10 0 0 0
      (ex_peer 7) [ex_header 102 200; ex_header 999 201] false (ex_table 7 ex_row)
    = Some (false, ex_peer 7, st1, [])
    /\ State st1 7 = Some state1
    /\ nMisbehavior state1 = 20.
Proof.
  destruct (ProcessHeadersMessage_broken_batch ex_pc (ex_env 3 3) (ex_verdict (ex_env 3 3) 3)
              100 10 0 0 0 (ex_peer 7) [ex_header 102 200; ex_header 999 201] false
              (ex_table 7 ex_row) ex_row (ex_header 102 200) [ex_header 999 201])
    as (st1 & state1 & H1 & _ & H3 & _ & H5 & _).
  - reflexivity.
  - reflexivity.
  - intros header Hin. apply list_elem_of_In in Hin. simpl in Hin.
    destruct Hin as [<- | [<- | []]]; simpl; lia.
  - exists 0%nat, (ex_header 102 200), (ex_header 999 201). simpl.
    split; [done|]. split; [done|]. lia.
  - reflexivity.
  - exists st1, state1. split; [exact H1|]. split; [exact H3|].
    apply H5; [unfold int_range, INT_MIN, INT_MAX; simpl; lia|].
    unfold INT_MAX; simpl; lia.
Defined.

(** An announcement of two headers: one with an unknown parent, followed by
    the header of the indexed block 2. The hash of the last header is not
    recorded as the last unknown block of the peer. *)
Lemma ProcessHeadersMessage_unconnecting_counterexample :
  let env := ex_env 3 3 in
  let headers := [ex_header 500 501; ex_header 100 101] in
  DoesBlockExist env (hashPrevBlock (ex_header 500 501)) = false
  /\ Z.of_nat (length headers) < MAX_BLOCKS_TO_ANNOUNCE
  /\ exists st1 state1 ev,
       ProcessHeadersMessage ex_pc env (ex_verdict env 3) 100 10 0 0 0 (ex_peer 7) headers
         false (ex_table 7 ex_row) = Some (true, ex_peer 7, st1, ev)
       /\ State st1 7 = Some state1
       /\ hashLastUnknownBlock state1 ≠ GetHash env (List.last headers (ex_header 500 501)).
Proof.
  cbv zeta. split; [reflexivity|]. split; [reflexivity|].
  eexists _, _, _. split; [vm_compute; reflexivity|].
  split; [vm_compute; reflexivity|]. vm_compute. discriminate.
Qed.

(** An announcement of one header with an unknown parent, as the tenth in a
    row; and a batch with the headers of the indexed blocks 4 and 5, which
    connects to the tip and resets a streak of nine. *)
Lemma ProcessHeadersMessage_unconnecting_witness :
  (exists st1 state1,
     ProcessHeadersMessage ex_pc (ex_env 3 3) (ex_verdict (ex_env 3 3) 3) 100 10 0 0 0
       (ex_peer 7) [ex_header 500 501] false
       (ex_table 7 (set_nUnconnectingHeaders 9 ex_row))
     = Some (true, ex_peer 7, st1,
             [PushMessage 7 70015 (GETHEADERS (Some 3%positive) 0%N)])
     /\ State st1 7 = Some state1
     /\ nUnconnectingHeaders state1 = 10
     /\ hashLastUnknownBlock state1 = 501%N
     /\ nMisbehavior state1 = 20)
  /\ (exists pfrom' st' ev state',
        ProcessHeadersMessage ex_pc (ex_env 3 3) (ex_verdict (ex_env 5 3) 5) 100 10 0 0 0
          (ex_peer 7) [ex_header 102 103; ex_header 103 104] false
          (ex_table 7 (set_nUnconnectingHeaders 9 ex_row))
        = Some (true, pfrom', st', ev)
        /\ State st' 7 = Some state'
        /\ nUnconnectingHeaders state' = 0).
Proof.
  split.
  - destruct (ProcessHeadersMessage_unconnecting ex_pc (ex_env 3 3)
                (ex_verdict (ex_env 3 3) 3) 100 10 0 0 0 (ex_peer 7) [ex_header 500 501]
                false (ex_table 7 (set_nUnconnectingHeaders 9 ex_row))
                (set_nUnconnectingHeaders 9 ex_row) (ex_header 500 501) [])
      as [Hann _]; [reflexivity | reflexivity |].
    destruct Hann as (st1 & state1 & H1 & H2 & H3 & H4 & H5).
    + reflexivity.
    + unfold MAX_BLOCKS_TO_ANNOUNCE. simpl. lia.
    + exists st1, state1. split; [exact H1|]. split; [exact H2|].
      split; [rewrite H3; reflexivity|]. split; [apply H4; reflexivity|].
      rewrite H5, H3. reflexivity.
  - destruct (ProcessHeadersMessage_unconnecting ex_pc (ex_env 3 3)
                (ex_verdict (ex_env 5 3) 5) 100 10 0 0 0 (ex_peer 7)
                [ex_header 102 103; ex_header 103 104] false
                (ex_table 7 (set_nUnconnectingHeaders 9 ex_row))
                (set_nUnconnectingHeaders 9 ex_row) (ex_header 102 103) [ex_header 103 104])
      as [_ Hconn]; [reflexivity | reflexivity |].
    assert (exists pfrom' st' ev,
              ProcessHeadersMessage ex_pc (ex_env 3 3) (ex_verdict (ex_env 5 3) 5) 100 10 0 0 0
                (ex_peer 7) [ex_header 102 103; ex_header 103 104] false
                (ex_table 7 (set_nUnconnectingHeaders 9 ex_row))
              = Some (true, pfrom', st', ev)) as (pfrom' & st' & ev & Hrun).
    { eexists _, _, _. vm_compute. reflexivity. }
    destruct (Hconn (or_introl eq_refl) pfrom' st' ev Hrun) as (state' & Hs' & Hz).
    exists pfrom', st', ev, state'. split; [exact Hrun|]. split; [exact Hs' | exact Hz].
Defined.

(** ** The chain-sync timeout *)

(** C7 (amended): for an outbound, unprotected sync peer, [ConsiderEviction]
    clears the chain-sync timeout when the best known block of the peer has
    at least the work of the active tip; and when the peer is behind the tip,
    has not reached the recorded work header and the timeout has elapsed, it
    either sends exactly one [getheaders] from the parent of the work header,
    sets [m_sent_getheaders] and sets the timeout to the current time plus
    [HEADERS_RESPONSE_TIME], or, if the [getheaders] had already been sent,
    disconnects the peer. *)
Theorem ConsiderEviction_chain_sync env t pto st state :
  State st (GetId pto) = Some state ->
  m_protect (m_chain_sync state) = false ->
  IsOutboundDisconnectionCandidate pto = true ->
  fSyncStarted state = true ->
  (forall best tip,
     pindexBestKnownBlock state = Some best -> Tip env = Some tip ->
     (nChainWork (blk env tip) <= nChainWork (blk env best))%N ->
     exists st1 state1,
       ConsiderEviction env t pto st = Some (pto, st1, [])
       /\ State st1 (GetId pto) = Some state1
       /\ m_timeout (m_chain_sync state1) = 0
       /\ (m_timeout (m_chain_sync state) ≠ 0 ->
           m_work_header (m_chain_sync state1) = None
           /\ m_sent_getheaders (m_chain_sync state1) = false)
       /\ (m_timeout (m_chain_sync state) = 0 -> st1 = st))
  /\ (peer_behind env state ->
      reached_work_header env state = false ->
      0 < m_timeout (m_chain_sync state) < t ->
      (forall wh,
         m_sent_getheaders (m_chain_sync state) = false ->
         m_work_header (m_chain_sync state) = Some wh ->
         exists st1 state1,
           ConsiderEviction env t pto st
           = Some (pto, st1,
                   [PushMessage (GetId pto) (nSendVersion pto)
                      (GETHEADERS (pprev (blk env wh)) 0%N)])
           /\ State st1 (GetId pto) = Some state1
           /\ m_sent_getheaders (m_chain_sync state1) = true
           /\ m_work_header (m_chain_sync state1) = Some wh
           /\ m_timeout (m_chain_sync state1) = wrap64 (t + HEADERS_RESPONSE_TIME)
           /\ (int64_range (t + HEADERS_RESPONSE_TIME) ->
               m_timeout (m_chain_sync state1) = t + HEADERS_RESPONSE_TIME))
      /\ (m_sent_getheaders (m_chain_sync state) = true ->
          ConsiderEviction env t pto st = Some (set_fDisconnect true pto, st, []))).
Proof.
  intros Hs Hprot Hcand Hsync. split.
  - intros best tip Hbest Htip Hwork. unfold ConsiderEviction.
    rewrite Hs. cbn [mbind option_bind]. rewrite Hprot, Hcand, Hsync. cbn [negb andb].
    rewrite Hbest, Htip. cbn [mbind option_bind].
    apply N.leb_le in Hwork. rewrite Hwork.
    destruct (Z.eqb_spec (m_timeout (m_chain_sync state)) 0) as [Hz|Hnz]; cbn [negb].
    + exists st, state. rewrite Hz. repeat split; done.
    + eexists _, _. split; [reflexivity|].
      rewrite State_upd_state_eq, Hs. split; [reflexivity|]. by repeat split.
  - intros Hbehind Hreach [Hpos Hlt].
    assert (match pindexBestKnownBlock state with
            | None => Some false
            | Some best =>
                Tip env ≫= fun tip =>
                  Some (nChainWork (blk env tip) <=? nChainWork (blk env best))%N
            end = Some false) as Hcaught.
    { unfold peer_behind in Hbehind. destruct (pindexBestKnownBlock state); [|done].
      destruct Hbehind as (tip & -> & Hw). cbn [mbind option_bind]. f_equal.
      by apply N.leb_gt. }
    assert (ConsiderEviction env t pto st
            = if m_sent_getheaders (m_chain_sync state)
              then Some (set_fDisconnect true pto, st, [])
              else m_work_header (m_chain_sync state) ≫= fun wh =>
                   Some (pto,
                         upd_state (GetId pto)
                           (set_m_chain_sync
                              {| m_timeout := wrap64 (t + HEADERS_RESPONSE_TIME);
                                 m_work_header := m_work_header (m_chain_sync state);
                                 m_sent_getheaders := true;
                                 m_protect := m_protect (m_chain_sync state) |}) st,
                         [PushMessage (GetId pto) (nSendVersion pto)
                            (GETHEADERS (pprev (blk env wh)) 0%N)])) as Heq.
    { unfold ConsiderEviction.
      rewrite Hs. cbn [mbind option_bind]. rewrite Hprot, Hcand, Hsync. cbn [negb andb].
      rewrite Hcaught. cbn [mbind option_bind].
      unfold reached_work_header in Hreach. rewrite Hreach.
      destruct (Z.eqb_spec (m_timeout (m_chain_sync state)) 0); [lia|]. cbn [orb].
      apply Z.ltb_lt in Hpos, Hlt. rewrite Hpos, Hlt. reflexivity. }
    split.
    + intros wh Hsent Hwh. rewrite Heq, Hsent, Hwh. cbn [mbind option_bind].
      eexists _, _. split; [reflexivity|].
      rewrite State_upd_state_eq, Hs. split; [reflexivity|].
      cbn. split; [done|]. split; [done|]. split; [done|]. intros Hr. by apply wrap64_id.
    + intros Hsent. by rewrite Heq, Hsent.
Qed.

(** The timeout was 100 and elapsed at time 500: the new timeout is 620, not
    the old one extended by [HEADERS_RESPONSE_TIME]. And a peer whose timeout
    elapsed after the [getheaders] was sent, but whose best known block has
    reached the work header, is given a new timeout instead of being
    disconnected. *)
Lemma ConsiderEviction_chain_sync_counterexample :
  (exists st1 state1 ev,
     ConsiderEviction (ex_env 3 3) 500 (ex_peer 7) (ex_table 7 (ex_row_behind false))
     = Some (ex_peer 7, st1, ev)
     /\ State st1 7 = Some state1
     /\ m_sent_getheaders (m_chain_sync state1) = true
     /\ m_timeout (m_chain_sync state1)
        ≠ m_timeout (m_chain_sync (ex_row_behind false)) + HEADERS_RESPONSE_TIME)
  /\ (let row := set_pindexBestKnownBlock (Some 2%positive) (ex_row_behind true) in
      m_sent_getheaders (m_chain_sync row) = true
      /\ 0 < m_timeout (m_chain_sync row) < 500
      /\ exists pto' st1 ev,
           ConsiderEviction (ex_env 3 3) 500 (ex_peer 7) (ex_table 7 row) = Some (pto', st1, ev)
           /\ fDisconnect pto' = false).
Proof.
  split.
  - eexists _, _, _. split; [vm_compute; reflexivity|].
    split; [vm_compute; reflexivity|]. split; [reflexivity|]. vm_compute. discriminate.
  - cbv zeta. split; [reflexivity|]. split; [simpl; lia|].
    eexists _, _, _. split; [vm_compute; reflexivity|]. reflexivity.
Qed.

(** The same peer, before and after the [getheaders] was sent. *)
Lemma ConsiderEviction_chain_sync_witness :
  exists st1 state1,
    ConsiderEviction (ex_env 3 3) 500 (ex_peer 7) (ex_table 7 (ex_row_behind false))
    = Some (ex_peer 7, st1, [PushMessage 7 70015 (GETHEADERS (Some 1%positive) 0%N)])
    /\ State st1 7 = Some state1
    /\ m_sent_getheaders (m_chain_sync state1) = true
    /\ m_timeout (m_chain_sync state1) = 620
  /\ ConsiderEviction (ex_env 3 3) 500 (ex_peer 7) (ex_table 7 (ex_row_behind true))
     = Some (set_fDisconnect true (ex_peer 7), ex_table 7 (ex_row_behind true), []).
Proof.
  destruct (ConsiderEviction_chain_sync (ex_env 3 3) 500 (ex_peer 7)
              (ex_table 7 (ex_row_behind false)) (ex_row_behind false))
    as [_ Hb]; [reflexivity | reflexivity | reflexivity | reflexivity |].
  destruct Hb as [Hget _]; [exact I | reflexivity | simpl; lia |].
  destruct (Hget 2%positive) as (st1 & state1 & H1 & H2 & H3 & _ & _ & H6);
    [reflexivity | reflexivity |].
  destruct (ConsiderEviction_chain_sync (ex_env 3 3) 500 (ex_peer 7)
              (ex_table 7 (ex_row_behind true)) (ex_row_behind true))
    as [_ Hc]; [reflexivity | reflexivity | reflexivity | reflexivity |].
  destruct Hc as [_ Hdisc]; [exact I | reflexivity | simpl; lia |].
  exists st1, state1. split; [exact H1|]. split; [exact H2|]. split; [exact H3|].
  split; [apply H6; unfold int64_range, INT64_MIN, INT64_MAX, HEADERS_RESPONSE_TIME; lia|].
  apply Hdisc. reflexivity.
Defined.

(** ** The block download timeout *)

(** The check of [SendMessages], for any value of the two constants of
    [net_processing.h], as long as the [int] and [int64_t] arithmetic of the
    deadline does not overflow. *)
Lemma SendMessages_block_timeout_general base per_peer env nNow st state pto :
  vBlocksInFlight state ≠ [] ->
  fDisconnect pto = false ->
  let n_other := nPeersWithValidatedDownloads st
                 - Z.b2z (0 <? nBlocksInFlightValidHeaders state) in
  int_range n_other ->
  int64_range (per_peer * n_other) ->
  int64_range (base + per_peer * n_other) ->
  int64_range (nPowTargetSpacing env * (base + per_peer * n_other)) ->
  int64_range (nDownloadingSince state
               + nPowTargetSpacing env * (base + per_peer * n_other)) ->
  let r := SendMessages_block_timeout base per_peer env nNow st state pto in
  (fDisconnect r.2 = true
   <-> nNow > nDownloadingSince state
              + nPowTargetSpacing env * (base + per_peer * n_other))
  /\ r.1 = fDisconnect r.2.
Proof.
  intros Hne Hd n_other H1 H2 H3 H4 H5 r. subst r.
  unfold SendMessages_block_timeout.
  destruct (vBlocksInFlight state) as [|e l]; [done|].
  replace (0 <? Z.of_nat (length (e :: l))) with true
    by (symmetry; apply Z.ltb_lt; simpl; lia).
  fold n_other.
  rewrite (wrap32_id n_other) by done.
  rewrite (wrap64_id (per_peer * n_other)) by done.
  rewrite (wrap64_id (base + per_peer * n_other)) by done.
  rewrite (wrap64_id (nPowTargetSpacing env * _)) by done.
  rewrite (wrap64_id (nDownloadingSince state + _)) by done.
  destruct (Z.ltb_spec (nDownloadingSince state
                        + nPowTargetSpacing env * (base + per_peer * n_other)) nNow);
    simpl; rewrite ?Hd; split; try done; split; (done || lia).
Qed.

(** C8: a peer with a block in flight is disconnected by the block download
    timeout of [SendMessages] exactly when the current time is past
    [nDownloadingSince + target_spacing * (BLOCK_DOWNLOAD_TIMEOUT_BASE +
    BLOCK_DOWNLOAD_TIMEOUT_PER_PEER * n_other)], where [n_other] is the number
    of peers with validated downloads, less one if this peer has a block with
    validated headers in flight, and the two constants are [1000 *
    target_spacing] and [500 * target_spacing]; the arithmetic of the deadline
    is taken not to overflow. *)
Theorem SendMessages_block_timeout_disconnects env nNow st state pto :
  vBlocksInFlight state ≠ [] ->
  fDisconnect pto = false ->
  let target_spacing := nPowTargetSpacing env in
  let base := BLOCK_DOWNLOAD_TIMEOUT_BASE target_spacing in
  let per_peer := BLOCK_DOWNLOAD_TIMEOUT_PER_PEER target_spacing in
  let n_other := nPeersWithValidatedDownloads st
                 - Z.b2z (0 <? nBlocksInFlightValidHeaders state) in
  int_range n_other ->
  int64_range (per_peer * n_other) ->
  int64_range (base + per_peer * n_other) ->
  int64_range (target_spacing * (base + per_peer * n_other)) ->
  int64_range (nDownloadingSince state + target_spacing * (base + per_peer * n_other)) ->
  base = 1000 * target_spacing
  /\ per_peer = 500 * target_spacing
  /\ (fDisconnect (SendMessages_block_timeout base per_peer env nNow st state pto).2 = true
      <-> nNow > nDownloadingSince state + target_spacing * (base + per_peer * n_other)).
Proof.
  intros Hne Hd target_spacing base per_peer n_other H1 H2 H3 H4 H5.
  split; [reflexivity|]. split; [reflexivity|].
  by apply SendMessages_block_timeout_general.
Qed.

(** One block in flight since time 0 and no other downloading peer: the
    deadline is 360000000. *)
Lemma SendMessages_block_timeout_disconnects_witness :
  fDisconnect (SendMessages_block_timeout (BLOCK_DOWNLOAD_TIMEOUT_BASE 600)
                 (BLOCK_DOWNLOAD_TIMEOUT_PER_PEER 600) (ex_env 3 3) 360000001
                 ex_table_downloading ex_row_downloading (ex_peer 7)).2 = true
  /\ fDisconnect (SendMessages_block_timeout (BLOCK_DOWNLOAD_TIMEOUT_BASE 600)
                    (BLOCK_DOWNLOAD_TIMEOUT_PER_PEER 600) (ex_env 3 3) 360000000
                    ex_table_downloading ex_row_downloading (ex_peer 7)).2 = false.
Proof.
  assert (forall nNow,
             fDisconnect (SendMessages_block_timeout (BLOCK_DOWNLOAD_TIMEOUT_BASE 600)
                            (BLOCK_DOWNLOAD_TIMEOUT_PER_PEER 600) (ex_env 3 3) nNow
                            ex_table_downloading ex_row_downloading (ex_peer 7)).2 = true
             <-> nNow > 360000000) as H.
  { intros nNow.
    apply (SendMessages_block_timeout_disconnects (ex_env 3 3) nNow ex_table_downloading
             ex_row_downloading (ex_peer 7)).
    - discriminate.
    - reflexivity.
    - vm_compute. split; discriminate.
    - vm_compute. split; discriminate.
    - vm_compute. split; discriminate.
    - vm_compute. split; discriminate.
    - vm_compute. split; discriminate. }
  split.
  - apply H. lia.
  - destruct (fDisconnect _) eqn:E; [|reflexivity].
    apply H in E. lia.
Defined.

(** ** The handshake *)

Lemma UpdatePreferredDownload_State node st st' :
  UpdatePreferredDownload node st = Some st' ->
  forall pnode,
    fCurrentlyConnected <$> State st' pnode = fCurrentlyConnected <$> State st pnode.
Proof.
  unfold UpdatePreferredDownload. intros H pnode.
  destruct (State st (GetId node)) as [state|] eqn:Hs; [|done]. simpl in H.
  injection H as <-.
  change (State (set_nPreferredDownload ?x ?y) pnode) with (State y pnode).
  destruct (decide (GetId node = pnode)) as [<-|Hne].
  - rewrite State_upd_state_eq.
    change (State (set_nPreferredDownload ?x ?y) (GetId node)) with (State y (GetId node)).
    by rewrite Hs.
  - by rewrite State_upd_state_ne.
Qed.

Lemma ProcessVersionMsg_accepted pc env cm banscore pfrom vRecv st pfrom1 st1 ev1 :
  ProcessVersionMsg pc env cm banscore pfrom vRecv st = Some (true, pfrom1, st1, ev1) ->
  nVersion pfrom1 ≠ 0 ->
  GetId pfrom1 = GetId pfrom /\ fInbound pfrom1 = fInbound pfrom
  /\ nLocalServices pfrom1 = nLocalServices pfrom
  /\ is_Some (State st1 (GetId pfrom)).
Proof.
  unfold ProcessVersionMsg. intros H Hv.
  destruct (Z.eqb_spec (nVersion pfrom) 0) as [Hz|]; cbn [negb] in H; [|done].
  destruct (negb (N.ldiff _ _ =? 0)%N); [done|].
  destruct (_ && (GetTime cm <? _)); [done|].
  destruct (Tip env) as [tip|]; [|done]. cbn [mbind option_bind] in H.
  destruct (vp_nVersion vRecv <? _); [done|].
  destruct (fInbound pfrom && negb _).
  { injection H as <- _ _. simpl in Hv. done. }
  match type of H with
  | (?m ≫= _) = _ => destruct m as [st0|] eqn:H0; [|done]
  end.
  cbn [mbind option_bind] in H.
  destruct (UpdatePreferredDownload _ st0) as [st2|] eqn:Hu; [|done].
  cbn [mbind option_bind] in H.
  assert (is_Some (State st2 (GetId pfrom))) as Hsome.
  { unfold UpdatePreferredDownload in Hu. simpl in Hu.
    destruct (State st0 (GetId pfrom)) as [s0|] eqn:Hs0; [|done]. simpl in Hu.
    injection Hu as <-.
    change (State (set_nPreferredDownload ?x ?y) ?z) with (State y z).
    rewrite State_upd_state_eq.
    change (State (set_nPreferredDownload ?x ?y) ?z) with (State y z).
    rewrite Hs0. by eexists. }
  destruct (fFeeler _) in H.
  - destruct (assert_ _); [|done]. cbn [mbind option_bind] in H.
    injection H as <- <- _.
    repeat split; try done; by destruct (negb (fInbound pfrom) && _).
  - injection H as <- <- _.
    repeat split; try done; by destruct (negb (fInbound pfrom) && _).
Qed.

Lemma UpdatePreferredDownload_returns node st s :
  State st (GetId node) = Some s -> exists st', UpdatePreferredDownload node st = Some st'.
Proof.
  intros Hs. unfold UpdatePreferredDownload. rewrite Hs. by eexists.
Qed.

Lemma ProcessVersionMsg_valid pc env cm banscore pfrom vRecv st state :
  State st (GetId pfrom) = Some state ->
  valid_version pc env cm pfrom vRecv ->
  exists pfrom1 st1 ev1 state1,
    ProcessVersionMsg pc env cm banscore pfrom vRecv st = Some (true, pfrom1, st1, ev1)
    /\ nVersion pfrom1 = (if vp_nVersion vRecv =? 10300 then 300 else vp_nVersion vRecv)
    /\ nVersion pfrom1 ≠ 0
    /\ State st1 (GetId pfrom) = Some state1
    /\ fCurrentlyConnected state1 = fCurrentlyConnected state.
Proof.
  intros Hs (Hfirst & Hserv & Hbits & (tip & Htip & Hmin) & Hnz & Hnonce & Hfeeler).
  assert ((if vp_nVersion vRecv =? 10300 then 300 else vp_nVersion vRecv) ≠ 0) as Hnz'.
  { destruct (_ =? 10300); [lia | done]. }
  unfold ProcessVersionMsg. rewrite Hfirst. cbn [Z.eqb negb]. cbv zeta.
  rewrite Hserv. cbn [N.eqb negb].
  replace (negb (N.land (vp_nServiceInt vRecv) (N.lor (N.shiftl 1 7) (N.shiftl 1 5)) =? 0)%N
           && (GetTime cm <? 1533096000)) with false.
  2:{ symmetry. destruct Hbits as [Hb|Hb].
      - by rewrite Hb.
      - apply Z.ltb_ge in Hb. rewrite Hb. apply andb_false_r. }
  rewrite Htip. cbn [mbind option_bind].
  apply Z.ltb_ge in Hmin. rewrite Hmin.
  replace (fInbound pfrom && negb (CheckIncomingNonce cm _)) with false.
  2:{ symmetry. destruct (fInbound pfrom); [|done]. by rewrite Hnonce. }
  match goal with
  | |- context [(if ?b then (_ ← State st (GetId pfrom); Some ?x) else Some st) ≫= _] =>
      assert (exists st0 s0,
                (if b then (_ ← State st (GetId pfrom); Some x) else Some st) = Some st0
                /\ State st0 (GetId pfrom) = Some s0
                /\ fCurrentlyConnected s0 = fCurrentlyConnected state)
        as (st0 & s0 & -> & Hs0 & Hc0)
  end.
  { destruct (negb _).
    - rewrite Hs. cbn [mbind option_bind]. eexists _, _. split; [done|].
      rewrite State_upd_state_eq, Hs. done.
    - by eexists _, _. }
  cbn [mbind option_bind].
  match goal with
  | |- context [UpdatePreferredDownload ?n st0] =>
      destruct (UpdatePreferredDownload_returns n st0 s0 Hs0) as [st2 Hu]; rewrite Hu
  end.
  cbn [mbind option_bind].
  pose proof (UpdatePreferredDownload_State _ _ _ Hu (GetId pfrom)) as Hc2.
  rewrite Hs0 in Hc2.
  destruct (State st2 (GetId pfrom)) as [s2|] eqn:Hs2; [|done].
  injection Hc2 as Hc2.
  match goal with
  | |- context [fFeeler ?p] =>
      assert (fFeeler p = fFeeler pfrom /\ fInbound p = fInbound pfrom
              /\ nVersion p = (if vp_nVersion vRecv =? 10300 then 300 else vp_nVersion vRecv))
        as (Hff & Hfi & Hnv) by (by destruct (negb (fInbound pfrom) && _));
      rewrite Hff, Hfi
  end.
  destruct (fFeeler pfrom) eqn:Hf.
  - pose proof (Hfeeler eq_refl) as Hin. rewrite Hin in Hnv |- *.
    cbn [negb assert_ mbind option_bind].
    eexists _, _, _, s2. split; [reflexivity|].
    split; [exact Hnv|]. split; [intros E; apply Hnz'; rewrite <- Hnv; exact E|].
    split; [done|]. by rewrite Hc2.
  - eexists _, _, _, s2. split; [reflexivity|].
    split; [exact Hnv|]. split; [intros E; apply Hnz'; rewrite <- Hnv; exact E|].
    split; [done|]. by rewrite Hc2.
Qed.

(** What [ProcessVerAckMsg] does once [ProcessVersionMsg] has accepted the
    [version] of the peer. *)
Lemma ProcessVerAckMsg_after_version pc env cm banscore pfrom vRecv st pfrom1 st1 ev1 :
  ProcessVersionMsg pc env cm banscore pfrom vRecv st = Some (true, pfrom1, st1, ev1) ->
  nVersion pfrom1 ≠ 0 ->
  exists pfrom2 st2 state1 state2,
    ProcessVerAckMsg pc pfrom1 st1
    = Some (true, pfrom2, st2, verack_replies pc pfrom1 (nVersion pfrom1))
    /\ fSuccessfullyConnected pfrom2 = true
    /\ State st1 (GetId pfrom) = Some state1
    /\ State st2 (GetId pfrom) = Some state2
    /\ fCurrentlyConnected state2
       = if fInbound pfrom then fCurrentlyConnected state1 else true.
Proof.
  intros H Hv.
  destruct (ProcessVersionMsg_accepted _ _ _ _ _ _ _ _ _ _ H Hv)
    as (Hid & Hin & Hls & [state1 Hs1]).
  unfold ProcessVerAckMsg. cbn [fInbound set_nRecvVersion GetId nVersion nSendVersion
                                nLocalServices].
  rewrite Hin, Hid. destruct (fInbound pfrom) eqn:Hinb; cbn [negb mbind option_bind].
  - eexists _, st1, state1, state1. split.
    { unfold verack_replies. cbn [GetId nSendVersion set_nRecvVersion nLocalServices].
      rewrite Hid. reflexivity. }
    done.
  - rewrite Hs1. cbn [mbind option_bind].
    eexists _, _, state1, _. split.
    { unfold verack_replies. cbn [GetId nSendVersion set_nRecvVersion nLocalServices].
      rewrite Hid. reflexivity. }
    split; [done|]. split; [done|].
    rewrite State_upd_state_eq, Hs1. done.
Qed.

(** C9 (amended): for a known peer and a valid [version] message,
    [ProcessVersionMsg] returns [true] and records the protocol version of
    the peer, and [ProcessVerAckMsg] then returns [true], marks the
    connection as successful and sends [sendheaders] (to a peer of at least
    [SENDHEADERS_VERSION]) followed by [sendcmpct] with version 2 (if the
    local node offers the witness service) and with version 1 (to a peer of
    at least [SHORT_IDS_BLOCKS_VERSION]); [fCurrentlyConnected] becomes
    [true] for an outbound peer and is left as it was for an inbound one. *)
Theorem version_verack_round_trip pc env cm banscore pfrom vRecv st state :
  State st (GetId pfrom) = Some state ->
  valid_version pc env cm pfrom vRecv ->
  exists pfrom1 st1 ev1 pfrom2 st2 state2,
    ProcessVersionMsg pc env cm banscore pfrom vRecv st = Some (true, pfrom1, st1, ev1)
    /\ nVersion pfrom1 = (if vp_nVersion vRecv =? 10300 then 300 else vp_nVersion vRecv)
    /\ ProcessVerAckMsg pc pfrom1 st1
       = Some (true, pfrom2, st2, verack_replies pc pfrom1 (nVersion pfrom1))
    /\ fSuccessfullyConnected pfrom2 = true
    /\ State st2 (GetId pfrom) = Some state2
    /\ fCurrentlyConnected state2
       = if fInbound pfrom then fCurrentlyConnected state else true.
Proof.
  intros Hs Hvalid.
  destruct (ProcessVersionMsg_valid pc env cm banscore _ _ _ _ Hs Hvalid)
    as (pfrom1 & st1 & ev1 & state1 & Hrun & Hnv & Hnz & Hs1 & Hc1).
  destruct (ProcessVerAckMsg_after_version _ _ _ _ _ _ _ _ _ _ Hrun Hnz)
    as (pfrom2 & st2 & state1' & state2 & Hack & Hok & Hs1' & Hs2 & Hc2).
  rewrite Hs1 in Hs1'. injection Hs1' as <-.
  exists pfrom1, st1, ev1, pfrom2, st2, state2.
  split; [exact Hrun|]. split; [exact Hnv|]. split; [exact Hack|].
  split; [exact Hok|]. split; [exact Hs2|]. by rewrite Hc2, Hc1.
Qed.

(** [ProcessMessage] hands a [verack] to [ProcessVerAckMsg] once the version
    of the peer is known, unless the message is dropped or the chain is past
    the contract fork and the peer is older than [SBTC_CONTRACT_VERSION]. *)
Lemma ProcessMessage_verack pc env cm banscore pfrom st tip :
  Tip env = Some tip ->
  nVersion pfrom ≠ 0 ->
  (nHeight (blk env tip) <= SBTCContractForkHeight env
   \/ SBTC_CONTRACT_VERSION pc <= nVersion pfrom) ->
  ProcessMessage pc env cm banscore false pfrom CmdVerack st
  = ProcessVerAckMsg pc pfrom st ≫= fun '(r, pfrom1, st1, ev) =>
      Some (Returned r, pfrom1, st1, ev).
Proof.
  intros Htip Hv Hgate. unfold ProcessMessage. rewrite Htip. cbn [mbind option_bind].
  replace ((SBTCContractForkHeight env <? nHeight (blk env tip))
           && negb (nVersion pfrom =? 0) && (nVersion pfrom <? SBTC_CONTRACT_VERSION pc))
    with false.
  2:{ symmetry. destruct Hgate as [Hg|Hg].
      - apply Z.ltb_ge in Hg. by rewrite Hg.
      - apply Z.ltb_ge in Hg. rewrite Hg. by rewrite andb_false_r. }
  rewrite andb_false_r.
  destruct (Z.eqb_spec (nVersion pfrom) 0); [done|]. reflexivity.
Qed.

(** An inbound peer sends a valid [version] and a [verack]: both are
    processed successfully and [fCurrentlyConnected] is still [false]. *)
Lemma version_verack_counterexample :
  exists pfrom1 st1 ev1 pfrom2 st2 ev2 state2,
    ProcessMessage ex_pc (ex_env 3 3) ex_cm 100 false (ex_node 7 true) (CmdVersion ex_version)
      (ex_table 7 ex_row) = Some (Returned true, pfrom1, st1, ev1)
    /\ fDisconnect pfrom1 = false
    /\ ProcessMessage ex_pc (ex_env 3 3) ex_cm 100 false pfrom1 CmdVerack st1
       = Some (Returned true, pfrom2, st2, ev2)
    /\ State st2 7 = Some state2
    /\ fCurrentlyConnected state2 ≠ true.
Proof.
  eexists _, _, _, _, _, _, _.
  split; [vm_compute; reflexivity|]. split; [reflexivity|].
  split; [vm_compute; reflexivity|]. split; [vm_compute; reflexivity|].
  vm_compute. discriminate.
Qed.

(** The same two messages from an outbound peer. *)
Lemma version_verack_round_trip_witness :
  exists pfrom1 st1 ev1 pfrom2 st2 state2,
    ProcessVersionMsg ex_pc (ex_env 3 3) ex_cm 100 (ex_node 7 false) ex_version
      (ex_table 7 ex_row) = Some (true, pfrom1, st1, ev1)
    /\ ProcessVerAckMsg ex_pc pfrom1 st1
       = Some (true, pfrom2, st2,
               [PushMessage 7 70015 SENDHEADERS;
                PushMessage 7 70015 (SENDCMPCT false 2);
                PushMessage 7 70015 (SENDCMPCT false 1)])
    /\ State st2 7 = Some state2
    /\ fCurrentlyConnected state2 = true.
Proof.
  destruct (version_verack_round_trip ex_pc (ex_env 3 3) ex_cm 100 (ex_node 7 false)
              ex_version (ex_table 7 ex_row) ex_row)
    as (pfrom1 & st1 & ev1 & pfrom2 & st2 & state2 & Hrun & Hnv & Hack & _ & Hs2 & Hc).
  - reflexivity.
  - unfold valid_version. split; [reflexivity|]. split; [reflexivity|].
    split; [left; reflexivity|]. split.
    { exists 3%positive. split; [reflexivity|]. vm_compute. discriminate. }
    split; [discriminate|]. split; [discriminate|]. discriminate.
  - assert (GetId pfrom1 = 7 /\ nSendVersion pfrom1 = 70015
            /\ nLocalServices pfrom1 = 9%N) as (Hid & Hsv & Hls).
    { vm_compute in Hrun. injection Hrun as <- _ _. repeat split. }
    exists pfrom1, st1, ev1, pfrom2, st2, state2.
    split; [exact Hrun|]. split.
    { rewrite Hack. unfold verack_replies. rewrite Hnv, Hid, Hsv, Hls. reflexivity. }
    split; [exact Hs2 | exact Hc].
Defined.

(** ** The guard of the block download scheduler *)

Lemma ProcessBlockAvailability_row_fields env state :
  ProcessBlockAvailability_row env state
  = set_pindexBestKnownBlock (pindexBestKnownBlock (ProcessBlockAvailability_row env state))
      (set_hashLastUnknownBlock (hashLastUnknownBlock (ProcessBlockAvailability_row env state))
         state).
Proof.
  unfold ProcessBlockAvailability_row.
  repeat match goal with
         | |- context [match ?x with _ => _ end] => destruct x
         end; by destruct state.
Qed.

Lemma ProcessBlockAvailability_row_id env state :
  is_indexed env (hashLastUnknownBlock state) = false ->
  ProcessBlockAvailability_row env state = state.
Proof.
  unfold is_indexed, ProcessBlockAvailability_row. intros H.
  destruct (negb _); [|done].
  destruct (GetBlockIndex env _); [|done]. by rewrite H.
Qed.

(** C4 (amended): [FindNextBlocksToDownload] first brings the best known
    block of the peer up to date from its last unknown block, which changes
    at most these two fields of the row of the peer and nothing when that
    hash is not indexed. If the peer then has no best known block, or one
    with less work than the active tip or than the minimum chain work, the
    function returns with [vBlocks] and [nodeStaller] as they were and no
    other change to the state. So it adds blocks to [vBlocks] only for a peer
    whose best known block, once brought up to date, has at least the work of
    the active tip and of the minimum chain work. *)
Theorem FindNextBlocksToDownload_guard pc env fuel nodeid count vBlocks nodeStaller st state :
  State st nodeid = Some state ->
  let state1 := ProcessBlockAvailability_row env state in
  (count ≠ 0 -> nothing_interesting env state1 ->
   FindNextBlocksToDownload pc env fuel nodeid count vBlocks nodeStaller st
   = Some (vBlocks, nodeStaller, put_state nodeid state1 st))
  /\ state1 = set_pindexBestKnownBlock (pindexBestKnownBlock state1)
                (set_hashLastUnknownBlock (hashLastUnknownBlock state1) state)
  /\ (is_indexed env (hashLastUnknownBlock state) = false ->
      put_state nodeid state1 st = st)
  /\ (forall vBlocks' nodeStaller' st',
        FindNextBlocksToDownload pc env fuel nodeid count vBlocks nodeStaller st
        = Some (vBlocks', nodeStaller', st') ->
        vBlocks' ≠ vBlocks ->
        exists best tip,
          pindexBestKnownBlock state1 = Some best /\ Tip env = Some tip
          /\ (nChainWork (blk env tip) <= nChainWork (blk env best))%N
          /\ (nMinimumChainWork env <= nChainWork (blk env best))%N).
Proof.
  intros Hs state1.
  assert (FindNextBlocksToDownload pc env fuel nodeid count vBlocks nodeStaller st
          = if count =? 0 then Some (vBlocks, nodeStaller, st)
            else match pindexBestKnownBlock state1 with
                 | None => Some (vBlocks, nodeStaller, put_state nodeid state1 st)
                 | Some best =>
                     Tip env ≫= fun tip =>
                       if (nChainWork (blk env best) <? nChainWork (blk env tip))%N
                          || (nChainWork (blk env best) <? nMinimumChainWork env)%N
                       then Some (vBlocks, nodeStaller, put_state nodeid state1 st)
                       else
                         FindNextBlocksToDownload pc env fuel nodeid count vBlocks
                           nodeStaller st
                 end) as Heq.
  { unfold FindNextBlocksToDownload at 1. destruct (count =? 0) eqn:Hc; [done|].
    rewrite Hs. cbn [mbind option_bind].
    unfold ProcessBlockAvailability. rewrite Hs. cbn [mbind option_bind].
    rewrite State_put_state_eq. cbn [mbind option_bind]. fold state1.
    destruct (pindexBestKnownBlock state1) as [best|] eqn:Hb; [|done].
    destruct (Tip env) as [tip|] eqn:Ht; [|done]. cbn [mbind option_bind].
    destruct (_ || _) eqn:Hg; [done|].
    unfold FindNextBlocksToDownload. rewrite Hc, Hs. cbn [mbind option_bind].
    unfold ProcessBlockAvailability. rewrite Hs. cbn [mbind option_bind].
    rewrite State_put_state_eq. cbn [mbind option_bind]. fold state1.
    rewrite Hb, Ht. cbn [mbind option_bind]. by rewrite Hg. }
  split; [|split; [|split]].
  - intros Hc Hn. rewrite Heq. destruct (Z.eqb_spec count 0); [done|].
    unfold nothing_interesting in Hn.
    destruct (pindexBestKnownBlock state1) as [best|]; [|done].
    destruct Hn as (tip & -> & Hw). cbn [mbind option_bind].
    replace ((nChainWork (blk env best) <? nChainWork (blk env tip))%N
             || (nChainWork (blk env best) <? nMinimumChainWork env)%N) with true; [done|].
    symmetry. apply orb_true_iff. destruct Hw as [Hw|Hw]; [left|right]; by apply N.ltb_lt.
  - apply ProcessBlockAvailability_row_fields.
  - intros Hi. unfold state1. rewrite ProcessBlockAvailability_row_id by done.
    by apply put_state_id.
  - intros vBlocks' nodeStaller' st' H Hne. rewrite Heq in H.
    destruct (count =? 0); [by simplify_eq|].
    destruct (pindexBestKnownBlock state1) as [best|]; [|by simplify_eq].
    destruct (Tip env) as [tip|]; [|done]. cbn [mbind option_bind] in H.
    destruct (_ || _) eqn:Hg; [by simplify_eq|].
    apply orb_false_iff in Hg as [Hg1 Hg2].
    exists best, tip. repeat split; by apply N.ltb_ge.
Qed.

(** The peer has no best known block and the block it announced, indexed
    since, has less work than the tip: no block is returned and the row of
    the peer has changed. *)
Lemma FindNextBlocksToDownload_guard_counterexample :
  exists st' state',
    pindexBestKnownBlock ex_row_announced = None
    /\ FindNextBlocksToDownload ex_pc (ex_env 3 3) 10 7 16 [] (-1) (ex_table 7 ex_row_announced)
       = Some ([], -1, st')
    /\ State st' 7 = Some state'
    /\ pindexBestKnownBlock state' = Some 2%positive
    /\ (nChainWork (blk (ex_env 3 3) 2) < nChainWork (blk (ex_env 3 3) 3))%N
    /\ state' ≠ ex_row_announced.
Proof.
  eexists _, _. split; [reflexivity|]. split; [vm_compute; reflexivity|].
  split; [vm_compute; reflexivity|]. split; [reflexivity|].
  split; [vm_compute; reflexivity|]. discriminate.
Qed.

(** A peer that has announced nothing. *)
Lemma FindNextBlocksToDownload_guard_witness :
  FindNextBlocksToDownload ex_pc (ex_env 3 3) 10 7 16 [] (-1) (ex_table 7 ex_row)
  = Some ([], -1, ex_table 7 ex_row).
Proof.
  destruct (FindNextBlocksToDownload_guard ex_pc (ex_env 3 3) 10 7 16 [] (-1)
              (ex_table 7 ex_row) ex_row) as (H1 & _ & H3 & _); [reflexivity|].
  rewrite H1; [|discriminate|exact I].
  rewrite H3; reflexivity.
Defined.

(** ** Tallies over the peer table *)

Lemma tally_empty P : tally P ∅ = 0.
Proof. unfold tally. apply map_fold_empty. Qed.

Lemma tally_insert_None P (m : gmap Z CNodeState) i s :
  m !! i = None -> tally P (<[i := s]> m) = Z.b2z (P s) + tally P m.
Proof.
  intros H. unfold tally. rewrite map_fold_insert_L; [done| |done].
  intros. lia.
Qed.

Lemma tally_delete P (m : gmap Z CNodeState) i s :
  m !! i = Some s -> tally P (delete i m) = tally P m - Z.b2z (P s).
Proof.
  intros H. unfold tally.
  rewrite (map_fold_delete_L _ _ i s m); [lia| |done].
  intros. lia.
Qed.

Lemma tally_insert_Some P (m : gmap Z CNodeState) i s s' :
  m !! i = Some s ->
  tally P (<[i := s']> m) = tally P m - Z.b2z (P s) + Z.b2z (P s').
Proof.
  intros H. rewrite <- insert_delete_eq.
  rewrite tally_insert_None by apply lookup_delete_eq.
  rewrite (tally_delete _ _ _ _ H). lia.
Qed.

Lemma tally_bounds P (m : gmap Z CNodeState) : 0 <= tally P m <= Z.of_nat (size m).
Proof.
  induction m as [|i s m Hi IH] using map_ind.
  - rewrite tally_empty, map_size_empty. lia.
  - rewrite tally_insert_None, map_size_insert_None by done.
    destruct (P s); simpl; lia.
Qed.

(** ** Queues of blocks in flight *)

Lemma count_validated_bounds l : 0 <= count_validated l <= Z.of_nat (length l).
Proof.
  induction l as [|[a q] l IH]; simpl; [lia|].
  destruct (fValidatedHeaders q); simpl; lia.
Qed.

Lemma count_validated_app l l' :
  count_validated (l ++ l') = count_validated l + count_validated l'.
Proof. induction l as [|[a q] l IH]; simpl; lia. Qed.

Lemma list_deref_elem_of it l entry :
  list_deref it l = Some entry -> (it, entry) ∈ l.
Proof.
  induction l as [|[a q] l IH]; simpl; [done|].
  destruct (Pos.eqb_spec a it) as [->|Hne]; intros H.
  - injection H as ->. by left.
  - right. by apply IH.
Qed.

Lemma list_deref_None it l :
  (forall entry, (it, entry) ∉ l) -> list_deref it l = None.
Proof.
  induction l as [|[a q] l IH]; simpl; intros H; [done|].
  destruct (Pos.eqb_spec a it) as [->|Hne].
  - exfalso. apply (H q). by left.
  - apply IH. intros entry Hin. apply (H entry). by right.
Qed.

Lemma list_deref_app it l l' entry :
  list_deref it l = Some entry -> list_deref it (l ++ l') = Some entry.
Proof.
  induction l as [|[a q] l IH]; simpl; [done|].
  by destruct (Pos.eqb a it).
Qed.

Lemma list_deref_app_new it l entry :
  list_deref it l = None -> list_deref it (l ++ [(it, entry)]) = Some entry.
Proof.
  induction l as [|[a q] l IH]; simpl.
  - by rewrite Pos.eqb_refl.
  - by destruct (Pos.eqb a it).
Qed.

Lemma list_deref_erase_ne it it' l :
  it ≠ it' -> list_deref it' (list_erase it l) = list_deref it' l.
Proof.
  intros Hne. induction l as [|[a q] l IH]; simpl; [done|].
  destruct (Pos.eqb_spec a it) as [->|Ha].
  - destruct (Pos.eqb_spec it it'); [done|done].
  - simpl. by rewrite IH.
Qed.

Lemma list_erase_elem_of it l x : x ∈ list_erase it l -> x ∈ l.
Proof.
  induction l as [|[a q] l IH]; simpl; [done|].
  destruct (Pos.eqb a it); intros H.
  - by right.
  - apply elem_of_cons in H as [->|H]; [by left | right; by apply IH].
Qed.

Lemma list_erase_length it l entry :
  list_deref it l = Some entry ->
  Z.of_nat (length (list_erase it l)) = Z.of_nat (length l) - 1.
Proof.
  induction l as [|[a q] l IH]; simpl; [done|].
  destruct (Pos.eqb a it); intros H; simpl; [lia|].
  rewrite Nat2Z.inj_succ, IH by done. lia.
Qed.

Lemma list_erase_count_validated it l entry :
  list_deref it l = Some entry ->
  count_validated (list_erase it l)
  = count_validated l - Z.b2z (fValidatedHeaders entry).
Proof.
  induction l as [|[a q] l IH]; simpl; [done|].
  destruct (Pos.eqb a it); intros H; simpl.
  - injection H as ->. lia.
  - rewrite IH by done. lia.
Qed.

Lemma list_deref_count_validated it l entry :
  list_deref it l = Some entry ->
  Z.b2z (fValidatedHeaders entry) <= count_validated l.
Proof.
  intros H. pose proof (list_erase_count_validated _ _ _ H).
  pose proof (count_validated_bounds (list_erase it l)). lia.
Qed.

Lemma foldl_delete_lookup_Some (m : gmap N (Z * positive))
    (l : list (positive * QueuedBlock)) h x :
  foldl (fun m entry => delete (hash entry.2) m) m l !! h = Some x ->
  m !! h = Some x /\ forall it entry, (it, entry) ∈ l -> hash entry ≠ h.
Proof.
  revert m. induction l as [|e l IH]; intros m; simpl; intros H.
  - split; [done|]. intros it entry Hin. by apply elem_of_nil in Hin.
  - apply IH in H as [H Hl].
    apply lookup_delete_Some in H as [Hne H]. split; [done|].
    intros it entry Hin. apply elem_of_cons in Hin as [Heq|Hin]; [by subst e|].
    by eapply Hl.
Qed.

Lemma foldl_delete_lookup_in (m : gmap N (Z * positive))
    (l : list (positive * QueuedBlock)) it entry :
  (it, entry) ∈ l ->
  foldl (fun m entry => delete (hash entry.2) m) m l !! hash entry = None.
Proof.
  intros Hin.
  destruct (foldl _ m l !! hash entry) as [x|] eqn:H; [|done].
  apply foldl_delete_lookup_Some in H as [_ H]. by destruct (H it entry Hin).
Qed.

(** ** Consistency of the global tables *)

Lemma Inv_initial : Inv initial_state.
Proof.
  split; simpl; try (intros; by rewrite ?tally_empty); done.
Qed.

(** The row of [pnode] is replaced, the in-flight map keeps or gains entries
    that the new row backs, and the tallies follow the row. *)
Lemma Inv_update st st' pnode s s' :
  Inv st -> State st pnode = Some s ->
  mapNodeState st' = <[pnode := s']> (mapNodeState st) ->
  (forall h peer it, mapBlocksInFlight st' !! h = Some (peer, it) ->
     (mapBlocksInFlight st !! h = Some (peer, it)
      /\ (peer = pnode -> forall entry,
            list_deref it (vBlocksInFlight s) = Some entry ->
            list_deref it (vBlocksInFlight s') = Some entry))
     \/ (peer = pnode
         /\ exists entry, list_deref it (vBlocksInFlight s') = Some entry
                          /\ hash entry = h)) ->
  (next_list_node st <= next_list_node st')%positive ->
  (forall it entry, (it, entry) ∈ vBlocksInFlight s' ->
     (it < next_list_node st')%positive) ->
  nBlocksInFlight s' = Z.of_nat (length (vBlocksInFlight s')) ->
  Z.of_nat (length (vBlocksInFlight s')) <= INT_MAX ->
  nBlocksInFlightValidHeaders s' = count_validated (vBlocksInFlight s') ->
  nSyncStarted st'
  = nSyncStarted st - Z.b2z (fSyncStarted s) + Z.b2z (fSyncStarted s') ->
  nPreferredDownload st'
  = nPreferredDownload st - Z.b2z (fPreferredDownload s) + Z.b2z (fPreferredDownload s') ->
  nPeersWithValidatedDownloads st'
  = nPeersWithValidatedDownloads st - Z.b2z (has_validated s) + Z.b2z (has_validated s') ->
  g_outbound_peers_with_protect_from_disconnect st'
  = g_outbound_peers_with_protect_from_disconnect st
    - Z.b2z (is_protected s) + Z.b2z (is_protected s') ->
  Inv st'.
Proof.
  intros HI Hs Hnodes Hmap Hnext Hfresh Hlen Hmax Hval Hc1 Hc2 Hc3 Hc4.
  destruct HI as [I1 I2 I3 I4 I5 I6 I7 I8 I9].
  assert (forall peer, State st' peer
                       = if decide (pnode = peer) then Some s' else State st peer) as Hst.
  { intros peer. unfold State. rewrite Hnodes. apply lookup_insert. }
  split.
  - intros h peer it Hin. destruct (Hmap _ _ _ Hin) as [[Hold Hsame]|[-> Hnew]].
    + destruct (I1 _ _ _ Hold) as (state & entry & Hst0 & Hd & Hh).
      rewrite Hst. destruct (decide (pnode = peer)) as [<-|Hne].
      * rewrite Hs in Hst0. injection Hst0 as <-.
        exists s', entry. split; [done|]. split; [by apply Hsame | done].
      * by exists state, entry.
    + destruct Hnew as (entry & Hd & Hh). exists s', entry.
      rewrite Hst. by rewrite decide_True.
  - intros peer state it entry Hp Hin. rewrite Hst in Hp.
    destruct (decide (pnode = peer)) as [<-|Hne].
    + injection Hp as <-. by eapply Hfresh.
    + eapply Pos.lt_le_trans; [by eapply I2 | done].
  - intros peer state Hp. rewrite Hst in Hp.
    destruct (decide (pnode = peer)) as [<-|Hne]; [by injection Hp as <- | by eapply I3].
  - intros peer state Hp. rewrite Hst in Hp.
    destruct (decide (pnode = peer)) as [<-|Hne]; [by injection Hp as <- | by eapply I4].
  - rewrite Hnodes, map_size_insert_Some; [done|]. by eexists.
  - rewrite Hc1, Hnodes, (tally_insert_Some _ _ _ _ _ Hs), I6. done.
  - rewrite Hc2, Hnodes, (tally_insert_Some _ _ _ _ _ Hs), I7. done.
  - rewrite Hc3, Hnodes, (tally_insert_Some _ _ _ _ _ Hs), I8. done.
  - rewrite Hc4, Hnodes, (tally_insert_Some _ _ _ _ _ Hs), I9. done.
Qed.

(** A change to the fields of a row that no tally and no map entry depends
    on. *)
Lemma Inv_put_state st pnode s s' :
  Inv st -> State st pnode = Some s -> same_tracked s s' -> Inv (put_state pnode s' st).
Proof.
  intros HI Hs (H1 & H2 & H3 & H4 & H5 & H6).
  pose proof (inv_length _ HI _ _ Hs) as [Hl Hm].
  pose proof (inv_validated _ HI _ _ Hs) as Hv.
  eapply (Inv_update st _ pnode s s'); try done; simpl.
  - intros h peer it Hin. left. split; [done|]. intros _ entry. by rewrite H4.
  - intros it entry Hin. rewrite H4 in Hin. by eapply (inv_fresh _ HI).
  - by rewrite H5, H4.
  - by rewrite H4.
  - by rewrite H6, H4.
  - rewrite H1. lia.
  - rewrite H2. lia.
  - unfold has_validated. rewrite H6. lia.
  - rewrite H3. lia.
Qed.

Lemma Inv_upd_state st pnode f :
  Inv st -> (forall s, same_tracked s (f s)) -> Inv (upd_state pnode f st).
Proof.
  intros HI Hf. destruct (State st pnode) as [s|] eqn:Hs.
  - rewrite (upd_state_put _ _ _ _ Hs). by eapply Inv_put_state.
  - rewrite upd_state_id; [done|]. intros s Hs'. by rewrite Hs in Hs'.
Qed.

Lemma dequeue_fields nNow it entry s :
  vBlocksInFlight (dequeue nNow it entry s) = list_erase it (vBlocksInFlight s)
  /\ nBlocksInFlight (dequeue nNow it entry s) = wrap32 (nBlocksInFlight s - 1)
  /\ nBlocksInFlightValidHeaders (dequeue nNow it entry s)
     = wrap32 (nBlocksInFlightValidHeaders s - Z.b2z (fValidatedHeaders entry))
  /\ fSyncStarted (dequeue nNow it entry s) = fSyncStarted s
  /\ fPreferredDownload (dequeue nNow it entry s) = fPreferredDownload s
  /\ is_protected (dequeue nNow it entry s) = is_protected s.
Proof. unfold dequeue. cbv zeta. by destruct (is_begin _ _). Qed.

Lemma enqueue_fields nNow it entry s :
  vBlocksInFlight (enqueue nNow it entry s) = vBlocksInFlight s ++ [(it, entry)]
  /\ nBlocksInFlight (enqueue nNow it entry s) = wrap32 (nBlocksInFlight s + 1)
  /\ nBlocksInFlightValidHeaders (enqueue nNow it entry s)
     = wrap32 (nBlocksInFlightValidHeaders s + Z.b2z (fValidatedHeaders entry))
  /\ fSyncStarted (enqueue nNow it entry s) = fSyncStarted s
  /\ fPreferredDownload (enqueue nNow it entry s) = fPreferredDownload s
  /\ is_protected (enqueue nNow it entry s) = is_protected s.
Proof. unfold enqueue. cbv zeta. by destruct (_ =? 1). Qed.

(** What [MarkBlockAsReceived] returns on a consistent state. *)
Lemma MarkBlockAsReceived_Inv nNow h st :
  Inv st ->
  exists r st',
    MarkBlockAsReceived nNow h st = Some (r, st')
    /\ Inv st'
    /\ next_list_node st' = next_list_node st
    /\ (forall pnode state,
          State st pnode = Some state ->
          exists state', State st' pnode = Some state'
                         /\ (length (vBlocksInFlight state')
                             <= length (vBlocksInFlight state))%nat).
Proof.
  intros HI. unfold MarkBlockAsReceived.
  destruct (mapBlocksInFlight st !! h) as [[peer it]|] eqn:Hin.
  2:{ exists false, st. split; [done|]. split; [done|]. split; [done|].
      intros pnode state Hs. by exists state. }
  destruct (inv_flight _ HI _ _ _ Hin) as (state & entry & Hs & Hd & Hh).
  rewrite Hs. cbn [mbind option_bind]. rewrite Hd. cbn [mbind option_bind].
  destruct (dequeue_fields nNow it entry state) as (D1 & D2 & D3 & D4 & D5 & D6).
  pose proof (inv_length _ HI _ _ Hs) as [Hl Hm].
  pose proof (inv_validated _ HI _ _ Hs) as Hv.
  pose proof (list_erase_length _ _ _ Hd) as He.
  pose proof (list_erase_count_validated _ _ _ Hd) as Hc.
  pose proof (count_validated_bounds (list_erase it (vBlocksInFlight state))) as Hb.
  pose proof (count_validated_bounds (vBlocksInFlight state)) as Hb'.
  assert (nBlocksInFlight (dequeue nNow it entry state)
          = Z.of_nat (length (list_erase it (vBlocksInFlight state)))) as Hlen.
  { rewrite D2, Hl, He. apply wrap32_id. unfold int_range, INT_MIN, INT_MAX in *. lia. }
  assert (nBlocksInFlightValidHeaders (dequeue nNow it entry state)
          = count_validated (list_erase it (vBlocksInFlight state))) as Hval.
  { rewrite D3, Hv, Hc. apply wrap32_id. unfold int_range, INT_MIN, INT_MAX in *. lia. }
  eexists true, _. split; [reflexivity|]. split; [|split].
  - eapply (Inv_update st _ peer state (dequeue nNow it entry state)); try done.
    + intros h' peer' it' Hin'. left. simpl in Hin'.
      apply lookup_delete_Some in Hin' as [Hne Hold].
      split; [done|]. intros -> entry' Hd'. rewrite D1.
      rewrite list_deref_erase_ne; [done|]. intros <-.
      destruct (inv_flight _ HI _ _ _ Hold) as (state2 & entry2 & Hs2 & Hd2 & Hh2).
      rewrite Hs in Hs2. injection Hs2 as <-. congruence.
    + intros it' entry' Hin'. rewrite D1 in Hin'. apply list_erase_elem_of in Hin'.
      by eapply (inv_fresh _ HI).
    + by rewrite D1.
    + rewrite D1, He. lia.
    + by rewrite D1.
    + rewrite D4. simpl. lia.
    + rewrite D5. simpl. lia.
    + unfold has_validated. rewrite Hval, Hv, Hc. simpl.
      pose proof (inv_nPeersWithValidatedDownloads _ HI) as Hp.
      pose proof (tally_bounds has_validated (mapNodeState st)) as Htb.
      pose proof (inv_size _ HI) as Hsz.
      destruct (fValidatedHeaders entry); simpl in *.
      * destruct (Z.eqb_spec (count_validated (vBlocksInFlight state) - 1) 0) as [Hz|Hz];
          destruct (Z.eqb_spec (count_validated (vBlocksInFlight state)) 0); simpl;
          try lia.
        rewrite wrap32_id; [lia|].
        assert (has_validated state = true) as Hhv.
        { unfold has_validated. rewrite Hv.
          by destruct (Z.eqb_spec (count_validated (vBlocksInFlight state)) 0). }
        pose proof (tally_delete has_validated _ _ _ Hs) as Htd.
        pose proof (tally_bounds has_validated (delete peer (mapNodeState st))) as Htb2.
        rewrite Hhv in Htd. simpl in Htd.
        unfold int_range, INT_MIN, INT_MAX in *. lia.
      * rewrite andb_false_r. rewrite Z.sub_0_r.
        destruct (count_validated _ =? 0); simpl; lia.
    + rewrite D6. simpl. lia.
  - done.
  - intros pnode state' Hs'.
    change (State (set_mapBlocksInFlight ?x (set_nPeersWithValidatedDownloads ?y ?z)) pnode)
      with (State z pnode).
    destruct (decide (peer = pnode)) as [->|Hne].
    + rewrite State_put_state_eq. eexists. split; [done|].
      rewrite Hs in Hs'. injection Hs' as <-. rewrite D1. lia.
    + rewrite State_put_state_ne by done. exists state'. split; [done|lia].
Qed.

(** What [MarkBlockAsInFlight] returns on a consistent state, for a known peer
    whose queue has room. *)
Lemma MarkBlockAsInFlight_Inv nNow nodeid h pindex_ want_pit st :
  Inv st -> is_Some (State st nodeid) -> queue_has_room st nodeid ->
  exists r pit st',
    MarkBlockAsInFlight nNow nodeid h pindex_ want_pit st = Some (r, pit, st')
    /\ Inv st'
    /\ (forall pnode state,
          State st pnode = Some state ->
          exists state',
            State st' pnode = Some state'
            /\ (length (vBlocksInFlight state')
                <= length (vBlocksInFlight state) + if decide (pnode = nodeid) then 1 else 0)%nat).
Proof.
  intros HI [state Hs] Hroom. unfold MarkBlockAsInFlight.
  rewrite Hs. cbn [mbind option_bind].
  destruct (match mapBlocksInFlight st !! h with
            | Some (peer, it) => if peer =? nodeid then Some it else None
            | None => None
            end) as [it|].
  { eexists _, _, st. split; [reflexivity|]. split; [done|].
    intros pnode state' Hs'. exists state'. split; [done|lia]. }
  destruct (MarkBlockAsReceived_Inv nNow h st HI) as (r0 & st1 & Hrecv & HI1 & Hnext & Hrows).
  rewrite Hrecv. cbn [mbind option_bind].
  pose proof (MarkBlockAsReceived_not_in_flight _ _ _ _ _ Hrecv) as Hnone.
  destruct (Hrows _ _ Hs) as (state0 & Hs0 & Hlen0).
  rewrite Hs0. cbn [mbind option_bind].
  set (it := next_list_node st1).
  set (entry := {| hash := h; pindex := pindex_;
                   fValidatedHeaders := bool_decide (pindex_ ≠ None);
                   partialBlock := if want_pit then Some NewPartiallyDownloadedBlock
                                   else None |}).
  destruct (enqueue_fields nNow it entry state0) as (E1 & E2 & E3 & E4 & E5 & E6).
  pose proof (inv_length _ HI1 _ _ Hs0) as [Hl Hm].
  pose proof (inv_validated _ HI1 _ _ Hs0) as Hv.
  pose proof (count_validated_bounds (vBlocksInFlight state0)) as Hb.
  pose proof (Hroom _ Hs) as Hr.
  assert (list_deref it (vBlocksInFlight state0) = None) as Hfresh.
  { apply list_deref_None. intros e He.
    pose proof (inv_fresh _ HI1 _ _ _ _ Hs0 He). unfold it in *. lia. }
  assert (nBlocksInFlight (enqueue nNow it entry state0)
          = Z.of_nat (length (vBlocksInFlight state0 ++ [(it, entry)]))) as Hlen.
  { rewrite E2, Hl, length_app. simpl. rewrite Nat2Z.inj_add.
    apply wrap32_id. unfold int_range, INT_MIN, INT_MAX in *. lia. }
  assert (nBlocksInFlightValidHeaders (enqueue nNow it entry state0)
          = count_validated (vBlocksInFlight state0 ++ [(it, entry)])) as Hval.
  { rewrite E3, Hv, count_validated_app. simpl. rewrite Z.add_0_r.
    apply wrap32_id. unfold int_range, INT_MIN, INT_MAX in *.
    destruct (bool_decide _); simpl; lia. }
  eexists true, _, _. split; [reflexivity|]. split.
  - eapply (Inv_update st1 _ nodeid state0 (enqueue nNow it entry state0)); try done.
    + intros h' peer' it' Hin'. simpl in Hin'. unfold map_insert_new in Hin'.
      rewrite Hnone in Hin'. apply lookup_insert_Some in Hin' as [[<- Heq]|[Hne Hold]].
      * injection Heq as <- <-. right. split; [done|]. exists entry.
        rewrite E1. split; [by apply list_deref_app_new | done].
      * left. split; [done|]. intros _ entry' Hd'. rewrite E1. by apply list_deref_app.
    + simpl. fold it. lia.
    + intros it' entry' Hin'. rewrite E1 in Hin'. simpl. fold it.
      apply elem_of_app in Hin' as [Hin'|Hin'].
      * pose proof (inv_fresh _ HI1 _ _ _ _ Hs0 Hin'). unfold it. lia.
      * apply list_elem_of_singleton in Hin'. injection Hin' as -> _. lia.
    + by rewrite E1.
    + rewrite E1, length_app. simpl. rewrite Nat2Z.inj_add. lia.
    + by rewrite E1.
    + rewrite E4. simpl. lia.
    + rewrite E5. simpl. lia.
    + unfold has_validated. rewrite Hval, Hv, count_validated_app. simpl.
      rewrite Z.add_0_r.
      pose proof (inv_nPeersWithValidatedDownloads _ HI1) as Hp.
      pose proof (tally_bounds has_validated (mapNodeState st1)) as Htb.
      pose proof (inv_size _ HI1) as Hsz.
      destruct (bool_decide (pindex_ ≠ None)); simpl.
      * destruct (Z.eqb_spec (count_validated (vBlocksInFlight state0) + 1) 1) as [Hz|Hz];
          destruct (Z.eqb_spec (count_validated (vBlocksInFlight state0)) 0);
          destruct (Z.eqb_spec (count_validated (vBlocksInFlight state0) + 1) 0);
          simpl; try lia.
        rewrite wrap32_id; [lia|].
        assert (has_validated state0 = false) as Hhv.
        { unfold has_validated. rewrite Hv.
          by destruct (Z.eqb_spec (count_validated (vBlocksInFlight state0)) 0). }
        pose proof (tally_delete has_validated _ _ _ Hs0) as Htd.
        pose proof (tally_bounds has_validated (delete nodeid (mapNodeState st1))) as Htb2.
        pose proof (map_size_delete_Some nodeid (mapNodeState st1) ltac:(by eexists)).
        rewrite Hhv in Htd. simpl in Htd.
        assert (size (mapNodeState st1) ≠ 0%nat).
        { intros Hz0. apply map_size_empty_inv in Hz0. unfold State in Hs0.
          by rewrite Hz0 in Hs0. }
        unfold int_range, INT_MIN, INT_MAX in *. lia.
      * rewrite andb_false_r, Z.add_0_r.
        destruct (count_validated _ =? 0); simpl; lia.
    + rewrite E6. simpl. lia.
  - intros pnode state' Hs'.
    destruct (Hrows _ _ Hs') as (state1 & Hs1 & Hlen1).
    change (State (set_mapBlocksInFlight ?x (set_nPeersWithValidatedDownloads ?y ?z)) pnode)
      with (State z pnode).
    destruct (decide (pnode = nodeid)) as [->|Hne].
    + rewrite State_put_state_eq. eexists. split; [done|].
      rewrite E1, length_app. simpl. rewrite Hs0 in Hs1. injection Hs1 as <-. lia.
    + rewrite State_put_state_ne by done. exists state1. split; [done|lia].
Qed.

Lemma tally_delete_range P (m : gmap Z CNodeState) i s n :
  m !! i = Some s -> Z.of_nat (size m) <= INT_MAX -> n = tally P m ->
  wrap32 (n - Z.b2z (P s)) = tally P (delete i m)
  /\ 0 <= tally P (delete i m).
Proof.
  intros Hs Hsz ->. rewrite (tally_delete _ _ _ _ Hs).
  pose proof (tally_bounds P (delete i m)) as Hb.
  pose proof (map_size_delete_Some i m ltac:(by eexists)) as Hd.
  rewrite (tally_delete _ _ _ _ Hs) in Hb.
  split; [|lia]. apply wrap32_id. unfold int_range, INT_MIN, INT_MAX in *. lia.
Qed.

(** What [FinalizeNode] returns on a consistent state for a known peer. *)
Lemma FinalizeNode_Inv nodeid st state :
  Inv st -> State st nodeid = Some state ->
  exists st',
    FinalizeNode nodeid st
    = Some ((nMisbehavior state =? 0) && fCurrentlyConnected state, st',
            [RemoveOrphanTxForNode nodeid])
    /\ Inv st'
    /\ mapNodeState st' = delete nodeid (mapNodeState st)
    /\ mapBlocksInFlight st'
       = foldl (fun m entry => delete (hash entry.2) m) (mapBlocksInFlight st)
           (vBlocksInFlight state)
    /\ nSyncStarted st' = nSyncStarted st - Z.b2z (fSyncStarted state)
    /\ nPreferredDownload st' = nPreferredDownload st - Z.b2z (fPreferredDownload state)
    /\ nPeersWithValidatedDownloads st'
       = nPeersWithValidatedDownloads st - Z.b2z (has_validated state)
    /\ g_outbound_peers_with_protect_from_disconnect st'
       = g_outbound_peers_with_protect_from_disconnect st - Z.b2z (is_protected state).
Proof.
  intros HI Hs. pose proof HI as [I1 I2 I3 I4 I5 I6 I7 I8 I9].
  unfold State in Hs.
  destruct (tally_delete_range fSyncStarted _ _ _ _ Hs I5 I6) as [W1 _].
  destruct (tally_delete_range fPreferredDownload _ _ _ _ Hs I5 I7) as [W2 _].
  destruct (tally_delete_range has_validated _ _ _ _ Hs I5 I8) as [W3 P3].
  destruct (tally_delete_range is_protected _ _ _ _ Hs I5 I9) as [W4 P4].
  set (m' := foldl (fun m entry => delete (hash entry.2) m) (mapBlocksInFlight st)
               (vBlocksInFlight state)).
  assert (forall h peer it, m' !! h = Some (peer, it) ->
            exists state' entry,
              delete nodeid (mapNodeState st) !! peer = Some state'
              /\ list_deref it (vBlocksInFlight state') = Some entry /\ hash entry = h)
    as Hflight.
  { intros h peer it Hin. apply foldl_delete_lookup_Some in Hin as [Hold Hnot].
    destruct (I1 _ _ _ Hold) as (state' & entry & Hs' & Hd & Hh).
    exists state', entry. split; [|done].
    rewrite lookup_delete_ne; [done|]. intros <-.
    unfold State in Hs'. rewrite Hs in Hs'. injection Hs' as <-.
    apply list_deref_elem_of in Hd. by destruct (Hnot _ _ Hd). }
  assert (fSyncStarted state = true -> wrap32 (nSyncStarted st - 1) = tally fSyncStarted (delete nodeid (mapNodeState st))) as W1'.
  { intros Ht. rewrite Ht in W1. exact W1. }
  assert (fSyncStarted state = false -> nSyncStarted st = tally fSyncStarted (delete nodeid (mapNodeState st))) as W1''.
  { intros Ht. rewrite (tally_delete _ _ _ _ Hs), Ht, I6. simpl. lia. }
  unfold FinalizeNode, State. rewrite Hs. cbn [mbind option_bind].
  cbn [nPeersWithValidatedDownloads set_nPeersWithValidatedDownloads set_nPreferredDownload
       set_mapBlocksInFlight set_nSyncStarted
       g_outbound_peers_with_protect_from_disconnect
       set_g_outbound_peers_with_protect_from_disconnect mapNodeState set_mapNodeState
       mapBlocksInFlight nPreferredDownload nSyncStarted next_list_node].
  fold (has_validated state). fold (is_protected state). fold m'.
  rewrite W3, W4, W2.
  replace (0 <=? tally has_validated (delete nodeid (mapNodeState st))) with true
    by (symmetry; by apply Z.leb_le).
  replace (0 <=? tally is_protected (delete nodeid (mapNodeState st))) with true
    by (symmetry; by apply Z.leb_le).
  cbn [assert_ mbind option_bind].
  assert (implb (bool_decide (delete nodeid (mapNodeState st) = ∅))
            (bool_decide (m' = ∅)
             && (tally fPreferredDownload (delete nodeid (mapNodeState st)) =? 0)
             && (tally has_validated (delete nodeid (mapNodeState st)) =? 0)
             && (tally is_protected (delete nodeid (mapNodeState st)) =? 0)) = true) as ->.
  { case_bool_decide as He; [|done]. simpl. rewrite He, !tally_empty. simpl.
    rewrite !andb_true_r. apply bool_decide_eq_true. apply map_empty. intros h.
    destruct (m' !! h) as [[peer it]|] eqn:Hin; [|done].
    destruct (Hflight _ _ _ Hin) as (state' & entry & Hs' & _).
    rewrite He in Hs'. by rewrite lookup_empty in Hs'. }
  cbn [assert_ mbind option_bind].
  eexists. split; [reflexivity|].
  cbn [nPeersWithValidatedDownloads nPreferredDownload nSyncStarted mapNodeState
       mapBlocksInFlight g_outbound_peers_with_protect_from_disconnect next_list_node].
  split; [|split; [done|]; split; [done|]].
  - split; unfold State; simpl; try done.
    + intros peer state' it entry Hs' Hin. simpl in Hs'.
      apply lookup_delete_Some in Hs' as [_ Hs']. by eapply I2.
    + intros peer state' Hs'. simpl in Hs'.
      apply lookup_delete_Some in Hs' as [_ Hs']. by eapply I3.
    + intros peer state' Hs'. simpl in Hs'.
      apply lookup_delete_Some in Hs' as [_ Hs']. by eapply I4.
    + pose proof (map_size_delete_Some nodeid (mapNodeState st) ltac:(by eexists)). lia.
    + destruct (fSyncStarted state) eqn:Ht; [by apply W1' | by apply W1''].
  - split.
    + destruct (fSyncStarted state) eqn:Ht; simpl.
      * rewrite (W1' eq_refl), (tally_delete _ _ _ _ Hs), Ht, I6. done.
      * lia.
    + rewrite !(tally_delete _ _ _ _ Hs), I7, I8, I9. done.
Qed.

Lemma InitializeNode_Inv pc nTime pnode addrName st :
  Inv st -> Z.of_nat (size (mapNodeState st)) < INT_MAX ->
  Inv (InitializeNode pc nTime pnode addrName st).1.
Proof.
  intros HI Hsz. unfold InitializeNode. cbn [fst].
  destruct (State st (GetId pnode)) as [s|] eqn:Hs; [done|].
  destruct HI as [I1 I2 I3 I4 I5 I6 I7 I8 I9]. unfold State in Hs.
  assert (forall peer state,
            State (set_mapNodeState
                     (<[GetId pnode := new_CNodeState (addr pnode) addrName]>
                        (mapNodeState st)) st) peer = Some state ->
            (peer = GetId pnode /\ state = new_CNodeState (addr pnode) addrName)
            \/ State st peer = Some state) as Hrow.
  { intros peer state Hp. unfold State in Hp. simpl in Hp.
    apply lookup_insert_Some in Hp as [[<- <-]|[_ Hp]]; [by left | by right]. }
  split; simpl.
  - intros h peer it Hin. destruct (I1 _ _ _ Hin) as (state & entry & Hs' & Hd & Hh).
    exists state, entry. split; [|done]. unfold State in *. simpl.
    rewrite lookup_insert_ne; [done|]. intros <-. by rewrite Hs in Hs'.
  - intros peer state it entry Hp Hin. apply Hrow in Hp as [[-> ->]|Hp].
    + by apply elem_of_nil in Hin.
    + by eapply I2.
  - intros peer state Hp. apply Hrow in Hp as [[-> ->]|Hp]; [done | by eapply I3].
  - intros peer state Hp. apply Hrow in Hp as [[-> ->]|Hp]; [done | by eapply I4].
  - rewrite map_size_insert_None by done. lia.
  - by rewrite tally_insert_None.
  - by rewrite tally_insert_None.
  - by rewrite tally_insert_None.
  - by rewrite tally_insert_None.
Qed.

Lemma tally_flag_range P (m : gmap Z CNodeState) i s :
  m !! i = Some s -> Z.of_nat (size m) <= INT_MAX ->
  (P s = false -> wrap32 (tally P m + 1) = tally P m + 1)
  /\ (P s = true -> wrap32 (tally P m - 1) = tally P m - 1)
  /\ wrap32 (tally P m - Z.b2z (P s)) = tally P m - Z.b2z (P s)
  /\ forall b, wrap32 (tally P m - Z.b2z (P s) + Z.b2z b) = tally P m - Z.b2z (P s) + Z.b2z b.
Proof.
  intros Hs Hsz.
  pose proof (tally_delete P _ _ _ Hs) as Hd.
  pose proof (tally_bounds P (delete i m)) as Hb.
  pose proof (map_size_delete_Some i m ltac:(by eexists)) as Hsd.
  assert (size m ≠ 0%nat) as Hnz.
  { intros Hz. apply map_size_empty_inv in Hz. by rewrite Hz in Hs. }
  repeat split; intros; apply wrap32_id; unfold int_range, INT_MIN, INT_MAX in *;
    destruct (P s); try destruct b; simpl in *; try discriminate; lia.
Qed.

Lemma UpdatePreferredDownload_Inv node st st' :
  Inv st -> UpdatePreferredDownload node st = Some st' -> Inv st'.
Proof.
  intros HI H. unfold UpdatePreferredDownload in H.
  destruct (State st (GetId node)) as [state|] eqn:Hs; [|done].
  cbn [mbind option_bind] in H. injection H as <-.
  pose proof (inv_length _ HI _ _ Hs) as [Hl Hm].
  pose proof (inv_validated _ HI _ _ Hs) as Hv.
  destruct (tally_flag_range fPreferredDownload _ _ _ Hs (inv_size _ HI)) as (_ & _ & W & W').
  rewrite <- (inv_nPreferredDownload _ HI) in W, W'.
  eapply (Inv_update st _ (GetId node) state
            (set_fPreferredDownload ((negb (fInbound node) || fWhitelisted node)
                                     && negb (fOneShot node) && negb (fClient node)) state));
    try done; unfold has_validated, is_protected; simpl; try lia.
  - apply map_eq. intros i. destruct (decide (GetId node = i)) as [<-|Hne].
    + rewrite lookup_alter_eq, lookup_insert_eq. unfold State in Hs. by rewrite Hs.
    + by rewrite lookup_alter_ne, lookup_insert_ne.
  - intros h peer it Hin. left. done.
  - intros it entry Hin. by eapply (inv_fresh _ HI).
  - rewrite W. apply W'.
Qed.

Lemma SendMessages_start_sync_Inv env base per_header nNow nAdjusted pto st st' ev :
  Inv st ->
  SendMessages_start_sync env base per_header nNow nAdjusted pto st = Some (st', ev) ->
  Inv st'.
Proof.
  intros HI H. unfold SendMessages_start_sync in H.
  destruct (State st (GetId pto)) as [state|] eqn:Hs; [|done].
  cbn [mbind option_bind] in H.
  destruct (negb (fSyncStarted state)) eqn:Hsync; cbn [andb] in H; [|by simplify_eq].
  destruct (negb (fClient pto) && negb (fImporting env) && negb (IsReindexing env));
    [|by simplify_eq].
  destruct (GetIndexBestHeader env) as [best|]; [|done]. cbn [mbind option_bind] in H.
  destruct (_ || _); [|by simplify_eq].
  injection H as <- _.
  apply negb_true_iff in Hsync.
  pose proof (inv_length _ HI _ _ Hs) as [Hl Hm].
  pose proof (inv_validated _ HI _ _ Hs) as Hv.
  destruct (tally_flag_range fSyncStarted _ _ _ Hs (inv_size _ HI)) as (W & _).
  rewrite <- (inv_nSyncStarted _ HI) in W.
  eapply (Inv_update st _ (GetId pto) state); try done;
    unfold has_validated, is_protected; simpl; try lia.
  - intros h peer it Hin. by left.
  - intros it entry Hin. by eapply (inv_fresh _ HI).
  - rewrite Hsync, (W Hsync). simpl. lia.
Qed.

Lemma SendMessages_headers_timeout_Inv env nNow nAdjusted pto st r pto' st' :
  Inv st ->
  SendMessages_headers_timeout env nNow nAdjusted pto st = Some (r, pto', st') ->
  Inv st'.
Proof.
  intros HI H. unfold SendMessages_headers_timeout in H.
  destruct (State st (GetId pto)) as [state|] eqn:Hs; [|done].
  cbn [mbind option_bind] in H.
  destruct (fSyncStarted state) eqn:Hsync; cbn [andb] in H; [|by simplify_eq].
  destruct (_ <? INT64_MAX); [|by simplify_eq].
  destruct (GetIndexBestHeader env) as [best|]; [|done]. cbn [mbind option_bind] in H.
  destruct (_ <=? _).
  - destruct (_ && _ && _); [|by simplify_eq].
    destruct (negb (fWhitelisted pto)); [by simplify_eq|].
    injection H as _ _ <-.
    pose proof (inv_length _ HI _ _ Hs) as [Hl Hm].
    pose proof (inv_validated _ HI _ _ Hs) as Hv.
    destruct (tally_flag_range fSyncStarted _ _ _ Hs (inv_size _ HI)) as (_ & W & _).
    rewrite <- (inv_nSyncStarted _ HI) in W.
    eapply (Inv_update st _ (GetId pto) state); try done;
    unfold has_validated, is_protected; simpl; try lia.
    + intros h peer it Hin. by left.
    + intros it entry Hin. by eapply (inv_fresh _ HI).
    + rewrite Hsync, (W Hsync). simpl. lia.
  - injection H as _ _ <-. apply Inv_upd_state; [done|]. intros s. same_tracked.
Qed.

Lemma ProcessHeaders_protect_Inv env pfrom st st' :
  Inv st -> ProcessHeaders_protect env pfrom st = Some st' -> Inv st'.
Proof.
  intros HI H. unfold ProcessHeaders_protect in H.
  destruct (State st (GetId pfrom)) as [state|] eqn:Hs; [|done].
  cbn [mbind option_bind] in H.
  destruct (_ && _); [|by simplify_eq].
  destruct (pindexBestKnownBlock state); [|by simplify_eq].
  destruct (_ <? _); [|by simplify_eq].
  destruct (Tip env) as [tip|]; [|done]. cbn [mbind option_bind] in H.
  destruct (negb (m_protect (m_chain_sync state))) eqn:Hp;
    [|rewrite andb_false_r in H; by simplify_eq].
  destruct (_ <=? _)%N; cbn [andb] in H; [|by simplify_eq].
  injection H as <-. apply negb_true_iff in Hp.
  pose proof (inv_length _ HI _ _ Hs) as [Hl Hm].
  pose proof (inv_validated _ HI _ _ Hs) as Hv.
  destruct (tally_flag_range is_protected _ _ _ Hs (inv_size _ HI)) as (W & _).
  rewrite <- (inv_protect _ HI) in W.
  rewrite (upd_state_put _ _ _ _ Hs).
  eapply (Inv_update st _ (GetId pfrom) state); try done;
    unfold has_validated; simpl; try lia.
  - intros h peer it Hin. by left.
  - intros it entry Hin. by eapply (inv_fresh _ HI).
  - rewrite (W Hp). unfold is_protected. rewrite Hp. simpl. lia.
Qed.

Lemma Misbehaving_Inv banscore pnode howmuch st :
  Inv st -> Inv (Misbehaving banscore pnode howmuch st).
Proof.
  intros HI. unfold Misbehaving. destruct (howmuch =? 0); [done|].
  destruct (State st pnode) as [state|] eqn:Hs; [|done].
  eapply Inv_put_state; [done..|]. same_tracked.
Qed.

Lemma SendRejectsAndCheckIfBanned_Inv pc pnode st r pnode' st' ev :
  Inv st -> SendRejectsAndCheckIfBanned pc pnode st = Some (r, pnode', st', ev) -> Inv st'.
Proof.
  intros HI H. unfold SendRejectsAndCheckIfBanned in H.
  destruct (State st (GetId pnode)) as [state|] eqn:Hs; [|done].
  cbn [mbind option_bind] in H.
  repeat match type of H with
         | context [if ?b then _ else _] => destruct b
         end; injection H as _ _ <- _; (eapply Inv_put_state; [done..|]); same_tracked.
Qed.

Lemma ConsiderEviction_Inv env t pto st pto' st' ev :
  Inv st -> ConsiderEviction env t pto st = Some (pto', st', ev) -> Inv st'.
Proof.
  intros HI H. unfold ConsiderEviction in H.
  destruct (State st (GetId pto)) as [state|] eqn:Hs; [|done].
  cbn [mbind option_bind] in H.
  destruct (_ && _ && _); [|by simplify_eq].
  match type of H with
  | (?m ≫= _) = _ => destruct m as [caught|]; [|done]
  end.
  cbn [mbind option_bind] in H.
  repeat (match type of H with
          | context [if ?b then _ else _] => destruct b
          | context [match ?x with _ => _ end] => destruct x
          | (?m ≫= _) = _ => destruct m
          end; cbn [mbind option_bind] in H); try done;
    injection H as _ <- _;
    first [ done
          | rewrite (upd_state_put _ _ _ _ Hs); (eapply Inv_put_state; [done..|]);
            unfold same_tracked, is_protected; simpl; done ].
Qed.

Lemma UpdateBlockAvailability_Inv env nodeid h st st' :
  Inv st -> UpdateBlockAvailability env nodeid h st = Some st' -> Inv st'.
Proof.
  intros HI H. unfold UpdateBlockAvailability in H.
  destruct (State st nodeid) as [state|] eqn:Hs; [|done].
  cbn [mbind option_bind] in H. injection H as <-.
  eapply Inv_put_state; [done..|].
  unfold UpdateBlockAvailability_row, ProcessBlockAvailability_row. same_tracked.
Qed.

Lemma ProcessBlockAvailability_Inv env nodeid st st' :
  Inv st -> ProcessBlockAvailability env nodeid st = Some st' -> Inv st'.
Proof.
  intros HI H. unfold ProcessBlockAvailability in H.
  destruct (State st nodeid) as [state|] eqn:Hs; [|done].
  cbn [mbind option_bind] in H. injection H as <-.
  eapply Inv_put_state; [done..|].
  unfold ProcessBlockAvailability_row. same_tracked.
Qed.

(** ** The scheduler and the handlers keep the tables consistent *)

Lemma FindNext_scan_Inv pc env nodeid count nWindowEnd vToFetch vBlocks nodeStaller
    waitingfor st r vBlocks' nodeStaller' waitingfor' st' :
  Inv st ->
  FindNext_scan pc env nodeid count nWindowEnd vToFetch vBlocks nodeStaller waitingfor st
  = Some (r, vBlocks', nodeStaller', waitingfor', st') ->
  Inv st'
  /\ (forall pnode, vBlocksInFlight <$> State st' pnode = vBlocksInFlight <$> State st pnode)
  /\ (Z.of_nat (length vBlocks) < count ->
      Z.of_nat (length vBlocks') <= count
      /\ (r = false -> Z.of_nat (length vBlocks') < count)).
Proof.
  revert vBlocks nodeStaller waitingfor st.
  induction vToFetch as [|p rest IH]; intros vBlocks nodeStaller waitingfor st HI H.
  { simpl in H. injection H as <- <- <- <- <-. split; [done|]. split; [done|]. lia. }
  simpl in H.
  destruct (negb (IsValid_TREE env p)).
  { injection H as <- <- <- <- <-. split; [done|]. split; [done|]. lia. }
  destruct (State st nodeid) as [state|] eqn:Hs; [|done]. cbn [mbind option_bind] in H.
  destruct (negb (fHaveWitness state) && _).
  { injection H as <- <- <- <- <-. split; [done|]. split; [done|]. lia. }
  destruct (_ || _).
  { apply IH in H.
    - destruct H as (HI' & Hrows & Hlen). split; [done|]. split; [|done].
      intros pnode. rewrite Hrows. destruct (negb _); [|done].
      destruct (decide (nodeid = pnode)) as [<-|Hne].
      + rewrite State_upd_state_eq. destruct (State st nodeid); reflexivity.
      + by rewrite State_upd_state_ne.
    - destruct (negb _); [|done]. apply Inv_upd_state; [done|]. intros s. same_tracked. }
  destruct (mapBlocksInFlight st !! phashBlock (blk env p)) as [[peer it]|].
  { by apply IH in H. }
  destruct (nWindowEnd <? nHeight (blk env p)).
  { injection H as <- <- <- <- <-. split; [done|]. split; [done|]. lia. }
  destruct (Z.eqb_spec (Z.of_nat (length (vBlocks ++ [p]))) count) as [Heq|Hne].
  { injection H as <- <- <- <- <-. split; [done|]. split; [done|]. intros _.
    split; [lia|done]. }
  apply IH in H; [|done]. destruct H as (HI' & Hrows & Hlen).
  split; [done|]. split; [done|]. intros Hlt. apply Hlen.
  rewrite length_app in *. simpl in *. lia.
Qed.

Lemma FindNext_walk_Inv pc env nodeid count nWindowEnd nMaxHeight best fuel pindexWalk
    vBlocks nodeStaller waitingfor st vBlocks' nodeStaller' st' :
  Inv st ->
  FindNext_walk pc env nodeid count nWindowEnd nMaxHeight best fuel pindexWalk vBlocks
    nodeStaller waitingfor st = Some (vBlocks', nodeStaller', st') ->
  Inv st'
  /\ (forall pnode, vBlocksInFlight <$> State st' pnode = vBlocksInFlight <$> State st pnode)
  /\ (Z.of_nat (length vBlocks) < count -> Z.of_nat (length vBlocks') <= count).
Proof.
  revert pindexWalk vBlocks nodeStaller waitingfor st.
  induction fuel as [|fuel IH]; intros pindexWalk vBlocks nodeStaller waitingfor st HI H;
    simpl in H.
  - destruct (_ <? nMaxHeight); [done|]. injection H as <- <- <-.
    split; [done|]. split; [done|]. lia.
  - destruct (_ <? nMaxHeight).
    2:{ injection H as <- <- <-. split; [done|]. split; [done|]. lia. }
    destruct (assert_ _); [|done]. cbn [mbind option_bind] in H.
    destruct (GetAncestor env best _) as [walk1|]; [|done]. cbn [mbind option_bind] in H.
    destruct (walk_back env _ walk1 []) as [vToFetch|]; [|done].
    cbn [mbind option_bind] in H.
    destruct (FindNext_scan _ _ _ _ _ _ _ _ _ _)
      as [[[[[returned vBlocks1] nodeStaller1] waitingfor1] st1]|] eqn:Hscan; [|done].
    cbn [mbind option_bind] in H.
    apply FindNext_scan_Inv in Hscan as (HI1 & Hrows1 & Hlen1); [|done].
    destruct returned.
    + injection H as <- <- <-. split; [done|]. split; [done|].
      intros Hlt. by apply Hlen1.
    + apply IH in H as (HI' & Hrows & Hlen); [|done].
      split; [done|]. split; [intros pnode; by rewrite Hrows|].
      intros Hlt. apply Hlen. by apply Hlen1.
Qed.

Lemma FindNextBlocksToDownload_Inv pc env fuel nodeid count vBlocks nodeStaller st
    vBlocks' nodeStaller' st' :
  Inv st ->
  FindNextBlocksToDownload pc env fuel nodeid count vBlocks nodeStaller st
  = Some (vBlocks', nodeStaller', st') ->
  Inv st'
  /\ (forall pnode, vBlocksInFlight <$> State st' pnode = vBlocksInFlight <$> State st pnode)
  /\ (Z.of_nat (length vBlocks) < count -> Z.of_nat (length vBlocks') <= count).
Proof.
  intros HI H. unfold FindNextBlocksToDownload in H.
  destruct (Z.eqb_spec count 0) as [Hc|Hc].
  { injection H as <- <- <-. split; [done|]. split; [done|]. lia. }
  destruct (State st nodeid) as [state|] eqn:Hs; [|done]. cbn [mbind option_bind] in H.
  unfold ProcessBlockAvailability in H. rewrite Hs in H. cbn [mbind option_bind] in H.
  rewrite State_put_state_eq in H. cbn [mbind option_bind] in H.
  set (state1 := ProcessBlockAvailability_row env state) in *.
  assert (Inv (put_state nodeid state1 st)) as HI1.
  { eapply Inv_put_state; [done..|].
    unfold state1, ProcessBlockAvailability_row. same_tracked. }
  assert (forall pnode, vBlocksInFlight <$> State (put_state nodeid state1 st) pnode
                        = vBlocksInFlight <$> State st pnode) as Hrows1.
  { intros pnode. destruct (decide (nodeid = pnode)) as [<-|Hne].
    - rewrite State_put_state_eq, Hs. simpl. f_equal.
      unfold state1, ProcessBlockAvailability_row.
      repeat match goal with
             | |- context [match ?x with _ => _ end] => destruct x
             end; reflexivity.
    - by rewrite State_put_state_ne. }
  destruct (pindexBestKnownBlock state1) as [best|].
  2:{ injection H as <- <- <-. split; [done|]. split; [done|]. lia. }
  destruct (Tip env) as [tip|]; [|done]. cbn [mbind option_bind] in H.
  destruct (_ || _).
  { injection H as <- <- <-. split; [done|]. split; [done|]. lia. }
  match type of H with
  | (?m ≫= _) = _ => destruct m as [guess|]; [|done]
  end.
  cbn [mbind option_bind] in H.
  assert (Inv (upd_state nodeid
                 (set_pindexLastCommonBlock (LastCommonAncestor env guess best))
                 (put_state nodeid state1 st))) as HI2.
  { apply Inv_upd_state; [done|]. intros s. same_tracked. }
  assert (forall pnode,
            vBlocksInFlight <$> State (upd_state nodeid
                 (set_pindexLastCommonBlock (LastCommonAncestor env guess best))
                 (put_state nodeid state1 st)) pnode
            = vBlocksInFlight <$> State st pnode) as Hrows2.
  { intros pnode. rewrite <- Hrows1. destruct (decide (nodeid = pnode)) as [<-|Hne].
    - rewrite State_upd_state_eq.
      destruct (State (put_state nodeid state1 st) nodeid); reflexivity.
    - by rewrite State_upd_state_ne. }
  destruct (bool_decide _).
  { injection H as <- <- <-. split; [done|]. split; [done|]. lia. }
  destruct (LastCommonAncestor env guess best) as [walk|]; [|done].
  cbn [mbind option_bind] in H.
  apply FindNext_walk_Inv in H as (HI' & Hrows & Hlen); [|done].
  split; [done|]. split; [intros pnode; by rewrite Hrows|]. done.
Qed.

Lemma request_blocks_Inv pc env nNow pto vToDownload vGetData st state vGetData' st' :
  Inv st -> State st (GetId pto) = Some state ->
  Z.of_nat (length (vBlocksInFlight state)) + Z.of_nat (length vToDownload) <= INT_MAX ->
  request_blocks pc env nNow pto vToDownload vGetData st = Some (vGetData', st') ->
  Inv st'.
Proof.
  revert vGetData st state.
  induction vToDownload as [|p rest IH]; intros vGetData st state HI Hs Hlen H;
    simpl in H.
  { by injection H as _ <-. }
  destruct (GetFetchFlags pc pto st); [|done]. cbn [mbind option_bind] in H.
  destruct (MarkBlockAsInFlight_Inv nNow (GetId pto) (phashBlock (blk env p)) (Some p)
              false st HI ltac:(by eexists))
    as (r & pit & st1 & Hm & HI1 & Hrows).
  { intros s Hs'. rewrite Hs in Hs'. injection Hs' as <-. simpl in Hlen. lia. }
  rewrite Hm in H. cbn [mbind option_bind] in H.
  destruct (Hrows _ _ Hs) as (state1 & Hs1 & Hl1).
  rewrite decide_True in Hl1 by done.
  eapply (IH _ st1 state1); [done | done | | done].
  simpl in Hlen. lia.
Qed.

Lemma SendMessages_getdata_blocks_Inv pc env fuel nNow fFetch pto st vGetData st' :
  Inv st ->
  SendMessages_getdata_blocks pc env fuel nNow fFetch pto st = Some (vGetData, st') ->
  Inv st'.
Proof.
  intros HI H. unfold SendMessages_getdata_blocks in H.
  destruct (State st (GetId pto)) as [state|] eqn:Hs; [|done].
  cbn [mbind option_bind] in H.
  destruct (negb (fClient pto) && _); cbn [andb] in H; [|by simplify_eq].
  destruct (Z.ltb_spec (nBlocksInFlight state) MAX_BLOCKS_IN_TRANSIT_PER_PEER) as [Hlt|];
    [|by simplify_eq].
  destruct (FindNextBlocksToDownload _ _ _ _ _ _ _ _)
    as [[[vToDownload staller] st1]|] eqn:Hfind; [|done].
  cbn [mbind option_bind] in H.
  pose proof (inv_length _ HI _ _ Hs) as [Hl Hm].
  apply FindNextBlocksToDownload_Inv in Hfind as (HI1 & Hrows & Hlen); [|done].
  assert ((MAX_BLOCKS_IN_TRANSIT_PER_PEER - nBlocksInFlight state) mod 2 ^ 32
          = MAX_BLOCKS_IN_TRANSIT_PER_PEER - nBlocksInFlight state) as Hcount.
  { apply Z.mod_small. unfold MAX_BLOCKS_IN_TRANSIT_PER_PEER in *. lia. }
  rewrite Hcount in Hlen.
  destruct (request_blocks _ _ _ _ _ _ _) as [[vGetData1 st2]|] eqn:Hreq; [|done].
  cbn [mbind option_bind] in H.
  assert (Inv st2) as HI2.
  { pose proof (Hrows (GetId pto)) as Hr. rewrite Hs in Hr.
    destruct (State st1 (GetId pto)) as [state1|] eqn:Hs1; [|done].
    injection Hr as Hr.
    eapply (request_blocks_Inv _ _ _ _ _ _ st1 state1); [done | done | | done].
    rewrite Hr. unfold MAX_BLOCKS_IN_TRANSIT_PER_PEER, INT_MAX in *. simpl in *. lia. }
  destruct (State st2 (GetId pto)) as [state2|]; [|done]. cbn [mbind option_bind] in H.
  destruct (_ && _); [|by simplify_eq].
  destruct (State st2 staller) as [stalling|]; [|done]. cbn [mbind option_bind] in H.
  injection H as _ <-. destruct (_ =? 0); [|done].
  apply Inv_upd_state; [done|]. intros s. same_tracked.
Qed.

Lemma direct_fetch_request_Inv pc env nNow pfrom blocks vGetData st vGetData' st' :
  Inv st ->
  direct_fetch_request pc env nNow pfrom blocks vGetData st = Some (vGetData', st') ->
  Inv st'.
Proof.
  revert vGetData st. induction blocks as [|p rest IH]; intros vGetData st HI H; simpl in H.
  { by injection H as _ <-. }
  destruct (State st (GetId pfrom)) as [nodestate|] eqn:Hs; [|done].
  cbn [mbind option_bind] in H.
  destruct (Z.leb_spec MAX_BLOCKS_IN_TRANSIT_PER_PEER (nBlocksInFlight nodestate))
    as [|Hlt]; [by injection H as _ <-|].
  destruct (GetFetchFlags pc pfrom st); [|done]. cbn [mbind option_bind] in H.
  pose proof (inv_length _ HI _ _ Hs) as [Hl Hm].
  destruct (MarkBlockAsInFlight_Inv nNow (GetId pfrom) (phashBlock (blk env p)) (Some p)
              false st HI ltac:(by eexists))
    as (r & pit & st1 & Hmark & HI1 & _).
  { intros s Hs'. rewrite Hs in Hs'. injection Hs' as <-.
    unfold MAX_BLOCKS_IN_TRANSIT_PER_PEER, INT_MAX in *. simpl. lia. }
  rewrite Hmark in H. cbn [mbind option_bind] in H. by eapply IH.
Qed.

Lemma ProcessHeaders_direct_fetch_Inv pc env fuel nNow nAdjusted pfrom pindexLast st st' ev :
  Inv st ->
  ProcessHeaders_direct_fetch pc env fuel nNow nAdjusted pfrom pindexLast st = Some (st', ev) ->
  Inv st'.
Proof.
  intros HI H. unfold ProcessHeaders_direct_fetch in H.
  destruct (CanDirectFetch env nAdjusted) as [can|]; [|done]. cbn [mbind option_bind] in H.
  destruct (Tip env) as [tip|]; [|done]. cbn [mbind option_bind] in H.
  destruct (can && _ && _); [|by simplify_eq].
  destruct (direct_fetch_walk _ _ _ _ _ _ _) as [[walk vToFetch]|]; [|done].
  cbn [mbind option_bind] in H.
  destruct walk as [stop|]; [|done]. cbn [mbind option_bind] in H.
  destruct (negb (Contains env stop)); [by simplify_eq|].
  destruct (direct_fetch_request _ _ _ _ _ _ _) as [[vGetData st1]|] eqn:Hreq; [|done].
  cbn [mbind option_bind] in H.
  apply direct_fetch_request_Inv in Hreq; [|done].
  destruct vGetData as [|first others]; [by simplify_eq|].
  destruct (State st1 (GetId pfrom)) as [nodestate|]; [|done]. cbn [mbind option_bind] in H.
  match type of H with
  | (?m ≫= _) = _ => destruct m; [|done]
  end.
  cbn [mbind option_bind] in H. by simplify_eq.
Qed.

Lemma ProcessHeadersMessage_Inv pc env verdict banscore fuel nNow nTime nAdjusted pfrom
    headers punish st r pfrom' st' ev :
  Inv st ->
  ProcessHeadersMessage pc env verdict banscore fuel nNow nTime nAdjusted pfrom headers
    punish st = Some (r, pfrom', st', ev) ->
  Inv st'.
Proof.
  intros HI H. unfold ProcessHeadersMessage in H.
  destruct headers as [|first rest]; [by simplify_eq|].
  destruct (negb (DoesBlockExist env (hashPrevBlock first)) && _).
  - destruct (State st (GetId pfrom)) as [state|] eqn:Hs; [|done].
    cbn [mbind option_bind] in H.
    destruct (UpdateBlockAvailability _ _ _ _) as [st2|] eqn:Hu; [|done].
    cbn [mbind option_bind] in H.
    apply UpdateBlockAvailability_Inv in Hu.
    2:{ apply Inv_upd_state; [done|]. intros s. same_tracked. }
    destruct (State st2 (GetId pfrom)); [|done]. cbn [mbind option_bind] in H.
    injection H as _ _ <- _. destruct (_ =? 0); [by apply Misbehaving_Inv | done].
  - destruct (headers_continuity env 0%N (first :: rest)).
    2:{ injection H as _ _ <- _. by apply Misbehaving_Inv. }
    destruct (negb (pnbh_accepted verdict) && pnbh_IsInvalid verdict).
    { injection H as _ _ <- _. destruct (0 <? _); [by apply Misbehaving_Inv | done]. }
    destruct (ProcessHeaders_accepted _ _ _ _ _ _ _ _ _ _ _)
      as [[[[r1 pfrom1] st1] sent]|] eqn:Hacc; [|done].
    cbn [mbind option_bind] in H. injection H as _ _ <- _.
    unfold ProcessHeaders_accepted in Hacc.
    destruct (State st (GetId pfrom)) as [state|] eqn:Hs; [|done].
    cbn [mbind option_bind] in Hacc.
    destruct (pnbh_pindexLast verdict) as [pindexLast|]; [|done].
    cbn [mbind option_bind] in Hacc.
    destruct (UpdateBlockAvailability _ _ _ _) as [st2|] eqn:Hu; [|done].
    cbn [mbind option_bind] in Hacc.
    apply UpdateBlockAvailability_Inv in Hu.
    2:{ apply Inv_upd_state; [done|]. intros s. same_tracked. }
    destruct (Tip (pnbh_env verdict)) as [tip|]; [|done]. cbn [mbind option_bind] in Hacc.
    destruct (ProcessHeaders_direct_fetch _ _ _ _ _ _ _ _) as [[st4 fetch]|] eqn:Hd; [|done].
    cbn [mbind option_bind] in Hacc.
    apply ProcessHeaders_direct_fetch_Inv in Hd.
    2:{ destruct (_ && _); [|done]. apply Inv_upd_state; [done|]. intros s. same_tracked. }
    destruct (ProcessHeaders_ibd_cull _ _ _ _) as [pfrom2|]; [|done].
    cbn [mbind option_bind] in Hacc.
    destruct (ProcessHeaders_protect _ _ _) as [st5|] eqn:Hp; [|done].
    cbn [mbind option_bind] in Hacc.
    injection Hacc as _ _ <- _. by eapply ProcessHeaders_protect_Inv.
Qed.

Lemma ProcessVersionMsg_Inv pc env cm banscore pfrom vRecv st r pfrom' st' ev :
  Inv st ->
  ProcessVersionMsg pc env cm banscore pfrom vRecv st = Some (r, pfrom', st', ev) ->
  Inv st'.
Proof.
  intros HI H. unfold ProcessVersionMsg in H.
  destruct (negb (nVersion pfrom =? 0)).
  { injection H as _ _ <- _. by apply Misbehaving_Inv. }
  destruct (negb (N.ldiff _ _ =? 0)%N); [by simplify_eq|].
  destruct (_ && (GetTime cm <? _)); [by simplify_eq|].
  destruct (Tip env) as [tip|]; [|done]. cbn [mbind option_bind] in H.
  destruct (vp_nVersion vRecv <? _); [by simplify_eq|].
  destruct (fInbound pfrom && negb _); [by simplify_eq|].
  match type of H with
  | (?m ≫= _) = _ => destruct m as [st0|] eqn:H0; [|done]
  end.
  cbn [mbind option_bind] in H.
  assert (Inv st0) as HI0.
  { destruct (negb _) in H0; [|by simplify_eq].
    destruct (State st (GetId pfrom)); [|done]. cbn [mbind option_bind] in H0.
    injection H0 as <-. apply Inv_upd_state; [done|]. intros s. same_tracked. }
  destruct (UpdatePreferredDownload _ st0) as [st2|] eqn:Hu; [|done].
  cbn [mbind option_bind] in H.
  apply UpdatePreferredDownload_Inv in Hu; [|done].
  destruct (fFeeler _) in H.
  - destruct (assert_ _); [|done]. cbn [mbind option_bind] in H. by simplify_eq.
  - by simplify_eq.
Qed.

Lemma ProcessVerAckMsg_Inv pc pfrom st r pfrom' st' ev :
  Inv st -> ProcessVerAckMsg pc pfrom st = Some (r, pfrom', st', ev) -> Inv st'.
Proof.
  intros HI H. unfold ProcessVerAckMsg in H.
  match type of H with
  | (?m ≫= _) = _ => destruct m as [st0|] eqn:H0; [|done]
  end.
  cbn [mbind option_bind] in H. injection H as _ _ <- _.
  destruct (negb _) in H0; [|by simplify_eq].
  destruct (State st _); [|done]. cbn [mbind option_bind] in H0.
  injection H0 as <-. apply Inv_upd_state; [done|]. intros s. same_tracked.
Qed.

Lemma ProcessMessage_Inv pc env cm banscore dropped pfrom c st d pfrom' st' ev :
  Inv st ->
  ProcessMessage pc env cm banscore dropped pfrom c st = Some (d, pfrom', st', ev) ->
  Inv st'.
Proof.
  intros HI H. unfold ProcessMessage in H.
  destruct dropped; [by simplify_eq|].
  destruct (Tip env) as [tip|]; [|done]. cbn [mbind option_bind] in H.
  destruct (_ && _ && _); [by simplify_eq|].
  destruct (_ && _).
  { destruct (_ <=? _); injection H as _ _ <- _; [by apply Misbehaving_Inv | done]. }
  assert (forall st1, (if nVersion pfrom =? 0
                       then Some (Returned false, pfrom,
                                  Misbehaving banscore (GetId pfrom) 1 st, [])
                       else if negb (fSuccessfullyConnected pfrom)
                            then Some (Returned false, pfrom,
                                       Misbehaving banscore (GetId pfrom) 1 st, [])
                            else Some (ToHandler c, pfrom, st, []))
                      = Some (d, pfrom', st1, ev) -> Inv st1) as Hother.
  { intros st1 H1. destruct (_ =? 0); [|destruct (negb _)];
      injection H1 as _ _ <- _; (done || by apply Misbehaving_Inv). }
  destruct c; try (by eapply Hother); try (by simplify_eq).
  - destruct (ProcessVersionMsg _ _ _ _ _ _ _) as [[[[r1 pfrom1] st1] ev1]|] eqn:Hv; [|done].
    cbn [mbind option_bind] in H. injection H as _ _ <- _.
    by eapply ProcessVersionMsg_Inv.
  - destruct (nVersion pfrom =? 0).
    { injection H as _ _ <- _. by apply Misbehaving_Inv. }
    destruct (ProcessVerAckMsg _ _ _) as [[[[r1 pfrom1] st1] ev1]|] eqn:Hv; [|done].
    cbn [mbind option_bind] in H. injection H as _ _ <- _.
    by eapply ProcessVerAckMsg_Inv.
Qed.

Lemma list_write_partialBlock_deref it p l it' entry :
  list_deref it' l = Some entry ->
  exists entry', list_deref it' (list_write_partialBlock it p l) = Some entry'
                 /\ hash entry' = hash entry.
Proof.
  induction l as [|[a q] l IH]; simpl; [done|].
  destruct (Pos.eqb a it') eqn:Ha.
  - intros [= <-]. destruct (Pos.eqb a it); simpl; rewrite Ha; by eexists.
  - intros H. destruct (Pos.eqb a it); simpl; rewrite Ha; [by eexists | by apply IH].
Qed.

Lemma list_write_partialBlock_elem_of it p l a entry :
  (a, entry) ∈ list_write_partialBlock it p l -> exists entry', (a, entry') ∈ l.
Proof.
  induction l as [|[b q] l IH]; simpl; [by intros ?%elem_of_nil|].
  destruct (Pos.eqb b it).
  - intros [Heq|Hin]%elem_of_cons.
    + injection Heq as -> _. exists q. by left.
    + exists entry. by right.
  - intros [Heq|Hin]%elem_of_cons.
    + injection Heq as -> ->. exists q. by left.
    + destruct (IH Hin) as [e He]. exists e. by right.
Qed.

Lemma list_write_partialBlock_length it p l :
  length (list_write_partialBlock it p l) = length l.
Proof.
  induction l as [|[b q] l IH]; simpl; [done|].
  destruct (Pos.eqb b it); simpl; by rewrite ?IH.
Qed.

Lemma list_write_partialBlock_count_validated it p l :
  count_validated (list_write_partialBlock it p l) = count_validated l.
Proof.
  induction l as [|[b q] l IH]; simpl; [done|].
  destruct (Pos.eqb b it); simpl; by rewrite ?IH.
Qed.

Lemma write_partialBlock_Inv pnode it p st :
  Inv st -> Inv (upd_state pnode (write_partialBlock it p) st).
Proof.
  intros HI. destruct (State st pnode) as [s|] eqn:Hs.
  2:{ rewrite upd_state_id; [done|]. intros s Hs'. by rewrite Hs in Hs'. }
  rewrite (upd_state_put _ _ _ _ Hs).
  destruct HI as [I1 I2 I3 I4 I5 I6 I7 I8 I9].
  assert (forall peer, State (put_state pnode (write_partialBlock it p s) st) peer
                       = if decide (pnode = peer) then Some (write_partialBlock it p s)
                         else State st peer) as Hst.
  { intros peer. unfold State. simpl. apply lookup_insert. }
  destruct (I3 _ _ Hs) as [Hl Hm]. pose proof (I4 _ _ Hs) as Hv.
  split.
  - intros h peer it' Hin. simpl in Hin.
    destruct (I1 _ _ _ Hin) as (state & entry & Hst0 & Hd & Hh).
    rewrite Hst. destruct (decide (pnode = peer)) as [<-|Hne].
    + rewrite Hs in Hst0. injection Hst0 as <-.
      destruct (list_write_partialBlock_deref it p _ _ _ Hd) as (entry' & Hd' & Hh').
      exists (write_partialBlock it p s), entry'. split; [done|]. split; [done|].
      by rewrite Hh'.
    + by exists state, entry.
  - intros peer state it' entry Hp Hin. rewrite Hst in Hp. simpl.
    destruct (decide (pnode = peer)) as [<-|Hne].
    + injection Hp as <-. simpl in Hin.
      destruct (list_write_partialBlock_elem_of _ _ _ _ _ Hin) as [e He].
      by eapply I2.
    + by eapply I2.
  - intros peer state Hp. rewrite Hst in Hp.
    destruct (decide (pnode = peer)) as [<-|Hne]; [|by eapply I3].
    injection Hp as <-. simpl. by rewrite list_write_partialBlock_length.
  - intros peer state Hp. rewrite Hst in Hp.
    destruct (decide (pnode = peer)) as [<-|Hne]; [|by eapply I4].
    injection Hp as <-. simpl. by rewrite list_write_partialBlock_count_validated.
  - simpl. rewrite map_size_insert_Some; [done|]. by eexists.
  - simpl. rewrite (tally_insert_Some _ _ _ _ _ Hs), I6. simpl. lia.
  - simpl. rewrite (tally_insert_Some _ _ _ _ _ Hs), I7. simpl. lia.
  - simpl. rewrite (tally_insert_Some _ _ _ _ _ Hs), I8. unfold has_validated. simpl. lia.
  - simpl. rewrite (tally_insert_Some _ _ _ _ _ Hs), I9. unfold is_protected. simpl. lia.
Qed.

Lemma step_Inv pc st st' : Inv st -> step pc st st' -> Inv st'.
Proof.
  intros HI Hstep.
  destruct Hstep
    as [nTime pnode addrName st Hsz
       | nodeid st r st' ev H
       | node st st' H
       | nNow h st r st' H
       | nNow nodeid h pindex_ want_pit st r pit st' Hroom H
       | env nodeid h st st' H
       | banscore pnode howmuch st
       | pnode st r pnode' st' ev H
       | env t pto st pto' st' ev H
       | env base per_header nNow nAdjusted pto st st' ev H
       | env nNow nAdjusted pto st r pto' st' H
       | env fuel nNow fFetch pto st vGetData st' H
       | env verdict banscore fuel nNow nTime nAdjusted pfrom headers punish st r pfrom'
           st' ev H
       | env cm banscore dropped pfrom c st d pfrom' st' ev H
       | pnode it p st
       | pnode f st Hf].
  - by apply InitializeNode_Inv.
  - unfold FinalizeNode in H.
    destruct (State st nodeid) as [state|] eqn:Hs; [|done].
    destruct (FinalizeNode_Inv _ _ _ HI Hs) as (st1 & Hfin & HI1 & _).
    unfold FinalizeNode in Hfin. rewrite Hs in Hfin. rewrite Hfin in H. by simplify_eq.
  - by eapply UpdatePreferredDownload_Inv.
  - destruct (MarkBlockAsReceived_Inv nNow h st HI) as (r1 & st1 & Hm & HI1 & _).
    rewrite Hm in H. by simplify_eq.
  - destruct (State st nodeid) as [state|] eqn:Hs.
    + destruct (MarkBlockAsInFlight_Inv nNow nodeid h pindex_ want_pit st HI
                  ltac:(by eexists) Hroom) as (r1 & pit1 & st1 & Hm & HI1 & _).
      rewrite Hm in H. by simplify_eq.
    + unfold MarkBlockAsInFlight in H. by rewrite Hs in H.
  - by eapply UpdateBlockAvailability_Inv.
  - by apply Misbehaving_Inv.
  - by eapply SendRejectsAndCheckIfBanned_Inv.
  - by eapply ConsiderEviction_Inv.
  - by eapply SendMessages_start_sync_Inv.
  - by eapply SendMessages_headers_timeout_Inv.
  - by eapply SendMessages_getdata_blocks_Inv.
  - by eapply ProcessHeadersMessage_Inv.
  - by eapply ProcessMessage_Inv.
  - by apply write_partialBlock_Inv.
  - by apply Inv_upd_state.
Qed.

Lemma reachable_Inv pc st : reachable pc st -> Inv st.
Proof.
  induction 1; [apply Inv_initial | by eapply step_Inv].
Qed.

(** ** Removal of a peer *)

Lemma Inv_empty st :
  Inv st -> mapNodeState st = ∅ ->
  mapBlocksInFlight st = ∅
  /\ nSyncStarted st = 0 /\ nPreferredDownload st = 0
  /\ nPeersWithValidatedDownloads st = 0
  /\ g_outbound_peers_with_protect_from_disconnect st = 0.
Proof.
  intros [I1 I2 I3 I4 I5 I6 I7 I8 I9] He. rewrite He in *.
  rewrite tally_empty in *. split; [|done].
  apply map_empty. intros h.
  destruct (mapBlocksInFlight st !! h) as [[peer it]|] eqn:Hin; [|done].
  destruct (I1 _ _ _ Hin) as (state & entry & Hs & _).
  unfold State in Hs. rewrite He in Hs. by rewrite lookup_empty in Hs.
Qed.

(** C1: in every state the process can reach, [FinalizeNode] succeeds for
    each known peer, removes its row, erases every block of its queue from
    the in-flight map and takes its contributions off the four global
    tallies; and whenever the peer table is empty, the in-flight map is empty
    and the four tallies are zero. *)
Theorem FinalizeNode_reverses_peer pc st :
  reachable pc st ->
  (forall nodeid state,
     State st nodeid = Some state ->
     exists r st' ev,
       FinalizeNode nodeid st = Some (r, st', ev)
       /\ mapNodeState st' = delete nodeid (mapNodeState st)
       /\ (forall it entry, (it, entry) ∈ vBlocksInFlight state ->
             mapBlocksInFlight st' !! hash entry = None)
       /\ nSyncStarted st' = nSyncStarted st - Z.b2z (fSyncStarted state)
       /\ nPreferredDownload st'
          = nPreferredDownload st - Z.b2z (fPreferredDownload state)
       /\ nPeersWithValidatedDownloads st'
          = nPeersWithValidatedDownloads st
            - Z.b2z (negb (nBlocksInFlightValidHeaders state =? 0))
       /\ g_outbound_peers_with_protect_from_disconnect st'
          = g_outbound_peers_with_protect_from_disconnect st
            - Z.b2z (m_protect (m_chain_sync state)))
  /\ (mapNodeState st = ∅ ->
      mapBlocksInFlight st = ∅
      /\ nSyncStarted st = 0 /\ nPreferredDownload st = 0
      /\ nPeersWithValidatedDownloads st = 0
      /\ g_outbound_peers_with_protect_from_disconnect st = 0).
Proof.
  intros Hreach. apply reachable_Inv in Hreach as HI. split.
  - intros nodeid state Hs.
    destruct (FinalizeNode_Inv _ _ _ HI Hs)
      as (st' & Hf & _ & Hnodes & Hmap & H1 & H2 & H3 & H4).
    eexists _, st', _. split; [exact Hf|]. split; [done|]. split; [|done].
    intros it entry Hin. rewrite Hmap. by eapply foldl_delete_lookup_in.
  - by apply Inv_empty.
Qed.

Lemma ex_reached_2_reachable : reachable ex_pc ex_reached_2.
Proof.
  eapply reachable_step.
  - eapply reachable_step; [apply reachable_initial|].
    apply (step_InitializeNode ex_pc 0 (ex_peer 7) "peer" initial_state).
    vm_compute. reflexivity.
  - eapply (step_MarkBlockAsInFlight ex_pc 0 7 103%N (Some 4%positive) false ex_reached_1).
    + intros state Hs. vm_compute in Hs. injection Hs as <-. vm_compute. reflexivity.
    + vm_compute. reflexivity.
Defined.

(** Peer 7 leaves while block 4 is in flight from it. *)
Lemma FinalizeNode_reverses_peer_witness :
  exists r st' ev,
    FinalizeNode 7 ex_reached_2 = Some (r, st', ev)
    /\ mapNodeState st' = ∅
    /\ mapBlocksInFlight st' !! 103%N = None
    /\ nPeersWithValidatedDownloads st' = 0.
Proof.
  destruct (FinalizeNode_reverses_peer ex_pc ex_reached_2 ex_reached_2_reachable)
    as [Hfin _].
  destruct (State ex_reached_2 7) as [state|] eqn:Hs.
  2:{ vm_compute in Hs. discriminate Hs. }
  destruct (Hfin 7 state Hs) as (r & st' & ev & Hf & Hnodes & Hmap & _ & _ & Hpeers & _).
  exists r, st', ev. split; [exact Hf|].
  assert (vBlocksInFlight state
          = [(1%positive, {| hash := 103; pindex := Some 4%positive;
                             fValidatedHeaders := true; partialBlock := None |})]
          /\ nBlocksInFlightValidHeaders state = 1) as [Hq Hv].
  { vm_compute in Hs. injection Hs as <-. split; reflexivity. }
  split; [|split].
  - rewrite Hnodes. vm_compute. reflexivity.
  - apply (Hmap 1%positive {| hash := 103; pindex := Some 4%positive;
                              fValidatedHeaders := true; partialBlock := None |}).
    rewrite Hq. by left.
  - rewrite Hpeers, Hv. vm_compute. reflexivity.
Defined.

(** C10: [FinalizeNode] reports [fUpdateConnectionTime = true] exactly when
    the misbehaviour score of the departing peer is zero and its
    [fCurrentlyConnected] flag is set; and in every state the process can
    reach it does return, with that value, for each known peer. *)
Theorem FinalizeNode_fUpdateConnectionTime pc nodeid st :
  (forall r st' ev,
     FinalizeNode nodeid st = Some (r, st', ev) ->
     exists state,
       State st nodeid = Some state
       /\ (r = true <-> nMisbehavior state = 0 /\ fCurrentlyConnected state = true))
  /\ (reachable pc st ->
      forall state, State st nodeid = Some state ->
      exists st' ev,
        FinalizeNode nodeid st
        = Some ((nMisbehavior state =? 0) && fCurrentlyConnected state, st', ev)).
Proof.
  split.
  - intros r st' ev H. unfold FinalizeNode in H.
    destruct (State st nodeid) as [state|] eqn:Hs; [|done].
    cbn [mbind option_bind] in H. exists state. split; [done|].
    repeat match type of H with
           | (?m ≫= _) = _ => destruct m; cbn [mbind option_bind] in H; [|done]
           end.
    injection H as <- _ _. rewrite andb_true_iff, Z.eqb_eq. done.
  - intros Hreach state Hs. apply reachable_Inv in Hreach.
    destruct (FinalizeNode_Inv _ _ _ Hreach Hs) as (st' & Hf & _).
    by eexists _, _.
Qed.

(** A peer that completed the handshake and never misbehaved leaves. *)
Lemma FinalizeNode_fUpdateConnectionTime_witness :
  exists st' ev,
    FinalizeNode 7 (ex_table 7 (set_fCurrentlyConnected true ex_row))
    = Some (true, st', ev).
Proof.
  destruct (FinalizeNode 7 (ex_table 7 (set_fCurrentlyConnected true ex_row)))
    as [[[r st'] ev]|] eqn:H.
  2:{ vm_compute in H. discriminate H. }
  destruct (FinalizeNode_fUpdateConnectionTime ex_pc 7
              (ex_table 7 (set_fCurrentlyConnected true ex_row))) as [Hval _].
  destruct (Hval r st' ev H) as (state & Hs & Hiff).
  assert (r = true) as ->.
  { apply Hiff. vm_compute in Hs. injection Hs as <-. split; reflexivity. }
  by exists st', ev.
Defined.

(** ** Requesting a block twice *)

(** C3: once [MarkBlockAsInFlight] has returned for a peer and a hash, a
    second call for the same peer and hash returns [false], hands out the
    iterator the in-flight map holds for the hash (the one the first call
    handed out), and leaves the whole state as it is: the queue of the peer
    and its two counters, the in-flight map and the number of peers with
    validated downloads. In every state the process can reach, for a known
    peer whose queue has room, the first call does return, and the iterator
    both calls hand out points into the queue of the peer, at an entry for
    this hash, which the second call leaves where it is, the counter of the
    peer still being the length of its queue. *)
Theorem MarkBlockAsInFlight_idempotent nNow nNow' nodeid h pindex1 pindex2 want_pit want_pit'
    st :
  (forall r pit st1,
     MarkBlockAsInFlight nNow nodeid h pindex1 want_pit st = Some (r, pit, st1) ->
     exists it,
       mapBlocksInFlight st1 !! h = Some (nodeid, it)
       /\ (want_pit = true -> pit = Some it)
       /\ MarkBlockAsInFlight nNow' nodeid h pindex2 want_pit' st1
          = Some (false, if want_pit' then Some it else None, st1))
  /\ (forall pc,
        reachable pc st -> is_Some (State st nodeid) -> queue_has_room st nodeid ->
        exists r pit st1 it state1 entry,
          MarkBlockAsInFlight nNow nodeid h pindex1 want_pit st = Some (r, pit, st1)
          /\ mapBlocksInFlight st1 !! h = Some (nodeid, it)
          /\ (want_pit = true -> pit = Some it)
          /\ State st1 nodeid = Some state1
          /\ list_deref it (vBlocksInFlight state1) = Some entry
          /\ (it, entry) ∈ vBlocksInFlight state1
          /\ hash entry = h
          /\ nBlocksInFlight state1 = Z.of_nat (length (vBlocksInFlight state1))
          /\ nBlocksInFlightValidHeaders state1 = count_validated (vBlocksInFlight state1)
          /\ MarkBlockAsInFlight nNow' nodeid h pindex2 want_pit' st1
             = Some (false, if want_pit' then Some it else None, st1)).
Proof.
  split.
  - intros r pit st1 H.
    apply MarkBlockAsInFlight_result in H as (it & Hsome & Hin & Hpit).
    exists it. split; [done|]. split.
    + intros ->. done.
    + by apply MarkBlockAsInFlight_again.
  - intros pc Hreach Hs Hroom. apply reachable_Inv in Hreach.
    destruct (MarkBlockAsInFlight_Inv nNow nodeid h pindex1 want_pit st Hreach Hs Hroom)
      as (r & pit & st1 & H & HI1 & _).
    destruct (MarkBlockAsInFlight_result _ _ _ _ _ _ _ _ _ H) as (it & Hsome & Hin & Hpit).
    destruct (inv_flight _ HI1 _ _ _ Hin) as (state1 & entry & Hs1 & Hd & Hh).
    exists r, pit, st1, it, state1, entry.
    split; [done|]. split; [done|]. split; [by intros ->|]. split; [done|].
    split; [done|]. split; [by apply list_deref_elem_of|]. split; [done|].
    split; [by destruct (inv_length _ HI1 _ _ Hs1)|].
    split; [by apply (inv_validated _ HI1 nodeid)|].
    by apply MarkBlockAsInFlight_again.
Qed.

(** Block 2 is requested twice from peer 7, the only peer: both calls hand
    out the list node 1, at which the queue of the peer holds its single
    entry, the one for hash 101. *)
Lemma MarkBlockAsInFlight_idempotent_witness :
  exists st1 state1 entry,
    MarkBlockAsInFlight 1000 7 101 (Some 2%positive) true ex_reached_1
    = Some (true, Some 1%positive, st1)
    /\ State st1 7 = Some state1
    /\ vBlocksInFlight state1 = [(1%positive, entry)]
    /\ hash entry = 101%N
    /\ nBlocksInFlight state1 = 1
    /\ MarkBlockAsInFlight 2000 7 101 None true st1 = Some (false, Some 1%positive, st1).
Proof.
  assert (reachable ex_pc ex_reached_1) as Hreach.
  { eapply reachable_step; [apply reachable_initial|].
    apply (step_InitializeNode ex_pc 0 (ex_peer 7) "peer" initial_state).
    vm_compute. reflexivity. }
  destruct (MarkBlockAsInFlight_idempotent 1000 2000 7 101 (Some 2%positive) None true true
              ex_reached_1) as [_ Hqueue].
  destruct (Hqueue ex_pc Hreach) as
    (r & pit & st1 & it & state1 & entry & H & Hmap & Hpit & Hs1 & Hd & Hin & Hh & Hn & _
     & Hagain).
  { vm_compute. by eexists. }
  { intros state Hs. vm_compute in Hs. injection Hs as <-. vm_compute. reflexivity. }
  assert (r = true /\ it = 1%positive /\ length (vBlocksInFlight state1) = 1%nat)
    as (-> & -> & Hlen).
  { vm_compute in H. injection H as <- _ <-. vm_compute in Hmap, Hs1.
    injection Hmap as <-. injection Hs1 as <-. done. }
  rewrite (Hpit eq_refl) in H.
  exists st1, state1, entry. split; [exact H|]. split; [exact Hs1|]. split.
  - destruct (vBlocksInFlight state1) as [|[it0 e0] [|? ?]]; [done| |done].
    apply list_elem_of_singleton in Hin. by injection Hin as <- <-.
  - split; [exact Hh|]. split; [by rewrite Hn, Hlen|exact Hagain].
Defined.


(** ** The counters of the tables *)

(** X1: in every state the process can reach, the two block counters of each
    peer are the length of its queue and the number of its queued blocks with
    validated headers, each of the four global counters is the number of
    peers with the corresponding flag (so none is negative or exceeds the
    number of peers), and every entry of the in-flight map names a known peer
    that has a block of that hash in its queue. *)
Theorem reachable_counters pc st :
  reachable pc st ->
  (forall peer state, State st peer = Some state ->
     nBlocksInFlight state = Z.of_nat (length (vBlocksInFlight state))
     /\ nBlocksInFlightValidHeaders state = count_validated (vBlocksInFlight state)
     /\ 0 <= nBlocksInFlightValidHeaders state <= nBlocksInFlight state)
  /\ (nSyncStarted st = tally fSyncStarted (mapNodeState st)
      /\ nPreferredDownload st = tally fPreferredDownload (mapNodeState st)
      /\ nPeersWithValidatedDownloads st = tally has_validated (mapNodeState st)
      /\ g_outbound_peers_with_protect_from_disconnect st
         = tally is_protected (mapNodeState st))
  /\ (0 <= nSyncStarted st <= Z.of_nat (size (mapNodeState st))
      /\ 0 <= nPreferredDownload st <= Z.of_nat (size (mapNodeState st))
      /\ 0 <= nPeersWithValidatedDownloads st <= Z.of_nat (size (mapNodeState st))
      /\ 0 <= g_outbound_peers_with_protect_from_disconnect st
         <= Z.of_nat (size (mapNodeState st)))
  /\ (forall h peer it, mapBlocksInFlight st !! h = Some (peer, it) ->
        exists state entry,
          State st peer = Some state /\ (it, entry) ∈ vBlocksInFlight state
          /\ hash entry = h).
Proof.
  intros Hreach. apply reachable_Inv in Hreach as [I1 I2 I3 I4 I5 I6 I7 I8 I9].
  split; [|split; [|split]].
  - intros peer state Hs. destruct (I3 _ _ Hs) as [Hl _]. pose proof (I4 _ _ Hs) as Hv.
    pose proof (count_validated_bounds (vBlocksInFlight state)). lia.
  - done.
  - rewrite I6, I7, I8, I9. repeat split; apply tally_bounds.
  - intros h peer it Hin. destruct (I1 _ _ _ Hin) as (state & entry & Hs & Hd & Hh).
    exists state, entry. split; [done|]. split; [by apply list_deref_elem_of | done].
Qed.

(** The state reached by accepting peer 7 and requesting block 4 from it. *)
Lemma reachable_counters_witness :
  nPeersWithValidatedDownloads ex_reached_2 = 1
  /\ exists state, State ex_reached_2 7 = Some state /\ nBlocksInFlight state = 1.
Proof.
  destruct (reachable_counters ex_pc ex_reached_2 ex_reached_2_reachable)
    as (_ & (_ & _ & Hp & _) & _).
  split.
  - rewrite Hp. vm_compute. reflexivity.
  - eexists. split; [vm_compute; reflexivity|]. reflexivity.
Defined.


(** ** Requesting and receiving a block *)

#[local] Arguments dequeue : simpl never.
#[local] Arguments enqueue : simpl never.

Lemma list_erase_app_new it l entry :
  list_deref it l = None -> list_erase it (l ++ [(it, entry)]) = l.
Proof.
  induction l as [|[a q] l IH]; simpl.
  - by rewrite Pos.eqb_refl.
  - destruct (Pos.eqb a it); [done|]. intros H. by rewrite IH.
Qed.

Lemma wrap32_add_sub n k :
  int_range n -> int_range (n + k) -> wrap32 (wrap32 (n + k) - k) = n.
Proof.
  intros Hn Hk. rewrite (wrap32_id (n + k)) by done.
  replace (n + k - k) with n by lia. by apply wrap32_id.
Qed.

Lemma dequeue_enqueue nNow nNow' it entry s :
  list_deref it (vBlocksInFlight s) = None ->
  int_range (nBlocksInFlight s) -> int_range (nBlocksInFlight s + 1) ->
  int_range (nBlocksInFlightValidHeaders s) ->
  int_range (nBlocksInFlightValidHeaders s + Z.b2z (fValidatedHeaders entry)) ->
  exists since,
    dequeue nNow' it entry (enqueue nNow it entry s)
    = set_nStallingSince 0 (set_nDownloadingSince since s).
Proof.
  intros Hfresh H1 H2 H3 H4. unfold dequeue, enqueue. cbv zeta.
  destruct s. simpl in *.
  repeat match goal with
         | |- context [if ?b then _ else _] => destruct b
         end; simpl; rewrite ?(list_erase_app_new _ _ _ Hfresh);
    eexists; unfold set_nStallingSince, set_nDownloadingSince; simpl;
    f_equal; by apply wrap32_add_sub.
Qed.

(** The state after [MarkBlockAsInFlight] has queued a block that was not in
    flight. *)
Lemma MarkBlockAsInFlight_new nNow nodeid h (pindex_ : option positive) (want_pit : bool) st state :
  State st nodeid = Some state ->
  mapBlocksInFlight st !! h = None ->
  let it := next_list_node st in
  let entry := {| hash := h; pindex := pindex_;
                  fValidatedHeaders := bool_decide (pindex_ ≠ None);
                  partialBlock := if want_pit then Some NewPartiallyDownloadedBlock
                                  else None |} in
  let state1 := enqueue nNow it entry state in
  MarkBlockAsInFlight nNow nodeid h pindex_ want_pit st
  = Some (true, if want_pit then Some it else None,
          {| mapNodeState := <[nodeid := state1]> (mapNodeState st);
             mapBlocksInFlight := <[h := (nodeid, it)]> (mapBlocksInFlight st);
             nSyncStarted := nSyncStarted st;
             nPreferredDownload := nPreferredDownload st;
             nPeersWithValidatedDownloads :=
               if (nBlocksInFlightValidHeaders state1 =? 1) && bool_decide (pindex_ ≠ None)
               then wrap32 (nPeersWithValidatedDownloads st + 1)
               else nPeersWithValidatedDownloads st;
             g_outbound_peers_with_protect_from_disconnect :=
               g_outbound_peers_with_protect_from_disconnect st;
             next_list_node := Pos.succ it |}).
Proof.
  intros Hs Hnone it entry state1. unfold MarkBlockAsInFlight.
  rewrite Hs. cbn [mbind option_bind]. rewrite Hnone.
  unfold MarkBlockAsReceived. rewrite Hnone. cbn [mbind option_bind].
  rewrite Hs. cbn [mbind option_bind].
  unfold put_state, map_insert_new. simpl. rewrite Hnone. simpl.
  rewrite lookup_insert_eq. fold it. fold entry. fold state1.
  by destruct want_pit.
Qed.

(** The state after [MarkBlockAsReceived] has found the block in flight. *)
Lemma MarkBlockAsReceived_in_flight nNow h st peer it state entry :
  mapBlocksInFlight st !! h = Some (peer, it) ->
  State st peer = Some state ->
  list_deref it (vBlocksInFlight state) = Some entry ->
  let state1 := dequeue nNow it entry state in
  MarkBlockAsReceived nNow h st
  = Some (true,
          {| mapNodeState := <[peer := state1]> (mapNodeState st);
             mapBlocksInFlight := delete h (mapBlocksInFlight st);
             nSyncStarted := nSyncStarted st;
             nPreferredDownload := nPreferredDownload st;
             nPeersWithValidatedDownloads :=
               if (nBlocksInFlightValidHeaders state1 =? 0) && fValidatedHeaders entry
               then wrap32 (nPeersWithValidatedDownloads st - 1)
               else nPeersWithValidatedDownloads st;
             g_outbound_peers_with_protect_from_disconnect :=
               g_outbound_peers_with_protect_from_disconnect st;
             next_list_node := next_list_node st |}).
Proof.
  intros Hin Hs Hd state1. unfold MarkBlockAsReceived.
  rewrite Hin, Hs. cbn [mbind option_bind]. rewrite Hd. cbn [mbind option_bind].
  reflexivity.
Qed.

(** X2: in a state the process can reach, requesting a block that is not in
    flight from a known peer and then receiving it gives back the tables as
    they were: the in-flight map, every counter and every row, except that
    the peer is no longer stalling, its download start time may have moved
    and one list node was used. *)
Theorem MarkBlockAsInFlight_Received_round_trip pc nNow nNow' nodeid h
    (pindex_ : option positive) (want_pit : bool) st state :
  reachable pc st ->
  State st nodeid = Some state ->
  Z.of_nat (length (vBlocksInFlight state)) < INT_MAX ->
  mapBlocksInFlight st !! h = None ->
  exists st1 since,
    MarkBlockAsInFlight nNow nodeid h pindex_ want_pit st
    = Some (true, if want_pit then Some (next_list_node st) else None, st1)
    /\ mapBlocksInFlight st1 !! h = Some (nodeid, next_list_node st)
    /\ MarkBlockAsReceived nNow' h st1
       = Some (true,
               set_next_list_node (Pos.succ (next_list_node st))
                 (put_state nodeid
                    (set_nStallingSince 0 (set_nDownloadingSince since state)) st)).
Proof.
  intros Hreach Hs Hroom Hnone. apply reachable_Inv in Hreach as HI.
  pose proof (MarkBlockAsInFlight_new nNow nodeid h pindex_ want_pit st state Hs Hnone) as Hm.
  cbv zeta in Hm.
  set (it := next_list_node st) in *.
  set (entry := {| hash := h; pindex := pindex_;
                   fValidatedHeaders := bool_decide (pindex_ ≠ None);
                   partialBlock := if want_pit then Some NewPartiallyDownloadedBlock
                                   else None |}) in *.
  pose proof (inv_length _ HI _ _ Hs) as [Hl _].
  pose proof (inv_validated _ HI _ _ Hs) as Hv.
  pose proof (count_validated_bounds (vBlocksInFlight state)) as Hb.
  assert (list_deref it (vBlocksInFlight state) = None) as Hfresh.
  { apply list_deref_None. intros e He.
    pose proof (inv_fresh _ HI _ _ _ _ Hs He). unfold it in *. lia. }
  assert (Z.b2z (fValidatedHeaders entry) = 0 \/ Z.b2z (fValidatedHeaders entry) = 1) as Hb01.
  { destruct (fValidatedHeaders entry); simpl; lia. }
  destruct (dequeue_enqueue nNow nNow' it entry state Hfresh) as [since Hde];
    try (unfold int_range, INT_MIN, INT_MAX in *; lia).
  destruct (enqueue_fields nNow it entry state) as (E1 & E2 & E3 & _).
  assert (nBlocksInFlightValidHeaders (enqueue nNow it entry state)
          = count_validated (vBlocksInFlight state) + Z.b2z (fValidatedHeaders entry)) as Hval.
  { rewrite E3, Hv. apply wrap32_id. unfold int_range, INT_MIN, INT_MAX in *. lia. }
  eexists _, since. split; [exact Hm|].
  split; [cbn [mapBlocksInFlight]; apply lookup_insert_eq|].
  rewrite (MarkBlockAsReceived_in_flight nNow' h _ nodeid it
             (enqueue nNow it entry state) entry).
  2:{ cbn [mapBlocksInFlight]. apply lookup_insert_eq. }
  2:{ unfold State. cbn [mapNodeState]. apply lookup_insert_eq. }
  2:{ rewrite E1. by apply list_deref_app_new. }
  cbv zeta. rewrite Hde.
  cbn [mapNodeState mapBlocksInFlight nSyncStarted nPreferredDownload
       nPeersWithValidatedDownloads g_outbound_peers_with_protect_from_disconnect
       next_list_node].
  rewrite insert_insert_eq, delete_insert_eq, (delete_id _ _ Hnone).
  unfold put_state, set_next_list_node, set_mapNodeState.
  cbn [mapNodeState mapBlocksInFlight nSyncStarted nPreferredDownload
       nPeersWithValidatedDownloads g_outbound_peers_with_protect_from_disconnect
       next_list_node].
  do 2 f_equal. f_equal.
  (* the number of peers with validated downloads *)
  rewrite Hval.
  change (nBlocksInFlightValidHeaders
            (set_nStallingSince 0 (set_nDownloadingSince since state)))
    with (nBlocksInFlightValidHeaders state).
  rewrite Hv.
  destruct (tally_flag_range has_validated _ _ _ Hs (inv_size _ HI)) as (W & _).
  rewrite <- (inv_nPeersWithValidatedDownloads _ HI) in W.
  unfold has_validated in W. rewrite Hv in W.
  pose proof (tally_bounds has_validated (mapNodeState st)) as Htb.
  rewrite <- (inv_nPeersWithValidatedDownloads _ HI) in Htb.
  pose proof (inv_size _ HI) as Hsz.
  change (fValidatedHeaders entry) with (bool_decide (pindex_ ≠ None)) in *.
  destruct (bool_decide (pindex_ ≠ None)); cbn [Z.b2z andb] in *.
  - destruct (Z.eqb_spec (count_validated (vBlocksInFlight state)) 0) as [Hz|Hz].
    + rewrite Hz in *. change (0 + 1 =? 1) with true. change (0 =? 0) with true.
      cbn [andb]. rewrite (W eq_refl).
      replace (nPeersWithValidatedDownloads st + 1 - 1)
        with (nPeersWithValidatedDownloads st) by lia.
      apply wrap32_id. unfold int_range, INT_MIN, INT_MAX in *. lia.
    + destruct (Z.eqb_spec (count_validated (vBlocksInFlight state) + 1) 1); [lia|].
      rewrite !andb_true_r. done.
  - by rewrite !andb_false_r.
Qed.

Lemma ex_reached_1_reachable : reachable ex_pc ex_reached_1.
Proof.
  eapply reachable_step; [apply reachable_initial|].
  apply (step_InitializeNode ex_pc 0 (ex_peer 7) "peer" initial_state).
  vm_compute. reflexivity.
Defined.

(** Block 4 is requested from peer 7, the only peer, and received. *)
Lemma MarkBlockAsInFlight_Received_round_trip_witness :
  exists st1 st2,
    MarkBlockAsInFlight 10 7 103 (Some 4%positive) false ex_reached_1 = Some (true, None, st1)
    /\ MarkBlockAsReceived 20 103 st1 = Some (true, st2)
    /\ mapBlocksInFlight st2 = ∅
    /\ nPeersWithValidatedDownloads st2 = 0.
Proof.
  destruct (State ex_reached_1 7) as [state|] eqn:Hs.
  2:{ vm_compute in Hs. discriminate Hs. }
  destruct (MarkBlockAsInFlight_Received_round_trip ex_pc 10 20 7 103 (Some 4%positive) false
              ex_reached_1 state ex_reached_1_reachable Hs)
    as (st1 & since & H1 & _ & H3).
  - vm_compute in Hs. injection Hs as <-. vm_compute. reflexivity.
  - vm_compute. reflexivity.
  - eexists st1, _. split; [exact H1|]. split; [exact H3|]. split; reflexivity.
Defined.

(** X3: in a state the process can reach, requesting from peer B a block
    that is in flight from another peer A moves the block: it leaves the
    queue of A, whose block counter drops by one and whose stalling time is
    reset, it is appended to the queue of B, whose block counter grows by
    one, and the in-flight map names B for the hash and is otherwise
    unchanged. *)
Theorem MarkBlockAsInFlight_takes_over pc nNow peerA peerB h (pindex_ : option positive)
    (want_pit : bool) st itA stateB :
  reachable pc st ->
  mapBlocksInFlight st !! h = Some (peerA, itA) ->
  peerA ≠ peerB ->
  State st peerB = Some stateB ->
  Z.of_nat (length (vBlocksInFlight stateB)) < INT_MAX ->
  exists st1 stateA stateA1 stateB1 entryA entryB,
    MarkBlockAsInFlight nNow peerB h pindex_ want_pit st
    = Some (true, if want_pit then Some (next_list_node st) else None, st1)
    /\ mapBlocksInFlight st1 = <[h := (peerB, next_list_node st)]> (mapBlocksInFlight st)
    /\ State st peerA = Some stateA /\ State st1 peerA = Some stateA1
    /\ list_deref itA (vBlocksInFlight stateA) = Some entryA
    /\ vBlocksInFlight stateA1 = list_erase itA (vBlocksInFlight stateA)
    /\ nBlocksInFlight stateA1 = nBlocksInFlight stateA - 1
    /\ nStallingSince stateA1 = 0
    /\ State st1 peerB = Some stateB1
    /\ vBlocksInFlight stateB1 = vBlocksInFlight stateB ++ [(next_list_node st, entryB)]
    /\ hash entryB = h
    /\ nBlocksInFlight stateB1 = nBlocksInFlight stateB + 1.
Proof.
  intros Hreach Hin Hne Hs Hroom. apply reachable_Inv in Hreach as HI.
  destruct (inv_flight _ HI _ _ _ Hin) as (stateA & entryA & HsA & Hd & Hh).
  pose proof (MarkBlockAsReceived_in_flight nNow h st peerA itA stateA entryA Hin HsA Hd) as Hr.
  cbv zeta in Hr.
  set (it := next_list_node st).
  set (entryB := {| hash := h; pindex := pindex_;
                    fValidatedHeaders := bool_decide (pindex_ ≠ None);
                    partialBlock := if want_pit then Some NewPartiallyDownloadedBlock
                                    else None |}).
  destruct (dequeue_fields nNow itA entryA stateA) as (D1 & D2 & _).
  destruct (enqueue_fields nNow it entryB stateB) as (E1 & E2 & _).
  pose proof (inv_length _ HI _ _ HsA) as [HlA _].
  pose proof (inv_length _ HI _ _ Hs) as [HlB _].
  pose proof (list_erase_length _ _ _ Hd) as He.
  exists (set_mapBlocksInFlight (<[h := (peerB, it)]> (mapBlocksInFlight st))
            (set_nPeersWithValidatedDownloads
               (if (nBlocksInFlightValidHeaders (enqueue nNow it entryB stateB) =? 1)
                   && bool_decide (pindex_ ≠ None)
                then wrap32 ((if (nBlocksInFlightValidHeaders (dequeue nNow itA entryA stateA)
                                  =? 0) && fValidatedHeaders entryA
                              then wrap32 (nPeersWithValidatedDownloads st - 1)
                              else nPeersWithValidatedDownloads st) + 1)
                else (if (nBlocksInFlightValidHeaders (dequeue nNow itA entryA stateA) =? 0)
                         && fValidatedHeaders entryA
                      then wrap32 (nPeersWithValidatedDownloads st - 1)
                      else nPeersWithValidatedDownloads st))
               (set_next_list_node (Pos.succ it)
                  (put_state peerB (enqueue nNow it entryB stateB)
                     (put_state peerA (dequeue nNow itA entryA stateA) st))))),
    stateA, (dequeue nNow itA entryA stateA), (enqueue nNow it entryB stateB), entryA, entryB.
  split.
  { unfold MarkBlockAsInFlight. rewrite Hs. cbn [mbind option_bind]. rewrite Hin.
    destruct (Z.eqb_spec peerA peerB) as [|_]; [done|].
    rewrite Hr. cbn [mbind option_bind].
    unfold State. cbn [mapNodeState]. rewrite lookup_insert_ne by done.
    unfold State in Hs. rewrite Hs. cbn [mbind option_bind]. cbv zeta.
    unfold map_insert_new.
    cbn [mapNodeState mapBlocksInFlight nSyncStarted nPreferredDownload
         nPeersWithValidatedDownloads g_outbound_peers_with_protect_from_disconnect
         next_list_node set_mapNodeState set_mapBlocksInFlight
         set_nPeersWithValidatedDownloads set_next_list_node put_state].
    rewrite lookup_delete_eq, lookup_insert_eq, insert_delete_eq. fold it. fold entryB.
    destruct want_pit; reflexivity. }
  split; [reflexivity|]. split; [done|].
  split.
  { unfold State. cbn [mapNodeState set_mapBlocksInFlight set_nPeersWithValidatedDownloads
                       set_next_list_node put_state set_mapNodeState].
    rewrite lookup_insert_ne by done. apply lookup_insert_eq. }
  split; [done|]. split; [done|].
  split; [rewrite D2, HlA; apply wrap32_id; unfold int_range, INT_MIN, INT_MAX in *;
          pose proof (inv_length _ HI _ _ HsA) as [_ Hm]; unfold INT_MAX in Hm; lia|].
  split; [reflexivity|].
  split.
  { unfold State. cbn [mapNodeState set_mapBlocksInFlight set_nPeersWithValidatedDownloads
                       set_next_list_node put_state set_mapNodeState].
    apply lookup_insert_eq. }
  split; [done|]. split; [reflexivity|].
  rewrite E2, HlB. apply wrap32_id. unfold int_range, INT_MIN, INT_MAX in *. lia.
Qed.

Lemma ex_two_peers_reachable : reachable ex_pc ex_two_peers.
Proof.
  eapply reachable_step; [apply ex_reached_1_reachable|].
  apply (step_InitializeNode ex_pc 0 (ex_peer 8) "peer8" ex_reached_1).
  vm_compute. reflexivity.
Defined.

Lemma ex_two_peers_downloading_reachable : reachable ex_pc ex_two_peers_downloading.
Proof.
  eapply reachable_step; [apply ex_two_peers_reachable|].
  eapply (step_MarkBlockAsInFlight ex_pc 0 7 103%N (Some 4%positive) false ex_two_peers).
  - intros state Hs. vm_compute in Hs. injection Hs as <-. vm_compute. reflexivity.
  - vm_compute. reflexivity.
Defined.

(** Block 4, in flight from peer 7, is requested from peer 8. *)
Lemma MarkBlockAsInFlight_takes_over_witness :
  exists st1 state7 state8,
    MarkBlockAsInFlight 10 8 103 (Some 4%positive) false ex_two_peers_downloading
    = Some (true, None, st1)
    /\ mapBlocksInFlight st1 !! 103%N = Some (8, 2%positive)
    /\ State st1 7 = Some state7 /\ vBlocksInFlight state7 = []
    /\ State st1 8 = Some state8 /\ nBlocksInFlight state8 = 1.
Proof.
  destruct (State ex_two_peers_downloading 8) as [stateB|] eqn:Hs.
  2:{ vm_compute in Hs. discriminate Hs. }
  destruct (MarkBlockAsInFlight_takes_over ex_pc 10 7 8 103 (Some 4%positive) false
              ex_two_peers_downloading 1%positive stateB
              ex_two_peers_downloading_reachable)
    as (st1 & stateA & stateA1 & stateB1 & entryA & entryB & H1 & H2 & H3 & H4 & H5 & H6
        & _ & _ & H9 & _ & _ & H12).
  - vm_compute. reflexivity.
  - discriminate.
  - exact Hs.
  - vm_compute in Hs. injection Hs as <-. vm_compute. reflexivity.
  - exists st1, stateA1, stateB1. split; [exact H1|].
    split; [rewrite H2; apply lookup_insert_eq|].
    split; [exact H4|]. split.
    { rewrite H6. vm_compute in H3. injection H3 as <-. reflexivity. }
    split; [exact H9|]. rewrite H12. vm_compute in Hs. injection Hs as <-. reflexivity.
Defined.


(** ** Adding and removing a peer *)






(** ** The best known block of a peer *)

Lemma ProcessBlockAvailability_row_work env s :
  (work_of env (pindexBestKnownBlock s)
   <= work_of env (pindexBestKnownBlock (ProcessBlockAvailability_row env s)))%N
  /\ (is_Some (pindexBestKnownBlock s) ->
      is_Some (pindexBestKnownBlock (ProcessBlockAvailability_row env s))).
Proof.
  unfold ProcessBlockAvailability_row, replaces_best.
  destruct (negb _); [|done].
  destruct (GetBlockIndex env _) as [p|]; [|done].
  destruct (0 <? _)%N; [|done].
  destruct (pindexBestKnownBlock s) as [best|] eqn:Hb; simpl; rewrite ?Hb; simpl.
  - destruct (N.leb_spec (nChainWork (blk env best)) (nChainWork (blk env p)));
      simpl; rewrite ?Hb; simpl; split; (lia || done).
  - split; [lia | by intros [? ?]].
Qed.

Lemma ProcessBlockAvailability_row_idem env s :
  ProcessBlockAvailability_row env (ProcessBlockAvailability_row env s)
  = ProcessBlockAvailability_row env s.
Proof.
  assert (forall s', ProcessBlockAvailability_row env (set_hashLastUnknownBlock 0%N s')
                     = set_hashLastUnknownBlock 0%N s') as Hnull by done.
  assert (forall s', ProcessBlockAvailability_row env s' = s' ->
                     ProcessBlockAvailability_row env s' = s') as _ by done.
  destruct (negb (IsNull (hashLastUnknownBlock s))) eqn:Hn.
  2:{ assert (ProcessBlockAvailability_row env s = s) as E; [|by rewrite !E].
      unfold ProcessBlockAvailability_row. by rewrite Hn. }
  destruct (GetBlockIndex env (hashLastUnknownBlock s)) as [p|] eqn:Hg.
  2:{ assert (ProcessBlockAvailability_row env s = s) as E; [|by rewrite !E].
      unfold ProcessBlockAvailability_row. by rewrite Hn, Hg. }
  destruct (0 <? nChainWork (blk env p))%N eqn:Hw.
  2:{ assert (ProcessBlockAvailability_row env s = s) as E; [|by rewrite !E].
      unfold ProcessBlockAvailability_row. by rewrite Hn, Hg, Hw. }
  assert (ProcessBlockAvailability_row env s
          = set_hashLastUnknownBlock 0%N
              (if replaces_best env p s then set_pindexBestKnownBlock (Some p) s else s)) as E.
  { unfold ProcessBlockAvailability_row. by rewrite Hn, Hg, Hw. }
  rewrite E. apply Hnull.
Qed.

(** X5: [ProcessBlockAvailability] never lowers the chain work of the best
    known block of a peer nor forgets that block, it leaves the other peers
    alone, and calling it a second time changes nothing. *)
Theorem ProcessBlockAvailability_idempotent env nodeid st state :
  State st nodeid = Some state ->
  exists st' state',
    ProcessBlockAvailability env nodeid st = Some st'
    /\ State st' nodeid = Some state'
    /\ (forall other, other ≠ nodeid -> State st' other = State st other)
    /\ (work_of env (pindexBestKnownBlock state)
        <= work_of env (pindexBestKnownBlock state'))%N
    /\ (is_Some (pindexBestKnownBlock state) -> is_Some (pindexBestKnownBlock state'))
    /\ ProcessBlockAvailability env nodeid st' = Some st'.
Proof.
  intros Hs. unfold ProcessBlockAvailability. rewrite Hs. cbn [mbind option_bind].
  eexists _, _. split; [reflexivity|]. rewrite State_put_state_eq.
  split; [reflexivity|].
  split; [intros other Hne; by apply State_put_state_ne|].
  destruct (ProcessBlockAvailability_row_work env state) as [Hw Hk].
  split; [done|]. split; [done|].
  cbn [mbind option_bind]. rewrite ProcessBlockAvailability_row_idem.
  f_equal. unfold put_state. simpl. by rewrite insert_insert_eq.
Qed.

(** A peer announced block 2 before it was indexed. *)
Lemma ProcessBlockAvailability_idempotent_witness :
  exists st' state',
    ProcessBlockAvailability (ex_env 3 3) 7 (ex_table 7 ex_row_announced) = Some st'
    /\ State st' 7 = Some state'
    /\ ProcessBlockAvailability (ex_env 3 3) 7 st' = Some st'.
Proof.
  destruct (ProcessBlockAvailability_idempotent (ex_env 3 3) 7 (ex_table 7 ex_row_announced)
              ex_row_announced) as (st' & state' & H1 & H2 & _ & _ & _ & H6).
  - reflexivity.
  - by exists st', state'.
Defined.

(** X6: [UpdateBlockAvailability] returns for every known peer and leaves the
    other peers alone; it never lowers the chain work of the best known block
    of the peer; after the announcement of a block that is in the block index
    with chain work, the peer has a best known block with at least that work;
    the hash of any other block is recorded as the last unknown block of the
    peer. *)
Theorem UpdateBlockAvailability_best_known env nodeid h st state :
  State st nodeid = Some state ->
  exists st' state',
    UpdateBlockAvailability env nodeid h st = Some st'
    /\ State st' nodeid = Some state'
    /\ (forall other, other ≠ nodeid -> State st' other = State st other)
    /\ (work_of env (pindexBestKnownBlock state)
        <= work_of env (pindexBestKnownBlock state'))%N
    /\ (is_Some (pindexBestKnownBlock state) -> is_Some (pindexBestKnownBlock state'))
    /\ (forall pIndex,
          GetBlockIndex env h = Some pIndex -> (0 < nChainWork (blk env pIndex))%N ->
          exists best,
            pindexBestKnownBlock state' = Some best
            /\ (nChainWork (blk env pIndex) <= nChainWork (blk env best))%N)
    /\ (is_indexed env h = false -> hashLastUnknownBlock state' = h).
Proof.
  intros Hs. unfold UpdateBlockAvailability. rewrite Hs. cbn [mbind option_bind].
  eexists _, _. split; [reflexivity|]. rewrite State_put_state_eq.
  split; [reflexivity|].
  split; [intros other Hne; by apply State_put_state_ne|].
  destruct (ProcessBlockAvailability_row_work env state) as [Hw Hk].
  unfold UpdateBlockAvailability_row, is_indexed. cbv zeta.
  set (s1 := ProcessBlockAvailability_row env state) in *.
  destruct (GetBlockIndex env h) as [p|].
  - destruct (N.ltb_spec 0 (nChainWork (blk env p))) as [Hpos|Hzero].
    + unfold replaces_best.
      destruct (pindexBestKnownBlock s1) as [best|] eqn:Hb.
      * destruct (N.leb_spec (nChainWork (blk env best)) (nChainWork (blk env p)));
          simpl; rewrite ?Hb; simpl.
        -- split; [simpl in Hw; lia|]. split; [done|]. split; [|done].
           intros ? [= <-] _. exists p. split; [done|lia].
        -- split; [done|]. split; [done|]. split; [|done].
           intros ? [= <-] _. exists best. split; [done|lia].
      * simpl. split; [simpl in Hw; lia|]. split; [done|]. split; [|done].
        intros ? [= <-] _. exists p. split; [done|lia].
    + simpl. split; [done|]. split; [done|]. split; [|done].
      intros ? [= <-] ?. lia.
  - simpl. split; [done|]. split; [done|]. split; [done|]. done.
Qed.

(** A peer without a best known block announces the indexed block 2. *)
Lemma UpdateBlockAvailability_best_known_witness :
  exists st' state',
    UpdateBlockAvailability (ex_env 3 3) 7 101 (ex_table 7 ex_row) = Some st'
    /\ State st' 7 = Some state'
    /\ pindexBestKnownBlock state' = Some 2%positive.
Proof.
  destruct (UpdateBlockAvailability_best_known (ex_env 3 3) 7 101 (ex_table 7 ex_row) ex_row)
    as (st' & state' & H1 & H2 & _ & _ & _ & H6 & _).
  - reflexivity.
  - exists st', state'. split; [exact H1|]. split; [exact H2|].
    vm_compute in H1. injection H1 as <-. vm_compute in H2. injection H2 as <-.
    reflexivity.
Defined.


(** ** What the scheduler selects *)

Lemma set_pindexLastCommonBlock_eta s :
  set_pindexLastCommonBlock (pindexLastCommonBlock s) s = s.
Proof. by destruct s. Qed.

Lemma put_state_put_state pnode s s' st :
  put_state pnode s (put_state pnode s' st) = put_state pnode s st.
Proof. unfold put_state. simpl. by rewrite insert_insert_eq. Qed.

Lemma FindNext_scan_selection pc env nodeid count nWindowEnd vToFetch vBlocks nodeStaller
    waitingfor st state r vBlocks' nodeStaller' waitingfor' st' :
  State st nodeid = Some state ->
  FindNext_scan pc env nodeid count nWindowEnd vToFetch vBlocks nodeStaller waitingfor st
  = Some (r, vBlocks', nodeStaller', waitingfor', st') ->
  (exists added,
     vBlocks' = vBlocks ++ added /\ forall b, b ∈ added -> downloadable pc env st b)
  /\ (exists lc, st' = put_state nodeid (set_pindexLastCommonBlock lc state) st)
  /\ (nodeStaller' = nodeStaller
      \/ r = true /\ vBlocks' = [] /\ nodeStaller' ≠ nodeid /\ nodeStaller' = waitingfor')
  /\ (waitingfor' = waitingfor
      \/ waitingfor = -1
         /\ exists h it, mapBlocksInFlight st !! h = Some (waitingfor', it))
  /\ (Z.of_nat (length vBlocks) < count ->
      Z.of_nat (length vBlocks') <= count
      /\ (r = false -> Z.of_nat (length vBlocks') < count)).
Proof.
  revert vBlocks nodeStaller waitingfor st state.
  induction vToFetch as [|p rest IH]; intros vBlocks nodeStaller waitingfor st state Hs H.
  { simpl in H. injection H as <- <- <- <- <-.
    split; [exists []; split; [by rewrite app_nil_r | by intros b Hb%elem_of_nil]|].
    split; [exists (pindexLastCommonBlock state);
            by rewrite set_pindexLastCommonBlock_eta, put_state_id|].
    split; [by left|]. split; [by left|]. lia. }
  assert (forall st0, st0 = st ->
            (exists added, vBlocks = vBlocks ++ added
                           /\ forall b, b ∈ added -> downloadable pc env st b)
            /\ (exists lc, st0 = put_state nodeid (set_pindexLastCommonBlock lc state) st))
    as Hstop.
  { intros st0 ->.
    split; [exists []; split; [by rewrite app_nil_r | by intros b Hb%elem_of_nil]|].
    exists (pindexLastCommonBlock state).
    by rewrite set_pindexLastCommonBlock_eta, put_state_id. }
  simpl in H.
  destruct (IsValid_TREE env p) eqn:Htree; cbn [negb] in H.
  2:{ injection H as <- <- <- <- <-. destruct (Hstop st eq_refl) as [H1 H2].
      split; [done|]. split; [done|]. split; [by left|]. split; [by left|]. lia. }
  rewrite Hs in H. cbn [mbind option_bind] in H.
  destruct (negb (fHaveWitness state) && _).
  { injection H as <- <- <- <- <-. destruct (Hstop st eq_refl) as [H1 H2].
    split; [done|]. split; [done|]. split; [by left|]. split; [by left|]. lia. }
  assert (forall st1,
            st1 = (if negb (nChainTx (blk env p) =? 0)%N
                   then upd_state nodeid (set_pindexLastCommonBlock (Some p)) st else st) ->
            exists state1,
              State st1 nodeid = Some state1
              /\ mapBlocksInFlight st1 = mapBlocksInFlight st
              /\ forall lc, put_state nodeid (set_pindexLastCommonBlock lc state1) st1
                            = put_state nodeid (set_pindexLastCommonBlock lc state) st)
    as Hskip.
  { intros st1 ->. destruct (negb (nChainTx (blk env p) =? 0)%N).
    - rewrite (upd_state_put _ _ _ _ Hs). eexists. split; [apply State_put_state_eq|].
      split; [done|]. intros lc. by rewrite put_state_put_state.
    - by exists state. }
  destruct (N.eqb_spec (N.land (nStatus (blk env p)) (BLOCK_HAVE_DATA pc)) 0) as [Hdata|Hdata];
    cbn [negb orb] in H.
  2:{ destruct (Hskip _ eq_refl) as (state1 & Hs1 & Hmap & Hput).
      eapply IH in H; [|exact Hs1].
      destruct H as ((added & -> & Hadded) & (lc & ->) & Hst & Hw & Hlen).
      split. { exists added. split; [done|]. intros b Hb.
               destruct (Hadded b Hb) as (?&?&?&Hf). rewrite Hmap in Hf. done. }
      split; [exists lc; apply Hput|]. split; [done|]. split; [|done].
      by rewrite Hmap in Hw. }
  destruct (Contains env p) eqn:Hchain.
  { destruct (Hskip _ eq_refl) as (state1 & Hs1 & Hmap & Hput).
    eapply IH in H; [|exact Hs1].
    destruct H as ((added & -> & Hadded) & (lc & ->) & Hst & Hw & Hlen).
    split. { exists added. split; [done|]. intros b Hb.
             destruct (Hadded b Hb) as (?&?&?&Hf). rewrite Hmap in Hf. done. }
    split; [exists lc; apply Hput|]. split; [done|]. split; [|done].
    by rewrite Hmap in Hw. }
  clear Hskip.
  destruct (mapBlocksInFlight st !! phashBlock (blk env p)) as [[peer it]|] eqn:Hin.
  { eapply IH in H; [|done].
    destruct H as (Hadd & Hlc & Hst & Hw & Hlen).
    split; [done|]. split; [done|]. split; [done|]. split; [|done].
    destruct (Z.eqb_spec waitingfor (-1)) as [->|Hne]; [|done].
    destruct Hw as [->|[_ Hw]]; [|by right].
    right. split; [done|]. by exists (phashBlock (blk env p)), it. }
  destruct (nWindowEnd <? nHeight (blk env p)).
  { injection H as <- <- <- <- <-. destruct (Hstop st eq_refl) as [H1 H2].
    split; [done|]. split; [done|]. split; [|split; [by left|lia]].
    destruct (Z.eqb_spec (Z.of_nat (length vBlocks)) 0) as [Hz|Hnz]; cbn [andb]; [|by left].
    destruct (Z.eqb_spec waitingfor nodeid) as [He|Hne]; cbn [negb]; [by left|].
    right. split; [done|]. split; [by destruct vBlocks|]. done. }
  assert (downloadable pc env st p) as Hp by done.
  destruct (Z.eqb_spec (Z.of_nat (length (vBlocks ++ [p]))) count) as [Hc|Hc].
  { injection H as <- <- <- <- <-. destruct (Hstop st eq_refl) as [_ H2].
    split. { exists [p]. split; [done|]. by intros b ->%list_elem_of_singleton. }
    split; [done|]. split; [by left|]. split; [by left|]. intros _. split; [lia|done]. }
  eapply IH in H; [|done].
  destruct H as ((added & -> & Hadded) & Hlc & Hst & Hw & Hlen).
  split.
  { exists (p :: added). split; [by rewrite <- app_assoc|].
    intros b [->|Hb]%elem_of_cons; [done | by apply Hadded]. }
  split; [done|]. split; [|split; [done|]].
  - destruct Hst as [->|(_ & Hnil & _)]; [by left|].
    rewrite <- app_assoc in Hnil. by destruct vBlocks.
  - intros Hlt. apply Hlen. rewrite length_app in *. simpl in *. lia.
Qed.

Lemma FindNext_walk_selection pc env nodeid count nWindowEnd nMaxHeight best fuel pindexWalk
    vBlocks nodeStaller waitingfor st state vBlocks' nodeStaller' st' :
  State st nodeid = Some state ->
  FindNext_walk pc env nodeid count nWindowEnd nMaxHeight best fuel pindexWalk vBlocks
    nodeStaller waitingfor st = Some (vBlocks', nodeStaller', st') ->
  (exists added,
     vBlocks' = vBlocks ++ added /\ forall b, b ∈ added -> downloadable pc env st b)
  /\ (exists lc, st' = put_state nodeid (set_pindexLastCommonBlock lc state) st)
  /\ (nodeStaller' = nodeStaller
      \/ vBlocks' = [] /\ nodeStaller' ≠ nodeid
         /\ (nodeStaller' = waitingfor
             \/ exists h it, mapBlocksInFlight st !! h = Some (nodeStaller', it)))
  /\ (Z.of_nat (length vBlocks) < count -> Z.of_nat (length vBlocks') <= count).
Proof.
  revert pindexWalk vBlocks nodeStaller waitingfor st state.
  induction fuel as [|fuel IH]; intros pindexWalk vBlocks nodeStaller waitingfor st state Hs H;
    simpl in H.
  - destruct (_ <? nMaxHeight); [done|]. injection H as <- <- <-.
    split; [exists []; split; [by rewrite app_nil_r | by intros b Hb%elem_of_nil]|].
    split; [exists (pindexLastCommonBlock state);
            by rewrite set_pindexLastCommonBlock_eta, put_state_id|].
    split; [by left|lia].
  - destruct (_ <? nMaxHeight).
    2:{ injection H as <- <- <-.
        split; [exists []; split; [by rewrite app_nil_r | by intros b Hb%elem_of_nil]|].
        split; [exists (pindexLastCommonBlock state);
                by rewrite set_pindexLastCommonBlock_eta, put_state_id|].
        split; [by left|lia]. }
    destruct (assert_ _); [|done]. cbn [mbind option_bind] in H.
    destruct (GetAncestor env best _) as [walk1|]; [|done]. cbn [mbind option_bind] in H.
    destruct (walk_back env _ walk1 []) as [vToFetch|]; [|done].
    cbn [mbind option_bind] in H.
    destruct (FindNext_scan _ _ _ _ _ _ _ _ _ _)
      as [[[[[returned vBlocks1] nodeStaller1] waitingfor1] st1]|] eqn:Hscan; [|done].
    cbn [mbind option_bind] in H.
    eapply FindNext_scan_selection in Hscan; [|exact Hs].
    destruct Hscan as ((added1 & -> & Hadded1) & (lc1 & ->) & Hst1 & Hw1 & Hlen1).
    destruct returned.
    + injection H as <- <- <-. split; [by exists added1|]. split; [by exists lc1|].
      split; [|intros Hlt; by apply Hlen1].
      destruct Hst1 as [->|(_ & Hnil & Hne & ->)]; [by left|]. right.
      split; [done|]. split; [done|]. destruct Hw1 as [->|[_ Hw]]; [by left | by right].
    + eapply IH in H; [|apply State_put_state_eq].
      destruct H as ((added & -> & Hadded) & (lc & ->) & Hst & Hlen).
      split. { exists (added1 ++ added). split; [by rewrite app_assoc|].
               intros b [Hb|Hb]%elem_of_app; [by apply Hadded1 | by apply Hadded]. }
      split; [exists lc; by rewrite put_state_put_state|].
      assert (nodeStaller1 = nodeStaller) as -> by (by destruct Hst1 as [?|(?&_)]).
      split.
      * destruct Hst as [->|(Hnil & Hne & Hor)]; [by left|]. right.
        split; [done|]. split; [done|].
        destruct Hor as [->|Hor]; [|by right].
        destruct Hw1 as [->|[_ Hw]]; [by left | by right].
      * intros Hlt. apply Hlen. by apply Hlen1.
Qed.

(** What [FindNextBlocksToDownload] returns and writes. *)
Lemma FindNextBlocksToDownload_result pc env fuel nodeid count vBlocks nodeStaller st
    vBlocks' nodeStaller' st' :
  FindNextBlocksToDownload pc env fuel nodeid count vBlocks nodeStaller st
  = Some (vBlocks', nodeStaller', st') ->
  (exists added,
     vBlocks' = vBlocks ++ added /\ forall b, b ∈ added -> downloadable pc env st b)
  /\ (Z.of_nat (length vBlocks) < count -> Z.of_nat (length vBlocks') <= count)
  /\ (st' = st
      \/ exists state lc,
           State st nodeid = Some state
           /\ st' = put_state nodeid
                      (set_pindexLastCommonBlock lc (ProcessBlockAvailability_row env state))
                      st)
  /\ mapBlocksInFlight st' = mapBlocksInFlight st
  /\ (nodeStaller' = nodeStaller
      \/ vBlocks' = [] /\ nodeStaller' ≠ nodeid
         /\ (nodeStaller' = -1
             \/ exists h it, mapBlocksInFlight st !! h = Some (nodeStaller', it))).
Proof.
  intros H. unfold FindNextBlocksToDownload in H.
  destruct (Z.eqb_spec count 0) as [Hc|Hc].
  { injection H as <- <- <-.
    split; [exists []; split; [by rewrite app_nil_r | by intros b Hb%elem_of_nil]|].
    split; [lia|]. split; [by left|]. split; [done|]. by left. }
  destruct (State st nodeid) as [state|] eqn:Hs; [|done]. cbn [mbind option_bind] in H.
  rewrite <- Hs.
  unfold ProcessBlockAvailability in H. rewrite Hs in H. cbn [mbind option_bind] in H.
  rewrite State_put_state_eq in H. cbn [mbind option_bind] in H.
  set (state1 := ProcessBlockAvailability_row env state) in *.
  assert (forall st0 vb,
            vb = vBlocks -> st0 = put_state nodeid state1 st ->
            (exists added, vb = vBlocks ++ added
                           /\ forall b, b ∈ added -> downloadable pc env st b)
            /\ (Z.of_nat (length vBlocks) < count -> Z.of_nat (length vb) <= count)
            /\ (st0 = st
                \/ exists state lc,
                     State st nodeid = Some state
                     /\ st0 = put_state nodeid
                                (set_pindexLastCommonBlock lc
                                   (ProcessBlockAvailability_row env state)) st)
            /\ mapBlocksInFlight st0 = mapBlocksInFlight st) as Hstop.
  { intros st0 vb -> ->.
    split; [exists []; split; [by rewrite app_nil_r | by intros b Hb%elem_of_nil]|].
    split; [lia|]. split; [|done]. right. exists state, (pindexLastCommonBlock state1).
    split; [done|]. by rewrite set_pindexLastCommonBlock_eta. }
  destruct (pindexBestKnownBlock state1) as [best|].
  2:{ injection H as <- <- <-. destruct (Hstop _ _ eq_refl eq_refl) as (?&?&?&?).
      split; [done|]. split; [done|]. split; [done|]. split; [done|]. by left. }
  destruct (Tip env) as [tip|]; [|done]. cbn [mbind option_bind] in H.
  destruct (_ || _).
  { injection H as <- <- <-. destruct (Hstop _ _ eq_refl eq_refl) as (?&?&?&?).
    split; [done|]. split; [done|]. split; [done|]. split; [done|]. by left. }
  match type of H with
  | (?m ≫= _) = _ => destruct m as [guess|]; [|done]
  end.
  cbn [mbind option_bind] in H.
  rewrite (upd_state_put _ _ _ state1) in H by apply State_put_state_eq.
  rewrite put_state_put_state in H.
  destruct (bool_decide _).
  { injection H as <- <- <-.
    split; [exists []; split; [by rewrite app_nil_r | by intros b Hb%elem_of_nil]|].
    split; [lia|]. split; [right; by eexists _, _|]. split; [done|]. by left. }
  destruct (LastCommonAncestor env guess best) as [walk|]; [|done].
  cbn [mbind option_bind] in H.
  eapply FindNext_walk_selection in H; [|apply State_put_state_eq].
  destruct H as ((added & -> & Hadded) & (lc & ->) & Hst & Hlen).
  split; [by exists added|]. split; [done|].
  split. { right. exists state, lc. split; [done|]. by rewrite put_state_put_state. }
  split; [done|]. done.
Qed.

(** X7: the blocks [FindNextBlocksToDownload] adds to [vBlocks] come after
    those already there, are at most [count] together with them, and each has
    a valid tree, no stored data, is outside the active chain and is not in
    flight; the function changes at most the best known block, the last
    unknown hash and the last common block of the peer, and nothing else in
    the tables; the staller it reports anew, which it does only when it
    selected nothing, is another peer a block is in flight from (or none);
    with [count = 0] it changes nothing at all, and otherwise it returns only
    for a known peer. *)
Theorem FindNextBlocksToDownload_selection pc env fuel nodeid count vBlocks nodeStaller st
    vBlocks' nodeStaller' st' :
  FindNextBlocksToDownload pc env fuel nodeid count vBlocks nodeStaller st
  = Some (vBlocks', nodeStaller', st') ->
  (exists added,
     vBlocks' = vBlocks ++ added /\ forall b, b ∈ added -> downloadable pc env st b)
  /\ (Z.of_nat (length vBlocks) < count -> Z.of_nat (length vBlocks') <= count)
  /\ (st' = st
      \/ exists state lc,
           State st nodeid = Some state
           /\ st' = put_state nodeid
                      (set_pindexLastCommonBlock lc (ProcessBlockAvailability_row env state))
                      st)
  /\ mapBlocksInFlight st' = mapBlocksInFlight st
  /\ (nodeStaller' = nodeStaller
      \/ vBlocks' = [] /\ nodeStaller' ≠ nodeid
         /\ (nodeStaller' = -1
             \/ exists h it, mapBlocksInFlight st !! h = Some (nodeStaller', it)))
  /\ (count = 0 -> vBlocks' = vBlocks /\ nodeStaller' = nodeStaller /\ st' = st)
  /\ (count ≠ 0 -> is_Some (State st nodeid)).
Proof.
  intros H.
  destruct (FindNextBlocksToDownload_result _ _ _ _ _ _ _ _ _ _ _ H)
    as (Hadd & Hlen & Hst & Hmap & Hstaller).
  split; [exact Hadd|]. split; [exact Hlen|]. split; [exact Hst|]. split; [exact Hmap|].
  split; [exact Hstaller|]. unfold FindNextBlocksToDownload in H. split.
  - intros ->. by injection H as <- <- <-.
  - intros Hc. destruct (Z.eqb_spec count 0) as [?|_]; [done|].
    destruct (State st nodeid) as [state|]; [by eexists | done].
Qed.

(** Peer 7 knows block 5 while the active chain ends at block 3: blocks 4 and
    5 are selected. *)
Lemma FindNextBlocksToDownload_selection_witness :
  FindNextBlocksToDownload ex_pc (ex_env 5 3) 1 7 16 [] (-1)
    (ex_table 7 (set_pindexBestKnownBlock (Some 5%positive) ex_row))
  = Some ([4%positive; 5%positive], -1,
          ex_table 7 (set_pindexLastCommonBlock (Some 3%positive)
                        (set_pindexBestKnownBlock (Some 5%positive) ex_row)))
  /\ downloadable ex_pc (ex_env 5 3)
       (ex_table 7 (set_pindexBestKnownBlock (Some 5%positive) ex_row)) 4%positive.
Proof.
  assert (FindNextBlocksToDownload ex_pc (ex_env 5 3) 1 7 16 [] (-1)
            (ex_table 7 (set_pindexBestKnownBlock (Some 5%positive) ex_row))
          = Some ([4%positive; 5%positive], -1,
                  ex_table 7 (set_pindexLastCommonBlock (Some 3%positive)
                                (set_pindexBestKnownBlock (Some 5%positive) ex_row)))) as H.
  { vm_compute. reflexivity. }
  split; [exact H|].
  destruct (FindNextBlocksToDownload_selection _ _ _ _ _ _ _ _ _ _ _ H)
    as ((added & Heq & Hadded) & _).
  apply Hadded. simpl in Heq. rewrite <- Heq. apply list_elem_of_here.
Defined.


(** ** The block requests of [SendMessages] *)

(** [MarkBlockAsInFlight] for a block that no other peer is downloading. *)
Lemma MarkBlockAsInFlight_free nNow nodeid h (pindex_ : option positive) (want_pit : bool)
    st state r pit st' :
  State st nodeid = Some state ->
  (mapBlocksInFlight st !! h = None
   \/ exists it, mapBlocksInFlight st !! h = Some (nodeid, it)) ->
  MarkBlockAsInFlight nNow nodeid h pindex_ want_pit st = Some (r, pit, st') ->
  exists it state',
    mapBlocksInFlight st' = <[h := (nodeid, it)]> (mapBlocksInFlight st)
    /\ (forall peer it0, mapBlocksInFlight st !! h = Some (peer, it0) -> it0 = it)
    /\ State st' nodeid = Some state'
    /\ length (vBlocksInFlight state')
       = (length (vBlocksInFlight state) + if r then 1 else 0)%nat
    /\ fHaveWitness state' = fHaveWitness state
    /\ (forall other, other ≠ nodeid -> State st' other = State st other).
Proof.
  intros Hs [Hnone|[it Hin]] H.
  - rewrite (MarkBlockAsInFlight_new _ _ _ _ _ _ _ Hs Hnone) in H.
    injection H as <- _ <-. eexists _, _. split; [reflexivity|].
    split; [intros peer it0 Hin; congruence|].
    split; [unfold State; simpl; apply lookup_insert_eq|].
    destruct (enqueue_fields nNow (next_list_node st)
                {| hash := h; pindex := pindex_;
                   fValidatedHeaders := bool_decide (pindex_ ≠ None);
                   partialBlock := if want_pit then Some NewPartiallyDownloadedBlock
                                   else None |} state) as (Hq & _).
    split; [rewrite Hq, length_app; simpl; lia|].
    split. { unfold enqueue. cbv zeta. by destruct (_ =? 1). }
    intros other Hne. unfold State. simpl. by rewrite lookup_insert_ne.
  - rewrite (MarkBlockAsInFlight_again _ _ _ _ _ _ it) in H; [|by eexists|done].
    injection H as <- _ <-. exists it, state.
    split; [by rewrite insert_id|]. split; [intros peer it0 Hin'; congruence|].
    split; [done|]. split; [lia|]. done.
Qed.

Lemma GetFetchFlags_values pc pfrom st flags :
  GetFetchFlags pc pfrom st = Some flags -> flags = 0%N \/ flags = MSG_WITNESS_FLAG pc.
Proof.
  unfold GetFetchFlags. destruct (negb _); [|intros [= <-]; by left].
  destruct (State st (GetId pfrom)) as [s|]; [|done]. simpl.
  destruct (fHaveWitness s); intros [= <-]; [by right | by left].
Qed.

Lemma request_blocks_free pc env nNow pto vToDownload vGetData st state vGetData' st' :
  State st (GetId pto) = Some state ->
  (forall b, b ∈ vToDownload ->
     mapBlocksInFlight st !! phashBlock (blk env b) = None
     \/ exists it, mapBlocksInFlight st !! phashBlock (blk env b) = Some (GetId pto, it)) ->
  request_blocks pc env nNow pto vToDownload vGetData st = Some (vGetData', st') ->
  exists state' sent,
    State st' (GetId pto) = Some state'
    /\ vGetData' = vGetData ++ sent
    /\ length sent = length vToDownload
    /\ (length (vBlocksInFlight state) <= length (vBlocksInFlight state')
        <= length (vBlocksInFlight state) + length vToDownload)%nat
    /\ (forall other, other ≠ GetId pto -> State st' other = State st other)
    /\ (forall h peer it,
          mapBlocksInFlight st !! h = Some (peer, it) ->
          mapBlocksInFlight st' !! h = Some (peer, it))
    /\ (forall inv, inv ∈ sent ->
          (inv_type inv = MSG_BLOCK pc
           \/ inv_type inv = N.lor (MSG_BLOCK pc) (MSG_WITNESS_FLAG pc))
          /\ (exists b, b ∈ vToDownload /\ inv_hash inv = phashBlock (blk env b))
          /\ exists it, mapBlocksInFlight st' !! inv_hash inv = Some (GetId pto, it)).
Proof.
  revert vGetData st state.
  induction vToDownload as [|p rest IH]; intros vGetData st state Hs Hfree H; simpl in H.
  { injection H as <- <-. exists state, []. split; [done|].
    split; [by rewrite app_nil_r|]. split; [done|]. split; [simpl; lia|].
    split; [done|]. split; [done|]. by intros inv Hin%elem_of_nil. }
  destruct (GetFetchFlags pc pto st) as [flags|] eqn:Hflags; [|done].
  cbn [mbind option_bind] in H.
  destruct (MarkBlockAsInFlight _ _ _ _ _ _) as [[[r pit] st1]|] eqn:Hm; [|done].
  cbn [mbind option_bind] in H.
  eapply MarkBlockAsInFlight_free in Hm; [|exact Hs|apply Hfree, list_elem_of_here].
  destruct Hm as (it & state1 & Hmap1 & Hsame1 & Hs1 & Hlen1 & _ & Hother1).
  eapply IH in H; [|exact Hs1|].
  2:{ intros b Hb. rewrite Hmap1.
      destruct (decide (phashBlock (blk env p) = phashBlock (blk env b))) as [<-|Hne].
      - right. exists it. apply lookup_insert_eq.
      - rewrite lookup_insert_ne by done. apply Hfree. by right. }
  destruct H as (state' & sent & Hs' & -> & Hlen & Hq & Hother & Hkeep & Hsent).
  exists state', ({| inv_type := N.lor (MSG_BLOCK pc) flags;
                     inv_hash := phashBlock (blk env p) |} :: sent).
  split; [done|]. split; [by rewrite <- app_assoc|].
  split; [simpl; by rewrite Hlen|].
  split; [simpl; destruct r; lia|].
  split; [intros other Hne; rewrite Hother, Hother1; done|].
  assert (forall h peer it0,
            mapBlocksInFlight st !! h = Some (peer, it0) ->
            mapBlocksInFlight st1 !! h = Some (peer, it0)) as Hkeep1.
  { intros h peer it0 Hin. rewrite Hmap1.
    destruct (decide (phashBlock (blk env p) = h)) as [<-|Hne].
    - destruct (Hfree p (list_elem_of_here _ _)) as [Hnone|[it1 Hin1]]; [congruence|].
      rewrite <- (Hsame1 _ _ Hin). rewrite Hin in Hin1. injection Hin1 as -> ->.
      apply lookup_insert_eq.
    - by rewrite lookup_insert_ne. }
  split; [intros h peer it0 Hin; by apply Hkeep, Hkeep1|].
  intros inv [->|Hin]%elem_of_cons.
  - simpl. split.
    { apply GetFetchFlags_values in Hflags as [->| ->]; [left; apply N.lor_0_r | by right]. }
    split; [exists p; split; [apply list_elem_of_here | done]|].
    exists it. apply Hkeep. rewrite Hmap1. apply lookup_insert_eq.
  - destruct (Hsent inv Hin) as (Ht & (b & Hb & Hh) & Hit).
    split; [done|]. split; [|done]. exists b. split; [by right | done].
Qed.

Lemma ProcessBlockAvailability_row_queue env s :
  vBlocksInFlight (ProcessBlockAvailability_row env s) = vBlocksInFlight s.
Proof.
  unfold ProcessBlockAvailability_row.
  repeat match goal with
         | |- context [match ?x with _ => _ end] => destruct x
         end; reflexivity.
Qed.

(** X8: in a state the process can reach, the block requests of
    [SendMessages] never take the peer above [MAX_BLOCKS_IN_TRANSIT_PER_PEER]
    blocks in flight; every block it asks for was in flight from no peer and
    is in flight from this peer afterwards; no block is taken away from
    another peer; and the only thing written in the row of another peer is
    its stalling time, when this peer has nothing in flight, was given nothing
    to ask for, and a block is in flight from that other peer. *)
Theorem SendMessages_getdata_blocks_bound pc env fuel nNow fFetch pto st state vGetData st' :
  reachable pc st ->
  State st (GetId pto) = Some state ->
  SendMessages_getdata_blocks pc env fuel nNow fFetch pto st = Some (vGetData, st') ->
  exists state',
    State st' (GetId pto) = Some state'
    /\ nBlocksInFlight state <= nBlocksInFlight state'
       <= Z.max (nBlocksInFlight state) MAX_BLOCKS_IN_TRANSIT_PER_PEER
    /\ nBlocksInFlight state' <= nBlocksInFlight state + Z.of_nat (length vGetData)
    /\ (forall inv, inv ∈ vGetData ->
          (inv_type inv = MSG_BLOCK pc
           \/ inv_type inv = N.lor (MSG_BLOCK pc) (MSG_WITNESS_FLAG pc))
          /\ mapBlocksInFlight st !! inv_hash inv = None
          /\ exists it, mapBlocksInFlight st' !! inv_hash inv = Some (GetId pto, it))
    /\ (forall h peer it,
          mapBlocksInFlight st !! h = Some (peer, it) ->
          mapBlocksInFlight st' !! h = Some (peer, it))
    /\ (forall other s,
          other ≠ GetId pto -> State st other = Some s ->
          State st' other = Some s
          \/ vGetData = [] /\ nBlocksInFlight state' = 0 /\ nStallingSince s = 0
             /\ State st' other = Some (set_nStallingSince nNow s)
             /\ exists h it, mapBlocksInFlight st !! h = Some (other, it)).
Proof.
  intros Hreach Hs H. pose proof (reachable_Inv _ _ Hreach) as HI.
  pose proof (SendMessages_getdata_blocks_Inv _ _ _ _ _ _ _ _ _ HI H) as HI'.
  destruct (inv_length _ HI _ _ Hs) as [Hn Hmax].
  unfold SendMessages_getdata_blocks in H. rewrite Hs in H. cbn [mbind option_bind] in H.
  assert (forall vg st0, vg = [] -> st0 = st ->
            exists state',
              State st0 (GetId pto) = Some state'
              /\ nBlocksInFlight state <= nBlocksInFlight state'
                 <= Z.max (nBlocksInFlight state) MAX_BLOCKS_IN_TRANSIT_PER_PEER
              /\ nBlocksInFlight state' <= nBlocksInFlight state + Z.of_nat (length vg)
              /\ (forall inv, inv ∈ vg ->
                    (inv_type inv = MSG_BLOCK pc
                     \/ inv_type inv = N.lor (MSG_BLOCK pc) (MSG_WITNESS_FLAG pc))
                    /\ mapBlocksInFlight st !! inv_hash inv = None
                    /\ exists it, mapBlocksInFlight st0 !! inv_hash inv
                                  = Some (GetId pto, it))
              /\ (forall h peer it,
                    mapBlocksInFlight st !! h = Some (peer, it) ->
                    mapBlocksInFlight st0 !! h = Some (peer, it))
              /\ (forall other s,
                    other ≠ GetId pto -> State st other = Some s ->
                    State st0 other = Some s
                    \/ vg = [] /\ nBlocksInFlight state' = 0 /\ nStallingSince s = 0
                       /\ State st0 other = Some (set_nStallingSince nNow s)
                       /\ exists h it, mapBlocksInFlight st !! h = Some (other, it)))
    as Hquiet.
  { intros vg st0 -> ->. exists state. split; [done|]. split; [lia|]. split; [simpl; lia|].
    split; [by intros inv Hin%elem_of_nil|]. split; [done|]. intros other s _ Hso. by left. }
  destruct (negb (fClient pto) && _); cbn [andb] in H;
    [|injection H as <- <-; by apply Hquiet].
  destruct (Z.ltb_spec (nBlocksInFlight state) MAX_BLOCKS_IN_TRANSIT_PER_PEER) as [Hlt|];
    [|injection H as <- <-; by apply Hquiet].
  clear Hquiet.
  destruct (FindNextBlocksToDownload _ _ _ _ _ _ _ _)
    as [[[vToDownload staller] st1]|] eqn:Hfind; [|done].
  cbn [mbind option_bind] in H.
  assert ((MAX_BLOCKS_IN_TRANSIT_PER_PEER - nBlocksInFlight state) mod 2 ^ 32
          = MAX_BLOCKS_IN_TRANSIT_PER_PEER - nBlocksInFlight state) as Hcount.
  { apply Z.mod_small. unfold MAX_BLOCKS_IN_TRANSIT_PER_PEER in *. lia. }
  rewrite Hcount in Hfind.
  apply FindNextBlocksToDownload_result in Hfind
    as ((added & Hadd & Hadded) & Hlen & Hst1 & Hmap1 & Hstaller).
  simpl in Hadd. subst added.
  assert (exists state1,
             State st1 (GetId pto) = Some state1
             /\ vBlocksInFlight state1 = vBlocksInFlight state
             /\ forall other, other ≠ GetId pto -> State st1 other = State st other)
    as (state1 & Hs1 & Hq1 & Hother1).
  { destruct Hst1 as [->|(state0 & lc & Hs0 & ->)].
    - by exists state.
    - rewrite Hs in Hs0. injection Hs0 as <-. eexists. split; [apply State_put_state_eq|].
      split; [apply ProcessBlockAvailability_row_queue|].
      intros other Hne. by apply State_put_state_ne. }
  destruct (request_blocks _ _ _ _ _ _ _) as [[vGetData1 st2]|] eqn:Hreq; [|done].
  cbn [mbind option_bind] in H.
  eapply request_blocks_free in Hreq; [|exact Hs1|].
  2:{ intros b Hb. left. rewrite Hmap1. by destruct (Hadded b Hb) as (_ & _ & _ & ?). }
  destruct Hreq as (state2 & sent & Hs2 & Hvg & Hlsent & Hq2 & Hother2 & Hkeep2 & Hsent).
  simpl in Hvg. subst vGetData1.
  rewrite Hs2 in H. cbn [mbind option_bind] in H.
  assert (Z.of_nat (length vToDownload)
          <= MAX_BLOCKS_IN_TRANSIT_PER_PEER - nBlocksInFlight state) as Hlen'.
  { apply Hlen. simpl. lia. }
  assert (forall st0,
            State st0 (GetId pto) = Some state2 ->
            Inv st0 ->
            nBlocksInFlight state <= nBlocksInFlight state2
            <= Z.max (nBlocksInFlight state) MAX_BLOCKS_IN_TRANSIT_PER_PEER
            /\ nBlocksInFlight state2 <= nBlocksInFlight state + Z.of_nat (length sent))
    as Hbound.
  { intros st0 Hs0 HI0. destruct (inv_length _ HI0 _ _ Hs0) as [Hn2 _].
    rewrite Hn2, Hn, Hlsent. rewrite Hq1 in Hq2. lia. }
  assert (forall st0,
            mapBlocksInFlight st0 = mapBlocksInFlight st2 ->
            (forall inv, inv ∈ sent ->
               (inv_type inv = MSG_BLOCK pc
                \/ inv_type inv = N.lor (MSG_BLOCK pc) (MSG_WITNESS_FLAG pc))
               /\ mapBlocksInFlight st !! inv_hash inv = None
               /\ exists it, mapBlocksInFlight st0 !! inv_hash inv = Some (GetId pto, it))
            /\ (forall h peer it,
                  mapBlocksInFlight st !! h = Some (peer, it) ->
                  mapBlocksInFlight st0 !! h = Some (peer, it))) as Hmaps.
  { intros st0 ->. split.
    - intros inv Hin. destruct (Hsent inv Hin) as (Ht & (b & Hb & Hh) & Hit).
      split; [done|]. split; [|done]. rewrite Hh.
      by destruct (Hadded b Hb) as (_ & _ & _ & ?).
    - intros h peer it Hin. apply Hkeep2. by rewrite Hmap1. }
  destruct (Z.eqb_spec (nBlocksInFlight state2) 0) as [Hzero|Hnz]; cbn [andb] in H.
  2:{ injection H as <- <-. exists state2. split; [done|].
      destruct (Hbound st2 Hs2 HI') as [Hb1 Hb2]. destruct (Hmaps st2 eq_refl) as [Hm1 Hm2].
      split; [done|]. split; [done|]. split; [done|]. split; [done|].
      intros other s Hne Hso. left. by rewrite Hother2, Hother1. }
  destruct (Z.eqb_spec staller (-1)) as [Hno|Hyes]; cbn [negb] in H.
  { injection H as <- <-. exists state2. split; [done|].
    destruct (Hbound st2 Hs2 HI') as [Hb1 Hb2]. destruct (Hmaps st2 eq_refl) as [Hm1 Hm2].
    split; [done|]. split; [done|]. split; [done|]. split; [done|].
    intros other s Hne Hso. left. by rewrite Hother2, Hother1. }
  destruct Hstaller as [?|(-> & Hne & Hin)]; [done|].
  destruct Hin as [?|(h0 & it0 & Hin0)]; [done|].
  destruct (State st2 staller) as [stalling|] eqn:Hstall; [|done].
  cbn [mbind option_bind] in H. injection H as <- <-.
  simpl in Hlsent. destruct sent; [|done].
  assert (State st staller = Some stalling) as Hstall0.
  { by rewrite <- Hother1, <- Hother2. }
  destruct (Z.eqb_spec (nStallingSince stalling) 0) as [Hsince|Hsince].
  - exists state2. split; [by rewrite State_upd_state_ne|].
    destruct (Hbound (upd_state staller (set_nStallingSince nNow) st2)) as [Hb1 Hb2];
      [by rewrite State_upd_state_ne | done |].
    destruct (Hmaps (upd_state staller (set_nStallingSince nNow) st2) eq_refl) as [Hm1 Hm2].
    split; [done|]. split; [done|]. split; [done|]. split; [done|].
    intros other s Hneo Hso. destruct (decide (other = staller)) as [->|Hns].
    + right. rewrite Hso in Hstall0. injection Hstall0 as ->.
      split; [done|]. split; [done|]. split; [done|].
      split; [by rewrite State_upd_state_eq, Hstall|]. by exists h0, it0.
    + left. rewrite State_upd_state_ne by done. by rewrite Hother2, Hother1.
  - exists state2. split; [done|].
    destruct (Hbound st2 Hs2 HI') as [Hb1 Hb2]. destruct (Hmaps st2 eq_refl) as [Hm1 Hm2].
    split; [done|]. split; [done|]. split; [done|]. split; [done|].
    intros other s Hneo Hso. left. by rewrite Hother2, Hother1.
Qed.

Lemma ex_reached_knows_reachable : reachable ex_pc ex_reached_knows.
Proof.
  eapply reachable_step; [apply ex_reached_1_reachable|].
  eapply (step_UpdateBlockAvailability _ (ex_env 5 3) 7 104). vm_compute. reflexivity.
Defined.

(** Peer 7 knows block 5 while the active chain ends at block 3: blocks 4 and
    5 are requested from it. *)
Lemma SendMessages_getdata_blocks_bound_witness :
  exists vGetData st' state',
    SendMessages_getdata_blocks ex_pc (ex_env 5 3) 1 0 true (ex_peer 7) ex_reached_knows
    = Some (vGetData, st')
    /\ inv_hash <$> vGetData = [103%N; 104%N]
    /\ State st' 7 = Some state'
    /\ nBlocksInFlight state' <= 16.
Proof.
  destruct (SendMessages_getdata_blocks ex_pc (ex_env 5 3) 1 0 true (ex_peer 7)
              ex_reached_knows) as [[vGetData st']|] eqn:H; [|by vm_compute in H].
  destruct (SendMessages_getdata_blocks_bound ex_pc (ex_env 5 3) 1 0 true (ex_peer 7)
              ex_reached_knows (set_pindexBestKnownBlock (Some 5%positive)
                                  (new_CNodeState ex_addr "peer"))
              vGetData st' ex_reached_knows_reachable)
    as (state' & Hs' & [_ Hb] & _); [vm_compute; reflexivity | exact H |].
  exists vGetData, st', state'. split; [reflexivity|].
  split; [vm_compute in H; by injection H as <- _|]. split; [exact Hs'|].
  exact Hb.
Defined.


(** ** The direct fetch after a headers message *)

Lemma direct_fetch_walk_fresh pc env nodeid st fuel pindexWalk vToFetch stop vToFetch' :
  direct_fetch_walk pc env nodeid st fuel pindexWalk vToFetch = Some (stop, vToFetch') ->
  forall b, b ∈ vToFetch' ->
    b ∈ vToFetch
    \/ N.land (nStatus (blk env b)) (BLOCK_HAVE_DATA pc) = 0%N
       /\ mapBlocksInFlight st !! phashBlock (blk env b) = None.
Proof.
  revert pindexWalk vToFetch.
  induction fuel as [|fuel IH]; intros pindexWalk vToFetch H b Hb;
    destruct pindexWalk as [p|]; simpl in H.
  - destruct (_ && _); [done|]. injection H as _ <-. by left.
  - injection H as _ <-. by left.
  - destruct (negb (Contains env p) && _); [|injection H as _ <-; by left].
    destruct (N.eqb_spec (N.land (nStatus (blk env p)) (BLOCK_HAVE_DATA pc)) 0) as [Hd|Hd];
      cbn [andb] in H.
    + destruct (bool_decide_reflect (mapBlocksInFlight st !! phashBlock (blk env p) = None))
        as [Hf|Hf].
      * match type of H with
        | (?m ≫= _) = _ => destruct m as [wanted|]; [|done]
        end.
        cbn [mbind option_bind] in H.
        destruct (IH _ _ H b Hb) as [Hin|?]; [|by right].
        destruct wanted; [|by left].
        apply elem_of_app in Hin as [?|Hx%list_elem_of_singleton]; [by left | subst; by right].
      * cbn [mbind option_bind] in H. destruct (IH _ _ H b Hb) as [?|?]; [by left | by right].
    + cbn [mbind option_bind] in H. destruct (IH _ _ H b Hb) as [?|?]; [by left | by right].
  - injection H as _ <-. by left.
Qed.

Lemma direct_fetch_request_free pc env nNow pfrom blocks vGetData st state vGetData' st' :
  Inv st ->
  State st (GetId pfrom) = Some state ->
  (forall b, b ∈ blocks ->
     mapBlocksInFlight st !! phashBlock (blk env b) = None
     \/ exists it, mapBlocksInFlight st !! phashBlock (blk env b) = Some (GetId pfrom, it)) ->
  direct_fetch_request pc env nNow pfrom blocks vGetData st = Some (vGetData', st') ->
  exists state' sent,
    State st' (GetId pfrom) = Some state'
    /\ vGetData' = vGetData ++ sent
    /\ (length sent <= length blocks)%nat
    /\ (sent = [] -> st' = st)
    /\ nBlocksInFlight state <= nBlocksInFlight state'
       <= Z.max (nBlocksInFlight state) MAX_BLOCKS_IN_TRANSIT_PER_PEER
    /\ nBlocksInFlight state' <= nBlocksInFlight state + Z.of_nat (length sent)
    /\ (forall other, other ≠ GetId pfrom -> State st' other = State st other)
    /\ (forall h peer it,
          mapBlocksInFlight st !! h = Some (peer, it) ->
          mapBlocksInFlight st' !! h = Some (peer, it))
    /\ (forall inv, inv ∈ sent ->
          (inv_type inv = MSG_BLOCK pc
           \/ inv_type inv = N.lor (MSG_BLOCK pc) (MSG_WITNESS_FLAG pc))
          /\ (exists b, b ∈ blocks /\ inv_hash inv = phashBlock (blk env b))
          /\ exists it, mapBlocksInFlight st' !! inv_hash inv = Some (GetId pfrom, it)).
Proof.
  revert vGetData st state.
  induction blocks as [|p rest IH]; intros vGetData st state HI Hs Hfree H; simpl in H.
  { injection H as <- <-. exists state, []. split; [done|].
    split; [by rewrite app_nil_r|]. split; [done|]. split; [done|]. split; [lia|].
    split; [simpl; lia|].
    split; [done|]. split; [done|]. by intros inv Hin%elem_of_nil. }
  rewrite Hs in H. cbn [mbind option_bind] in H.
  destruct (Z.leb_spec MAX_BLOCKS_IN_TRANSIT_PER_PEER (nBlocksInFlight state)) as [Hfull|Hlt].
  { injection H as <- <-. exists state, []. split; [done|].
    split; [by rewrite app_nil_r|]. split; [simpl; lia|]. split; [done|]. split; [lia|].
    split; [simpl; lia|].
    split; [done|]. split; [done|]. by intros inv Hin%elem_of_nil. }
  destruct (GetFetchFlags pc pfrom st) as [flags|] eqn:Hflags; [|done].
  cbn [mbind option_bind] in H.
  destruct (inv_length _ HI _ _ Hs) as [Hn Hmax].
  destruct (MarkBlockAsInFlight_Inv nNow (GetId pfrom) (phashBlock (blk env p)) (Some p)
              false st HI ltac:(by eexists))
    as (r & pit & st1 & Hm & HI1 & _).
  { intros s Hs'. rewrite Hs in Hs'. injection Hs' as <-.
    unfold MAX_BLOCKS_IN_TRANSIT_PER_PEER, INT_MAX in *. simpl. lia. }
  rewrite Hm in H. cbn [mbind option_bind] in H.
  eapply MarkBlockAsInFlight_free in Hm; [|exact Hs|apply Hfree, list_elem_of_here].
  destruct Hm as (it & state1 & Hmap1 & Hsame1 & Hs1 & Hlen1 & _ & Hother1).
  destruct (inv_length _ HI1 _ _ Hs1) as [Hn1 _].
  eapply IH in H; [|exact HI1|exact Hs1|].
  2:{ intros b Hb. rewrite Hmap1.
      destruct (decide (phashBlock (blk env p) = phashBlock (blk env b))) as [<-|Hne].
      - right. exists it. apply lookup_insert_eq.
      - rewrite lookup_insert_ne by done. apply Hfree. by right. }
  destruct H as (state' & sent & Hs' & -> & Hlen & _ & Hq & Hq' & Hother & Hkeep & Hsent).
  exists state', ({| inv_type := N.lor (MSG_BLOCK pc) flags;
                     inv_hash := phashBlock (blk env p) |} :: sent).
  split; [done|]. split; [by rewrite <- app_assoc|].
  split; [simpl; lia|]. split; [done|].
  split; [rewrite Hn1, Hlen1 in Hq; rewrite Hn; destruct r; lia|].
  split; [rewrite Hn1, Hlen1 in Hq'; rewrite Hn; simpl length; destruct r; lia|].
  split; [intros other Hne; rewrite Hother, Hother1; done|].
  assert (forall h peer it0,
            mapBlocksInFlight st !! h = Some (peer, it0) ->
            mapBlocksInFlight st1 !! h = Some (peer, it0)) as Hkeep1.
  { intros h peer it0 Hin. rewrite Hmap1.
    destruct (decide (phashBlock (blk env p) = h)) as [<-|Hne].
    - destruct (Hfree p (list_elem_of_here _ _)) as [Hnone|[it1 Hin1]]; [congruence|].
      rewrite <- (Hsame1 _ _ Hin). rewrite Hin in Hin1. injection Hin1 as -> ->.
      apply lookup_insert_eq.
    - by rewrite lookup_insert_ne. }
  split; [intros h peer it0 Hin; by apply Hkeep, Hkeep1|].
  intros inv [->|Hin]%elem_of_cons.
  - simpl. split.
    { apply GetFetchFlags_values in Hflags as [->| ->]; [left; apply N.lor_0_r | by right]. }
    split; [exists p; split; [apply list_elem_of_here | done]|].
    exists it. apply Hkeep. rewrite Hmap1. apply lookup_insert_eq.
  - destruct (Hsent inv Hin) as (Ht & (b & Hb & Hh) & Hit).
    split; [done|]. split; [|done]. exists b. split; [by right | done].
Qed.

(** X9: in a state the process can reach, the direct fetch that follows an
    accepted headers message sends at most one [getdata]; it never takes the
    peer above [MAX_BLOCKS_IN_TRANSIT_PER_PEER] blocks in flight; every block
    it asks for was in flight from no peer and is in flight from this peer
    afterwards; and it leaves the rows of the other peers and the blocks in
    flight from them alone. *)
Theorem ProcessHeaders_direct_fetch_bound pc env fuel nNow nAdjusted pfrom pindexLast st state
    st' ev :
  reachable pc st ->
  State st (GetId pfrom) = Some state ->
  ProcessHeaders_direct_fetch pc env fuel nNow nAdjusted pfrom pindexLast st = Some (st', ev) ->
  exists state' vGetData,
    State st' (GetId pfrom) = Some state'
    /\ ev = match vGetData with
            | [] => []
            | _ => [PushMessage (GetId pfrom) (nSendVersion pfrom) (GETDATA vGetData)]
            end
    /\ (vGetData = [] -> st' = st)
    /\ nBlocksInFlight state <= nBlocksInFlight state'
       <= Z.max (nBlocksInFlight state) MAX_BLOCKS_IN_TRANSIT_PER_PEER
    /\ nBlocksInFlight state' <= nBlocksInFlight state + Z.of_nat (length vGetData)
    /\ (forall inv, inv ∈ vGetData ->
          (inv_type inv = MSG_BLOCK pc
           \/ inv_type inv = N.lor (MSG_BLOCK pc) (MSG_WITNESS_FLAG pc)
           \/ inv_type inv = MSG_CMPCT_BLOCK pc /\ vGetData = [inv]
              /\ size (mapBlocksInFlight st') = 1%nat)
          /\ mapBlocksInFlight st !! inv_hash inv = None
          /\ exists it, mapBlocksInFlight st' !! inv_hash inv = Some (GetId pfrom, it))
    /\ (forall h peer it,
          mapBlocksInFlight st !! h = Some (peer, it) ->
          mapBlocksInFlight st' !! h = Some (peer, it))
    /\ (forall other, other ≠ GetId pfrom -> State st' other = State st other).
Proof.
  intros Hreach Hs H. pose proof (reachable_Inv _ _ Hreach) as HI.
  assert (forall st0 ev0, st0 = st -> ev0 = [] ->
            exists state' vGetData,
              State st0 (GetId pfrom) = Some state'
              /\ ev0 = match vGetData with
                       | [] => []
                       | _ => [PushMessage (GetId pfrom) (nSendVersion pfrom)
                                 (GETDATA vGetData)]
                       end
              /\ (vGetData = [] -> st0 = st)
              /\ nBlocksInFlight state <= nBlocksInFlight state'
                 <= Z.max (nBlocksInFlight state) MAX_BLOCKS_IN_TRANSIT_PER_PEER
              /\ nBlocksInFlight state' <= nBlocksInFlight state + Z.of_nat (length vGetData)
              /\ (forall inv, inv ∈ vGetData ->
                    (inv_type inv = MSG_BLOCK pc
                     \/ inv_type inv = N.lor (MSG_BLOCK pc) (MSG_WITNESS_FLAG pc)
                     \/ inv_type inv = MSG_CMPCT_BLOCK pc /\ vGetData = [inv]
                        /\ size (mapBlocksInFlight st0) = 1%nat)
                    /\ mapBlocksInFlight st !! inv_hash inv = None
                    /\ exists it, mapBlocksInFlight st0 !! inv_hash inv
                                  = Some (GetId pfrom, it))
              /\ (forall h peer it,
                    mapBlocksInFlight st !! h = Some (peer, it) ->
                    mapBlocksInFlight st0 !! h = Some (peer, it))
              /\ (forall other, other ≠ GetId pfrom -> State st0 other = State st other))
    as Hquiet.
  { intros st0 ev0 -> ->. exists state, []. split; [done|]. split; [done|]. split; [done|].
    split; [lia|]. split; [simpl; lia|]. split; [by intros inv Hin%elem_of_nil|]. done. }
  unfold ProcessHeaders_direct_fetch in H.
  destruct (CanDirectFetch env nAdjusted) as [can|]; [|done]. cbn [mbind option_bind] in H.
  destruct (Tip env) as [tip|]; [|done]. cbn [mbind option_bind] in H.
  destruct (can && _ && _); [|injection H as <- <-; by apply Hquiet].
  destruct (direct_fetch_walk _ _ _ _ _ _ _) as [[walk vToFetch]|] eqn:Hwalk; [|done].
  cbn [mbind option_bind] in H.
  destruct walk as [stop|]; [|done]. cbn [mbind option_bind] in H.
  destruct (negb (Contains env stop)); [injection H as <- <-; by apply Hquiet|].
  destruct (direct_fetch_request _ _ _ _ _ _ _) as [[vGetData st1]|] eqn:Hreq; [|done].
  cbn [mbind option_bind] in H.
  assert (forall b, b ∈ rev vToFetch ->
            mapBlocksInFlight st !! phashBlock (blk env b) = None) as Hfresh.
  { intros b Hb%list_elem_of_In%in_rev%list_elem_of_In.
    destruct (direct_fetch_walk_fresh _ _ _ _ _ _ _ _ _ Hwalk b Hb) as [?%elem_of_nil|[_ ?]];
      done. }
  eapply direct_fetch_request_free in Hreq; [|exact HI|exact Hs|].
  2:{ intros b Hb. left. by apply Hfresh. }
  destruct Hreq as (state1 & sent & Hs1 & Hvg & Hlsent & Hnil & Hb1 & Hb2 & Hother & Hkeep
                    & Hsent).
  simpl in Hvg. subst vGetData.
  destruct sent as [|first others].
  { injection H as <- <-. rewrite (Hnil eq_refl). by apply Hquiet. }
  clear Hquiet.
  rewrite Hs1 in H. cbn [mbind option_bind] in H.
  match type of H with
  | (?m ≫= _) = _ => destruct m as [as_cmpct|] eqn:Hcm; [|done]
  end.
  cbn [mbind option_bind] in H. injection H as <- <-.
  assert (forall inv, inv ∈ first :: others ->
            mapBlocksInFlight st !! inv_hash inv = None
            /\ exists it, mapBlocksInFlight st1 !! inv_hash inv = Some (GetId pfrom, it))
    as Hsent'.
  { intros inv Hin. destruct (Hsent inv Hin) as (_ & (b & Hb & ->) & Hit).
    split; [by apply Hfresh | done]. }
  destruct as_cmpct.
  - assert (others = [] /\ size (mapBlocksInFlight st1) = 1%nat) as [-> Hsize].
    { destruct (fSupportsDesiredCmpctVersion state1); [|done].
      cbn [andb] in Hcm.
      destruct (Z.eqb_spec (Z.of_nat (length (first :: others))) 1) as [H1|];
        [|done]. cbn [andb] in Hcm.
      destruct (Z.eqb_spec (Z.of_nat (size (mapBlocksInFlight st1))) 1) as [H2|]; [|done].
      split; [|lia]. destruct others; [done|]. simpl in H1. lia. }
    exists state1, [{| inv_type := MSG_CMPCT_BLOCK pc; inv_hash := inv_hash first |}].
    split; [done|]. split; [done|]. split; [done|]. split; [done|]. split; [done|].
    split; [|done].
    intros inv ->%list_elem_of_singleton. simpl.
    split; [right; right; done|]. apply Hsent'. apply list_elem_of_here.
  - exists state1, (first :: others).
    split; [done|]. split; [done|]. split; [done|]. split; [done|]. split; [done|].
    split; [|done].
    intros inv Hin. destruct (Hsent inv Hin) as (Ht & _ & _).
    split; [destruct Ht; auto|]. by apply Hsent'.
Qed.

(** Peer 7 sent headers up to block 5 while the active chain ends at block 3:
    blocks 4 and 5 are requested from it, in this order. *)
Lemma ProcessHeaders_direct_fetch_bound_witness :
  exists st' ev state',
    ProcessHeaders_direct_fetch ex_pc (ex_env 5 3) 2 0 4000 (ex_peer 7) 5%positive ex_reached_1
    = Some (st', ev)
    /\ ev = [PushMessage 7 70015
               (GETDATA [{| inv_type := 2; inv_hash := 103 |};
                         {| inv_type := 2; inv_hash := 104 |}])]
    /\ State st' 7 = Some state'
    /\ nBlocksInFlight state' <= 16.
Proof.
  destruct (ProcessHeaders_direct_fetch ex_pc (ex_env 5 3) 2 0 4000 (ex_peer 7) 5%positive
              ex_reached_1) as [[st' ev]|] eqn:H; [|by vm_compute in H].
  destruct (ProcessHeaders_direct_fetch_bound ex_pc (ex_env 5 3) 2 0 4000 (ex_peer 7)
              5%positive ex_reached_1 (new_CNodeState ex_addr "peer") st' ev
              ex_reached_1_reachable)
    as (state' & vGetData & Hs' & _ & _ & [_ Hb] & _); [vm_compute; reflexivity | exact H |].
  exists st', ev, state'. split; [reflexivity|].
  split; [vm_compute in H; by injection H as _ <-|]. split; [exact Hs'|].
  exact Hb.
Defined.


(** ** When the chain-sync check disconnects *)

Lemma set_m_chain_sync_eta s : set_m_chain_sync (m_chain_sync s) s = s.
Proof. by destruct s. Qed.

(** X10: [ConsiderEviction] writes nothing but the chain-sync timeout state
    of the peer, and never its protection flag; it does nothing at all for a
    peer that is inbound, manual, a feeler or one-shot, or protected, or whose
    headers sync has not started; it disconnects a peer only if the peer is
    behind the active tip, has not reached the recorded work header, was
    already sent the [getheaders] and the timeout has elapsed; and it sends a
    [getheaders] only in the same case with the [getheaders] not yet sent. *)
Theorem ConsiderEviction_safety env t pto st pto' st' ev :
  ConsiderEviction env t pto st = Some (pto', st', ev) ->
  exists state,
    State st (GetId pto) = Some state
    /\ (exists cs',
          st' = put_state (GetId pto) (set_m_chain_sync cs' state) st
          /\ m_protect cs' = m_protect (m_chain_sync state))
    /\ (IsOutboundDisconnectionCandidate pto = false
        \/ m_protect (m_chain_sync state) = true
        \/ fSyncStarted state = false ->
        pto' = pto /\ st' = st /\ ev = [])
    /\ (pto' = pto
        \/ pto' = set_fDisconnect true pto /\ st' = st /\ ev = []
           /\ m_sent_getheaders (m_chain_sync state) = true
           /\ 0 < m_timeout (m_chain_sync state) < t
           /\ peer_behind env state
           /\ reached_work_header env state = false)
    /\ (ev = []
        \/ exists wh,
             ev = [PushMessage (GetId pto) (nSendVersion pto)
                     (GETHEADERS (pprev (blk env wh)) 0%N)]
             /\ m_work_header (m_chain_sync state) = Some wh
             /\ m_sent_getheaders (m_chain_sync state) = false
             /\ 0 < m_timeout (m_chain_sync state) < t
             /\ peer_behind env state
             /\ reached_work_header env state = false).
Proof.
  intros H. unfold ConsiderEviction in H.
  destruct (State st (GetId pto)) as [state|] eqn:Hs; [|done].
  cbn [mbind option_bind] in H. exists state. split; [done|].
  assert (exists cs', st = put_state (GetId pto) (set_m_chain_sync cs' state) st
                      /\ m_protect cs' = m_protect (m_chain_sync state)) as Hsame.
  { exists (m_chain_sync state). by rewrite set_m_chain_sync_eta, put_state_id. }
  destruct (m_protect (m_chain_sync state)) eqn:Hprot; cbn [negb andb] in H.
  { injection H as <- <- <-. split; [done|]. split; [done|]. split; by left. }
  destruct (IsOutboundDisconnectionCandidate pto) eqn:Hcand; cbn [andb] in H.
  2:{ injection H as <- <- <-. split; [done|]. split; [done|]. split; by left. }
  destruct (fSyncStarted state) eqn:Hsync.
  2:{ injection H as <- <- <-. split; [done|]. split; [done|]. split; by left. }
  rewrite (upd_state_put _ _ _ _ Hs) in H.
  rewrite (upd_state_put _ _ _ _ Hs) in H.
  rewrite (upd_state_put _ _ _ _ Hs) in H.
  match type of H with
  | (?m ≫= _) = _ => destruct m as [caught_up|] eqn:Hcaught; [|done]
  end.
  cbn [mbind option_bind] in H.
  destruct caught_up.
  { destruct (negb _); injection H as <- <- <-.
    - split; [by eexists|]. split; [by intros [?|[?|?]]|]. split; by left.
    - split; [done|]. split; [done|]. split; by left. }
  assert (peer_behind env state) as Hbehind.
  { unfold peer_behind. destruct (pindexBestKnownBlock state) as [best|]; [|done].
    destruct (Tip env) as [tip|]; [|done]. cbn [mbind option_bind] in Hcaught.
    injection Hcaught as Hc. apply N.leb_gt in Hc. by exists tip. }
  fold (reached_work_header env state) in H.
  destruct (Z.eqb_spec (m_timeout (m_chain_sync state)) 0) as [Hz|Hnz]; cbn [orb] in H.
  { injection H as <- <- <-.
    split; [by eexists|]. split; [by intros [?|[?|?]]|]. split; by left. }
  destruct (reached_work_header env state) eqn:Hreached.
  { injection H as <- <- <-.
    split; [by eexists|]. split; [by intros [?|[?|?]]|]. split; by left. }
  destruct (Z.ltb_spec 0 (m_timeout (m_chain_sync state))) as [Hpos|]; cbn [andb] in H.
  2:{ injection H as <- <- <-. split; [done|]. split; [by intros [?|[?|?]]|].
      split; by left. }
  destruct (Z.ltb_spec (m_timeout (m_chain_sync state)) t) as [Hlt|].
  2:{ injection H as <- <- <-. split; [done|]. split; [by intros [?|[?|?]]|].
      split; by left. }
  destruct (m_sent_getheaders (m_chain_sync state)) eqn:Hsent.
  { injection H as <- <- <-. split; [done|]. split; [by intros [?|[?|?]]|].
    split; [right | by left]. done. }
  destruct (m_work_header (m_chain_sync state)) as [wh|] eqn:Hwh; [|done].
  cbn [mbind option_bind] in H. injection H as <- <- <-.
  split; [by eexists|]. split; [by intros [?|[?|?]]|]. split; [by left|].
  right. exists wh. done.
Qed.

(** The peer of the example was sent the [getheaders] and its timeout has
    elapsed. *)
Lemma ConsiderEviction_safety_witness :
  exists state,
    State (ex_table 7 (ex_row_behind true)) 7 = Some state
    /\ m_sent_getheaders (m_chain_sync state) = true
    /\ 0 < m_timeout (m_chain_sync state) < 500.
Proof.
  destruct (ConsiderEviction_safety (ex_env 3 3) 500 (ex_peer 7)
              (ex_table 7 (ex_row_behind true)) (set_fDisconnect true (ex_peer 7))
              (ex_table 7 (ex_row_behind true)) [])
    as (state & Hs & _ & _ & [Heq|(_ & _ & _ & Hsent & Ht & _)] & _).
  - vm_compute. reflexivity.
  - discriminate Heq.
  - exists state. split; [exact Hs|]. split; [exact Hsent | exact Ht].
Defined.





(** ** The gate of the handshake *)

(** X12: [ProcessMessage] hands a message to the handler of its command
    unchanged, and only a [reject], or a message of a peer whose [version]
    and [verack] were both received. With a chain tip and a peer that is not
    obsolete, a [filterload] or [filteradd] on a node that does not offer
    [NODE_BLOOM] is refused whatever the state of the handshake: it returns
    [false] and costs a peer of at least [NO_BLOOM_VERSION] 100 points of
    misbehaviour, and disconnects an older peer; and every other command but
    [reject] and [version] that is received before the [version], or after it
    and before the [verack] without being the [verack], returns [false],
    costs the peer one point of misbehaviour, and sends nothing. [CmdOther]
    stands for a command that is none of the five named ones. *)
Theorem ProcessMessage_handshake_gate pc env cm banscore pfrom c st :
  (forall dropped c' pfrom' st' ev,
     ProcessMessage pc env cm banscore dropped pfrom c st
     = Some (ToHandler c', pfrom', st', ev) ->
     c' = c /\ pfrom' = pfrom /\ st' = st /\ ev = [] /\ dropped = false
     /\ (forall vRecv, c ≠ CmdVersion vRecv) /\ c ≠ CmdVerack
     /\ (c = CmdReject \/ nVersion pfrom ≠ 0 /\ fSuccessfullyConnected pfrom = true))
  /\ (forall tip,
        Tip env = Some tip ->
        (SBTCContractForkHeight env <? nHeight (blk env tip))
        && negb (nVersion pfrom =? 0) && (nVersion pfrom <? SBTC_CONTRACT_VERSION pc) = false ->
        ((N.land (nLocalServices pfrom) (NODE_BLOOM pc) =? 0)%N
         && match c with CmdFilterLoad | CmdFilterAdd => true | _ => false end = true ->
         ProcessMessage pc env cm banscore false pfrom c st
         = Some (Returned false,
                 (if NO_BLOOM_VERSION pc <=? nVersion pfrom
                  then pfrom else set_fDisconnect true pfrom),
                 (if NO_BLOOM_VERSION pc <=? nVersion pfrom
                  then Misbehaving banscore (GetId pfrom) 100 st else st),
                 []))
        /\ ((N.land (nLocalServices pfrom) (NODE_BLOOM pc) =? 0)%N
            && match c with CmdFilterLoad | CmdFilterAdd => true | _ => false end = false ->
            c ≠ CmdReject -> (forall vRecv, c ≠ CmdVersion vRecv) ->
            nVersion pfrom = 0 \/ fSuccessfullyConnected pfrom = false /\ c ≠ CmdVerack ->
            ProcessMessage pc env cm banscore false pfrom c st
            = Some (Returned false, pfrom, Misbehaving banscore (GetId pfrom) 1 st, []))).
Proof.
  split.
  - intros dropped c' pfrom' st' ev H. unfold ProcessMessage in H.
    destruct dropped; [done|].
    destruct (Tip env) as [tip|]; [|done]. cbn [mbind option_bind] in H.
    destruct (_ && _ && _); [done|].
    destruct ((_ =? 0)%N && _).
    { by destruct (_ <=? _). }
    destruct c as [vRecv| | | | |s].
    + destruct (ProcessVersionMsg _ _ _ _ _ _ _) as [[[[r p1] s1] e1]|]; done.
    + destruct (nVersion pfrom =? 0); [done|].
      destruct (ProcessVerAckMsg _ _ _) as [[[[r p1] s1] e1]|]; done.
    + injection H as <- <- <- <-. repeat split; try done. by left.
    + destruct (Z.eqb_spec (nVersion pfrom) 0); [done|].
      destruct (fSuccessfullyConnected pfrom) eqn:Hc; [|done].
      injection H as <- <- <- <-. repeat split; try done. by right.
    + destruct (Z.eqb_spec (nVersion pfrom) 0); [done|].
      destruct (fSuccessfullyConnected pfrom) eqn:Hc; [|done].
      injection H as <- <- <- <-. repeat split; try done. by right.
    + destruct (Z.eqb_spec (nVersion pfrom) 0); [done|].
      destruct (fSuccessfullyConnected pfrom) eqn:Hc; [|done].
      injection H as <- <- <- <-. repeat split; try done. by right.
  - intros tip Htip Hobs. unfold ProcessMessage. rewrite Htip.
    cbn [mbind option_bind]. rewrite Hobs. split.
    + intros ->. by destruct (NO_BLOOM_VERSION pc <=? nVersion pfrom).
    + intros -> Hrej Hver Hearly.
      destruct c as [vRecv| | | | |s]; [by destruct (Hver vRecv)| |done| | |].
      * destruct Hearly as [->|[_ ?]]; done.
      * destruct Hearly as [->|[-> _]]; [done|]. by destruct (nVersion pfrom =? 0).
      * destruct Hearly as [->|[-> _]]; [done|]. by destruct (nVersion pfrom =? 0).
      * destruct Hearly as [->|[-> _]]; [done|]. by destruct (nVersion pfrom =? 0).
Qed.

(** A [getaddr] and a [verack] from a peer that has not sent its [version]
    cost it one point each; its [filterload] gets it disconnected, the node
    not offering [NODE_BLOOM]; and a [getaddr] reaches its handler after the
    handshake. *)
Lemma ProcessMessage_handshake_gate_witness :
  ProcessMessage ex_pc (ex_env 3 3) ex_cm 100 false (ex_node 7 true) (CmdOther "getaddr")
    (ex_table 7 ex_row)
  = Some (Returned false, ex_node 7 true, Misbehaving 100 7 1 (ex_table 7 ex_row), [])
  /\ ProcessMessage ex_pc (ex_env 3 3) ex_cm 100 false (ex_node 7 true) CmdVerack
       (ex_table 7 ex_row)
     = Some (Returned false, ex_node 7 true, Misbehaving 100 7 1 (ex_table 7 ex_row), [])
  /\ ProcessMessage ex_pc (ex_env 3 3) ex_cm 100 false (ex_node 7 true) CmdFilterLoad
       (ex_table 7 ex_row)
     = Some (Returned false, set_fDisconnect true (ex_node 7 true), ex_table 7 ex_row, [])
  /\ nVersion (ex_peer 7) ≠ 0.
Proof.
  destruct (ProcessMessage_handshake_gate ex_pc (ex_env 3 3) ex_cm 100 (ex_node 7 true)
              (CmdOther "getaddr") (ex_table 7 ex_row)) as [_ Hother].
  destruct (ProcessMessage_handshake_gate ex_pc (ex_env 3 3) ex_cm 100 (ex_node 7 true)
              CmdVerack (ex_table 7 ex_row)) as [_ Hverack].
  destruct (ProcessMessage_handshake_gate ex_pc (ex_env 3 3) ex_cm 100 (ex_node 7 true)
              CmdFilterLoad (ex_table 7 ex_row)) as [_ Hfilter].
  destruct (ProcessMessage_handshake_gate ex_pc (ex_env 3 3) ex_cm 100 (ex_peer 7)
              (CmdOther "getaddr") (ex_table 7 ex_row)) as [Hgate _].
  split; [|split; [|split]].
  - destruct (Hother 3%positive eq_refl eq_refl) as [_ Hearly].
    apply Hearly; [reflexivity|done|done|by left].
  - destruct (Hverack 3%positive eq_refl eq_refl) as [_ Hearly].
    apply Hearly; [reflexivity|done|done|by left].
  - destruct (Hfilter 3%positive eq_refl eq_refl) as [Hrefused _].
    exact (Hrefused eq_refl).
  - destruct (Hgate false (CmdOther "getaddr") (ex_peer 7) (ex_table 7 ex_row) [])
      as (_ & _ & _ & _ & _ & _ & _ & [?|[Hv _]]); [reflexivity | done | exact Hv].
Defined.


(** ** The start of the headers synchronisation *)

Lemma tally_pos P (m : gmap Z CNodeState) i s :
  m !! i = Some s -> P s = true -> 0 < tally P m.
Proof.
  intros Hi HP. pose proof (tally_delete P m i s Hi) as Hd.
  pose proof (tally_bounds P (delete i m)). rewrite HP in Hd. simpl in Hd. lia.
Qed.

(** X13: in a state the process can reach, while some peer has its headers
    sync started and the best header is more than a day old, "Start block
    sync" starts no other sync and sends nothing; and when no sync is started,
    for a peer worth fetching from it sends one [getheaders] from the parent
    of the best header (from the best header itself if it has no parent),
    marks the sync of the peer as started and counts it, after which it does
    nothing more for this peer. *)
Theorem SendMessages_start_sync_single_peer pc env base per_header nNow nAdjusted pto st state :
  reachable pc st ->
  State st (GetId pto) = Some state ->
  (forall other so bh,
     State st other = Some so -> fSyncStarted so = true ->
     GetIndexBestHeader env = Some bh ->
     nBlockTime (blk env bh) <= wrap64 (nAdjusted - 24 * 60 * 60) ->
     SendMessages_start_sync env base per_header nNow nAdjusted pto st = Some (st, []))
  /\ (forall bh,
        (forall other so, State st other = Some so -> fSyncStarted so = false) ->
        fClient pto = false -> fImporting env = false -> IsReindexing env = false ->
        GetIndexBestHeader env = Some bh ->
        fPreferredDownload state = true
        \/ (forall other so, State st other = Some so -> fPreferredDownload so = false)
           /\ fOneShot pto = false ->
        exists st' state',
          SendMessages_start_sync env base per_header nNow nAdjusted pto st
          = Some (st', [PushMessage (GetId pto) (nSendVersion pto)
                          (GETHEADERS (Some (default bh (pprev (blk env bh)))) 0%N)])
          /\ State st' (GetId pto) = Some state'
          /\ fSyncStarted state' = true
          /\ nSyncStarted st' = 1
          /\ forall env' base' per_header' nNow' nAdjusted',
               SendMessages_start_sync env' base' per_header' nNow' nAdjusted' pto st'
               = Some (st', [])).
Proof.
  intros Hreach Hs. pose proof (reachable_Inv _ _ Hreach) as HI.
  pose proof (inv_nSyncStarted _ HI) as Hn.
  pose proof (inv_nPreferredDownload _ HI) as Hp.
  split.
  - intros other so bh Hso Hsync Hbh Hold. unfold SendMessages_start_sync.
    rewrite Hs. cbn [mbind option_bind].
    destruct (negb (fSyncStarted state) && _ && _ && _); [|done].
    rewrite Hbh. cbn [mbind option_bind].
    pose proof (tally_pos fSyncStarted _ _ _ Hso Hsync) as Hpos. rewrite <- Hn in Hpos.
    destruct (Z.eqb_spec (nSyncStarted st) 0); [lia|]. cbn [andb orb].
    destruct (Z.ltb_spec (wrap64 (nAdjusted - 24 * 60 * 60)) (nBlockTime (blk env bh)));
      [lia|done].
  - intros bh Hnone Hclient Himp Hre Hbh Hfetch.
    assert (nSyncStarted st = 0) as Hzero.
    { rewrite Hn. clear -Hnone. unfold State in Hnone.
      induction (mapNodeState st) as [|i s m Hi IH] using map_ind.
      - apply tally_empty.
      - rewrite tally_insert_None by done.
        rewrite (Hnone i s) by apply lookup_insert_eq. rewrite IH; [done|].
        intros other so Hso. apply (Hnone other so).
        rewrite lookup_insert_ne; [done|]. intros ->. congruence. }
    assert (fPreferredDownload state
            || ((nPreferredDownload st =? 0) && negb (fClient pto) && negb (fOneShot pto))
            = true) as Hff.
    { destruct Hfetch as [->|[Hnp Hone]]; [done|].
      rewrite Hclient, Hone. cbn [negb].
      assert (nPreferredDownload st = 0) as ->; [|by rewrite orb_true_r].
      rewrite Hp. clear -Hnp. unfold State in Hnp.
      induction (mapNodeState st) as [|i s m Hi IH] using map_ind.
      - apply tally_empty.
      - rewrite tally_insert_None by done.
        rewrite (Hnp i s) by apply lookup_insert_eq. rewrite IH; [done|].
        intros other so Hso. apply (Hnp other so).
        rewrite lookup_insert_ne; [done|]. intros ->. congruence. }
    unfold SendMessages_start_sync at 1. rewrite Hs. cbn [mbind option_bind]. cbv zeta.
    rewrite Hff.
    rewrite (Hnone _ _ Hs), Hclient, Himp, Hre. cbn [negb andb].
    rewrite Hbh. cbn [mbind option_bind]. rewrite Hzero. cbn [Z.eqb andb orb].
    assert (forall n s p, State (set_nSyncStarted n s) p = State s p) as HSS by reflexivity.
    eexists _, _. split; [by destruct (pprev (blk env bh))|].
    rewrite HSS, State_put_state_eq.
    split; [reflexivity|]. split; [done|].
    split; [cbn; by rewrite Hzero|].
    intros env' base' per_header' nNow' nAdjusted'. unfold SendMessages_start_sync.
    rewrite HSS, State_put_state_eq. cbn [mbind option_bind]. reflexivity.
Qed.

(** Peers 7 and 8 while the best header is old: the sync is started with
    peer 7, and then not with peer 8. *)
Lemma SendMessages_start_sync_single_peer_witness :
  exists st',
    SendMessages_start_sync (ex_env 3 3) 900000000 1000 0 1000000 (ex_peer 7) ex_two_peers
    = Some (st', [PushMessage 7 70015 (GETHEADERS (Some 2%positive) 0%N)])
    /\ nSyncStarted st' = 1
    /\ SendMessages_start_sync (ex_env 3 3) 900000000 1000 0 1000000 (ex_peer 8) st'
       = Some (st', []).
Proof.
  destruct (SendMessages_start_sync_single_peer ex_pc (ex_env 3 3) 900000000 1000 0 1000000
              (ex_peer 7) ex_two_peers (new_CNodeState ex_addr "peer") ex_two_peers_reachable)
    as [_ Hstart]; [reflexivity|].
  destruct (Hstart 3%positive) as (st' & state' & H1 & H2 & H3 & H4 & _);
    [|reflexivity|reflexivity|reflexivity|reflexivity| |].
  { intros other so Hso. unfold ex_two_peers, ex_reached_1, State in Hso.
    vm_compute in Hso.
    repeat match type of Hso with
           | context [match ?x with _ => _ end] => destruct x; try discriminate
           end; by injection Hso as <-. }
  { right. split; [|reflexivity].
    intros other so Hso. unfold ex_two_peers, ex_reached_1, State in Hso.
    vm_compute in Hso.
    repeat match type of Hso with
           | context [match ?x with _ => _ end] => destruct x; try discriminate
           end; by injection Hso as <-. }
  assert (reachable ex_pc st') as Hreach'.
  { eapply reachable_step; [apply ex_two_peers_reachable|].
    eapply step_start_sync. exact H1. }
  assert (State st' 8 = Some (new_CNodeState ex_addr "peer8")) as Hs8.
  { vm_compute in H1. injection H1 as <-. reflexivity. }
  destruct (SendMessages_start_sync_single_peer ex_pc (ex_env 3 3) 900000000 1000 0 1000000
              (ex_peer 8) st' _ Hreach' Hs8) as [Hsingle _].
  exists st'. split; [exact H1|]. split; [exact H4|].
  apply (Hsingle 7 state' 3%positive H2 H3); [reflexivity|].
  vm_compute. discriminate.
Defined.


(** ** The headers synchronisation timeout *)

Lemma tally_pos_exists P (m : gmap Z CNodeState) :
  0 < tally P m -> exists i s, m !! i = Some s /\ P s = true.
Proof.
  induction m as [|i s m Hi IH] using map_ind.
  - rewrite tally_empty. lia.
  - rewrite tally_insert_None by done. destruct (P s) eqn:HP.
    + intros _. exists i, s. split; [apply lookup_insert_eq | done].
    + simpl. intros Hpos. destruct (IH Hpos) as (j & t & Hj & Ht).
      exists j, t. split; [|done]. rewrite lookup_insert_ne; [done|]. congruence.
Qed.

Lemma tally_zero P (m : gmap Z CNodeState) i s :
  tally P m = 0 -> m !! i = Some s -> P s = false.
Proof.
  intros Hz Hi. destruct (P s) eqn:HP; [|done].
  pose proof (tally_pos P m i s Hi HP). lia.
Qed.

(** X14: in a state the process can reach, the headers sync timeout
    disconnects a peer only if the peer is not whitelisted, its timeout has
    passed, the best header is more than a day old, no other peer has its
    headers sync started, and some other peer is preferred for download; in
    the same situation the sync of a whitelisted peer is reset instead, so
    that no sync is started any more; and once the best header is less than a
    day old the timeout of the peer is switched off for good. *)
Theorem SendMessages_headers_timeout_safety pc env nNow nAdjusted pto st r pto' st' :
  reachable pc st ->
  SendMessages_headers_timeout env nNow nAdjusted pto st = Some (r, pto', st') ->
  exists state state',
    State st (GetId pto) = Some state
    /\ State st' (GetId pto) = Some state'
    /\ (forall other, other ≠ GetId pto -> State st' other = State st other)
    /\ mapBlocksInFlight st' = mapBlocksInFlight st
    /\ pto' = (if r then set_fDisconnect true pto else pto)
    /\ (st' ≠ st \/ r = true ->
        fSyncStarted state = true
        /\ exists bh, GetIndexBestHeader env = Some bh
           /\ if nBlockTime (blk env bh) <=? wrap64 (nAdjusted - 24 * 60 * 60) then
                nHeadersSyncTimeout state < nNow
                /\ (forall other so,
                      other ≠ GetId pto -> State st other = Some so ->
                      fSyncStarted so = false)
                /\ (exists other so,
                      other ≠ GetId pto /\ State st other = Some so
                      /\ fPreferredDownload so = true)
                /\ if fWhitelisted pto
                   then r = false
                        /\ state' = set_nHeadersSyncTimeout 0 (set_fSyncStarted false state)
                        /\ nSyncStarted st' = 0
                   else r = true /\ st' = st
              else
                r = false
                /\ st' = put_state (GetId pto) (set_nHeadersSyncTimeout INT64_MAX state) st
                /\ forall env' nNow' nAdjusted',
                     SendMessages_headers_timeout env' nNow' nAdjusted' pto st'
                     = Some (false, pto, st')).
Proof.
  intros Hreach H. pose proof (reachable_Inv _ _ Hreach) as HI.
  unfold SendMessages_headers_timeout in H.
  destruct (State st (GetId pto)) as [state|] eqn:Hs; [|done].
  cbn [mbind option_bind] in H. exists state.
  assert (forall st0 r0 pto0, st0 = st -> r0 = false -> pto0 = pto ->
            exists state',
              Some state = Some state
              /\ State st0 (GetId pto) = Some state'
              /\ (forall other, other ≠ GetId pto -> State st0 other = State st other)
              /\ mapBlocksInFlight st0 = mapBlocksInFlight st
              /\ pto0 = (if r0 then set_fDisconnect true pto else pto)
              /\ (st0 ≠ st \/ r0 = true -> False)) as Hquiet.
  { intros st0 r0 pto0 -> -> ->. exists state.
    split; [done|]. split; [done|]. split; [done|]. split; [done|]. split; [done|].
    by intros [?|?]. }
  destruct (fSyncStarted state) eqn:Hsync; cbn [andb] in H.
  2:{ injection H as <- <- <-. destruct (Hquiet st false pto) as (s' & ? & ? & ? & ? & ? & Hf);
        [done..|]. exists s'.
        split; [done|]. split; [done|]. split; [done|]. split; [done|]. split; [done|].
        intros Hc. by destruct (Hf Hc). }
  destruct (Z.ltb_spec (nHeadersSyncTimeout state) INT64_MAX) as [Hmax|Hmax].
  2:{ injection H as <- <- <-. destruct (Hquiet st false pto) as (s' & ? & ? & ? & ? & ? & Hf);
        [done..|]. exists s'.
        split; [done|]. split; [done|]. split; [done|]. split; [done|]. split; [done|].
        intros Hc. by destruct (Hf Hc). }
  destruct (GetIndexBestHeader env) as [bh|] eqn:Hbh; [|done].
  cbn [mbind option_bind] in H.
  destruct (nBlockTime (blk env bh) <=? wrap64 (nAdjusted - 24 * 60 * 60)) eqn:Hold.
  - destruct (Z.ltb_spec (nHeadersSyncTimeout state) nNow) as [Hpast|]; cbn [andb] in H.
    2:{ injection H as <- <- <-.
        destruct (Hquiet st false pto) as (s' & ? & ? & ? & ? & ? & Hf); [done..|].
        exists s'.
        split; [done|]. split; [done|]. split; [done|]. split; [done|]. split; [done|].
        intros Hc. by destruct (Hf Hc). }
    destruct (Z.eqb_spec (nSyncStarted st) 1) as [Hone|]; cbn [andb] in H.
    2:{ injection H as <- <- <-.
        destruct (Hquiet st false pto) as (s' & ? & ? & ? & ? & ? & Hf); [done..|].
        exists s'.
        split; [done|]. split; [done|]. split; [done|]. split; [done|]. split; [done|].
        intros Hc. by destruct (Hf Hc). }
    destruct (Z.leb_spec 1 (wrap32 (nPreferredDownload st - Z.b2z (fPreferredDownload state))))
      as [Hpref|].
    2:{ injection H as <- <- <-.
        destruct (Hquiet st false pto) as (s' & ? & ? & ? & ? & ? & Hf); [done..|].
        exists s'.
        split; [done|]. split; [done|]. split; [done|]. split; [done|]. split; [done|].
        intros Hc. by destruct (Hf Hc). }
    clear Hquiet.
    assert (forall other so,
              other ≠ GetId pto -> State st other = Some so -> fSyncStarted so = false)
      as Honly.
    { intros other so Hne Hso.
      apply (tally_zero fSyncStarted (delete (GetId pto) (mapNodeState st)) other).
      - rewrite (tally_delete _ _ _ _ Hs), <- (inv_nSyncStarted _ HI), Hone, Hsync. done.
      - rewrite lookup_delete_ne; done. }
    assert (exists other so,
              other ≠ GetId pto /\ State st other = Some so /\ fPreferredDownload so = true)
      as Hother.
    { destruct (tally_pos_exists fPreferredDownload (delete (GetId pto) (mapNodeState st)))
        as (other & so & Hso & Hp).
      - pose proof (tally_delete fPreferredDownload _ _ _ Hs) as Hd.
        pose proof (tally_bounds fPreferredDownload (delete (GetId pto) (mapNodeState st)))
          as Hb.
        pose proof (tally_bounds fPreferredDownload (mapNodeState st)) as Hb'.
        pose proof (inv_size _ HI) as Hsize.
        pose proof (inv_nPreferredDownload _ HI) as Hp'.
        rewrite <- Hp' in Hd.
        rewrite <- Hd in Hpref. rewrite wrap32_id in Hpref; [lia|].
        unfold int_range, INT_MIN, INT_MAX in *.
        destruct (fPreferredDownload state); simpl in Hd; lia.
      - exists other, so. apply lookup_delete_Some in Hso as [Hne Hso]. done. }
    destruct (fWhitelisted pto) eqn:Hwl; cbn [negb] in H.
    + injection H as <- <- <-. eexists.
      split; [done|].
      split; [apply State_put_state_eq|].
      split; [intros other Hne; by apply State_put_state_ne|].
      split; [done|]. split; [done|]. intros _.
      split; [done|]. exists bh. split; [done|]. rewrite Hold.
      split; [done|]. split; [done|]. split; [done|].
      split; [done|]. split; [done|]. cbn. by rewrite Hone.
    + injection H as <- <- <-. exists state.
      split; [done|]. split; [done|]. split; [done|]. split; [done|]. split; [done|].
      intros _.
      split; [done|]. exists bh. split; [done|]. rewrite Hold. done.
  - injection H as <- <- <-. rewrite (upd_state_put _ _ _ _ Hs). eexists.
    split; [done|].
    split; [apply State_put_state_eq|].
    split; [intros other Hne; by apply State_put_state_ne|].
    split; [done|]. split; [done|]. intros _.
    split; [done|]. exists bh. split; [done|]. rewrite Hold.
    split; [done|]. split; [done|].
    intros env' nNow' nAdjusted'. unfold SendMessages_headers_timeout.
    rewrite State_put_state_eq. cbn [mbind option_bind].
    change (nHeadersSyncTimeout (set_nHeadersSyncTimeout INT64_MAX state)) with INT64_MAX.
    rewrite Z.ltb_irrefl. by rewrite andb_false_r.
Qed.

Lemma ex_sync_preferred_reachable : reachable ex_pc ex_sync_preferred.
Proof.
  eapply reachable_step.
  - eapply reachable_step; [apply ex_two_peers_reachable|].
    eapply (step_start_sync _ (ex_env 3 3) 900000000 1000 0 1000000 (ex_peer 7)).
    vm_compute. reflexivity.
  - eapply (step_UpdatePreferredDownload _ (ex_peer 8)). vm_compute. reflexivity.
Defined.

(** The sync peer 7 has not answered by the time 2000000000 while peer 8 is
    preferred for download. *)
Lemma SendMessages_headers_timeout_safety_witness :
  SendMessages_headers_timeout (ex_env 3 3) 2000000000 1000000 (ex_peer 7) ex_sync_preferred
  = Some (true, set_fDisconnect true (ex_peer 7), ex_sync_preferred)
  /\ exists other so,
       other ≠ 7 /\ State ex_sync_preferred other = Some so /\ fPreferredDownload so = true.
Proof.
  assert (SendMessages_headers_timeout (ex_env 3 3) 2000000000 1000000 (ex_peer 7)
            ex_sync_preferred
          = Some (true, set_fDisconnect true (ex_peer 7), ex_sync_preferred)) as H.
  { vm_compute. reflexivity. }
  split; [exact H|].
  destruct (SendMessages_headers_timeout_safety ex_pc _ _ _ _ _ _ _ _
              ex_sync_preferred_reachable H)
    as (state & state' & _ & _ & _ & _ & _ & Hr).
  destruct Hr as (_ & bh & Hbh & Hcase); [by right|].
  injection Hbh as <-.
  change (nBlockTime (blk (ex_env 3 3) 3) <=? wrap64 (1000000 - 24 * 60 * 60)) with true
    in Hcase.
  by destruct Hcase as (_ & _ & Hother & _).
Defined.


(** ** Registration of the queued blocks *)

Lemma frame_refl st : frame st st.
Proof. by split. Qed.

Lemma frame_trans st1 st2 st3 : frame st1 st2 -> frame st2 st3 -> frame st1 st3.
Proof.
  intros (H1 & H2 & H3) (H1' & H2' & H3'). split; [congruence|]. split; [congruence|].
  intros pnode. by rewrite H3', H3.
Qed.

Lemma frame_put_state st pnode s s' :
  State st pnode = Some s -> queue_keys s' = queue_keys s -> frame st (put_state pnode s' st).
Proof.
  intros Hs Hk. split; [done|]. split; [done|]. intros p.
  destruct (decide (pnode = p)) as [<-|Hne].
  - rewrite State_put_state_eq, Hs. simpl. by rewrite Hk.
  - by rewrite State_put_state_ne.
Qed.

Lemma frame_upd_state st pnode f :
  (forall s, queue_keys (f s) = queue_keys s) -> frame st (upd_state pnode f st).
Proof.
  intros Hf. destruct (State st pnode) as [s|] eqn:Hs.
  - rewrite (upd_state_put _ _ _ _ Hs). by eapply frame_put_state.
  - rewrite upd_state_id; [apply frame_refl|]. intros s Hs'. by rewrite Hs in Hs'.
Qed.

Lemma same_tracked_queue_keys s s' : same_tracked s s' -> queue_keys s' = queue_keys s.
Proof. intros (_ & _ & _ & H & _). unfold queue_keys. by rewrite H. Qed.

Lemma Registered_ext st st' :
  mapBlocksInFlight st' = mapBlocksInFlight st ->
  (forall pnode, queue_keys <$> State st' pnode = queue_keys <$> State st pnode) ->
  Registered st -> Registered st'.
Proof.
  intros Hmap Hrows [R1 R2]. split.
  - intros peer state' it entry Hs' Hin. rewrite Hmap.
    pose proof (Hrows peer) as Hr. rewrite Hs' in Hr.
    destruct (State st peer) as [state|] eqn:Hs; [|done]. injection Hr as Hr.
    assert ((it, hash entry) ∈ queue_keys state) as Hk.
    { rewrite <- Hr. unfold queue_keys. apply list_elem_of_fmap.
      by exists (it, entry). }
    unfold queue_keys in Hk. apply list_elem_of_fmap in Hk as ([it0 entry0] & Heq & Hin0).
    simpl in Heq. injection Heq as -> ->. by eapply R1.
  - intros peer state' Hs'.
    pose proof (Hrows peer) as Hr. rewrite Hs' in Hr.
    destruct (State st peer) as [state|] eqn:Hs; [|done]. injection Hr as Hr.
    pose proof (R2 _ _ Hs) as Hnd.
    assert (fst <$> vBlocksInFlight state' = fst <$> vBlocksInFlight state) as ->; [|done].
    assert (forall s, fst <$> vBlocksInFlight s = fst <$> queue_keys s) as Hfst.
    { intros s. unfold queue_keys. rewrite <- list_fmap_compose. done. }
    by rewrite !Hfst, Hr.
Qed.

Lemma Registered_frame st st' : frame st st' -> Registered st -> Registered st'.
Proof. intros (Hmap & _ & Hrows). by apply Registered_ext. Qed.

Lemma Inv2_frame st st' : frame st st' -> Inv2 st -> Inv2 st'.
Proof.
  intros Hf [HR Hg]. split; [by eapply Registered_frame|].
  destruct Hf as (_ & -> & _). done.
Qed.

(** A state that differs from a framed one in the other global fields. *)
Lemma frame_fields st st' st'' :
  frame st st' ->
  mapNodeState st'' = mapNodeState st' ->
  mapBlocksInFlight st'' = mapBlocksInFlight st' ->
  g_outbound_peers_with_protect_from_disconnect st''
  = g_outbound_peers_with_protect_from_disconnect st' ->
  frame st st''.
Proof.
  intros (H1 & H2 & H3) Hn Hm Hg. split; [congruence|]. split; [congruence|].
  intros pnode. rewrite <- H3. unfold State. by rewrite Hn.
Qed.

Ltac frame_row :=
  unfold queue_keys; simpl;
  repeat match goal with
         | |- context [if ?b then _ else _] => destruct b
         | |- context [match ?x with _ => _ end] => destruct x
         end;
  reflexivity.

Lemma Misbehaving_frame banscore pnode howmuch st :
  frame st (Misbehaving banscore pnode howmuch st).
Proof.
  unfold Misbehaving. destruct (howmuch =? 0); [apply frame_refl|].
  destruct (State st pnode) as [state|] eqn:Hs; [|apply frame_refl].
  eapply frame_put_state; [done|]. frame_row.
Qed.

Lemma UpdatePreferredDownload_frame node st st' :
  UpdatePreferredDownload node st = Some st' -> frame st st'.
Proof.
  intros H. unfold UpdatePreferredDownload in H.
  destruct (State st (GetId node)) as [state|] eqn:Hs; [|done].
  cbn [mbind option_bind] in H. injection H as <-.
  eapply frame_fields; [|reflexivity..].
  apply (frame_upd_state st (GetId node)
           (set_fPreferredDownload ((negb (fInbound node) || fWhitelisted node)
                                    && negb (fOneShot node) && negb (fClient node)))).
  intros s. reflexivity.
Qed.

Lemma ProcessBlockAvailability_row_keys env s :
  queue_keys (ProcessBlockAvailability_row env s) = queue_keys s.
Proof. unfold queue_keys. by rewrite ProcessBlockAvailability_row_queue. Qed.

Lemma UpdateBlockAvailability_row_keys env h s :
  queue_keys (UpdateBlockAvailability_row env h s) = queue_keys s.
Proof.
  rewrite <- (ProcessBlockAvailability_row_keys env s).
  unfold UpdateBlockAvailability_row. cbv zeta.
  destruct (match GetBlockIndex env h with Some _ => _ | None => _ end); [|reflexivity].
  by destruct (replaces_best _ _ _).
Qed.

Lemma UpdateBlockAvailability_frame env nodeid h st st' :
  UpdateBlockAvailability env nodeid h st = Some st' -> frame st st'.
Proof.
  intros H. unfold UpdateBlockAvailability in H.
  destruct (State st nodeid) as [state|] eqn:Hs; [|done].
  cbn [mbind option_bind] in H. injection H as <-.
  eapply frame_put_state; [done|]. apply UpdateBlockAvailability_row_keys.
Qed.

Lemma SendRejectsAndCheckIfBanned_frame pc pnode st r pnode' st' ev :
  SendRejectsAndCheckIfBanned pc pnode st = Some (r, pnode', st', ev) -> frame st st'.
Proof.
  intros H. unfold SendRejectsAndCheckIfBanned in H.
  destruct (State st (GetId pnode)) as [state|] eqn:Hs; [|done].
  cbn [mbind option_bind] in H.
  repeat match type of H with
         | context [if ?b then _ else _] => destruct b
         end; injection H as _ _ <- _; (eapply frame_put_state; [done|]); reflexivity.
Qed.

Lemma ConsiderEviction_frame env t pto st pto' st' ev :
  ConsiderEviction env t pto st = Some (pto', st', ev) -> frame st st'.
Proof.
  intros H. unfold ConsiderEviction in H.
  destruct (State st (GetId pto)) as [state|] eqn:Hs; [|done].
  cbn [mbind option_bind] in H.
  destruct (_ && _ && _); [|injection H as _ <- _; apply frame_refl].
  match type of H with
  | (?m ≫= _) = _ => destruct m as [caught|]; [|done]
  end.
  cbn [mbind option_bind] in H.
  repeat (match type of H with
          | context [if ?b then _ else _] => destruct b
          | context [match ?x with _ => _ end] => destruct x
          | (?m ≫= _) = _ => destruct m
          end; cbn [mbind option_bind] in H); try done;
    injection H as _ <- _;
    first [ apply frame_refl | apply frame_upd_state; intros s; reflexivity ].
Qed.

Lemma SendMessages_start_sync_frame env base per_header nNow nAdjusted pto st st' ev :
  SendMessages_start_sync env base per_header nNow nAdjusted pto st = Some (st', ev) ->
  frame st st'.
Proof.
  intros H. unfold SendMessages_start_sync in H.
  destruct (State st (GetId pto)) as [state|] eqn:Hs; [|done].
  cbn [mbind option_bind] in H.
  destruct (_ && _ && _ && _); [|injection H as <- _; apply frame_refl].
  destruct (GetIndexBestHeader env) as [best|]; [|done]. cbn [mbind option_bind] in H.
  destruct (_ || _); [|injection H as <- _; apply frame_refl].
  injection H as <- _.
  eapply frame_fields; [|reflexivity..].
  eapply frame_put_state; [done|]. reflexivity.
Qed.

Lemma SendMessages_headers_timeout_frame env nNow nAdjusted pto st r pto' st' :
  SendMessages_headers_timeout env nNow nAdjusted pto st = Some (r, pto', st') ->
  frame st st'.
Proof.
  intros H. unfold SendMessages_headers_timeout in H.
  destruct (State st (GetId pto)) as [state|] eqn:Hs; [|done].
  cbn [mbind option_bind] in H.
  destruct (_ && _); [|injection H as _ _ <-; apply frame_refl].
  destruct (GetIndexBestHeader env) as [best|]; [|done]. cbn [mbind option_bind] in H.
  destruct (_ <=? _).
  - destruct (_ && _ && _); [|injection H as _ _ <-; apply frame_refl].
    destruct (negb (fWhitelisted pto)); injection H as _ _ <-; [apply frame_refl|].
    eapply frame_fields; [|reflexivity..].
    eapply frame_put_state; [done|]. reflexivity.
  - injection H as _ _ <-. apply frame_upd_state. intros s. reflexivity.
Qed.

Lemma FindNextBlocksToDownload_frame pc env fuel nodeid count vBlocks nodeStaller st
    vBlocks' nodeStaller' st' :
  FindNextBlocksToDownload pc env fuel nodeid count vBlocks nodeStaller st
  = Some (vBlocks', nodeStaller', st') ->
  frame st st'.
Proof.
  intros H. apply FindNextBlocksToDownload_result in H
    as (_ & _ & [->|(state & lc & Hs & ->)] & _); [apply frame_refl|].
  eapply frame_put_state; [done|].
  rewrite <- (ProcessBlockAvailability_row_keys env state). reflexivity.
Qed.

Lemma ProcessVersionMsg_frame pc env cm banscore pfrom vRecv st r pfrom' st' ev :
  ProcessVersionMsg pc env cm banscore pfrom vRecv st = Some (r, pfrom', st', ev) ->
  frame st st'.
Proof.
  intros H. unfold ProcessVersionMsg in H.
  destruct (negb (nVersion pfrom =? 0)).
  { injection H as _ _ <- _. apply Misbehaving_frame. }
  destruct (negb (N.ldiff _ _ =? 0)%N); [injection H as _ _ <- _; apply frame_refl|].
  destruct (_ && (GetTime cm <? _)); [injection H as _ _ <- _; apply frame_refl|].
  destruct (Tip env) as [tip|]; [|done]. cbn [mbind option_bind] in H.
  destruct (vp_nVersion vRecv <? _); [injection H as _ _ <- _; apply frame_refl|].
  destruct (fInbound pfrom && negb _); [injection H as _ _ <- _; apply frame_refl|].
  match type of H with
  | (?m ≫= _) = _ => destruct m as [st0|] eqn:H0; [|done]
  end.
  cbn [mbind option_bind] in H.
  assert (frame st st0) as Hf0.
  { destruct (negb _) in H0; [|injection H0 as <-; apply frame_refl].
    destruct (State st (GetId pfrom)); [|done]. cbn [mbind option_bind] in H0.
    injection H0 as <-. apply frame_upd_state. intros s. reflexivity. }
  destruct (UpdatePreferredDownload _ st0) as [st2|] eqn:Hu; [|done].
  cbn [mbind option_bind] in H.
  apply UpdatePreferredDownload_frame in Hu.
  assert (frame st st2) as Hf2 by (by eapply frame_trans).
  destruct (fFeeler _) in H.
  - destruct (assert_ _); [|done]. cbn [mbind option_bind] in H. by simplify_eq.
  - by simplify_eq.
Qed.

Lemma ProcessVerAckMsg_frame pc pfrom st r pfrom' st' ev :
  ProcessVerAckMsg pc pfrom st = Some (r, pfrom', st', ev) -> frame st st'.
Proof.
  intros H. unfold ProcessVerAckMsg in H.
  match type of H with
  | (?m ≫= _) = _ => destruct m as [st0|] eqn:H0; [|done]
  end.
  cbn [mbind option_bind] in H. injection H as _ _ <- _.
  destruct (negb _) in H0; [|injection H0 as <-; apply frame_refl].
  destruct (State st _); [|done]. cbn [mbind option_bind] in H0.
  injection H0 as <-. apply frame_upd_state. intros s. reflexivity.
Qed.

Lemma ProcessMessage_frame pc env cm banscore dropped pfrom c st d pfrom' st' ev :
  ProcessMessage pc env cm banscore dropped pfrom c st = Some (d, pfrom', st', ev) ->
  frame st st'.
Proof.
  intros H. unfold ProcessMessage in H.
  destruct dropped; [injection H as _ _ <- _; apply frame_refl|].
  destruct (Tip env) as [tip|]; [|done]. cbn [mbind option_bind] in H.
  destruct (_ && _ && _); [injection H as _ _ <- _; apply frame_refl|].
  destruct (_ && _).
  { destruct (_ <=? _); injection H as _ _ <- _; [apply Misbehaving_frame | apply frame_refl]. }
  assert (forall st1, (if nVersion pfrom =? 0
                       then Some (Returned false, pfrom,
                                  Misbehaving banscore (GetId pfrom) 1 st, [])
                       else if negb (fSuccessfullyConnected pfrom)
                            then Some (Returned false, pfrom,
                                       Misbehaving banscore (GetId pfrom) 1 st, [])
                            else Some (ToHandler c, pfrom, st, []))
                      = Some (d, pfrom', st1, ev) -> frame st st1) as Hother.
  { intros st1 H1. destruct (_ =? 0); [|destruct (negb _)];
      injection H1 as _ _ <- _; (apply frame_refl || apply Misbehaving_frame). }
  destruct c; try (by eapply Hother).
  - destruct (ProcessVersionMsg _ _ _ _ _ _ _) as [[[[r1 pfrom1] st1] ev1]|] eqn:Hv; [|done].
    cbn [mbind option_bind] in H. injection H as _ _ <- _.
    by eapply ProcessVersionMsg_frame.
  - destruct (nVersion pfrom =? 0).
    { injection H as _ _ <- _. apply Misbehaving_frame. }
    destruct (ProcessVerAckMsg _ _ _) as [[[[r1 pfrom1] st1] ev1]|] eqn:Hv; [|done].
    cbn [mbind option_bind] in H. injection H as _ _ <- _.
    by eapply ProcessVerAckMsg_frame.
  - injection H as _ _ <- _. apply frame_refl.
Qed.

Lemma list_erase_NoDup it l :
  NoDup (fst <$> l) -> NoDup (fst <$> list_erase it l).
Proof.
  induction l as [|[a q] l IH]; simpl; [done|]. intros [Ha Hnd]%NoDup_cons.
  destruct (Pos.eqb a it); [done|]. simpl. apply NoDup_cons. split; [|by apply IH].
  intros Hin. apply Ha. apply list_elem_of_fmap in Hin as (x & Hx & Hin).
  apply list_elem_of_fmap. exists x. split; [done|]. by eapply list_erase_elem_of.
Qed.

Lemma list_erase_not_in it l e :
  NoDup (fst <$> l) -> (it, e) ∉ list_erase it l.
Proof.
  induction l as [|[a q] l IH]; simpl; intros Hnd Hin.
  - by apply elem_of_nil in Hin.
  - apply NoDup_cons in Hnd as [Ha Hnd].
    destruct (Pos.eqb_spec a it) as [->|Hne].
    + apply Ha. apply list_elem_of_fmap. by exists (it, e).
    + apply elem_of_cons in Hin as [Heq|Hin]; [congruence|]. by apply IH.
Qed.

Lemma foldl_delete_lookup_notin (m : gmap N (Z * positive))
    (l : list (positive * QueuedBlock)) h :
  (forall it entry, (it, entry) ∈ l -> hash entry ≠ h) ->
  foldl (fun m entry => delete (hash entry.2) m) m l !! h = m !! h.
Proof.
  revert m. induction l as [|[a q] l IH]; intros m Hl; simpl; [done|].
  rewrite IH.
  - apply lookup_delete_ne. apply (Hl a q), list_elem_of_here.
  - intros it entry Hin. apply (Hl it entry). by right.
Qed.

Lemma list_write_partialBlock_keys it p l :
  (fun e => (e.1, hash e.2)) <$> list_write_partialBlock it p l
  = (fun e => (e.1, hash e.2)) <$> l.
Proof.
  induction l as [|[a q] l IH]; simpl; [done|].
  destruct (Pos.eqb a it); simpl; [done | f_equal; apply IH].
Qed.

Lemma InitializeNode_Inv2 pc nTime pnode addrName st :
  Inv2 st -> Inv2 (InitializeNode pc nTime pnode addrName st).1.
Proof.
  intros [[R1 R2] Hg]. unfold InitializeNode. cbn [fst].
  destruct (State st (GetId pnode)) as [s|] eqn:Hs; [done|].
  split; [|done]. split.
  - intros peer state it entry Hp Hin. unfold State in Hp. simpl in Hp.
    destruct (decide (GetId pnode = peer)) as [<-|Hne].
    + rewrite lookup_insert_eq in Hp. injection Hp as <-. by apply elem_of_nil in Hin.
    + rewrite lookup_insert_ne in Hp by done. by eapply R1.
  - intros peer state Hp. unfold State in Hp. simpl in Hp.
    destruct (decide (GetId pnode = peer)) as [<-|Hne].
    + rewrite lookup_insert_eq in Hp. injection Hp as <-. apply NoDup_nil_2.
    + rewrite lookup_insert_ne in Hp by done. by eapply R2.
Qed.

Lemma FinalizeNode_Inv2 nodeid st r st' ev :
  Inv st -> Inv2 st -> FinalizeNode nodeid st = Some (r, st', ev) -> Inv2 st'.
Proof.
  intros HI [[R1 R2] Hg] H.
  destruct (State st nodeid) as [state|] eqn:Hs; [|unfold FinalizeNode in H; by rewrite Hs in H].
  destruct (FinalizeNode_Inv _ _ _ HI Hs) as (st1 & Hfin & _ & Hn & Hm & _ & _ & _ & Hg1).
  rewrite Hfin in H. injection H as _ <- _. split.
  - split.
    + intros peer s it entry Hp Hin. unfold State in Hp. rewrite Hn in Hp.
      apply lookup_delete_Some in Hp as [Hne Hp]. rewrite Hm.
      rewrite foldl_delete_lookup_notin; [by eapply R1|].
      intros it' entry' Hin' Heq.
      pose proof (R1 _ _ _ _ Hs Hin') as H1. pose proof (R1 _ _ _ _ Hp Hin) as H2.
      rewrite Heq in H1. congruence.
    + intros peer s Hp. unfold State in Hp. rewrite Hn in Hp.
      apply lookup_delete_Some in Hp as [Hne Hp]. by eapply R2.
  - rewrite Hg1. destruct (is_protected state); simpl; lia.
Qed.

Lemma MarkBlockAsReceived_Inv2 nNow h st r st' :
  Inv st -> Inv2 st -> MarkBlockAsReceived nNow h st = Some (r, st') -> Inv2 st'.
Proof.
  intros HI [[R1 R2] Hg] H.
  destruct (mapBlocksInFlight st !! h) as [[peer it]|] eqn:Hin.
  2:{ unfold MarkBlockAsReceived in H. rewrite Hin in H. by injection H as _ <-. }
  destruct (inv_flight _ HI _ _ _ Hin) as (state & entry & Hs & Hd & Hh).
  rewrite (MarkBlockAsReceived_in_flight _ _ _ _ _ _ _ Hin Hs Hd) in H.
  injection H as _ <-.
  destruct (dequeue_fields nNow it entry state) as (Hq & _).
  split; [|done]. split.
  - intros p s it' entry' Hp Hin'. unfold State in Hp. simpl in Hp. simpl.
    destruct (decide (peer = p)) as [<-|Hne].
    + rewrite lookup_insert_eq in Hp. injection Hp as <-. rewrite Hq in Hin'.
      pose proof (R1 _ _ _ _ Hs (list_erase_elem_of _ _ _ Hin')) as H1.
      rewrite lookup_delete_ne; [done|]. intros Heq. rewrite <- Heq, Hin in H1.
      injection H1 as <-. by apply (list_erase_not_in it _ entry' (R2 _ _ Hs)).
    + rewrite lookup_insert_ne in Hp by done.
      pose proof (R1 _ _ _ _ Hp Hin') as H1.
      rewrite lookup_delete_ne; [done|]. intros Heq. rewrite <- Heq, Hin in H1. congruence.
  - intros p s Hp. unfold State in Hp. simpl in Hp.
    destruct (decide (peer = p)) as [<-|Hne].
    + rewrite lookup_insert_eq in Hp. injection Hp as <-. rewrite Hq.
      apply list_erase_NoDup. by eapply R2.
    + rewrite lookup_insert_ne in Hp by done. by eapply R2.
Qed.

Lemma MarkBlockAsInFlight_Inv2 nNow nodeid h (pindex_ : option positive) (want_pit : bool)
    st r pit st' :
  Inv st -> Inv2 st ->
  MarkBlockAsInFlight nNow nodeid h pindex_ want_pit st = Some (r, pit, st') -> Inv2 st'.
Proof.
  intros HI HI2 H.
  destruct (State st nodeid) as [state|] eqn:Hs;
    [|unfold MarkBlockAsInFlight in H; by rewrite Hs in H].
  destruct (MarkBlockAsReceived_Inv nNow h st HI) as (r0 & st1 & Hrecv & HI1 & _ & Hrows).
  pose proof (MarkBlockAsReceived_Inv2 _ _ _ _ _ HI HI2 Hrecv) as HI21.
  pose proof (MarkBlockAsReceived_not_in_flight _ _ _ _ _ Hrecv) as Hnone.
  destruct (Hrows _ _ Hs) as (state1 & Hs1 & _).
  unfold MarkBlockAsInFlight in H. rewrite Hs in H. cbn [mbind option_bind] in H.
  destruct (match mapBlocksInFlight st !! h with
            | Some (peer, it) => if peer =? nodeid then Some it else None
            | None => None
            end) as [it|].
  { by injection H as _ _ <-. }
  rewrite Hrecv in H. cbn [mbind option_bind] in H.
  assert (MarkBlockAsInFlight nNow nodeid h pindex_ want_pit st1 = Some (r, pit, st')) as H'.
  { unfold MarkBlockAsInFlight. rewrite Hs1. cbn [mbind option_bind]. rewrite Hnone.
    unfold MarkBlockAsReceived. rewrite Hnone. cbn [mbind option_bind]. exact H. }
  clear H. rewrite (MarkBlockAsInFlight_new _ _ _ _ _ _ _ Hs1 Hnone) in H'.
  injection H' as _ _ <-.
  destruct HI21 as [[R1 R2] Hg].
  match goal with
  | |- context [enqueue nNow ?it ?entry state1] =>
      destruct (enqueue_fields nNow it entry state1) as (Hq & _)
  end.
  split; [|done]. split.
  - intros p s it' entry' Hp Hin'. unfold State in Hp. simpl in Hp. simpl.
    destruct (decide (nodeid = p)) as [<-|Hne].
    + rewrite lookup_insert_eq in Hp. injection Hp as <-. rewrite Hq in Hin'.
      apply elem_of_app in Hin' as [Hold|Hnew].
      * pose proof (R1 _ _ _ _ Hs1 Hold) as H1.
        rewrite lookup_insert_ne; [done|]. intros Heq. rewrite <- Heq in H1. congruence.
      * apply list_elem_of_singleton in Hnew. injection Hnew as -> ->. simpl.
        apply lookup_insert_eq.
    + rewrite lookup_insert_ne in Hp by done.
      pose proof (R1 _ _ _ _ Hp Hin') as H1.
      rewrite lookup_insert_ne; [done|]. intros Heq. rewrite <- Heq in H1. congruence.
  - intros p s Hp. unfold State in Hp. simpl in Hp.
    destruct (decide (nodeid = p)) as [<-|Hne].
    + rewrite lookup_insert_eq in Hp. injection Hp as <-. rewrite Hq.
      rewrite fmap_app. apply NoDup_app. split; [by eapply R2|].
      split; [|apply NoDup_singleton].
      intros x Hx Hx'. apply list_elem_of_singleton in Hx'. subst x.
      apply list_elem_of_fmap in Hx as ([it0 e0] & Heq & Hin0). simpl in Heq. subst it0.
      pose proof (inv_fresh _ HI1 _ _ _ _ Hs1 Hin0). lia.
    + rewrite lookup_insert_ne in Hp by done. by eapply R2.
Qed.

Lemma request_blocks_Inv2 pc env nNow pto vToDownload vGetData st state vGetData' st' :
  Inv st -> Inv2 st -> State st (GetId pto) = Some state ->
  Z.of_nat (length (vBlocksInFlight state)) + Z.of_nat (length vToDownload) <= INT_MAX ->
  request_blocks pc env nNow pto vToDownload vGetData st = Some (vGetData', st') ->
  Inv2 st'.
Proof.
  revert vGetData st state.
  induction vToDownload as [|p rest IH]; intros vGetData st state HI HI2 Hs Hlen H;
    simpl in H.
  { by injection H as _ <-. }
  destruct (GetFetchFlags pc pto st); [|done]. cbn [mbind option_bind] in H.
  destruct (MarkBlockAsInFlight_Inv nNow (GetId pto) (phashBlock (blk env p)) (Some p)
              false st HI ltac:(by eexists))
    as (r & pit & st1 & Hm & HI1 & Hrows).
  { intros s Hs'. rewrite Hs in Hs'. injection Hs' as <-. simpl in Hlen. lia. }
  rewrite Hm in H. cbn [mbind option_bind] in H.
  pose proof (MarkBlockAsInFlight_Inv2 _ _ _ _ _ _ _ _ _ HI HI2 Hm) as HI21.
  destruct (Hrows _ _ Hs) as (state1 & Hs1 & Hl1).
  rewrite decide_True in Hl1 by done.
  eapply (IH _ st1 state1); [done | done | done | | done].
  simpl in Hlen. lia.
Qed.

Lemma SendMessages_getdata_blocks_Inv2 pc env fuel nNow fFetch pto st vGetData st' :
  Inv st -> Inv2 st ->
  SendMessages_getdata_blocks pc env fuel nNow fFetch pto st = Some (vGetData, st') ->
  Inv2 st'.
Proof.
  intros HI HI2 H. unfold SendMessages_getdata_blocks in H.
  destruct (State st (GetId pto)) as [state|] eqn:Hs; [|done].
  cbn [mbind option_bind] in H.
  destruct (negb (fClient pto) && _); cbn [andb] in H; [|by simplify_eq].
  destruct (Z.ltb_spec (nBlocksInFlight state) MAX_BLOCKS_IN_TRANSIT_PER_PEER) as [Hlt|];
    [|by simplify_eq].
  destruct (FindNextBlocksToDownload _ _ _ _ _ _ _ _)
    as [[[vToDownload staller] st1]|] eqn:Hfind; [|done].
  cbn [mbind option_bind] in H.
  pose proof (inv_length _ HI _ _ Hs) as [Hl Hm].
  pose proof (Inv2_frame _ _ (FindNextBlocksToDownload_frame _ _ _ _ _ _ _ _ _ _ _ Hfind) HI2)
    as HI21.
  apply FindNextBlocksToDownload_Inv in Hfind as (HI1 & Hrows & Hlen); [|done].
  assert ((MAX_BLOCKS_IN_TRANSIT_PER_PEER - nBlocksInFlight state) mod 2 ^ 32
          = MAX_BLOCKS_IN_TRANSIT_PER_PEER - nBlocksInFlight state) as Hcount.
  { apply Z.mod_small. unfold MAX_BLOCKS_IN_TRANSIT_PER_PEER in *. lia. }
  rewrite Hcount in Hlen.
  destruct (request_blocks _ _ _ _ _ _ _) as [[vGetData1 st2]|] eqn:Hreq; [|done].
  cbn [mbind option_bind] in H.
  assert (Inv2 st2) as HI22.
  { pose proof (Hrows (GetId pto)) as Hr. rewrite Hs in Hr.
    destruct (State st1 (GetId pto)) as [state1|] eqn:Hs1; [|done].
    injection Hr as Hr.
    eapply (request_blocks_Inv2 _ _ _ _ _ _ st1 state1); [done | done | done | | done].
    rewrite Hr. unfold MAX_BLOCKS_IN_TRANSIT_PER_PEER, INT_MAX in *. simpl in *. lia. }
  destruct (State st2 (GetId pto)) as [state2|]; [|done]. cbn [mbind option_bind] in H.
  destruct (_ && _); [|by simplify_eq].
  destruct (State st2 staller) as [stalling|]; [|done]. cbn [mbind option_bind] in H.
  injection H as _ <-. destruct (_ =? 0); [|done].
  eapply Inv2_frame; [|done]. apply frame_upd_state. intros s. reflexivity.
Qed.

Lemma direct_fetch_request_Inv2 pc env nNow pfrom blocks vGetData st vGetData' st' :
  Inv st -> Inv2 st ->
  direct_fetch_request pc env nNow pfrom blocks vGetData st = Some (vGetData', st') ->
  Inv2 st'.
Proof.
  revert vGetData st. induction blocks as [|p rest IH]; intros vGetData st HI HI2 H;
    simpl in H.
  { by injection H as _ <-. }
  destruct (State st (GetId pfrom)) as [nodestate|] eqn:Hs; [|done].
  cbn [mbind option_bind] in H.
  destruct (Z.leb_spec MAX_BLOCKS_IN_TRANSIT_PER_PEER (nBlocksInFlight nodestate))
    as [|Hlt]; [by injection H as _ <-|].
  destruct (GetFetchFlags pc pfrom st); [|done]. cbn [mbind option_bind] in H.
  pose proof (inv_length _ HI _ _ Hs) as [Hl Hm].
  destruct (MarkBlockAsInFlight_Inv nNow (GetId pfrom) (phashBlock (blk env p)) (Some p)
              false st HI ltac:(by eexists))
    as (r & pit & st1 & Hmark & HI1 & _).
  { intros s Hs'. rewrite Hs in Hs'. injection Hs' as <-.
    unfold MAX_BLOCKS_IN_TRANSIT_PER_PEER, INT_MAX in *. simpl. lia. }
  rewrite Hmark in H. cbn [mbind option_bind] in H.
  pose proof (MarkBlockAsInFlight_Inv2 _ _ _ _ _ _ _ _ _ HI HI2 Hmark) as HI21.
  by eapply IH.
Qed.

Lemma ProcessHeaders_direct_fetch_Inv2 pc env fuel nNow nAdjusted pfrom pindexLast st st' ev :
  Inv st -> Inv2 st ->
  ProcessHeaders_direct_fetch pc env fuel nNow nAdjusted pfrom pindexLast st = Some (st', ev) ->
  Inv2 st'.
Proof.
  intros HI HI2 H. unfold ProcessHeaders_direct_fetch in H.
  destruct (CanDirectFetch env nAdjusted) as [can|]; [|done]. cbn [mbind option_bind] in H.
  destruct (Tip env) as [tip|]; [|done]. cbn [mbind option_bind] in H.
  destruct (can && _ && _); [|by simplify_eq].
  destruct (direct_fetch_walk _ _ _ _ _ _ _) as [[walk vToFetch]|]; [|done].
  cbn [mbind option_bind] in H.
  destruct walk as [stop|]; [|done]. cbn [mbind option_bind] in H.
  destruct (negb (Contains env stop)); [by simplify_eq|].
  destruct (direct_fetch_request _ _ _ _ _ _ _) as [[vGetData st1]|] eqn:Hreq; [|done].
  cbn [mbind option_bind] in H.
  apply direct_fetch_request_Inv2 in Hreq; [|done..].
  destruct vGetData as [|first others]; [by simplify_eq|].
  destruct (State st1 (GetId pfrom)) as [nodestate|]; [|done]. cbn [mbind option_bind] in H.
  match type of H with
  | (?m ≫= _) = _ => destruct m; [|done]
  end.
  cbn [mbind option_bind] in H. by simplify_eq.
Qed.

Lemma ProcessHeaders_protect_Inv2 env pfrom st st' :
  Inv st -> Inv2 st -> ProcessHeaders_protect env pfrom st = Some st' -> Inv2 st'.
Proof.
  intros HI [HR Hg] H. unfold ProcessHeaders_protect in H.
  destruct (State st (GetId pfrom)) as [state|] eqn:Hs; [|done].
  cbn [mbind option_bind] in H.
  destruct (_ && _); [|by simplify_eq].
  destruct (pindexBestKnownBlock state); [|by simplify_eq].
  destruct (Z.ltb_spec (g_outbound_peers_with_protect_from_disconnect st)
              MAX_OUTBOUND_PEERS_TO_PROTECT_FROM_DISCONNECT) as [Hlt|]; [|by simplify_eq].
  destruct (Tip env) as [tip|]; [|done]. cbn [mbind option_bind] in H.
  destruct (_ && _); [|by simplify_eq].
  injection H as <-. split.
  - apply (Registered_ext st); [reflexivity| |exact HR].
    eapply (frame_upd_state st (GetId pfrom)). intros s. reflexivity.
  - cbn. pose proof (tally_bounds is_protected (mapNodeState st)) as Hb.
    rewrite <- (inv_protect _ HI) in Hb.
    rewrite wrap32_id; [lia|].
    unfold int_range, INT_MIN, INT_MAX, MAX_OUTBOUND_PEERS_TO_PROTECT_FROM_DISCONNECT in *.
    lia.
Qed.

Lemma ProcessHeadersMessage_Inv2 pc env verdict banscore fuel nNow nTime nAdjusted pfrom
    headers punish st r pfrom' st' ev :
  Inv st -> Inv2 st ->
  ProcessHeadersMessage pc env verdict banscore fuel nNow nTime nAdjusted pfrom headers
    punish st = Some (r, pfrom', st', ev) ->
  Inv2 st'.
Proof.
  intros HI HI2 H. unfold ProcessHeadersMessage in H.
  destruct headers as [|first rest]; [by simplify_eq|].
  destruct (negb (DoesBlockExist env (hashPrevBlock first)) && _).
  - destruct (State st (GetId pfrom)) as [state|] eqn:Hs; [|done].
    cbn [mbind option_bind] in H.
    destruct (UpdateBlockAvailability _ _ _ _) as [st2|] eqn:Hu; [|done].
    cbn [mbind option_bind] in H.
    apply UpdateBlockAvailability_frame in Hu.
    assert (Inv2 st2) as HI22.
    { eapply Inv2_frame; [exact Hu|]. eapply Inv2_frame; [|exact HI2].
      apply frame_upd_state. intros s. reflexivity. }
    destruct (State st2 (GetId pfrom)); [|done]. cbn [mbind option_bind] in H.
    injection H as _ _ <- _. destruct (_ =? 0); [|done].
    eapply Inv2_frame; [apply Misbehaving_frame | done].
  - destruct (headers_continuity env 0%N (first :: rest)).
    2:{ injection H as _ _ <- _. eapply Inv2_frame; [apply Misbehaving_frame | done]. }
    destruct (negb (pnbh_accepted verdict) && pnbh_IsInvalid verdict).
    { injection H as _ _ <- _. destruct (0 <? _); [|done].
      eapply Inv2_frame; [apply Misbehaving_frame | done]. }
    destruct (ProcessHeaders_accepted _ _ _ _ _ _ _ _ _ _ _)
      as [[[[r1 pfrom1] st1] sent]|] eqn:Hacc; [|done].
    cbn [mbind option_bind] in H. injection H as _ _ <- _.
    unfold ProcessHeaders_accepted in Hacc.
    destruct (State st (GetId pfrom)) as [state|] eqn:Hs; [|done].
    cbn [mbind option_bind] in Hacc.
    destruct (pnbh_pindexLast verdict) as [pindexLast|]; [|done].
    cbn [mbind option_bind] in Hacc.
    destruct (UpdateBlockAvailability _ _ _ _) as [st2|] eqn:Hu; [|done].
    cbn [mbind option_bind] in Hacc.
    pose proof (UpdateBlockAvailability_frame _ _ _ _ _ Hu) as Hf2.
    apply UpdateBlockAvailability_Inv in Hu.
    2:{ apply Inv_upd_state; [done|]. intros s. same_tracked. }
    assert (Inv2 st2) as HI22.
    { eapply Inv2_frame; [exact Hf2|]. eapply Inv2_frame; [|exact HI2].
      apply frame_upd_state. intros s. reflexivity. }
    destruct (Tip (pnbh_env verdict)) as [tip|]; [|done]. cbn [mbind option_bind] in Hacc.
    destruct (ProcessHeaders_direct_fetch _ _ _ _ _ _ _ _) as [[st4 fetch]|] eqn:Hd; [|done].
    cbn [mbind option_bind] in Hacc.
    pose proof Hd as Hd2.
    apply ProcessHeaders_direct_fetch_Inv in Hd.
    2:{ destruct (_ && _); [|done]. apply Inv_upd_state; [done|]. intros s. same_tracked. }
    apply ProcessHeaders_direct_fetch_Inv2 in Hd2.
    2:{ destruct (_ && _); [|done]. apply Inv_upd_state; [done|]. intros s. same_tracked. }
    2:{ destruct (_ && _); [|done]. eapply Inv2_frame; [|exact HI22].
        apply frame_upd_state. intros s. reflexivity. }
    destruct (ProcessHeaders_ibd_cull _ _ _ _) as [pfrom2|]; [|done].
    cbn [mbind option_bind] in Hacc.
    destruct (ProcessHeaders_protect _ _ _) as [st5|] eqn:Hp; [|done].
    cbn [mbind option_bind] in Hacc.
    injection Hacc as _ _ <- _. by eapply ProcessHeaders_protect_Inv2.
Qed.

Lemma step_Inv2 pc st st' : Inv st -> Inv2 st -> step pc st st' -> Inv2 st'.
Proof.
  intros HI HI2 Hstep.
  destruct Hstep
    as [nTime pnode addrName st Hsz
       | nodeid st r st' ev H
       | node st st' H
       | nNow h st r st' H
       | nNow nodeid h pindex_ want_pit st r pit st' Hroom H
       | env nodeid h st st' H
       | banscore pnode howmuch st
       | pnode st r pnode' st' ev H
       | env t pto st pto' st' ev H
       | env base per_header nNow nAdjusted pto st st' ev H
       | env nNow nAdjusted pto st r pto' st' H
       | env fuel nNow fFetch pto st vGetData st' H
       | env verdict banscore fuel nNow nTime nAdjusted pfrom headers punish st r pfrom'
           st' ev H
       | env cm banscore dropped pfrom c st d pfrom' st' ev H
       | pnode it p st
       | pnode f st Hf].
  - by apply InitializeNode_Inv2.
  - by eapply FinalizeNode_Inv2.
  - eapply Inv2_frame; [by eapply UpdatePreferredDownload_frame | done].
  - by eapply MarkBlockAsReceived_Inv2.
  - by eapply MarkBlockAsInFlight_Inv2.
  - eapply Inv2_frame; [by eapply UpdateBlockAvailability_frame | done].
  - eapply Inv2_frame; [apply Misbehaving_frame | done].
  - eapply Inv2_frame; [by eapply SendRejectsAndCheckIfBanned_frame | done].
  - eapply Inv2_frame; [by eapply ConsiderEviction_frame | done].
  - eapply Inv2_frame; [by eapply SendMessages_start_sync_frame | done].
  - eapply Inv2_frame; [by eapply SendMessages_headers_timeout_frame | done].
  - by eapply SendMessages_getdata_blocks_Inv2.
  - by eapply ProcessHeadersMessage_Inv2.
  - eapply Inv2_frame; [by eapply ProcessMessage_frame | done].
  - eapply Inv2_frame; [|done]. apply frame_upd_state. intros s.
    unfold queue_keys, write_partialBlock. simpl. apply list_write_partialBlock_keys.
  - eapply Inv2_frame; [|done]. apply frame_upd_state. intros s.
    by apply same_tracked_queue_keys.
Qed.

Lemma Inv2_initial : Inv2 initial_state.
Proof.
  split; [|done]. split.
  - intros peer state it entry Hs. unfold State in Hs. simpl in Hs.
    by rewrite lookup_empty in Hs.
  - intros peer state Hs. unfold State in Hs. simpl in Hs. by rewrite lookup_empty in Hs.
Qed.

Lemma reachable_Inv2 pc st : reachable pc st -> Inv2 st.
Proof.
  induction 1 as [|st st' Hreach IH Hstep]; [apply Inv2_initial|].
  eapply step_Inv2; [by eapply reachable_Inv | exact IH | exact Hstep].
Qed.

(** X15: in every state the process can reach, each queued block is
    registered in the in-flight map for the peer that queues it and at its
    list node; so a block hash is queued by at most one peer and at most once,
    and the map and the queues describe the same set of blocks in flight. *)
Theorem reachable_in_flight_unique pc st :
  reachable pc st ->
  (forall peer state it entry,
     State st peer = Some state -> (it, entry) ∈ vBlocksInFlight state ->
     mapBlocksInFlight st !! hash entry = Some (peer, it))
  /\ (forall peer1 peer2 state1 state2 it1 it2 entry1 entry2,
        State st peer1 = Some state1 -> State st peer2 = Some state2 ->
        (it1, entry1) ∈ vBlocksInFlight state1 -> (it2, entry2) ∈ vBlocksInFlight state2 ->
        hash entry1 = hash entry2 ->
        peer1 = peer2 /\ it1 = it2)
  /\ (forall peer state, State st peer = Some state ->
        NoDup (fst <$> vBlocksInFlight state)
        /\ NoDup ((fun e => hash e.2) <$> vBlocksInFlight state))
  /\ (forall h peer it,
        mapBlocksInFlight st !! h = Some (peer, it) <->
        exists state entry,
          State st peer = Some state /\ (it, entry) ∈ vBlocksInFlight state
          /\ hash entry = h).
Proof.
  intros Hreach. destruct (reachable_Inv2 _ _ Hreach) as [[R1 R2] _].
  pose proof (reachable_Inv _ _ Hreach) as HI.
  assert (forall peer1 peer2 state1 state2 it1 it2 entry1 entry2,
            State st peer1 = Some state1 -> State st peer2 = Some state2 ->
            (it1, entry1) ∈ vBlocksInFlight state1 ->
            (it2, entry2) ∈ vBlocksInFlight state2 ->
            hash entry1 = hash entry2 ->
            peer1 = peer2 /\ it1 = it2) as Huniq.
  { intros peer1 peer2 state1 state2 it1 it2 entry1 entry2 Hs1 Hs2 Hin1 Hin2 Heq.
    pose proof (R1 _ _ _ _ Hs1 Hin1) as H1. pose proof (R1 _ _ _ _ Hs2 Hin2) as H2.
    rewrite Heq, H2 in H1. by injection H1 as -> ->. }
  split; [exact R1|]. split; [exact Huniq|]. split.
  - intros peer state Hs. split; [by eapply R2|].
    pose proof (R2 _ _ Hs) as Hnd.
    assert (forall l : list (ListNode * QueuedBlock),
              (forall it1 it2 e1 e2, (it1, e1) ∈ l -> (it2, e2) ∈ l ->
                                     hash e1 = hash e2 -> it1 = it2) ->
              NoDup (fst <$> l) -> NoDup ((fun e => hash e.2) <$> l)) as Hgen.
    { clear. induction l as [|[a q] l IH]; intros Hinj Hnd; simpl; [apply NoDup_nil_2|].
      apply NoDup_cons in Hnd as [Ha Hnd]. apply NoDup_cons. split.
      - intros Hin. apply list_elem_of_fmap in Hin as ([a' q'] & Heq & Hin). simpl in Heq.
        apply Ha. apply list_elem_of_fmap. exists (a', q'). split; [|done]. simpl.
        apply (Hinj a a' q q'); [apply list_elem_of_here | by right | done].
      - apply IH; [|done]. intros it1 it2 e1 e2 H1 H2. apply Hinj; by right. }
    apply Hgen; [|done].
    intros it1 it2 e1 e2 H1 H2 Heq. by destruct (Huniq _ _ _ _ _ _ _ _ Hs Hs H1 H2 Heq).
  - intros h peer it. split.
    + intros Hin. destruct (inv_flight _ HI _ _ _ Hin) as (state & entry & Hs & Hd & Hh).
      exists state, entry. split; [done|]. split; [by apply list_deref_elem_of | done].
    + intros (state & entry & Hs & Hin & <-). by eapply R1.
Qed.

(** X16: in every state the process can reach, no more than
    [MAX_OUTBOUND_PEERS_TO_PROTECT_FROM_DISCONNECT] peers are protected from
    the chain-sync eviction, and the counter of protected peers is their
    number. *)
Theorem reachable_protect_bound pc st :
  reachable pc st ->
  g_outbound_peers_with_protect_from_disconnect st = tally is_protected (mapNodeState st)
  /\ 0 <= tally is_protected (mapNodeState st)
     <= MAX_OUTBOUND_PEERS_TO_PROTECT_FROM_DISCONNECT.
Proof.
  intros Hreach. destruct (reachable_Inv2 _ _ Hreach) as [_ Hg].
  pose proof (inv_protect _ (reachable_Inv _ _ Hreach)) as Hp.
  split; [done|]. rewrite <- Hp. split; [|done].
  rewrite Hp. apply tally_bounds.
Qed.

(** Block 4 is in flight from peer 7 while peer 8 is idle. *)
Lemma reachable_in_flight_unique_witness :
  mapBlocksInFlight ex_two_peers_downloading !! 103%N = Some (7, 1%positive).
Proof.
  destruct (reachable_in_flight_unique ex_pc ex_two_peers_downloading
              ex_two_peers_downloading_reachable) as [Hreg _].
  apply (Hreg 7 ex_row_downloading 1%positive
           {| hash := 103; pindex := Some 4%positive; fValidatedHeaders := true;
              partialBlock := None |}).
  - vm_compute. reflexivity.
  - apply list_elem_of_here.
Defined.

Lemma ex_protected_reachable : reachable ex_pc ex_protected.
Proof.
  eapply reachable_step; [apply ex_reached_1_reachable|].
  eapply (step_ProcessHeadersMessage _ (ex_env 5 3) (ex_verdict (ex_env 5 3) 5) 100 0 0 0
            1000000 (ex_peer 7) [ex_header 103 104] false).
  vm_compute. reflexivity.
Defined.

(** Peer 7 is the one protected peer. *)
Lemma reachable_protect_bound_witness :
  g_outbound_peers_with_protect_from_disconnect ex_protected = 1
  /\ tally is_protected (mapNodeState ex_protected) <= 4.
Proof.
  destruct (reachable_protect_bound ex_pc ex_protected ex_protected_reachable)
    as (_ & _ & Hle).
  split; [vm_compute; reflexivity | exact Hle].
Defined.


(** ** The negotiation of compact blocks *)

Lemma set_cmpct_flags_eta s :
  set_cmpct_flags (fProvidesHeaderAndIDs s) (fWantsCmpctWitness s) (fPreferHeaderAndIDs s)
    (fSupportsDesiredCmpctVersion s) s = s.
Proof. by destruct s. Qed.

Lemma ProcessSendCmpctMsg_row pc pfrom (fAnnounce : bool) (nVersion_ : Z) st state :
  State st (GetId pfrom) = Some state ->
  exists state',
    ProcessSendCmpctMsg pc pfrom fAnnounce nVersion_ st
    = Some (true, put_state (GetId pfrom) state' st)
    /\ state' = set_cmpct_flags (fProvidesHeaderAndIDs state') (fWantsCmpctWitness state')
                  (fPreferHeaderAndIDs state') (fSupportsDesiredCmpctVersion state') state
    /\ (sendcmpct_known_version pc pfrom (fAnnounce, nVersion_) = false -> state' = state)
    /\ (fProvidesHeaderAndIDs state = true ->
        fProvidesHeaderAndIDs state' = true
        /\ fWantsCmpctWitness state' = fWantsCmpctWitness state)
    /\ (fProvidesHeaderAndIDs state = false ->
        sendcmpct_known_version pc pfrom (fAnnounce, nVersion_) = true ->
        fProvidesHeaderAndIDs state' = true
        /\ fWantsCmpctWitness state' = (nVersion_ =? 2)
        /\ fPreferHeaderAndIDs state' = fAnnounce)
    /\ (fSupportsDesiredCmpctVersion state = true ->
        fSupportsDesiredCmpctVersion state' = true)
    /\ (fPreferHeaderAndIDs state' ≠ fPreferHeaderAndIDs state ->
        sendcmpct_known_version pc pfrom (fAnnounce, nVersion_) = true
        /\ fWantsCmpctWitness state' = (nVersion_ =? 2)
        /\ fPreferHeaderAndIDs state' = fAnnounce).
Proof.
  intros Hs. unfold ProcessSendCmpctMsg, sendcmpct_known_version. cbn [snd]. cbv zeta.
  destruct ((nVersion_ =? 1) || _) eqn:Hknown.
  2:{ exists state. rewrite (put_state_id _ _ _ Hs). split; [done|].
      split; [by rewrite set_cmpct_flags_eta|]. split; [done|]. split; [done|].
      split; [done|]. split; [done|]. done. }
  rewrite Hs. cbn [mbind option_bind]. eexists. split; [reflexivity|].
  destruct state as [a1 a2 a3 a4 a5 a6 a7 a8 a9 a10 a11 a12 a13 a14 a15 a16 a17 a18 a19 a20
                       prefers provides a23 wants supports a26 a27].
  cbn [fProvidesHeaderAndIDs fWantsCmpctWitness fPreferHeaderAndIDs
       fSupportsDesiredCmpctVersion].
  destruct provides, wants, prefers, supports, (nVersion_ =? 2), fAnnounce,
    (negb (N.land (nLocalServices pfrom) (NODE_WITNESS pc) =? 0)%N), (nVersion_ =? 1);
    cbn; repeat split; try done; try (intros; congruence).
Qed.

Lemma set_cmpct_flags_twice a b c d a' b' c' d' s :
  set_cmpct_flags a b c d (set_cmpct_flags a' b' c' d' s) = set_cmpct_flags a b c d s.
Proof. reflexivity. Qed.

(** X17: whatever [sendcmpct] messages a known peer sends, the handler
    returns and writes nothing but the four compact block flags of the row of
    that peer; the first message with a known version decides whether the
    peer wants witnesses in compact blocks, and no later message changes that
    or withdraws that the peer provides compact blocks or supports the desired
    version; messages with an unknown version change nothing. *)
Theorem ProcessSendCmpctMsg_lock_in pc pfrom msgs st state :
  State st (GetId pfrom) = Some state ->
  exists state',
    ProcessSendCmpctMsg_all pc pfrom msgs st = Some (put_state (GetId pfrom) state' st)
    /\ state' = set_cmpct_flags (fProvidesHeaderAndIDs state') (fWantsCmpctWitness state')
                  (fPreferHeaderAndIDs state') (fSupportsDesiredCmpctVersion state') state
    /\ (fProvidesHeaderAndIDs state = true ->
        fProvidesHeaderAndIDs state' = true
        /\ fWantsCmpctWitness state' = fWantsCmpctWitness state)
    /\ (fSupportsDesiredCmpctVersion state = true ->
        fSupportsDesiredCmpctVersion state' = true)
    /\ (fProvidesHeaderAndIDs state = false ->
        match List.find (sendcmpct_known_version pc pfrom) msgs with
        | Some first =>
            fProvidesHeaderAndIDs state' = true
            /\ fWantsCmpctWitness state' = (first.2 =? 2)
        | None => state' = state
        end).
Proof.
  revert st state. induction msgs as [|[fAnnounce nVersion_] rest IH]; intros st state Hs.
  { exists state. cbn. rewrite (put_state_id _ _ _ Hs), set_cmpct_flags_eta. done. }
  destruct (ProcessSendCmpctMsg_row pc pfrom fAnnounce nVersion_ st state Hs)
    as (state1 & Hm & Hshape1 & Hunknown & Hlocked & Hfirst & Hsup & _).
  destruct (IH (put_state (GetId pfrom) state1 st) state1 (State_put_state_eq _ _ _))
    as (state' & Hall & Hshape & Hlocked' & Hsup' & Hfirst').
  exists state'. cbn [ProcessSendCmpctMsg_all]. rewrite Hm. cbn [mbind option_bind].
  rewrite Hall, put_state_put_state. split; [done|].
  split. { rewrite Hshape, Hshape1 at 1. by rewrite set_cmpct_flags_twice. }
  split.
  { intros Hp. destruct (Hlocked Hp) as [Hp1 Hw1]. destruct (Hlocked' Hp1) as [Hp2 Hw2].
    split; congruence. }
  split; [intros Hsp; by apply Hsup', Hsup|].
  intros Hp. cbn [List.find].
  destruct (sendcmpct_known_version pc pfrom (fAnnounce, nVersion_)) eqn:Hknown.
  - destruct (Hfirst Hp eq_refl) as (Hp1 & Hw1 & _).
    destruct (Hlocked' Hp1) as [Hp2 Hw2]. split; [done|]. cbn [snd]. congruence.
  - rewrite (Hunknown eq_refl) in *. by apply Hfirst'.
Qed.

(** A peer of a witness node first announces version 2 and then version 1:
    it still wants witnesses. *)
Lemma ProcessSendCmpctMsg_lock_in_witness :
  exists state',
    ProcessSendCmpctMsg_all ex_pc (ex_peer 7) [(true, 2); (false, 1)] (ex_table 7 ex_row)
    = Some (put_state 7 state' (ex_table 7 ex_row))
    /\ fProvidesHeaderAndIDs state' = true
    /\ fWantsCmpctWitness state' = true.
Proof.
  destruct (ProcessSendCmpctMsg_lock_in ex_pc (ex_peer 7) [(true, 2); (false, 1)]
              (ex_table 7 ex_row) ex_row) as (state' & H1 & _ & _ & _ & H5); [reflexivity|].
  exists state'. split; [exact H1|]. exact (H5 eq_refl).
Defined.


(** ** The peers asked to announce with compact blocks *)

Lemma existsb_eqb_elem_of (x : Z) l : existsb (Z.eqb x) l = true <-> x ∈ l.
Proof.
  induction l as [|a l IH]; simpl.
  - split; [done | by intros ?%elem_of_nil].
  - rewrite orb_true_iff, IH, elem_of_cons.
    split; (intros [H|H]; [left | by right]); [by apply Z.eqb_eq in H | by apply Z.eqb_eq].
Qed.

Lemma list_erase_first_spec nodeid l :
  nodeid ∈ l -> NoDup l ->
  length (list_erase_first nodeid l) = pred (length l)
  /\ NoDup (list_erase_first nodeid l)
  /\ (nodeid ∉ list_erase_first nodeid l)
  /\ (forall x, x ∈ l <-> x = nodeid \/ x ∈ list_erase_first nodeid l).
Proof.
  induction l as [|a l IH]; simpl; [by intros ?%elem_of_nil|].
  intros Hin [Ha Hnd]%NoDup_cons.
  destruct (Z.eqb_spec a nodeid) as [->|Hne].
  - split; [done|]. split; [done|]. split; [done|]. intros x. by rewrite elem_of_cons.
  - apply elem_of_cons in Hin as [?|Hin]; [congruence|].
    destruct (IH Hin Hnd) as (Hl & Hn & Hnot & Hel).
    split. { simpl. rewrite Hl. destruct l; [by apply elem_of_nil in Hin | done]. }
    split. { apply NoDup_cons. split; [|done]. intros Hc. apply Ha. apply Hel. by right. }
    split. { intros [?|?]%elem_of_cons; [congruence | done]. }
    intros x. rewrite !elem_of_cons, Hel. tauto.
Qed.

Lemma MaybeSetPeerAsAnnouncingHeaderAndIDs_step pc ForNode nodeid l st :
  (forall id n, ForNode id = Some n -> GetId n = id) ->
  (length l <= 3)%nat -> NoDup l ->
  let r := MaybeSetPeerAsAnnouncingHeaderAndIDs pc ForNode nodeid l st in
  (length r.1 <= 3)%nat /\ NoDup r.1
  /\ (forall x, x ∈ r.1 -> x ∈ l \/ x = nodeid)
  /\ (forall x, x ∈ l -> x ∈ r.1 \/ head l = Some x /\ length l = 3%nat /\ (nodeid ∉ l))
  /\ (r = (l, [])
      \/ last r.1 = Some nodeid
         /\ exists nodestate,
              State st nodeid = Some nodestate
              /\ fSupportsDesiredCmpctVersion nodestate = true
              /\ fProvidesHeaderAndIDs nodestate = true)
  /\ (forall e, e ∈ r.2 ->
        (nodeid ∉ l)
        /\ exists pnode v,
             e = PushMessage (GetId pnode) (nSendVersion pnode)
                   (SENDCMPCT (bool_decide (GetId pnode = nodeid)) v)
             /\ (GetId pnode = nodeid
                 \/ head l = Some (GetId pnode) /\ length l = 3%nat)).
Proof.
  intros Hcons Hlen Hnd. unfold MaybeSetPeerAsAnnouncingHeaderAndIDs.
  assert (forall r : list NodeId * list Event, r = (l, []) ->
            (length r.1 <= 3)%nat /\ NoDup r.1
            /\ (forall x, x ∈ r.1 -> x ∈ l \/ x = nodeid)
            /\ (forall x, x ∈ l ->
                  x ∈ r.1 \/ head l = Some x /\ length l = 3%nat /\ (nodeid ∉ l))
            /\ (r = (l, [])
                \/ last r.1 = Some nodeid
                   /\ exists nodestate,
                        State st nodeid = Some nodestate
                        /\ fSupportsDesiredCmpctVersion nodestate = true
                        /\ fProvidesHeaderAndIDs nodestate = true)
            /\ (forall e, e ∈ r.2 ->
                  (nodeid ∉ l)
                  /\ exists pnode v,
                       e = PushMessage (GetId pnode) (nSendVersion pnode)
                             (SENDCMPCT (bool_decide (GetId pnode = nodeid)) v)
                       /\ (GetId pnode = nodeid
                           \/ head l = Some (GetId pnode) /\ length l = 3%nat))) as Hsame.
  { intros r ->. simpl. split; [done|]. split; [done|]. split; [by left|].
    split; [by left|]. split; [by left|]. by intros e ?%elem_of_nil. }
  destruct (State st nodeid) as [nodestate|] eqn:Hs; [|by apply Hsame].
  destruct (fSupportsDesiredCmpctVersion nodestate) eqn:Hsup; cbn [negb]; [|by apply Hsame].
  destruct (fProvidesHeaderAndIDs nodestate) eqn:Hprov; [|by apply Hsame].
  destruct (existsb (Z.eqb nodeid) l) eqn:Hex.
  - apply existsb_eqb_elem_of in Hex.
    destruct (list_erase_first_spec nodeid l Hex Hnd) as (Hl & Hn & Hnot & Hel).
    cbn [fst snd]. split.
    { rewrite length_app, Hl. simpl. destruct l; [by apply elem_of_nil in Hex|].
      simpl in *. lia. }
    split. { apply NoDup_app. split; [done|]. split; [|apply NoDup_singleton].
             intros x Hx ->%list_elem_of_singleton. done. }
    split. { intros x [Hx|Hx%list_elem_of_singleton]%elem_of_app; [|by right].
             left. apply Hel. by right. }
    split. { intros x Hx. left. apply Hel in Hx as [->|Hx]; apply elem_of_app;
               [right; by apply list_elem_of_singleton | by left]. }
    split. { right. split; [apply last_snoc | by exists nodestate]. }
    by intros e ?%elem_of_nil.
  - assert (nodeid ∉ l) as Hnotin.
    { intros Hin%existsb_eqb_elem_of. congruence. }
    destruct (ForNode nodeid) as [pfrom|] eqn:Hfor; [|by apply Hsame].
    pose proof (Hcons _ _ Hfor) as Hid. clear Hsame.
    destruct (Z.leb_spec 3 (Z.of_nat (length l))) as [Hfull|Hroom].
    + assert (length l = 3%nat) as Hthree by lia.
      destruct l as [|front rest]; [done|]. cbn [head tail fst snd mbind option_bind].
      apply NoDup_cons in Hnd as [Hfront Hrest].
      rewrite Hid. split; [rewrite length_app; simpl in *; lia|].
      split. { apply NoDup_app. split; [done|]. split; [|apply NoDup_singleton].
               intros x Hx ->%list_elem_of_singleton. apply Hnotin. by right. }
      split. { intros x [Hx|Hx%list_elem_of_singleton]%elem_of_app; [|by right].
               left. by right. }
      split. { intros x [->|Hx]%elem_of_cons; [by right|]. left. apply elem_of_app. by left. }
      split. { right. split; [apply last_snoc | by exists nodestate]. }
      intros e He. split; [done|]. apply elem_of_app in He as [He|He].
      * destruct (ForNode front) as [pnodeStop|] eqn:Hstop; [|by apply elem_of_nil in He].
        apply list_elem_of_singleton in He. subst e.
        pose proof (Hcons _ _ Hstop) as Hid'. eexists pnodeStop, _.
        rewrite bool_decide_false; [|rewrite Hid'; intros ->; apply Hnotin; by left].
        split; [reflexivity|]. right. by rewrite Hid'.
      * apply list_elem_of_singleton in He. subst e. eexists pfrom, _.
        rewrite Hid, bool_decide_true by done. split; [reflexivity|]. by left.
    + cbn [fst snd]. rewrite Hid. split; [rewrite length_app; simpl; lia|].
      split. { apply NoDup_app. split; [done|]. split; [|apply NoDup_singleton].
               intros x Hx ->%list_elem_of_singleton. done. }
      split. { intros x [Hx|Hx%list_elem_of_singleton]%elem_of_app; [by left | by right]. }
      split. { intros x Hx. left. apply elem_of_app. by left. }
      split. { right. split; [apply last_snoc | by exists nodestate]. }
      intros e He. split; [done|]. simpl in He.
      apply list_elem_of_singleton in He. subst e. eexists pfrom, _.
      rewrite Hid, bool_decide_true by done. split; [reflexivity|]. by left.
Qed.

Lemma announcers_bounded pc ForNode l :
  (forall id n, ForNode id = Some n -> GetId n = id) ->
  announcers pc ForNode l -> (length l <= 3)%nat /\ NoDup l.
Proof.
  intros Hcons. induction 1 as [|nodeid l st Hl [IH1 IH2]].
  - split; [simpl; lia | apply NoDup_nil_2].
  - destruct (MaybeSetPeerAsAnnouncingHeaderAndIDs_step pc ForNode nodeid l st Hcons IH1 IH2)
      as (H1 & H2 & _). done.
Qed.

(** X18: the list of peers asked to announce blocks with compact blocks never
    holds more than three peers nor a peer twice; a call of
    [MaybeSetPeerAsAnnouncingHeaderAndIDs] drops at most the peer at the front
    of a full list, and only to add a peer that was not in the list; it
    changes the list only for a known peer that supports the desired version
    and provides compact blocks, and that peer is then the last of the list;
    and it sends [sendcmpct] only when it adds a peer: one to that peer to
    turn the announcements on, and one to the dropped peer to turn them off. *)
Theorem MaybeSetPeerAsAnnouncingHeaderAndIDs_bounded pc ForNode nodeid l st :
  (forall id n, ForNode id = Some n -> GetId n = id) ->
  announcers pc ForNode l ->
  let r := MaybeSetPeerAsAnnouncingHeaderAndIDs pc ForNode nodeid l st in
  (length l <= 3)%nat /\ NoDup l
  /\ (length r.1 <= 3)%nat /\ NoDup r.1
  /\ (forall x, x ∈ r.1 -> x ∈ l \/ x = nodeid)
  /\ (forall x, x ∈ l -> x ∈ r.1 \/ head l = Some x /\ length l = 3%nat /\ (nodeid ∉ l))
  /\ (r = (l, [])
      \/ last r.1 = Some nodeid
         /\ exists nodestate,
              State st nodeid = Some nodestate
              /\ fSupportsDesiredCmpctVersion nodestate = true
              /\ fProvidesHeaderAndIDs nodestate = true)
  /\ (forall e, e ∈ r.2 ->
        (nodeid ∉ l)
        /\ exists pnode v,
             e = PushMessage (GetId pnode) (nSendVersion pnode)
                   (SENDCMPCT (bool_decide (GetId pnode = nodeid)) v)
             /\ (GetId pnode = nodeid
                 \/ head l = Some (GetId pnode) /\ length l = 3%nat)).
Proof.
  intros Hcons Hl. destruct (announcers_bounded pc ForNode l Hcons Hl) as [Hlen Hnd].
  split; [done|]. split; [done|].
  by apply MaybeSetPeerAsAnnouncingHeaderAndIDs_step.
Qed.

(** Peers 1, 2 and 3 announce with compact blocks when peer 4 delivers the
    best block: peer 1 is told to stop and peer 4 takes the last place. *)
Lemma MaybeSetPeerAsAnnouncingHeaderAndIDs_bounded_witness :
  MaybeSetPeerAsAnnouncingHeaderAndIDs ex_pc ex_ForNode 4 [1; 2; 3] (ex_table 4 ex_row_cmpct)
  = ([2; 3; 4],
     [PushMessage 1 70015 (SENDCMPCT false 2); PushMessage 4 70015 (SENDCMPCT true 2)])
  /\ (length [2; 3; 4] <= 3)%nat.
Proof.
  assert (announcers ex_pc ex_ForNode [1; 2; 3]) as Hl.
  { exact (announcers_call ex_pc ex_ForNode 3 _ (ex_table 3 ex_row_cmpct)
             (announcers_call ex_pc ex_ForNode 2 _ (ex_table 2 ex_row_cmpct)
                (announcers_call ex_pc ex_ForNode 1 _ (ex_table 1 ex_row_cmpct)
                   (announcers_nil ex_pc ex_ForNode)))). }
  destruct (MaybeSetPeerAsAnnouncingHeaderAndIDs_bounded ex_pc ex_ForNode 4 [1; 2; 3]
              (ex_table 4 ex_row_cmpct)) as (_ & _ & Hlen & _).
  - intros id n [= <-]. reflexivity.
  - exact Hl.
  - split; [reflexivity | exact Hlen].
Defined.


(** ** Rejected blocks *)

(** X19: when [BlockChecked] reports an invalid block whose source is a
    known peer, with a reject code between 0 and [REJECT_INTERNAL], it forgets
    the source of the block, leaves the in-flight map, the other peers and the
    list of compact block announcers alone, and adds the misbehaviour score of
    the block to the peer exactly when the source is to be punished; the next
    [SendRejectsAndCheckIfBanned] for the peer then sends the rejects recorded
    before, followed by the reject of this block, followed at most by a ban;
    and after it nothing is left to send, and a second notification for the
    same block changes nothing. *)
Theorem BlockChecked_reject_delivered pc env ForNode banscore REJECT_INTERNAL
    MAX_REJECT_MESSAGE_LENGTH h vstate (mapBlockSource : gmap uint256 (NodeId * bool))
    l st pnode state (punish : bool) :
  State st (GetId pnode) = Some state ->
  mapBlockSource !! h = Some (GetId pnode, punish) ->
  vs_IsInvalid vstate = true ->
  0 < vs_GetRejectCode vstate < REJECT_INTERNAL ->
  exists st' state',
    BlockChecked pc env ForNode banscore REJECT_INTERNAL MAX_REJECT_MESSAGE_LENGTH h vstate
      mapBlockSource l st
    = (delete h mapBlockSource, l, st', [])
    /\ State st' (GetId pnode) = Some state'
    /\ (forall other, other ≠ GetId pnode -> State st' other = State st other)
    /\ mapBlocksInFlight st' = mapBlocksInFlight st
    /\ nMisbehavior state'
       = (if (0 <? vs_nDoS vstate) && punish
          then wrap32 (nMisbehavior state + vs_nDoS vstate) else nMisbehavior state)
    /\ (exists pnode' st'' ban,
          SendRejectsAndCheckIfBanned pc pnode st'
          = Some (fShouldBan state', pnode', st'',
                  (reject_message pc pnode <$> rejects state)
                  ++ [PushMessage (GetId pnode) (INIT_PROTO_VERSION pc)
                        (REJECT "block" (vs_GetRejectCode vstate mod 256)
                           (String.substring 0 MAX_REJECT_MESSAGE_LENGTH
                              (vs_GetRejectReason vstate)) (Some h))]
                  ++ ban)
          /\ (ban = [] \/ ban = [Ban (addr pnode)])
          /\ SendRejectsAndCheckIfBanned pc pnode st'' = Some (false, pnode, st'', []))
    /\ BlockChecked pc env ForNode banscore REJECT_INTERNAL MAX_REJECT_MESSAGE_LENGTH h vstate
         (delete h mapBlockSource) l st'
       = (delete h mapBlockSource, l, st', []).
Proof.
  intros Hs Hsrc Hinv [Hpos Hint].
  set (reject := {| chRejectCode := vs_GetRejectCode vstate mod 256;
                    strRejectReason := String.substring 0 MAX_REJECT_MESSAGE_LENGTH
                                         (vs_GetRejectReason vstate);
                    hashBlock := h |}).
  set (row1 := set_rejects (rejects state ++ [reject]) state).
  set (st1 := put_state (GetId pnode) row1 st).
  set (st' := if (0 <? vs_nDoS vstate) && punish
              then Misbehaving banscore (GetId pnode) (vs_nDoS vstate) st1 else st1).
  assert (BlockChecked pc env ForNode banscore REJECT_INTERNAL MAX_REJECT_MESSAGE_LENGTH h
            vstate mapBlockSource l st = (delete h mapBlockSource, l, st', [])) as Hcall.
  { unfold BlockChecked. rewrite Hsrc, Hinv, Hs. cbv zeta.
    rewrite bool_decide_true by (by eexists).
    apply Z.ltb_lt in Hpos, Hint. rewrite Hpos, Hint. cbn [andb].
    rewrite (upd_state_put _ _ _ _ Hs). reflexivity. }
  assert (exists state',
             State st' (GetId pnode) = Some state'
             /\ rejects state' = rejects state ++ [reject]
             /\ nMisbehavior state'
                = (if (0 <? vs_nDoS vstate) && punish
                   then wrap32 (nMisbehavior state + vs_nDoS vstate)
                   else nMisbehavior state)) as (state' & Hs' & Hrej & Hmis).
  { unfold st'. destruct (Z.ltb_spec 0 (vs_nDoS vstate)) as [Hd|Hd]; cbn [andb].
    - destruct punish.
      + rewrite (Misbehaving_State _ _ _ _ row1) by (apply State_put_state_eq || lia).
        eexists. split; [reflexivity|]. cbv zeta. cbn [andb].
        by destruct ((banscore <=? _) && _).
      + exists row1. split; [apply State_put_state_eq | done].
    - exists row1. split; [apply State_put_state_eq | done]. }
  assert (forall other, other ≠ GetId pnode -> State st' other = State st other) as Hother.
  { intros other Hne. unfold st'. destruct (_ && _).
    - rewrite Misbehaving_State_ne by done. by apply State_put_state_ne.
    - by apply State_put_state_ne. }
  assert (mapBlocksInFlight st' = mapBlocksInFlight st) as Hmap.
  { unfold st'. destruct (_ && _); [|done].
    by destruct (Misbehaving_frame banscore (GetId pnode) (vs_nDoS vstate) st1) as [-> _]. }
  exists st', state'. split; [exact Hcall|]. split; [exact Hs'|]. split; [exact Hother|].
  split; [exact Hmap|]. split; [exact Hmis|]. split.
  - assert (exists pnode' st'' ban,
               SendRejectsAndCheckIfBanned pc pnode st'
               = Some (fShouldBan state', pnode', st'',
                       (reject_message pc pnode <$> rejects state')
                       ++ ban)
               /\ (ban = [] \/ ban = [Ban (addr pnode)])
               /\ State st'' (GetId pnode)
                  = Some (set_fShouldBan false (set_rejects [] state')))
      as (pnode' & st'' & ban & Hsend & Hban & Hs'').
    { unfold SendRejectsAndCheckIfBanned. rewrite Hs'. cbn [mbind option_bind]. cbv zeta.
      fold (reject_message pc pnode).
      destruct (fShouldBan state') eqn:Hb.
      - destruct (fWhitelisted pnode); [|destruct (m_manual_connection pnode);
                                         [|destruct (addr_IsLocal (addr pnode))]].
        + eexists _, _, []. rewrite app_nil_r. split; [reflexivity|]. split; [by left|].
          apply State_put_state_eq.
        + eexists _, _, []. rewrite app_nil_r. split; [reflexivity|]. split; [by left|].
          apply State_put_state_eq.
        + eexists _, _, []. rewrite app_nil_r. split; [reflexivity|]. split; [by left|].
          apply State_put_state_eq.
        + eexists _, _, [_]. split; [reflexivity|]. split; [by right|].
          apply State_put_state_eq.
      - eexists _, _, []. rewrite app_nil_r. split; [reflexivity|]. split; [by left|].
        rewrite State_put_state_eq. f_equal. destruct state'; simpl in *; by subst. }
    exists pnode', st'', ban. rewrite Hsend, Hrej, fmap_app, <- app_assoc.
    split; [reflexivity|]. split; [exact Hban|].
    by apply (SendRejectsAndCheckIfBanned_quiet pc pnode st'' _ Hs'').
  - unfold BlockChecked. rewrite lookup_delete_eq, Hinv. cbv zeta.
    by rewrite delete_delete_eq.
Qed.

(** Peer 7 delivered the invalid block 105. *)
Lemma BlockChecked_reject_delivered_witness :
  exists st' state' pnode' st'' ban,
    BlockChecked ex_pc (ex_env 3 3) ex_ForNode 100 256 111 105 ex_invalid
      {[105%N := (7, true)]} [] (ex_table 7 ex_row)
    = (delete 105%N {[105%N := (7, true)]}, [], st', [])
    /\ State st' 7 = Some state'
    /\ nMisbehavior state' = 100
    /\ SendRejectsAndCheckIfBanned ex_pc (ex_peer 7) st'
       = Some (fShouldBan state', pnode', st'',
               [PushMessage 7 209 (REJECT "block" 16 "bad-blk" (Some 105%N))] ++ ban).
Proof.
  destruct (BlockChecked_reject_delivered ex_pc (ex_env 3 3) ex_ForNode 100 256 111 105
              ex_invalid {[105%N := (7, true)]} [] (ex_table 7 ex_row) (ex_peer 7) ex_row true)
    as (st' & state' & H1 & H2 & _ & _ & H5 & (pnode' & st'' & ban & H6 & _) & _).
  - reflexivity.
  - reflexivity.
  - reflexivity.
  - simpl. lia.
  - exists st', state', pnode', st'', ban. split; [exact H1|]. split; [exact H2|].
    split; [exact H5|]. exact H6.
Defined.


(** ** Announcing a block with a compact block *)

Lemma ProcessBlockAvailability_row_sent env x s :
  ProcessBlockAvailability_row env (set_pindexBestHeaderSent x s)
  = set_pindexBestHeaderSent x (ProcessBlockAvailability_row env s).
Proof.
  unfold ProcessBlockAvailability_row, replaces_best. simpl.
  repeat match goal with
         | |- context [if ?b then _ else _] => destruct b
         | |- context [match ?y with _ => _ end] => destruct y
         end; reflexivity.
Qed.

Lemma RelayCmpctBlock_row_stable env p fW s0 s b :
  GetAncestor env p (nHeight (blk env p)) = Some p ->
  RelayCmpctBlock_row env p fW s0 = Some (s, b) ->
  RelayCmpctBlock_row env p fW s = Some (s, false)
  /\ queue_keys s = queue_keys s0
  /\ (b = true ->
      pindexBestHeaderSent s = Some p
      /\ fPreferHeaderAndIDs s = true
      /\ (fW = true -> fWantsCmpctWitness s = true)
      /\ PeerHasHeader env (ProcessBlockAvailability_row env s0) (Some p) = Some false
      /\ PeerHasHeader env (ProcessBlockAvailability_row env s0) (pprev (blk env p))
         = Some true
      /\ PeerHasHeader env s (Some p) = Some true).
Proof.
  intros Hself H. unfold RelayCmpctBlock_row in H. cbv zeta in H.
  pose proof (ProcessBlockAvailability_row_idem env s0) as Hidem.
  pose proof (ProcessBlockAvailability_row_keys env s0) as Hkeys.
  set (s1 := ProcessBlockAvailability_row env s0) in *.
  assert (forall b', Some (s1, false) = Some (s, b') ->
            RelayCmpctBlock_row env p fW s1 = RelayCmpctBlock_row env p fW s0 ->
            RelayCmpctBlock_row env p fW s0 = Some (s1, false) ->
            RelayCmpctBlock_row env p fW s = Some (s, false)
            /\ queue_keys s = queue_keys s0 /\ b' = false) as Hsame.
  { intros b' [= <- <-] Heq Hval. rewrite Heq, Hval. done. }
  assert (RelayCmpctBlock_row env p fW s1 = RelayCmpctBlock_row env p fW s0) as Heq.
  { unfold RelayCmpctBlock_row. cbv zeta. fold s1. by rewrite Hidem. }
  assert (RelayCmpctBlock_row env p fW s0
          = if fPreferHeaderAndIDs s1 && (negb fW || fWantsCmpctWitness s1) then
              PeerHasHeader env s1 (Some p) ≫= fun has =>
              if negb has then
                PeerHasHeader env s1 (pprev (blk env p)) ≫= fun has_prev =>
                if has_prev : bool
                then Some (set_pindexBestHeaderSent (Some p) s1, true)
                else Some (s1, false)
              else Some (s1, false)
            else Some (s1, false)) as Hval by reflexivity.
  destruct (fPreferHeaderAndIDs s1) eqn:Hpref; cbn [andb] in H, Hval.
  2:{ destruct (Hsame b H Heq Hval) as (? & ? & ->). done. }
  destruct (negb fW || fWantsCmpctWitness s1) eqn:Hwit.
  2:{ destruct (Hsame b H Heq Hval) as (? & ? & ->). done. }
  destruct (PeerHasHeader env s1 (Some p)) as [has|] eqn:Hhas; [|done].
  cbn [mbind option_bind] in H, Hval.
  destruct has; cbn [negb] in H, Hval.
  { destruct (Hsame b H Heq Hval) as (? & ? & ->). done. }
  destruct (PeerHasHeader env s1 (pprev (blk env p))) as [has_prev|] eqn:Hprev; [|done].
  cbn [mbind option_bind] in H, Hval.
  destruct has_prev.
  2:{ destruct (Hsame b H Heq Hval) as (? & ? & ->). done. }
  injection H as <- <-. clear Hsame Hval Heq.
  assert (PeerHasHeader env (set_pindexBestHeaderSent (Some p) s1) (Some p) = Some true)
    as Hnow.
  { unfold PeerHasHeader in Hhas |- *.
    change (pindexBestKnownBlock (set_pindexBestHeaderSent (Some p) s1))
      with (pindexBestKnownBlock s1).
    destruct (match pindexBestKnownBlock s1 with Some _ => _ | None => _ end)
      as [known|]; [|done].
    cbn [mbind option_bind] in Hhas |- *. destruct known; [done|].
    cbn [pindexBestHeaderSent set_pindexBestHeaderSent mbind option_bind].
    by rewrite bool_decide_true. }
  split.
  - unfold RelayCmpctBlock_row. cbv zeta.
    rewrite ProcessBlockAvailability_row_sent. fold s1. rewrite Hidem.
    change (fPreferHeaderAndIDs (set_pindexBestHeaderSent (Some p) s1))
      with (fPreferHeaderAndIDs s1).
    change (fWantsCmpctWitness (set_pindexBestHeaderSent (Some p) s1))
      with (fWantsCmpctWitness s1).
    rewrite Hpref, Hwit. cbn [andb]. rewrite Hnow. reflexivity.
  - split; [exact Hkeys|]. intros _. split; [done|]. split; [done|].
    split. { intros ->. exact Hwit. }
    done.
Qed.

Lemma RelayCmpctBlock_nodes_pass pc env V p fW nodes st st' ev :
  GetAncestor env p (nHeight (blk env p)) = Some p ->
  RelayCmpctBlock_nodes pc env V p fW nodes st = Some (st', ev) ->
  frame st st'
  /\ (forall id row,
        State st id = Some row -> RelayCmpctBlock_row env p fW row = Some (row, false) ->
        State st' id = Some row /\ forall e, e ∈ ev -> relay_target e ≠ id)
  /\ (forall pnode,
        pnode ∈ nodes -> relay_visits V pnode = true ->
        exists row,
          State st' (GetId pnode) = Some row
          /\ RelayCmpctBlock_row env p fW row = Some (row, false))
  /\ (forall e, e ∈ ev ->
        exists pnode row0 row,
          pnode ∈ nodes /\ relay_visits V pnode = true
          /\ e = PushCmpctBlock (GetId pnode) (PROTOCOL_VERSION pc) (phashBlock (blk env p))
          /\ State st (GetId pnode) = Some row0
          /\ RelayCmpctBlock_row env p fW row0 = Some (row, true)
          /\ State st' (GetId pnode) = Some row)
  /\ NoDup (relay_target <$> ev).
Proof.
  intros Hself. revert st st' ev.
  induction nodes as [|pnode rest IH]; intros st st' ev H; simpl in H.
  { injection H as <- <-. split; [apply frame_refl|].
    split. { intros id row Hs _. split; [done|]. by intros e ?%elem_of_nil. }
    split; [by intros pnode ?%elem_of_nil|].
    split; [by intros e ?%elem_of_nil|]. apply NoDup_nil_2. }
  destruct ((nVersion pnode <? V) || fDisconnect pnode) eqn:Hskip.
  { destruct (IH _ _ _ H) as (Hf & Hst & Hvis & Hev & Hnd).
    split; [done|]. split; [done|].
    split. { intros q [->|Hq]%elem_of_cons Hv; [|by apply Hvis].
             unfold relay_visits in Hv. by rewrite Hskip in Hv. }
    split; [|done].
    intros e He. destruct (Hev e He) as (q & row0 & row & Hq & Hrest).
    exists q, row0, row. split; [by right | done]. }
  destruct (State st (GetId pnode)) as [state0|] eqn:Hs0; [|done].
  cbn [mbind option_bind] in H.
  destruct (RelayCmpctBlock_row env p fW state0) as [[state sent]|] eqn:Hrow; [|done].
  cbn [mbind option_bind] in H.
  destruct (RelayCmpctBlock_nodes _ _ _ _ _ rest _) as [[st1 ev1]|] eqn:Hrest; [|done].
  cbn [mbind option_bind] in H. injection H as <- <-.
  destruct (RelayCmpctBlock_row_stable _ _ _ _ _ _ Hself Hrow) as (Hstable & Hkeys & Hsent).
  destruct (IH _ _ _ Hrest) as (Hf & Hst & Hvis & Hev & Hnd).
  destruct (Hst (GetId pnode) state (State_put_state_eq _ _ _) Hstable) as [Hkeep Hquiet].
  assert (forall id row,
            State st id = Some row -> RelayCmpctBlock_row env p fW row = Some (row, false) ->
            State (put_state (GetId pnode) state st) id = Some row /\ id ≠ GetId pnode
            \/ id = GetId pnode /\ row = state0 /\ state = state0 /\ sent = false) as Hcase.
  { intros id row Hs Hrs. destruct (decide (id = GetId pnode)) as [->|Hne].
    - right. rewrite Hs0 in Hs. injection Hs as ->. rewrite Hrow in Hrs.
      by injection Hrs as -> ->.
    - left. split; [|done]. by rewrite State_put_state_ne. }
  split. { eapply frame_trans; [|exact Hf]. by eapply frame_put_state. }
  split.
  { intros id row Hs Hrs. destruct (Hcase id row Hs Hrs) as [[Hs1 Hne]|(-> & -> & -> & ->)].
    - destruct (Hst id row Hs1 Hrs) as [Hk Hq]. split; [done|].
      intros e He. destruct sent; [|by apply Hq].
      apply elem_of_cons in He as [->|He]; [simpl; congruence | by apply Hq].
    - split; [done|]. intros e He. by apply Hquiet. }
  split.
  { intros q [->|Hq]%elem_of_cons Hv; [by exists state | by apply Hvis]. }
  split.
  { intros e He.
    assert (e ∈ ev1 ->
            exists q row0 row,
              q ∈ pnode :: rest /\ relay_visits V q = true
              /\ e = PushCmpctBlock (GetId q) (PROTOCOL_VERSION pc) (phashBlock (blk env p))
              /\ State st (GetId q) = Some row0
              /\ RelayCmpctBlock_row env p fW row0 = Some (row, true)
              /\ State st1 (GetId q) = Some row) as Hold.
    { intros He1. destruct (Hev e He1) as (q & row0 & row & Hq & Hv & -> & Hs & Hr & Hs').
      exists q, row0, row. split; [by right|]. split; [done|]. split; [done|].
      split; [|done]. destruct (decide (GetId q = GetId pnode)) as [Heq|Hne].
      - rewrite Heq, State_put_state_eq in Hs. injection Hs as <-.
        rewrite Hstable in Hr. done.
      - by rewrite State_put_state_ne in Hs. }
    destruct sent; [|by apply Hold].
    apply elem_of_cons in He as [->|He]; [|by apply Hold].
    exists pnode, state0, state. split; [by left|].
    split; [unfold relay_visits; by rewrite Hskip|]. done. }
  destruct sent; [|done]. simpl. apply NoDup_cons. split; [|done].
  intros Hin. apply list_elem_of_fmap in Hin as (e & Heq & He).
  by apply (Hquiet e He).
Qed.

Lemma RelayCmpctBlock_nodes_settled pc env V p fW nodes st :
  (forall pnode,
     pnode ∈ nodes -> relay_visits V pnode = true ->
     exists row,
       State st (GetId pnode) = Some row
       /\ RelayCmpctBlock_row env p fW row = Some (row, false)) ->
  RelayCmpctBlock_nodes pc env V p fW nodes st = Some (st, []).
Proof.
  induction nodes as [|pnode rest IH]; intros Hall; simpl; [done|].
  destruct ((nVersion pnode <? V) || fDisconnect pnode) eqn:Hskip.
  { apply IH. intros q Hq. apply Hall. by right. }
  destruct (Hall pnode) as (row & Hs & Hr);
    [by left | unfold relay_visits; by rewrite Hskip|].
  rewrite Hs. cbn [mbind option_bind]. rewrite Hr. cbn [mbind option_bind].
  rewrite (put_state_id _ _ _ Hs), IH; [done|].
  intros q Hq. apply Hall. by right.
Qed.

(** X20: [RelayCmpctBlock] sends a block to a peer at most once: it sends
    only to visited peers that prefer compact blocks (and want witnesses when
    they are enabled), were not known to have the header of the block and were
    known to have that of its parent, and to each of them once; it records the
    block as the best header sent to them, so that they are then known to have
    it, and a second call for the same block sends nothing and changes
    nothing; the in-flight map and the queues are not written. *)
Theorem RelayCmpctBlock_announces_once pc env V p fW nodes st st' ev :
  GetAncestor env p (nHeight (blk env p)) = Some p ->
  RelayCmpctBlock pc env V (Some p) true true fW nodes st = Some (true, st', ev) ->
  (forall e, e ∈ ev ->
     exists pnode row0 row,
       pnode ∈ nodes /\ relay_visits V pnode = true
       /\ e = PushCmpctBlock (GetId pnode) (PROTOCOL_VERSION pc) (phashBlock (blk env p))
       /\ State st (GetId pnode) = Some row0
       /\ State st' (GetId pnode) = Some row
       /\ fPreferHeaderAndIDs row = true
       /\ (fW = true -> fWantsCmpctWitness row = true)
       /\ PeerHasHeader env (ProcessBlockAvailability_row env row0) (Some p) = Some false
       /\ PeerHasHeader env (ProcessBlockAvailability_row env row0) (pprev (blk env p))
          = Some true
       /\ pindexBestHeaderSent row = Some p
       /\ PeerHasHeader env row (Some p) = Some true)
  /\ NoDup (relay_target <$> ev)
  /\ frame st st'
  /\ RelayCmpctBlock pc env V (Some p) true true fW nodes st' = Some (true, st', []).
Proof.
  intros Hself H. unfold RelayCmpctBlock in H |- *. cbn [andb] in H |- *.
  destruct (RelayCmpctBlock_nodes pc env V p fW nodes st) as [[st1 ev1]|] eqn:Hpass; [|done].
  cbn [mbind option_bind] in H. injection H as <- <-.
  destruct (RelayCmpctBlock_nodes_pass _ _ _ _ _ _ _ _ _ Hself Hpass)
    as (Hf & _ & Hvis & Hev & Hnd).
  split.
  { intros e He. destruct (Hev e He) as (pnode & row0 & row & Hin & Hv & -> & Hs & Hr & Hs').
    destruct (RelayCmpctBlock_row_stable _ _ _ _ _ _ Hself Hr)
      as (_ & _ & Hsent). destruct (Hsent eq_refl) as (H1 & H2 & H3 & H4 & H5 & H6).
    exists pnode, row0, row. done. }
  split; [done|]. split; [done|].
  by rewrite (RelayCmpctBlock_nodes_settled _ _ _ _ _ _ _ Hvis).
Qed.

(** Peer 7 knows block 4 and prefers compact blocks when block 5 is relayed
    twice. *)
Lemma RelayCmpctBlock_announces_once_witness :
  exists st',
    RelayCmpctBlock ex_pc (ex_env 5 5) 70015 (Some 5%positive) true true false [ex_peer 7]
      (ex_table 7 (set_fPreferHeaderAndIDs true
                     (set_pindexBestKnownBlock (Some 4%positive) ex_row)))
    = Some (true, st', [PushCmpctBlock 7 70015 104])
    /\ RelayCmpctBlock ex_pc (ex_env 5 5) 70015 (Some 5%positive) true true false [ex_peer 7] st'
       = Some (true, st', []).
Proof.
  destruct (RelayCmpctBlock ex_pc (ex_env 5 5) 70015 (Some 5%positive) true true false
              [ex_peer 7]
              (ex_table 7 (set_fPreferHeaderAndIDs true
                             (set_pindexBestKnownBlock (Some 4%positive) ex_row))))
    as [[[r st'] ev]|] eqn:H; [|by vm_compute in H].
  assert (r = true /\ ev = [PushCmpctBlock 7 70015 104]) as [-> ->].
  { vm_compute in H. by injection H as <- _ <-. }
  exists st'. split; [reflexivity|].
  by destruct (RelayCmpctBlock_announces_once ex_pc (ex_env 5 5) 70015 5%positive false
                 [ex_peer 7] _ st' _ eq_refl H) as (_ & _ & _ & ?).
Defined.


(** ** Announcing a new tip *)

Lemma tip_hashes_spec env fuel a fork v v' :
  tip_hashes env fuel a fork v = Some v' ->
  Z.of_nat (length v) < MAX_BLOCKS_TO_ANNOUNCE ->
  exists blocks,
    v' = v ++ ((fun b => phashBlock (blk env b)) <$> blocks)
    /\ Z.of_nat (length v') <= MAX_BLOCKS_TO_ANNOUNCE
    /\ (forall i b, blocks !! i = Some b -> nth_back env i a = Some b /\ Some b ≠ fork)
    /\ (Z.of_nat (length v') < MAX_BLOCKS_TO_ANNOUNCE -> nth_back env (length blocks) a = fork).
Proof.
  revert a v. induction fuel as [|fuel IH]; intros a v H Hlen; simpl in H.
  - destruct (bool_decide_reflect (a = fork)) as [->|Hne]; [|done].
    injection H as <-. exists []. rewrite app_nil_r. split; [done|]. split; [lia|].
    split; [by intros i b ?|done].
  - destruct (bool_decide_reflect (a = fork)) as [->|Hne].
    { injection H as <-. exists []. rewrite app_nil_r. split; [done|]. split; [lia|].
      split; [by intros i b ?|done]. }
    destruct a as [p|]; [|done]. cbn [mbind option_bind] in H.
    destruct (Z.eqb_spec (Z.of_nat (length (v ++ [phashBlock (blk env p)])))
                MAX_BLOCKS_TO_ANNOUNCE) as [Hfull|Hroom].
    + injection H as <-. exists [p]. split; [done|]. split; [lia|].
      split; [|lia]. intros [|i] b Hb; [|done]. by injection Hb as <-.
    + rewrite length_app in Hroom. simpl in Hroom.
      apply IH in H; [|rewrite length_app; simpl; lia].
      destruct H as (blocks & -> & Hmax & Hpath & Hend).
      exists (p :: blocks). split; [by rewrite <- app_assoc|]. split; [done|].
      split; [|exact Hend].
      intros [|i] b Hb; [by injection Hb as <- | by apply Hpath].
Qed.

Lemma tip_hashes_total env fuel a fork v :
  (Z.to_nat MAX_BLOCKS_TO_ANNOUNCE <= length v + fuel)%nat ->
  Z.of_nat (length v) < MAX_BLOCKS_TO_ANNOUNCE ->
  tip_hashes env fuel a fork v = None ->
  exists n, (length v + n < Z.to_nat MAX_BLOCKS_TO_ANNOUNCE)%nat
            /\ nth_back env n a = None
            /\ forall i, (i <= n)%nat -> nth_back env i a ≠ fork.
Proof.
  revert a v. induction fuel as [|fuel IH]; intros a v Hfuel Hlen H; simpl in H.
  - unfold MAX_BLOCKS_TO_ANNOUNCE in *. lia.
  - destruct (bool_decide_reflect (a = fork)) as [->|Hne]; [done|].
    destruct a as [p|].
    2:{ exists 0%nat. split; [unfold MAX_BLOCKS_TO_ANNOUNCE in *; lia|]. split; [done|].
        intros i Hi. by replace i with 0%nat by lia. }
    cbn [mbind option_bind] in H.
    destruct (Z.eqb_spec (Z.of_nat (length (v ++ [phashBlock (blk env p)])))
                MAX_BLOCKS_TO_ANNOUNCE) as [Hfull|Hroom]; [done|].
    rewrite length_app in Hroom. simpl in Hroom.
    apply IH in H.
    + destruct H as (n & Hn & Hnull & Hnot). rewrite length_app in Hn. simpl in Hn.
      exists (S n). split; [lia|]. split; [done|].
      intros [|i] Hi; [done|]. apply Hnot. lia.
    + rewrite length_app. simpl. lia.
    + rewrite length_app. simpl. lia.
Qed.

(** X21: [UpdatedBlockTip] tells the connection manager the new height and
    records the time; during the initial block download it announces nothing;
    otherwise it announces the blocks from the new tip back to the fork point,
    the fork point excluded and at most [MAX_BLOCKS_TO_ANNOUNCE] of them, to
    every visited node for which the new height exceeds its starting height
    minus 2000 (exceeds 0 when the starting height is -1), each node receiving
    all the hashes, oldest first, and then wakes the message handler; and with fuel for [MAX_BLOCKS_TO_ANNOUNCE] iterations
    it fails only on a null tip or on a chain that ends before the fork point
    is met. *)
Theorem UpdatedBlockTip_announces env fuel nTime pindexNew pindexFork fInitialDownload nodes :
  (forall t ev,
     UpdatedBlockTip env fuel nTime pindexNew pindexFork fInitialDownload nodes
     = Some (t, ev) ->
     exists pNew blocks,
       pindexNew = Some pNew /\ t = nTime
       /\ ev = SetBestHeight (nHeight (blk env pNew))
               :: (if fInitialDownload then []
                   else flat_map
                          (fun pnode =>
                             if (if negb (nStartingHeight pnode =? -1)
                                 then wrap32 (nStartingHeight pnode - 2000) else 0)
                                <? nHeight (blk env pNew)
                             then PushBlockHash (GetId pnode)
                                  <$> rev ((fun b => phashBlock (blk env b)) <$> blocks)
                             else [])
                          nodes
                        ++ [WakeMessageHandler])
       /\ (fInitialDownload = false ->
           Z.of_nat (length blocks) <= MAX_BLOCKS_TO_ANNOUNCE
           /\ (forall i b, blocks !! i = Some b ->
                 nth_back env i pindexNew = Some b /\ Some b ≠ pindexFork)
           /\ (Z.of_nat (length blocks) < MAX_BLOCKS_TO_ANNOUNCE ->
               nth_back env (length blocks) pindexNew = pindexFork)))
  /\ ((Z.to_nat MAX_BLOCKS_TO_ANNOUNCE <= fuel)%nat ->
      UpdatedBlockTip env fuel nTime pindexNew pindexFork fInitialDownload nodes = None ->
      pindexNew = None
      \/ fInitialDownload = false
         /\ exists n, (n < Z.to_nat MAX_BLOCKS_TO_ANNOUNCE)%nat
                      /\ nth_back env n pindexNew = None
                      /\ forall i, (i <= n)%nat -> nth_back env i pindexNew ≠ pindexFork).
Proof.
  split.
  - intros t ev H. unfold UpdatedBlockTip in H.
    destruct pindexNew as [pNew|]; [|done]. cbn [mbind option_bind] in H.
    destruct fInitialDownload; cbn [negb] in H.
    + cbn [mbind option_bind] in H. injection H as <- <-. exists pNew, [].
      split; [done|]. split; [done|]. split; [done|]. done.
    + destruct (tip_hashes env fuel (Some pNew) pindexFork []) as [vHashes|] eqn:Hh; [|done].
      cbn [mbind option_bind] in H. injection H as <- <-.
      apply tip_hashes_spec in Hh; [|done].
      destruct Hh as (blocks & -> & Hmax & Hpath & Hend). simpl in *.
      rewrite length_fmap in Hmax, Hend.
      exists pNew, blocks. split; [done|]. split; [done|]. split; [done|]. done.
  - intros Hfuel H. unfold UpdatedBlockTip in H.
    destruct pindexNew as [pNew|]; [|by left]. right. cbn [mbind option_bind] in H.
    destruct fInitialDownload; cbn [negb] in H; [done|]. split; [done|].
    destruct (tip_hashes env fuel (Some pNew) pindexFork []) as [vHashes|] eqn:Hh; [done|].
    apply tip_hashes_total in Hh; [|simpl; lia|done].
    destruct Hh as (n & Hn & Hnull & Hnot). exists n. simpl in Hn. done.
Qed.

(** The active chain grows from block 3 to block 5; peer 7 is told of the
    blocks 4 and 5, in this order. *)
Lemma UpdatedBlockTip_announces_witness :
  UpdatedBlockTip (ex_env 5 5) 8 1000 (Some 5%positive) (Some 3%positive) false [ex_peer 7]
  = Some (1000, [SetBestHeight 4; PushBlockHash 7 103; PushBlockHash 7 104;
                 WakeMessageHandler])
  /\ exists blocks : list positive, Z.of_nat (length blocks) <= MAX_BLOCKS_TO_ANNOUNCE.
Proof.
  assert (UpdatedBlockTip (ex_env 5 5) 8 1000 (Some 5%positive) (Some 3%positive) false
            [ex_peer 7]
          = Some (1000, [SetBestHeight 4; PushBlockHash 7 103; PushBlockHash 7 104;
                         WakeMessageHandler])) as H by (vm_compute; reflexivity).
  split; [exact H|].
  destruct (UpdatedBlockTip_announces (ex_env 5 5) 8 1000 (Some 5%positive)
              (Some 3%positive) false [ex_peer 7]) as [Hret _].
  destruct (Hret _ _ H) as (pNew & blocks & _ & _ & _ & Hb).
  exists blocks. by destruct (Hb eq_refl) as (? & _).
Defined.


(** ** Evicting an extra outbound peer *)

Lemma evict_scan_cases st acc n :
  (evict_scan st acc n = acc
   /\ forall row, evictable st n row ->
        acc.2 < m_last_block_announcement row
        \/ (acc.2 = m_last_block_announcement row /\ GetId n <= acc.1))
  \/ (exists row, evictable st n row
        /\ evict_scan st acc n = (GetId n, m_last_block_announcement row)
        /\ (m_last_block_announcement row < acc.2
            \/ (m_last_block_announcement row = acc.2 /\ acc.1 < GetId n))).
Proof.
  unfold evict_scan, evictable.
  destruct (IsOutboundDisconnectionCandidate n) eqn:Hc; cbn [negb orb].
  2:{ left. split; [done|]. by intros row (? & _). }
  destruct (fDisconnect n) eqn:Hd.
  { left. split; [done|]. by intros row (_ & ? & _). }
  destruct (State st (GetId n)) as [state|] eqn:Hs.
  2:{ left. split; [done|]. by intros row (_ & _ & ? & _). }
  destruct (m_protect (m_chain_sync state)) eqn:Hp.
  { left. split; [done|]. intros row (_ & _ & [= <-] & ?). congruence. }
  destruct (Z.ltb_spec (m_last_block_announcement state) acc.2) as [Hlt|Hge];
    cbn [orb].
  { right. exists state. split; [done|]. split; [done|]. by left. }
  destruct (Z.eqb_spec (m_last_block_announcement state) acc.2) as [Heq|Hne];
    cbn [andb].
  - destruct (Z.ltb_spec acc.1 (GetId n)) as [Hid|Hid].
    + right. exists state. split; [done|]. split; [done|]. by right.
    + left. split; [done|]. intros row (_ & _ & [= <-] & _). right. lia.
  - left. split; [done|]. intros row (_ & _ & [= <-] & _). left. lia.
Qed.

Lemma evict_scan_spec st nodes acc :
  let res := foldl (evict_scan st) acc nodes in
  (res = acc
   \/ exists n row, n ∈ nodes /\ evictable st n row /\ GetId n = res.1
                    /\ m_last_block_announcement row = res.2)
  /\ (res.2 < acc.2 \/ (res.2 = acc.2 /\ acc.1 <= res.1))
  /\ forall n row, n ∈ nodes -> evictable st n row ->
       res.2 < m_last_block_announcement row
       \/ (res.2 = m_last_block_announcement row /\ GetId n <= res.1).
Proof.
  revert acc. induction nodes as [|x nodes IH]; intros acc; cbn [foldl].
  { split; [by left|]. split; [right; lia|]. intros n row Hn. by apply elem_of_nil in Hn. }
  destruct (IH (evict_scan st acc x)) as (Hsrc & Hmono & Hmin).
  set (res := foldl (evict_scan st) (evict_scan st acc x) nodes) in *.
  destruct (evict_scan_cases st acc x) as [(Heq & Hx)|(row & Hev & Heq & Hx)].
  - rewrite Heq in *. split; [|split].
    + destruct Hsrc as [?|(n & r & Hn & ?)]; [by left|].
      right. exists n, r. split; [by apply elem_of_cons; right|done].
    + done.
    + intros n r [->|Hn]%elem_of_cons Hr; [|by apply Hmin].
      specialize (Hx _ Hr). lia.
  - rewrite Heq in *. cbn [fst snd] in *. split; [|split].
    + right. destruct Hsrc as [Hres|(n & r & Hn & ?)].
      * exists x, row. rewrite Hres. split; [apply list_elem_of_here|done].
      * exists n, r. split; [by apply elem_of_cons; right|done].
    + lia.
    + intros n r [->|Hn]%elem_of_cons Hr; [|by apply Hmin].
      destruct Hev as (_ & _ & Hs1 & _), Hr as (_ & _ & Hs2 & _).
      assert (r = row) as -> by congruence. lia.
Qed.

Lemma EvictExtraOutboundPeers_events MIN extra nodes (ForNode : NodeId -> option TimedNode)
    t st ev :
  EvictExtraOutboundPeers MIN extra nodes ForNode t st = Some ev ->
  ev = [] \/ exists id, ev = [SetDisconnect id; SetTryNewOutboundPeer false].
Proof.
  unfold EvictExtraOutboundPeers. intros H.
  destruct (0 <? extra); [|injection H as <-; by left].
  destruct (negb _); [|injection H as <-; by left].
  destruct (ForNode _) as [pnode|]; [|injection H as <-; by left].
  destruct (State st (GetId pnode)) as [state|]; [|done]. cbn [mbind option_bind] in H.
  destruct (_ && _); injection H as <-; [right; by eexists|by left].
Qed.

(** X22: [EvictExtraOutboundPeers] disconnects at most one peer per call, and
    only when there are extra outbound peers; the peer is visited, is an
    outbound candidate not yet marked for disconnection, is not protected, has
    no block in flight and has been connected for more than
    [MINIMUM_CONNECT_TIME]; no other such visited peer announced a block less
    recently, and among those with the same announcement time it has the
    greatest id; the connection manager is then told to stop trying a new
    outbound peer. *)
Theorem EvictExtraOutboundPeers_picks_oldest MIN extra nodes
    (ForNode : NodeId -> option TimedNode) t st ev :
  (forall id n, ForNode id = Some n -> GetId n = id) ->
  EvictExtraOutboundPeers MIN extra nodes ForNode t st = Some ev ->
  ev = []
  \/ exists (cand pnode : TimedNode) row,
       ev = [SetDisconnect (GetId cand); SetTryNewOutboundPeer false]
       /\ 0 < extra
       /\ cand ∈ nodes /\ evictable st cand row
       /\ ForNode (GetId cand) = Some pnode
       /\ nBlocksInFlight row = 0
       /\ MIN < wrap64 (t - nTimeConnected pnode)
       /\ forall n r, n ∈ nodes -> evictable st n r ->
            m_last_block_announcement row < m_last_block_announcement r
            \/ (m_last_block_announcement row = m_last_block_announcement r
                /\ GetId n <= GetId cand).
Proof.
  intros HFor H. unfold EvictExtraOutboundPeers in H.
  destruct (Z.ltb_spec 0 extra) as [Hextra|]; [|injection H as <-; by left].
  destruct (evict_scan_spec st nodes (-1, INT64_MAX)) as (Hsrc & _ & Hmin).
  cbv zeta in Hsrc, Hmin.
  set (res := foldl (evict_scan st) (-1, INT64_MAX) nodes) in *.
  destruct (Z.eqb_spec res.1 (-1)) as [|Hw]; cbn [negb] in H;
    [injection H as <-; by left|].
  destruct Hsrc as [Hres|(cand & row & Hcand & Hev & Hid & Hann)];
    [by rewrite Hres in Hw|].
  destruct (ForNode res.1) as [pnode|] eqn:Hp; [|injection H as <-; by left].
  pose proof (HFor _ _ Hp) as Hpid.
  destruct (State st (GetId pnode)) as [state|] eqn:Hs; [|done].
  cbn [mbind option_bind] in H.
  destruct (Z.ltb_spec MIN (wrap64 (t - nTimeConnected pnode))) as [Ht|];
    cbn [andb] in H; [|injection H as <-; by left].
  destruct (Z.eqb_spec (nBlocksInFlight state) 0) as [Hfl|];
    [|injection H as <-; by left].
  injection H as <-. right. exists cand, pnode, row.
  assert (state = row) as ->.
  { destruct Hev as (_ & _ & Hrow & _). rewrite Hpid, <- Hid in Hs. congruence. }
  rewrite Hpid, <- Hid. rewrite <- Hid in Hp.
  split; [done|]. split; [done|]. split; [done|]. split; [done|]. split; [done|].
  split; [done|]. split; [done|].
  intros n r Hn Hr. specialize (Hmin n r Hn Hr). rewrite <- Hid, <- Hann in Hmin. done.
Qed.

(** With one extra outbound peer, peer 8, whose last block announcement is
    the older one, is disconnected at time 100. *)
Lemma EvictExtraOutboundPeers_picks_oldest_witness :
  EvictExtraOutboundPeers 30 1 [ex_timed 7; ex_timed 8] ex_ForTimedNode 100 ex_evict_table
  = Some [SetDisconnect 8; SetTryNewOutboundPeer false]
  /\ ([SetDisconnect 8; SetTryNewOutboundPeer false] = @nil TipCheckEvent
      \/ exists (cand pnode : TimedNode) row,
           [SetDisconnect 8; SetTryNewOutboundPeer false]
           = [SetDisconnect (GetId cand); SetTryNewOutboundPeer false]
           /\ 0 < 1
           /\ cand ∈ [ex_timed 7; ex_timed 8] /\ evictable ex_evict_table cand row
           /\ ex_ForTimedNode (GetId cand) = Some pnode
           /\ nBlocksInFlight row = 0
           /\ 30 < wrap64 (100 - nTimeConnected pnode)
           /\ forall n r, n ∈ [ex_timed 7; ex_timed 8] -> evictable ex_evict_table n r ->
                m_last_block_announcement row < m_last_block_announcement r
                \/ (m_last_block_announcement row = m_last_block_announcement r
                    /\ GetId n <= GetId cand)).
Proof.
  assert (EvictExtraOutboundPeers 30 1 [ex_timed 7; ex_timed 8] ex_ForTimedNode 100
            ex_evict_table
          = Some [SetDisconnect 8; SetTryNewOutboundPeer false]) as H
    by (vm_compute; reflexivity).
  split; [exact H|].
  apply (EvictExtraOutboundPeers_picks_oldest 30 1 [ex_timed 7; ex_timed 8]
           ex_ForTimedNode 100 ex_evict_table); [|exact H].
  intros id n Hn. unfold ex_ForTimedNode in Hn.
  destruct (Z.eqb_spec id 7) as [->|]; [by injection Hn as <-|].
  destruct (Z.eqb_spec id 8) as [->|]; [by injection Hn as <-|done].
Defined.

(** ** The stale-tip check *)

(** X23: [CheckForStaleTipAndEvictPeers] leaves the connection manager's
    flag as its [SetTryNewOutboundPeer] calls set it; it allows an extra
    outbound peer only when the check is due, no block is in flight and the
    last tip update is more than three block intervals old; when the check is
    due the flag afterwards says exactly whether the tip may be stale, and the
    next check is [STALE_CHECK_INTERVAL] later; until then a call reads and
    writes neither time and never allows an extra peer; and a tip connected
    (at a time other than 0) within the last three block intervals turns a due
    check's flag off. *)
Theorem CheckForStaleTipAndEvictPeers_extra_peer MIN STALE spacing have_connman extra nodes
    (ForNode : NodeId -> option TimedNode) t t1 t2 st ts ts' ev :
  CheckForStaleTipAndEvictPeers MIN STALE spacing have_connman extra nodes ForNode t t1 t2
    st ts = Some (ts', ev) ->
  fTryNewOutboundPeer ts' = apply_try_flag ev (fTryNewOutboundPeer ts)
  /\ (SetTryNewOutboundPeer true ∈ ev ->
      have_connman = true /\ m_stale_tip_check_time ts < t
      /\ mapBlocksInFlight st = ∅
      /\ g_last_tip_update ts' < wrap64 (t2 - wrap64 (spacing * 3))
      /\ last ev = Some (SetTryNewOutboundPeer true))
  /\ (have_connman = true -> m_stale_tip_check_time ts < t ->
      m_stale_tip_check_time ts' = wrap64 (t + STALE)
      /\ g_last_tip_update ts'
         = (if g_last_tip_update ts =? 0 then t1 else g_last_tip_update ts)
      /\ (fTryNewOutboundPeer ts' = true <->
          g_last_tip_update ts' < wrap64 (t2 - wrap64 (spacing * 3))
          /\ mapBlocksInFlight st = ∅))
  /\ (have_connman = false \/ t <= m_stale_tip_check_time ts ->
      g_last_tip_update ts' = g_last_tip_update ts
      /\ m_stale_tip_check_time ts' = m_stale_tip_check_time ts
      /\ (SetTryNewOutboundPeer true ∉ ev)
      /\ (fTryNewOutboundPeer ts' = true -> fTryNewOutboundPeer ts = true))
  /\ (forall t0 ts0, ts = BlockConnected t0 ts0 -> t0 <> 0 ->
      have_connman = true -> m_stale_tip_check_time ts < t ->
      wrap64 (t2 - wrap64 (spacing * 3)) <= t0 ->
      fTryNewOutboundPeer ts' = false /\ g_last_tip_update ts' = t0).
Proof.
  intros H. unfold CheckForStaleTipAndEvictPeers in H.
  destruct have_connman; cbn [negb] in H.
  2:{ injection H as <- <-. split; [done|]. split; [by intros ?%elem_of_nil|].
      split; [done|]. split; [|done]. intros _. split; [done|]. split; [done|].
      split; [by intros ?%elem_of_nil|done]. }
  destruct (EvictExtraOutboundPeers MIN extra nodes ForNode t st) as [ev1|] eqn:Hev; [|done].
  cbn [mbind option_bind] in H.
  assert ((SetTryNewOutboundPeer true ∉ ev1)
          /\ (apply_try_flag ev1 (fTryNewOutboundPeer ts) = true ->
              fTryNewOutboundPeer ts = true)) as (Hno1 & Hf1).
  { apply EvictExtraOutboundPeers_events in Hev as [->|(id & ->)].
    - split; [by intros ?%elem_of_nil|done].
    - split; [|done]. intros [?|[?|?%elem_of_nil]%elem_of_cons]%elem_of_cons; done. }
  cbn [m_stale_tip_check_time] in H.
  destruct (Z.ltb_spec (m_stale_tip_check_time ts) t) as [Hdue|Hnot].
  2:{ injection H as <- <-. cbn [fTryNewOutboundPeer g_last_tip_update m_stale_tip_check_time].
      split; [done|]. split; [done|]. split; [lia|]. split; [|lia]. done. }
  unfold TipMayBeStale in H. cbn [g_last_tip_update fTryNewOutboundPeer] in H.
  set (g := if g_last_tip_update ts =? 0 then t1 else g_last_tip_update ts).
  assert (forall b c, g_last_tip_update
            (if g_last_tip_update ts =? 0
             then {| g_last_tip_update := t1; m_stale_tip_check_time := b;
                     fTryNewOutboundPeer := c |}
             else {| g_last_tip_update := g_last_tip_update ts; m_stale_tip_check_time := b;
                     fTryNewOutboundPeer := c |}) = g) as Hg
    by (intros; unfold g; by destruct (_ =? 0)).
  assert (forall b c, fTryNewOutboundPeer
            (if g_last_tip_update ts =? 0
             then {| g_last_tip_update := t1; m_stale_tip_check_time := b;
                     fTryNewOutboundPeer := c |}
             else {| g_last_tip_update := g_last_tip_update ts; m_stale_tip_check_time := b;
                     fTryNewOutboundPeer := c |}) = c) as Hc
    by (intros; by destruct (_ =? 0)).
  rewrite !Hg, !Hc in H.
  destruct (Z.ltb_spec g (wrap64 (t2 - wrap64 (spacing * 3)))) as [Hold|Hfresh];
    cbn [andb] in H.
  - destruct (bool_decide_reflect (mapBlocksInFlight st = ∅)) as [Hempty|Hbusy].
    + injection H as <- <-.
      cbn [fTryNewOutboundPeer g_last_tip_update m_stale_tip_check_time apply_try_flag foldl].
      split; [unfold apply_try_flag; by rewrite foldl_app|].
      split; [intros _; by rewrite last_snoc|].
      split; [intros _ _; done|].
      split; [lia|].
      intros t0 ts0 -> Ht0 _ _ Hle. exfalso. unfold g in Hold.
      cbn [BlockConnected g_last_tip_update] in Hold.
      destruct (Z.eqb_spec t0 0); [done|lia].
    + assert (fTryNewOutboundPeer ts' = false /\ (SetTryNewOutboundPeer true ∉ ev)
              /\ g_last_tip_update ts' = g
              /\ m_stale_tip_check_time ts' = wrap64 (t + STALE)
              /\ fTryNewOutboundPeer ts' = apply_try_flag ev (fTryNewOutboundPeer ts))
        as (Hoff & Hno & Hg' & Hm' & Hfl).
      { destruct (apply_try_flag ev1 (fTryNewOutboundPeer ts)) eqn:Hflag;
          injection H as <- <-;
          cbn [fTryNewOutboundPeer g_last_tip_update m_stale_tip_check_time apply_try_flag
                 foldl].
        - split; [done|]. split.
          { intros [?|[?|?%elem_of_nil]%elem_of_cons]%elem_of_app; done. }
          split; [done|]. split; [done|]. unfold apply_try_flag. by rewrite foldl_app.
        - split; [done|]. split.
          { intros [?|?%elem_of_nil]%elem_of_app; done. }
          split; [done|]. split; [done|]. by rewrite app_nil_r. }
      split; [done|]. split; [done|].
      split.
      { intros _ _. split; [done|]. split; [done|]. rewrite Hoff.
        by split; [|intros (_ & ?)]. }
      split; [lia|].
      intros t0 ts0 -> Ht0 _ _ _. split; [done|]. rewrite Hg'. unfold g.
      cbn [BlockConnected g_last_tip_update]. by destruct (Z.eqb_spec t0 0).
  - assert (fTryNewOutboundPeer ts' = false /\ (SetTryNewOutboundPeer true ∉ ev)
            /\ g_last_tip_update ts' = g
            /\ m_stale_tip_check_time ts' = wrap64 (t + STALE)
            /\ fTryNewOutboundPeer ts' = apply_try_flag ev (fTryNewOutboundPeer ts))
      as (Hoff & Hno & Hg' & Hm' & Hfl).
    { destruct (apply_try_flag ev1 (fTryNewOutboundPeer ts)) eqn:Hflag;
        injection H as <- <-;
        cbn [fTryNewOutboundPeer g_last_tip_update m_stale_tip_check_time apply_try_flag
               foldl].
      - split; [done|]. split.
        { intros [?|[?|?%elem_of_nil]%elem_of_cons]%elem_of_app; done. }
        split; [done|]. split; [done|]. unfold apply_try_flag. by rewrite foldl_app.
      - split; [done|]. split.
        { intros [?|?%elem_of_nil]%elem_of_app; done. }
        split; [done|]. split; [done|]. by rewrite app_nil_r. }
    split; [done|]. split; [done|].
    split.
    { intros _ _. split; [done|]. split; [done|]. rewrite Hoff, Hg'.
      split; [done|]. intros (? & _). lia. }
    split; [lia|].
    intros t0 ts0 -> Ht0 _ _ _. split; [done|]. rewrite Hg'. unfold g.
    cbn [BlockConnected g_last_tip_update]. by destruct (Z.eqb_spec t0 0).
Qed.

(** A check at time 5000, due since time 0, with a tip connected at time 100
    and block intervals of 600 seconds allows an extra outbound peer. *)
Lemma CheckForStaleTipAndEvictPeers_extra_peer_witness :
  exists ts', 
    CheckForStaleTipAndEvictPeers 30 600 600 true 0 [ex_timed 7; ex_timed 8] ex_ForTimedNode
      5000 5000 5000 ex_evict_table
      (BlockConnected 100 {| g_last_tip_update := 0; m_stale_tip_check_time := 0;
                             fTryNewOutboundPeer := false |})
    = Some (ts', [SetTryNewOutboundPeer true])
    /\ fTryNewOutboundPeer ts' = true.
Proof.
  destruct (CheckForStaleTipAndEvictPeers 30 600 600 true 0 [ex_timed 7; ex_timed 8]
              ex_ForTimedNode 5000 5000 5000 ex_evict_table
              (BlockConnected 100 {| g_last_tip_update := 0; m_stale_tip_check_time := 0;
                                     fTryNewOutboundPeer := false |}))
    as [[ts' ev]|] eqn:H; [|by vm_compute in H].
  assert (ev = [SetTryNewOutboundPeer true]) as ->
    by (vm_compute in H; by injection H as <- <-).
  exists ts'. split; [done|].
  destruct (CheckForStaleTipAndEvictPeers_extra_peer _ _ _ _ _ _ _ _ _ _ _ _ _ _ H)
    as (Hflag & _).
  rewrite Hflag. reflexivity.
Defined.


(** ** Ping and pong *)

Lemma draw_nonce_nonzero draws nonce : draw_nonce draws = Some nonce -> nonce <> 0%N.
Proof.
  induction draws as [|d draws IH]; [done|]. simpl.
  destruct (N.eqb_spec d 0); [done|]. by intros [= <-].
Qed.

(** X24: a ping with a nonce and its pong: when [SendMessages] pings a peer
    newer than [BIP0031_VERSION], the nonce is not zero and is recorded with
    the send time; no further ping is sent while it is outstanding (unless one
    is queued by the user); a peer newer than [BIP0031_VERSION] answers the
    ping with a pong of the same nonce; a pong with another non-zero nonce is
    ignored; the matching pong clears the outstanding nonce and, when it
    arrives after the send time, records the round-trip time and lowers the
    minimum to it if it is smaller, and otherwise leaves both times alone; and
    afterwards a second pong of that nonce changes nothing. *)
Theorem ping_pong_round_trip PI BV nVersion_ draws t1 t2 pto pto1 nonce :
  SendMessages_ping PI BV nVersion_ draws t1 t2 pto = Some (pto1, [PING (Some nonce)]) ->
  nonce <> 0%N /\ BV < nVersion_
  /\ nPingNonceSent pto1 = nonce /\ nPingUsecStart pto1 = t2 /\ fPingQueued pto1 = false
  /\ (fPingQueued pto = true
      \/ nPingNonceSent pto = 0%N
         /\ wrap64 (nPingUsecStart pto + wrap32 (PI * 1000000)) < t1)
  /\ (forall draws' t1' t2',
        SendMessages_ping PI BV nVersion_ draws' t1' t2' pto1 = Some (pto1, []))
  /\ (forall peer_version, BV < peer_version ->
        ProcessPingMsg BV peer_version (Some nonce) = Some (true, [PONG nonce]))
  /\ (forall other tr, other <> nonce -> other <> 0%N ->
        ProcessPongMsg (Some other) tr pto1 = (true, pto1))
  /\ (forall tr,
        let pto2 := (ProcessPongMsg (Some nonce) tr pto1).2 in
        let d := wrap64 (tr - t2) in
        nPingNonceSent pto2 = 0%N
        /\ fPingQueued pto2 = false /\ nPingUsecStart pto2 = t2
        /\ nPingUsecTime pto2 = (if 0 <? d then d else nPingUsecTime pto)
        /\ nMinPingUsecTime pto2
           = (if 0 <? d then Z.min (nMinPingUsecTime pto) d else nMinPingUsecTime pto)
        /\ nMinPingUsecTime pto2 <= nMinPingUsecTime pto
        /\ forall tr', ProcessPongMsg (Some nonce) tr' pto2 = (true, pto2)).
Proof.
  intros H. unfold SendMessages_ping in H.
  destruct (fPingQueued pto || _) eqn:Hsend; [|by injection H as <-].
  destruct (draw_nonce draws) as [n|] eqn:Hd; [|done]. cbn [mbind option_bind] in H.
  destruct (Z.ltb_spec BV nVersion_) as [Hv|]; [|by injection H as <-].
  injection H as <- <-. pose proof (draw_nonce_nonzero _ _ Hd) as Hnz.
  split; [done|]. split; [done|]. split; [done|]. split; [done|]. split; [done|].
  split.
  { apply orb_true_iff in Hsend as [?|[Hz Ht]%andb_true_iff]; [by left|right].
    split; [by apply N.eqb_eq|by apply Z.ltb_lt]. }
  split.
  { intros draws' t1' t2'. unfold SendMessages_ping.
    cbn [fPingQueued nPingNonceSent orb]. by destruct (N.eqb_spec n 0). }
  split.
  { intros pv Hpv. unfold ProcessPingMsg. by destruct (Z.ltb_spec BV pv); [|lia]. }
  split.
  { intros other tr Hne Ho. unfold ProcessPongMsg. cbn [nPingNonceSent].
    destruct (N.eqb_spec n 0); [done|]. cbn [negb].
    destruct (N.eqb_spec other n); [done|]. by destruct (N.eqb_spec other 0). }
  intros tr. cbv zeta.
  set (pto1 := {| fPingQueued := false; nPingNonceSent := n; nPingUsecStart := t2;
                  nPingUsecTime := nPingUsecTime pto;
                  nMinPingUsecTime := nMinPingUsecTime pto |}).
  assert (ProcessPongMsg (Some n) tr pto1
          = (true,
             {| fPingQueued := false; nPingNonceSent := 0; nPingUsecStart := t2;
                nPingUsecTime := (if 0 <? wrap64 (tr - t2) then wrap64 (tr - t2)
                                  else nPingUsecTime pto);
                nMinPingUsecTime :=
                  (if 0 <? wrap64 (tr - t2)
                   then Z.min (nMinPingUsecTime pto) (wrap64 (tr - t2))
                   else nMinPingUsecTime pto) |})) as ->.
  { unfold ProcessPongMsg, pto1. cbn [nPingNonceSent nPingUsecStart].
    destruct (N.eqb_spec n 0); [done|]. cbn [negb]. rewrite N.eqb_refl.
    by destruct (0 <? wrap64 (tr - t2)). }
  cbn [snd nPingNonceSent fPingQueued nPingUsecStart nPingUsecTime nMinPingUsecTime].
  split; [done|]. split; [done|]. split; [done|]. split; [done|]. split; [done|].
  split; [destruct (0 <? wrap64 (tr - t2)); lia|]. intros tr'. reflexivity.
Qed.

(** An idle connection is pinged at time 130 s with the nonce 9, the first
    draw being 0; the pong arrives 0.25 s later. *)
Lemma ping_pong_round_trip_witness :
  SendMessages_ping 120 60000 70015 [0%N; 9%N] 130000000 130000001 ex_ping_idle
  = Some ({| fPingQueued := false; nPingNonceSent := 9; nPingUsecStart := 130000001;
             nPingUsecTime := 0; nMinPingUsecTime := INT64_MAX |}, [PING (Some 9%N)])
  /\ nPingUsecTime
       (ProcessPongMsg (Some 9%N) 130250001
          {| fPingQueued := false; nPingNonceSent := 9; nPingUsecStart := 130000001;
             nPingUsecTime := 0; nMinPingUsecTime := INT64_MAX |}).2 = 250000.
Proof.
  assert (SendMessages_ping 120 60000 70015 [0%N; 9%N] 130000000 130000001 ex_ping_idle
          = Some ({| fPingQueued := false; nPingNonceSent := 9; nPingUsecStart := 130000001;
                     nPingUsecTime := 0; nMinPingUsecTime := INT64_MAX |},
                  [PING (Some 9%N)])) as H by (vm_compute; reflexivity).
  split; [exact H|].
  destruct (ping_pong_round_trip _ _ _ _ _ _ _ _ _ H)
    as (_ & _ & _ & _ & _ & _ & _ & _ & _ & Hpong).
  destruct (Hpong 130250001) as (_ & _ & _ & Htime & _).
  rewrite Htime. reflexivity.
Defined.


(** ** Relaying an address *)

Lemma elem_of_snoc_inv {A} (p x : A) (l : list A) : p ∈ l ++ [x] -> p ∈ l \/ p = x.
Proof. intros [?|?%list_elem_of_singleton]%elem_of_app; [by left|by right]. Qed.

Lemma elem_of_pair_inv {A} (p x y : A) : p ∈ [x; y] -> p = x \/ p = y.
Proof. intros [?|?%list_elem_of_singleton]%elem_of_cons; [by left|by right]. Qed.

Section RelayAddress.
Variable CADDR_TIME_VERSION : Z.
Variable hashKey : NodeId -> N.


Lemma relay_inv_step two vis best x :
  relay_inv CADDR_TIME_VERSION hashKey two vis best ->
  relay_inv CADDR_TIME_VERSION hashKey two (vis ++ [x])
    (RelayAddress_sortfunc CADDR_TIME_VERSION hashKey (if two then 2%N else 1%N) best x).
Proof.
  intros (Hmax & Hzero & Hpos & Hnone & Hone).
  assert (forall i p, vis !! i = Some p -> (vis ++ [x]) !! i = Some p) as Hext
    by (intros i p Hi; by apply lookup_app_l_Some).
  assert (forall j p, (vis ++ [x]) !! j = Some p ->
            vis !! j = Some p \/ (j = length vis /\ p = x)) as Hsplit.
  { intros j p Hj. apply lookup_app_Some in Hj as [?|(Hge & Hj)]; [by left|right].
    destruct (j - length vis)%nat eqn:Hd; [|done]. injection Hj as <-. split; [lia|done]. }
  assert (forall i p, vis !! i = Some p -> i <> length vis) as Hlt
    by (intros i p Hi%lookup_lt_Some; lia).
  unfold RelayAddress_sortfunc.
  destruct (Z.leb_spec CADDR_TIME_VERSION (nVersion x)) as [Hel|Hnel].
  2:{ (* not considered *)
      split; [|split; [done|split; [|done]]].
      - intros p [Hp| ->]%elem_of_snoc_inv He; [by apply Hmax|].
        unfold relay_eligible in He. lia.
      - intros Hnz. destruct (Hpos Hnz) as (i & a & Hi & Ho & Hea & Hka & Htwo).
        exists i, a. split; [by apply Hext|]. split; [done|]. split; [done|]. split; [done|].
        intros Ht. destruct (Htwo Ht) as (Hle & Hrest & Hsnd). split; [done|]. split.
        + intros j p Hji Hj He. destruct (Hsplit _ _ Hj) as [Hj'|(-> & ->)];
            [by eapply Hrest|]. unfold relay_eligible in He. lia.
        + intros Hk1. destruct (Hsnd Hk1) as (j & b & ? & Hj & ?).
          exists j, b. split; [done|]. split; [by apply Hext|done]. }
  assert ((0 <? (if two then 2 else 1))%N = true) as -> by (by destruct two).
  assert ((1 <? (if two then 2 else 1))%N = two) as -> by (by destruct two).
  cbn [andb].
  destruct (N.ltb_spec best.1.1 (hashKey (GetId x))) as [Hbig|Hsmall].
  - (* the new node takes slot 0 *)
    unfold relay_inv. cbn [fst snd].
    split; [|split; [intros Hz; lia|split; [|split]]].
    + intros p [Hp| ->]%elem_of_snoc_inv He; [|lia].
      specialize (Hmax p Hp He). lia.
    + intros _. exists (length vis), x.
      split; [by rewrite lookup_app_r, Nat.sub_diag by lia|].
      split; [done|]. split; [done|]. split; [done|].
      intros ->. split; [lia|]. split.
      * intros j p Hj Hjp He. destruct (Hsplit _ _ Hjp) as [Hj'|(-> & _)]; [|done].
        apply Hmax; [by eapply list_elem_of_lookup_2|done].
      * intros Hk0. destruct (Hpos Hk0) as (i & a & Hi & Ho & Hea & Hka & _).
        exists i, a. split; [by eapply Hlt|]. split; [by apply Hext|done].
    + destruct two; [|by apply Hnone].
      intros Hk0. by destruct (Hzero Hk0).
    + intros ->. by apply Hone.
  - destruct two; cbn [andb].
    + destruct (N.ltb_spec best.2.1 (hashKey (GetId x))) as [Hmid|Hlow].
      * (* the new node takes slot 1 *)
        unfold relay_inv. cbn [fst snd].
        assert (best.1.1 <> 0%N) as Hnz.
        { intros Hz. destruct (Hzero Hz) as (_ & Hb). rewrite Hb in Hmid. cbn in Hmid. lia. }
        split; [|split; [done|split; [|split; [intros Hz; lia|done]]]].
        { intros p [Hp| ->]%elem_of_snoc_inv He; [by apply Hmax|lia]. }
        intros _. destruct (Hpos Hnz) as (i & a & Hi & Ho & Hea & Hka & Htwo).
        destruct (Htwo eq_refl) as (Hle & Hrest & _).
        exists i, a. split; [by apply Hext|]. split; [done|]. split; [done|].
        split; [done|]. intros _. split; [done|]. split.
        -- intros j p Hji Hj He. destruct (Hsplit _ _ Hj) as [Hj'|(-> & ->)]; [|lia].
           specialize (Hrest j p Hji Hj' He). lia.
        -- intros _. exists (length vis), x. split; [by apply not_eq_sym; eapply Hlt|].
           split; [by rewrite lookup_app_r, Nat.sub_diag by lia|done].
      * (* not among the best two *)
        split; [|split; [done|split; [|done]]].
        { intros p [Hp| ->]%elem_of_snoc_inv He; [by apply Hmax|lia]. }
        intros Hnz. destruct (Hpos Hnz) as (i & a & Hi & Ho & Hea & Hka & Htwo).
        destruct (Htwo eq_refl) as (Hle & Hrest & Hsnd).
        exists i, a. split; [by apply Hext|]. split; [done|]. split; [done|].
        split; [done|]. intros _. split; [done|]. split.
        -- intros j p Hji Hj He. destruct (Hsplit _ _ Hj) as [Hj'|(-> & ->)]; [|lia].
           by eapply Hrest.
        -- intros Hk1. destruct (Hsnd Hk1) as (j & b & ? & Hj & ?).
           exists j, b. split; [done|]. split; [by apply Hext|done].
    + split; [|split; [done|split; [|done]]].
      { intros p [Hp| ->]%elem_of_snoc_inv He; [by apply Hmax|lia]. }
      intros Hnz. destruct (Hpos Hnz) as (i & a & Hi & Ho & Hea & Hka & _).
      exists i, a. split; [by apply Hext|]. split; [done|]. split; [done|]. split; [done|].
      done.
Qed.

Lemma relay_inv_foldl two vis best nodes :
  relay_inv CADDR_TIME_VERSION hashKey two vis best ->
  relay_inv CADDR_TIME_VERSION hashKey two (vis ++ nodes)
    (foldl (RelayAddress_sortfunc CADDR_TIME_VERSION hashKey (if two then 2%N else 1%N))
       best nodes).
Proof.
  revert vis best. induction nodes as [|x nodes IH]; intros vis best Hinv; cbn [foldl].
  { by rewrite app_nil_r. }
  replace (vis ++ x :: nodes) with ((vis ++ [x]) ++ nodes) by (by rewrite <- app_assoc).
  apply IH. by apply relay_inv_step.
Qed.

(** X25: [RelayAddress] always returns and pushes the address to at most two
    visited nodes when the address is reachable and to at most one when it is
    not; the chosen nodes sit at different positions, have a version of at
    least [CADDR_TIME_VERSION] and a hash key other than 0, and are the ones
    with the greatest hash keys: the first has the greatest key of all
    considered nodes, the second the greatest key of all the others, and when
    fewer nodes are chosen than allowed every other considered node has the
    hash key 0. *)
Theorem RelayAddress_selects_best addr_ fReachable nodes :
  exists chosen : list (nat * CNode),
    RelayAddress CADDR_TIME_VERSION hashKey addr_ fReachable nodes
    = Some ((fun c => PushTimedAddress (GetId c.2) addr_) <$> chosen)
    /\ (length chosen <= if fReachable then 2 else 1)%nat
    /\ NoDup (fst <$> chosen)
    /\ (forall i a, (i, a) ∈ chosen ->
          nodes !! i = Some a /\ CADDR_TIME_VERSION <= nVersion a
          /\ hashKey (GetId a) <> 0%N)
    /\ (forall j p, nodes !! j = Some p -> CADDR_TIME_VERSION <= nVersion p ->
          match chosen with
          | [] => hashKey (GetId p) = 0%N
          | [(i, a)] =>
              (hashKey (GetId p) <= hashKey (GetId a))%N
              /\ (fReachable = true -> j <> i -> hashKey (GetId p) = 0%N)
          | (i, a) :: (i', b) :: _ =>
              (hashKey (GetId p) <= hashKey (GetId a))%N
              /\ (hashKey (GetId b) <= hashKey (GetId a))%N
              /\ (j <> i -> (hashKey (GetId p) <= hashKey (GetId b))%N)
          end).
Proof.
  unfold RelayAddress.
  pose proof (relay_inv_foldl fReachable [] ((0%N, None), (0%N, None)) nodes) as Hinv.
  rewrite app_nil_l in Hinv.
  set (best := foldl _ _ nodes) in *.
  destruct Hinv as (Hmax & Hzero & Hpos & Hnone & Hone).
  { split; [by intros p ?%elem_of_nil|]. split; [done|]. split; [done|]. done. }
  unfold RelayAddress_pushfunc.
  assert ((0 <? (if fReachable then 2 else 1))%N = true) as -> by (by destruct fReachable).
  assert ((1 <? (if fReachable then 2 else 1))%N = fReachable) as ->
    by (by destruct fReachable).
  cbn [andb].
  destruct (N.eqb_spec best.1.1 0) as [Hk0|Hk0]; cbn [negb].
  { (* nobody was chosen *)
    exists []. split; [done|]. split; [destruct fReachable; simpl; lia|].
    split; [apply NoDup_nil_2|]. split; [by intros i a ?%elem_of_nil|].
    intros j p Hj He. specialize (Hmax p (list_elem_of_lookup_2 _ _ _ Hj) He).
    lia. }
  destruct (Hpos Hk0) as (i & a & Hi & Ho & Hea & Hka & Htwo).
  rewrite Ho. cbn [mbind option_bind].
  destruct fReachable; cbn [andb].
  - destruct (Htwo eq_refl) as (Hle & Hrest & Hsnd).
    destruct (N.eqb_spec best.2.1 0) as [Hk1|Hk1]; cbn [negb].
    + exists [(i, a)]. split; [done|]. split; [simpl; lia|].
      split; [apply NoDup_singleton|]. split.
      { intros i' a' [= -> ->]%list_elem_of_singleton. split; [done|]. split; [done|].
        by rewrite Hka. }
      intros j p Hj He. rewrite Hka. split.
      * apply Hmax; [by eapply list_elem_of_lookup_2|done].
      * intros _ Hji. specialize (Hrest j p Hji Hj He). lia.
    + destruct (Hsnd Hk1) as (i' & b & Hii & Hi' & Ho' & Heb & Hkb).
      rewrite Ho'. cbn [mbind option_bind].
      exists [(i, a); (i', b)]. split; [done|]. split; [simpl; lia|]. split.
      { cbn [fmap list_fmap fst]. apply NoDup_cons. split; [|apply NoDup_singleton].
        intros ->%list_elem_of_singleton. done. }
      split.
      { intros k c [[= -> ->]|[= -> ->]]%elem_of_pair_inv.
        - split; [done|]. split; [done|]. by rewrite Hka.
        - split; [done|]. split; [done|]. by rewrite Hkb. }
      intros j p Hj He. rewrite Hka, Hkb. split.
      * apply Hmax; [by eapply list_elem_of_lookup_2|done].
      * split; [done|]. intros Hji. by eapply Hrest.
  - exists [(i, a)]. split; [done|]. split; [simpl; lia|].
    split; [apply NoDup_singleton|]. split.
    { intros i' a' [= -> ->]%list_elem_of_singleton. split; [done|]. split; [done|].
      by rewrite Hka. }
    intros j p Hj He. rewrite Hka. split; [|done].
    apply Hmax; [by eapply list_elem_of_lookup_2|done].
Qed.

End RelayAddress.

(** With the node id as hash key, a reachable address is pushed to the peers
    9 and 8 of the peers 7, 9 and 8. *)
Lemma RelayAddress_selects_best_witness :
  RelayAddress 31402 Z.to_N {| ta_addr := ex_addr; ta_nTime := 0 |} true
    [ex_peer 7; ex_peer 9; ex_peer 8]
  = Some [PushTimedAddress 9 {| ta_addr := ex_addr; ta_nTime := 0 |};
          PushTimedAddress 8 {| ta_addr := ex_addr; ta_nTime := 0 |}]
  /\ exists chosen : list (nat * CNode),
       RelayAddress 31402 Z.to_N {| ta_addr := ex_addr; ta_nTime := 0 |} true
         [ex_peer 7; ex_peer 9; ex_peer 8]
       = Some ((fun c => PushTimedAddress (GetId c.2) {| ta_addr := ex_addr; ta_nTime := 0 |})
               <$> chosen)
       /\ (length chosen <= 2)%nat.
Proof.
  split; [vm_compute; reflexivity|].
  destruct (RelayAddress_selects_best 31402 Z.to_N {| ta_addr := ex_addr; ta_nTime := 0 |}
              true [ex_peer 7; ex_peer 9; ex_peer 8]) as (chosen & Hrun & Hlen & _).
  exists chosen. split; [exact Hrun|exact Hlen].
Defined.


(** ** Address messages *)

Lemma RelayAddress_pushes C hk a fR nodes :
  exists relay,
    RelayAddress C hk a fR nodes = Some relay
    /\ (length relay <= 2)%nat
    /\ Forall (fun e => exists id, e = PushTimedAddress id a) relay.
Proof.
  unfold RelayAddress.
  pose proof (relay_inv_foldl C hk fR [] ((0%N, None), (0%N, None)) nodes) as Hinv.
  rewrite app_nil_l in Hinv.
  set (best := foldl _ _ nodes) in *.
  destruct Hinv as (_ & _ & Hpos & _ & _).
  { split; [by intros p ?%elem_of_nil|]. split; [done|]. split; [done|]. done. }
  unfold RelayAddress_pushfunc.
  destruct ((0 <? (if fR then 2 else 1))%N); cbn [andb]; [|by exists []; repeat constructor].
  destruct (N.eqb_spec best.1.1 0) as [|Hk0]; cbn [negb];
    [by exists []; repeat constructor|].
  destruct (Hpos Hk0) as (i & p0 & _ & -> & _ & _ & Htwo). cbn [mbind option_bind].
  destruct ((1 <? (if fR then 2 else 1))%N) eqn:Hn; cbn [andb].
  2:{ eexists. split; [done|]. split; [simpl; lia|]. repeat constructor. by eexists. }
  assert (fR = true) as -> by (by destruct fR).
  destruct (Htwo eq_refl) as (_ & _ & Hsnd).
  destruct (N.eqb_spec best.2.1 0) as [|Hk1]; cbn [negb].
  { eexists. split; [done|]. split; [simpl; lia|]. repeat constructor. by eexists. }
  destruct (Hsnd Hk1) as (j & p1 & _ & _ & -> & _). cbn [mbind option_bind].
  eexists. split; [done|]. split; [simpl; lia|]. repeat constructor; by eexists.
Qed.

Lemma ProcessAddrMsg_loop_spec C R IsReachable hashKey nodes interrupt pfrom all nNow
    i l ok ev :
  (forall a, a ∈ l -> a ∈ all) ->
  Forall (addr_event_ok R nNow pfrom all) ev ->
  Forall (fun a => IsReachable a = true /\ AddAddressKnown (GetId pfrom) a ∈ ev) ok ->
  exists res ev',
    ProcessAddrMsg_loop C R IsReachable hashKey nodes interrupt pfrom (length all) nNow
      i l ok ev = Some (res, ev')
    /\ Forall (addr_event_ok R nNow pfrom all) ev'
    /\ (length (filter (fun e => is_PushTimedAddress e = true) ev')
        <= length (filter (fun e => is_PushTimedAddress e = true) ev) + 2 * length l)%nat
    /\ (forall ok', res = Some ok' ->
          Forall (fun a => IsReachable a = true /\ AddAddressKnown (GetId pfrom) a ∈ ev') ok')
    /\ (res = None -> exists k, interrupt k = true).
Proof.
  revert i ok ev. induction l as [|a0 l IH]; intros i ok ev Hall Hev Hok;
    cbn [ProcessAddrMsg_loop].
  { exists (Some ok), ev. split; [done|]. split; [done|]. split; [simpl; lia|].
    split; [by intros ? [= <-]|done]. }
  assert (forall a, a ∈ l -> a ∈ all) as Hall'
    by (intros a Ha; apply Hall; by apply elem_of_cons; right).
  destruct (interrupt i) eqn:Hint.
  { exists None, ev. split; [done|]. split; [done|]. split; [simpl; lia|].
    split; [done|]. intros _. by exists i. }
  destruct (N.eqb_spec (N.land (addr_services a0) R) R) as [Hsrv|Hsrv]; cbn [negb].
  2:{ destruct (IH (S i) ok ev Hall' Hev Hok) as (res & ev' & Hrun & Hev' & Hcnt & Hres).
      exists res, ev'. split; [done|]. split; [done|]. split; [simpl; lia|done]. }
  cbv zeta.
  set (a1 := if (ta_nTime a0 <=? 100000000) || (wrap64 (nNow + 10 * 60) <? ta_nTime a0)
             then {| ta_addr := ta_addr a0;
                     ta_nTime := wrap64 (nNow - 5 * 24 * 60 * 60) mod 2 ^ 32 |}
             else a0).
  assert (addr_normalised R nNow all a1) as Hnorm.
  { unfold a1, addr_normalised.
    destruct (Z.leb_spec (ta_nTime a0) 100000000) as [Hlow|Hlow]; cbn [orb].
    - split; [done|]. exists a0. split; [apply Hall, list_elem_of_here|].
      split; [done|]. right. split; [done|]. by left.
    - destruct (Z.ltb_spec (wrap64 (nNow + 10 * 60)) (ta_nTime a0)) as [Hhigh|Hhigh].
      + split; [done|]. exists a0. split; [apply Hall, list_elem_of_here|].
        split; [done|]. right. split; [done|]. by right.
      + split; [done|]. exists a0. split; [apply Hall, list_elem_of_here|].
        split; [done|]. left. split; [done|]. lia. }
  clearbody a1.
  assert (exists relay,
            (if (wrap64 (nNow - 10 * 60) <? ta_nTime a1) && negb (fGetAddr pfrom)
                && (length all <=? 10)%nat && addr_IsRoutable a1
             then RelayAddress C (hashKey a1) a1 (IsReachable a1) nodes
             else Some []) = Some relay
            /\ (length relay <= 2)%nat
            /\ Forall (fun e => is_PushTimedAddress e = true) relay
            /\ Forall (addr_event_ok R nNow pfrom all) relay) as (relay & -> & Hlen & Hpush & Hrel).
  { destruct (Z.ltb_spec (wrap64 (nNow - 10 * 60)) (ta_nTime a1)) as [Hfresh|];
      cbn [andb]; [|by exists []; repeat constructor].
    destruct (fGetAddr pfrom) eqn:Hget; cbn [andb negb]; [by exists []; repeat constructor|].
    destruct (Nat.leb_spec (length all) 10) as [Hsize|];
      cbn [andb]; [|by exists []; repeat constructor].
    destruct (addr_IsRoutable a1) eqn:Hrt; [|by exists []; repeat constructor].
    destruct (RelayAddress_pushes C (hashKey a1) a1 (IsReachable a1) nodes)
      as (relay & Hrun & Hlen & Hshape).
    exists relay. split; [done|]. split; [done|]. split.
    - eapply Forall_impl; [exact Hshape|]. by intros e (id & ->).
    - eapply Forall_impl; [exact Hshape|]. intros e (id & ->). cbn. done. }
  cbn [mbind option_bind].
  destruct (IH (S i) (if IsReachable a1 then ok ++ [a1] else ok)
              (ev ++ AddAddressKnown (GetId pfrom) a1 :: relay) Hall')
    as (res & ev' & Hrun & Hev' & Hcnt & Hres).
  { apply Forall_app. split; [done|]. apply Forall_cons. split; [by cbn|done]. }
  { assert (Forall (fun a => IsReachable a = true
                             /\ AddAddressKnown (GetId pfrom) a
                                ∈ ev ++ AddAddressKnown (GetId pfrom) a1 :: relay) ok) as Hok'.
    { eapply Forall_impl; [exact Hok|]. intros a (? & ?). split; [done|].
      apply elem_of_app. by left. }
    destruct (IsReachable a1) eqn:Hreach; [|done].
    apply Forall_app. split; [done|]. apply Forall_singleton. split; [done|].
    apply elem_of_app. right. apply list_elem_of_here. }
  exists res, ev'. split; [done|]. split; [done|]. split; [|done].
  rewrite filter_app, length_app, filter_cons_False in Hcnt by done.
  pose proof (length_filter (fun e => is_PushTimedAddress e = true) relay). simpl. lia.
Qed.

Lemma addr_events_no_store R nNow pfrom all ev :
  Forall (addr_event_ok R nNow pfrom all) ev ->
  existsb is_AddNewAddresses ev = false
  /\ filter (fun e => is_AddNewAddresses e = true) ev = []
  /\ forall ok source penalty, AddNewAddresses ok source penalty ∈ ev -> False.
Proof.
  induction 1 as [|e ev He _ (IH1 & IH2 & IH3)].
  { split; [done|]. split; [done|]. by intros ? ? ? ?%elem_of_nil. }
  destruct e; try done; cbn [existsb is_AddNewAddresses orb].
  - split; [done|]. split; [rewrite filter_cons_False; [exact IH2|by cbn]|].
    intros ? ? ? [?|?]%elem_of_cons; [done|by eapply IH3].
  - split; [done|]. split; [rewrite filter_cons_False; [exact IH2|by cbn]|].
    intros ? ? ? [?|?]%elem_of_cons; [done|by eapply IH3].
Qed.

Lemma addr_events_no_push R nNow pfrom all ev :
  (10 < length all)%nat ->
  Forall (addr_event_ok R nNow pfrom all) ev ->
  filter (fun e => is_PushTimedAddress e = true) ev = [].
Proof.
  intros Hmore. induction 1 as [|e ev He _ IH]; [done|].
  destruct e; try done. destruct He as (? & _). lia.
Qed.

(** X26: [ProcessAddrMsg] always returns. A message with more than 1000
    addresses costs the peer 20 misbehaviour points, returns false and has no
    other effect (unless the message of an old peer is ignored altogether).
    Otherwise it returns true and leaves the peer table alone; every address
    it marks as known, relays or stores has the required services and either
    its announced time, which is then between 100000000 and ten minutes from
    now, or the time of five days ago; it relays only when the message has at
    most 10 addresses and was not asked for, and then only routable addresses
    newer than ten minutes, so that at most 20 addresses are pushed; the
    addresses it hands to the address manager, once and as its last action,
    are reachable and were marked as known; [fGetAddr] is cleared when fewer
    than 1000 addresses arrived and never set; and only a loop cut short by
    the interrupt flag skips the storing. *)
Theorem ProcessAddrMsg_stores C R banscore IsReachable hashKey nodes interrupt count nNow
    pfrom vAddr st :
  exists r pfrom' st' ev,
    ProcessAddrMsg C R banscore IsReachable hashKey nodes interrupt count nNow pfrom vAddr st
    = Some (r, pfrom', st', ev)
    /\ (r = false ->
        (1000 < length vAddr)%nat /\ pfrom' = pfrom /\ ev = []
        /\ st' = Misbehaving banscore (GetId pfrom) 20 st)
    /\ (r = true ->
        st' = st
        /\ ((1000 < length vAddr)%nat -> nVersion pfrom < C /\ (1000 < count)%N /\ ev = []))
    /\ (length (filter (fun e => is_PushTimedAddress e = true) ev) <= 20)%nat
    /\ (length (filter (fun e => is_AddNewAddresses e = true) ev) <= 1)%nat
    /\ (forall id a, PushTimedAddress id a ∈ ev ->
          (length vAddr <= 10)%nat /\ fGetAddr pfrom = false
          /\ addr_normalised R nNow vAddr a
          /\ addr_IsRoutable a = true /\ wrap64 (nNow - 10 * 60) < ta_nTime a)
    /\ (forall id a, AddAddressKnown id a ∈ ev ->
          id = GetId pfrom /\ addr_normalised R nNow vAddr a)
    /\ (forall ok source penalty, AddNewAddresses ok source penalty ∈ ev ->
          last ev = Some (AddNewAddresses ok source penalty)
          /\ source = addr pfrom /\ penalty = 2 * 60 * 60
          /\ forall a, a ∈ ok ->
               IsReachable a = true /\ AddAddressKnown (GetId pfrom) a ∈ ev)
    /\ (fGetAddr pfrom' = if (length vAddr <? 1000)%nat && existsb is_AddNewAddresses ev
                          then false else fGetAddr pfrom)
    /\ (existsb is_AddNewAddresses ev = false ->
        pfrom' = pfrom
        /\ ((nVersion pfrom < C /\ (1000 < count)%N) \/ (1000 < length vAddr)%nat
            \/ exists k, interrupt k = true)).
Proof.
  unfold ProcessAddrMsg.
  destruct ((nVersion pfrom <? C) && (1000 <? count)%N) eqn:Hskip.
  { apply andb_true_iff in Hskip as [Hold%Z.ltb_lt Hmany%N.ltb_lt].
    exists true, pfrom, st, []. split; [done|]. split; [done|]. split; [done|].
    split; [simpl; lia|]. split; [simpl; lia|].
    split; [by intros ? ? ?%elem_of_nil|]. split; [by intros ? ? ?%elem_of_nil|].
    split; [by intros ? ? ? ?%elem_of_nil|]. cbn [existsb]. rewrite andb_false_r.
    split; [done|]. intros _. split; [done|]. by left. }
  destruct (Nat.ltb_spec 1000 (length vAddr)) as [Hbig|Hsize].
  { exists false, pfrom, (Misbehaving banscore (GetId pfrom) 20 st), [].
    split; [done|]. split; [done|]. split; [done|].
    split; [simpl; lia|]. split; [simpl; lia|].
    split; [by intros ? ? ?%elem_of_nil|]. split; [by intros ? ? ?%elem_of_nil|].
    split; [by intros ? ? ? ?%elem_of_nil|]. cbn [existsb]. rewrite andb_false_r.
    split; [done|]. intros _. split; [done|]. right. by left. }
  destruct (ProcessAddrMsg_loop_spec C R IsReachable hashKey nodes interrupt pfrom vAddr nNow
              0 vAddr [] []) as (res & ev & Hrun & Hev & Hcnt & Hres & Hint);
    [done|constructor|constructor|].
  rewrite Hrun. cbn [mbind option_bind fst snd].
  pose proof (addr_events_no_store _ _ _ _ _ Hev) as (Hnone & Hfilter & Hnotin).
  assert (length (filter (fun e => is_PushTimedAddress e = true) ev) <= 20)%nat as Hpush.
  { destruct (Nat.le_gt_cases (length vAddr) 10) as [|Hmore]; [simpl in Hcnt; lia|].
    rewrite (addr_events_no_push _ _ _ _ _ Hmore Hev). simpl. lia. }
  assert (forall id a, PushTimedAddress id a ∈ ev ->
            (length vAddr <= 10)%nat /\ fGetAddr pfrom = false
            /\ addr_normalised R nNow vAddr a
            /\ addr_IsRoutable a = true /\ wrap64 (nNow - 10 * 60) < ta_nTime a) as Hp.
  { intros id a Ha. rewrite Forall_forall in Hev. exact (Hev _ Ha). }
  assert (forall id a, AddAddressKnown id a ∈ ev ->
            id = GetId pfrom /\ addr_normalised R nNow vAddr a) as Hk.
  { intros id a Ha. rewrite Forall_forall in Hev. exact (Hev _ Ha). }
  destruct res as [ok|].
  - eexists true, _, st, _. split; [done|]. split; [done|]. split; [split; [done|lia]|].
    split; [by rewrite filter_app, length_app, filter_cons_False, filter_nil, Nat.add_0_r by done|].
    split.
    { rewrite filter_app, length_app, Hfilter, filter_cons_True, filter_nil by done.
      simpl. lia. }
    split.
    { intros id a [Ha|Ha%list_elem_of_singleton]%elem_of_app; [by eapply Hp|done]. }
    split.
    { intros id a [Ha|Ha%list_elem_of_singleton]%elem_of_app; [by eapply Hk|done]. }
    split.
    { intros ok' source penalty [Ha|Ha%list_elem_of_singleton]%elem_of_app;
        [by apply Hnotin in Ha|].
      injection Ha as -> -> ->. split; [by rewrite last_snoc|]. split; [done|].
      split; [done|]. intros a Ha. specialize (Hres ok eq_refl).
      rewrite Forall_forall in Hres. destruct (Hres a Ha) as (? & ?). split; [done|].
      apply elem_of_app. by left. }
    rewrite existsb_app. cbn [existsb is_AddNewAddresses]. rewrite orb_true_r, andb_true_r.
    split; [|done].
    destruct (length vAddr <? 1000)%nat; [|by destruct (fOneShot pfrom)].
    by destruct (fOneShot (set_fGetAddr false pfrom)).
  - exists true, pfrom, st, ev. split; [done|]. split; [done|].
    split; [split; [done|lia]|].
    split; [exact Hpush|]. split; [rewrite Hfilter; simpl; lia|]. split; [exact Hp|].
    split; [exact Hk|].
    split; [intros ok source penalty Ha; by apply Hnotin in Ha|].
    rewrite Hnone, andb_false_r. split; [done|]. intros _. split; [done|].
    right. right. by apply Hint.
Qed.

(** Three addresses from a peer that did not ask for them: the first lacks
    the required service, the second is fresh and is relayed to the peers 9
    and 8, and the third carries an implausible time. *)
Lemma ProcessAddrMsg_stores_witness :
  exists pfrom' st' ev,
    ProcessAddrMsg 31402 1 100 (fun _ => true) (fun _ => Z.to_N)
      [ex_peer 7; ex_peer 9; ex_peer 8] (fun _ => false) 0 1000000000
      (ex_peer 7) [ex_taddr 0 999999990; ex_taddr 1 999999990; ex_taddr 1 5]
      (ex_table 7 ex_row)
    = Some (true, pfrom', st', ev)
    /\ st' = ex_table 7 ex_row
    /\ length (filter (fun e => is_PushTimedAddress e = true) ev) = 2%nat.
Proof.
  destruct (ProcessAddrMsg_stores 31402 1 100 (fun _ => true) (fun _ => Z.to_N)
              [ex_peer 7; ex_peer 9; ex_peer 8] (fun _ => false) 0 1000000000
              (ex_peer 7) [ex_taddr 0 999999990; ex_taddr 1 999999990; ex_taddr 1 5]
              (ex_table 7 ex_row))
    as (r & pfrom' & st' & ev & Hrun & _ & Htrue & _).
  assert (r = true /\ length (filter (fun e => is_PushTimedAddress e = true) ev) = 2%nat)
    as (-> & Hlen).
  { vm_compute in Hrun. injection Hrun as <- <- <- <-. split; reflexivity. }
  exists pfrom', st', ev. split; [exact Hrun|]. split; [by apply Htrue|exact Hlen].
Defined.


Lemma ProcessGetAddrMsg_all_quiet pfrom tables fSentAddr ev :
  fInbound pfrom = false \/ fSentAddr = true ->
  foldl (fun acc vAddr =>
           let r := ProcessGetAddrMsg pfrom vAddr acc.1 in (r.1.2, acc.2 ++ r.2))
    (fSentAddr, ev) tables = (fSentAddr, ev).
Proof.
  intros Hq. induction tables as [|t tables IH]; [done|]. cbn [foldl fst snd].
  replace (ProcessGetAddrMsg pfrom t fSentAddr) with (true, fSentAddr, @nil AddrEvent).
  { cbn [fst snd]. by rewrite app_nil_r. }
  unfold ProcessGetAddrMsg. destruct Hq as [-> | ->]; [done|]. by destruct (fInbound pfrom).
Qed.

(** X27: however many [getaddr] messages arrive on a connection, an outbound
    peer is never answered, and an inbound peer is answered once: the first
    message clears the addresses waiting to be sent and pushes the addresses
    of the address manager, in their order, and every later message is
    ignored. *)
Theorem ProcessGetAddrMsg_one_response pfrom tables fSentAddr :
  let r := ProcessGetAddrMsg_all pfrom tables fSentAddr in
  (fInbound pfrom = false \/ fSentAddr = true -> r = (fSentAddr, []))
  /\ (fInbound pfrom = true -> fSentAddr = false ->
      match tables with
      | [] => r = (false, [])
      | vAddr :: _ =>
          r = (true, ClearAddrToSend (GetId pfrom)
                     :: (PushTimedAddress (GetId pfrom) <$> vAddr))
      end)
  /\ (r.1 = false -> r.2 = [])
  /\ (forall more, ProcessGetAddrMsg_all pfrom (tables ++ more) fSentAddr
                   = if r.1 then r else ProcessGetAddrMsg_all pfrom more false).
Proof.
  cbv zeta. unfold ProcessGetAddrMsg_all.
  assert (fInbound pfrom = false \/ fSentAddr = true \/
          (fInbound pfrom = true /\ fSentAddr = false)) as Hcase
    by (destruct (fInbound pfrom), fSentAddr; auto).
  destruct Hcase as [Hout|[Hsent|(Hin & Hnot)]].
  - rewrite !ProcessGetAddrMsg_all_quiet by auto.
    split; [done|]. split; [congruence|]. split; [done|]. intros more.
    rewrite foldl_app, !ProcessGetAddrMsg_all_quiet by auto. cbn [fst].
    by destruct fSentAddr.
  - rewrite !ProcessGetAddrMsg_all_quiet by auto.
    split; [done|]. split; [congruence|]. split; [by rewrite Hsent|]. intros more.
    rewrite foldl_app, !ProcessGetAddrMsg_all_quiet by auto. cbn [fst]. by rewrite Hsent.
  - subst fSentAddr. split; [by intros [?|?]; congruence|].
    destruct tables as [|t tables].
    { split; [done|]. split; [done|]. intros more. done. }
    cbn [foldl fst snd app].
    assert (ProcessGetAddrMsg pfrom t false
            = (true, true, ClearAddrToSend (GetId pfrom)
                           :: (PushTimedAddress (GetId pfrom) <$> t))) as ->
      by (unfold ProcessGetAddrMsg; by rewrite Hin).
    cbn [fst snd app]. rewrite ProcessGetAddrMsg_all_quiet by auto.
    split; [done|]. split; [done|]. intros more.
    by rewrite foldl_app, !ProcessGetAddrMsg_all_quiet by auto.
Qed.

(** An inbound peer asks twice: it gets the first table only. *)
Lemma ProcessGetAddrMsg_one_response_witness :
  ProcessGetAddrMsg_all (ex_node 7 true) [[ex_taddr 1 5]; [ex_taddr 1 6; ex_taddr 1 7]] false
  = (true, [ClearAddrToSend 7; PushTimedAddress 7 (ex_taddr 1 5)]).
Proof.
  destruct (ProcessGetAddrMsg_one_response (ex_node 7 true)
              [[ex_taddr 1 5]; [ex_taddr 1 6; ex_taddr 1 7]] false) as (_ & Hfirst & _).
  exact (Hfirst eq_refl eq_refl).
Defined.


(** ** The invariants under the other handlers *)

Lemma reachable_other_fields pc st pnode f :
  reachable pc st -> (forall s, same_tracked s (f s)) ->
  reachable pc (upd_state pnode f st).
Proof. intros Hr Hf. eapply reachable_step; [exact Hr|]. by apply step_other_fields. Qed.

Lemma reachable_put_state pc st pnode s s' :
  reachable pc st -> State st pnode = Some s -> same_tracked s s' ->
  reachable pc (put_state pnode s' st).
Proof.
  intros Hr Hs Hsame.
  set (f := fun x : CNodeState =>
              set_nBlocksInFlightValidHeaders (nBlocksInFlightValidHeaders x)
                (set_nBlocksInFlight (nBlocksInFlight x)
                   (set_vBlocksInFlight (vBlocksInFlight x)
                      (set_m_chain_sync
                         {| m_timeout := m_timeout (m_chain_sync s');
                            m_work_header := m_work_header (m_chain_sync s');
                            m_sent_getheaders := m_sent_getheaders (m_chain_sync s');
                            m_protect := m_protect (m_chain_sync x) |}
                         (set_fPreferredDownload (fPreferredDownload x)
                            (set_fSyncStarted (fSyncStarted x) s')))))).
  assert (f s = s') as Hfs.
  { unfold f. destruct Hsame as (H1 & H2 & H3 & H4 & H5 & H6).
    unfold is_protected in H3. rewrite <- H1, <- H2, <- H3, <- H4, <- H5, <- H6.
    destruct s'. simpl.
    match goal with c : ChainSyncTimeoutState |- _ => destruct c end. reflexivity. }
  rewrite <- Hfs, <- (upd_state_put _ f _ _ Hs).
  apply reachable_other_fields; [done|]. intros x. unfold f. same_tracked.
Qed.

Lemma reachable_Misbehaving pc st banscore pnode howmuch :
  reachable pc st -> reachable pc (Misbehaving banscore pnode howmuch st).
Proof. intros Hr. eapply reachable_step; [exact Hr|]. apply step_Misbehaving. Qed.

Lemma RelayCmpctBlock_row_tracked env p fW state0 state sent :
  RelayCmpctBlock_row env p fW state0 = Some (state, sent) -> same_tracked state0 state.
Proof.
  unfold RelayCmpctBlock_row. intros H.
  assert (same_tracked state0 (ProcessBlockAvailability_row env state0)) as H0
    by (unfold ProcessBlockAvailability_row; same_tracked).
  assert (same_tracked state0
            (set_pindexBestHeaderSent (Some p) (ProcessBlockAvailability_row env state0)))
    as H1 by (unfold ProcessBlockAvailability_row; same_tracked).
  destruct (_ && _); [|by injection H as <- _].
  destruct (PeerHasHeader _ _ (Some p)) as [[]|]; cbn [mbind option_bind negb] in H;
    [by injection H as <- _| |done].
  destruct (PeerHasHeader _ _ _) as [[]|]; cbn [mbind option_bind] in H;
    [by injection H as <- _|by injection H as <- _|done].
Qed.

Lemma RelayCmpctBlock_nodes_reachable pc env V p fW nodes st st' ev :
  reachable pc st ->
  RelayCmpctBlock_nodes pc env V p fW nodes st = Some (st', ev) -> reachable pc st'.
Proof.
  revert st ev. induction nodes as [|pnode nodes IH]; intros st ev Hr H;
    cbn [RelayCmpctBlock_nodes] in H.
  { by injection H as <- _. }
  destruct (_ || _); [by eapply IH|].
  destruct (State st (GetId pnode)) as [state0|] eqn:Hs; [|done].
  cbn [mbind option_bind] in H.
  destruct (RelayCmpctBlock_row env p fW state0) as [[state sent]|] eqn:Hrow; [|done].
  cbn [mbind option_bind] in H.
  destruct (RelayCmpctBlock_nodes pc env V p fW nodes _) as [[st1 ev1]|] eqn:Hrest; [|done].
  cbn [mbind option_bind] in H. injection H as <- _.
  eapply IH; [|exact Hrest].
  eapply reachable_put_state; [done..|]. by eapply RelayCmpctBlock_row_tracked.
Qed.

(** X28: the handlers of [sendheaders] and [sendcmpct], [BlockChecked],
    [RelayCmpctBlock] and [ProcessAddrMsg] lead from states the process can
    reach to states it can reach, so that the block bookkeeping invariants
    hold after them as well: the counters of a row still describe its queue,
    and every queued block is still registered in the in-flight map. *)
Theorem reachable_other_handlers pc st :
  reachable pc st ->
  (forall pfrom r st',
     ProcessSendHeadersMsg pfrom st = Some (r, st') -> reachable pc st')
  /\ (forall pfrom fAnnounce nVersion_ r st',
        ProcessSendCmpctMsg pc pfrom fAnnounce nVersion_ st = Some (r, st') ->
        reachable pc st')
  /\ (forall env (ForNode : NodeId -> option CNode) banscore RI ML h state src l,
        reachable pc (BlockChecked pc env ForNode banscore RI ML h state src l st).1.2)
  /\ (forall env V pindex_ have_block have_connman fW nodes r st' ev,
        RelayCmpctBlock pc env V pindex_ have_block have_connman fW nodes st
        = Some (r, st', ev) -> reachable pc st')
  /\ (forall C R banscore IsReachable hashKey nodes interrupt count nNow pfrom vAddr
             r pfrom' st' ev,
        ProcessAddrMsg C R banscore IsReachable hashKey nodes interrupt count nNow pfrom
          vAddr st = Some (r, pfrom', st', ev) -> reachable pc st')
  /\ (forall st',
        (exists pfrom r, ProcessSendHeadersMsg pfrom st = Some (r, st'))
        \/ (exists pfrom fAnnounce nVersion_ r,
              ProcessSendCmpctMsg pc pfrom fAnnounce nVersion_ st = Some (r, st')) ->
        forall nodeid state,
          State st' nodeid = Some state ->
          nBlocksInFlight state = Z.of_nat (length (vBlocksInFlight state))
          /\ forall it entry, (it, entry) ∈ vBlocksInFlight state ->
               mapBlocksInFlight st' !! hash entry = Some (nodeid, it)).
Proof.
  intros Hr.
  assert (forall pfrom r st',
            ProcessSendHeadersMsg pfrom st = Some (r, st') -> reachable pc st') as Hsh.
  { intros pfrom r st' H. unfold ProcessSendHeadersMsg in H.
    destruct (State st (GetId pfrom)); [|done]. cbn [mbind option_bind] in H.
    injection H as _ <-. apply reachable_other_fields; [done|]. intros s. same_tracked. }
  assert (forall pfrom fAnnounce nVersion_ r st',
            ProcessSendCmpctMsg pc pfrom fAnnounce nVersion_ st = Some (r, st') ->
            reachable pc st') as Hsc.
  { intros pfrom fAnnounce nVersion_ r st' H.
    destruct (State st (GetId pfrom)) as [state|] eqn:Hs.
    - destruct (ProcessSendCmpctMsg_row pc pfrom fAnnounce nVersion_ st state Hs)
        as (state' & Hrun & Hflags & _).
      rewrite Hrun in H. injection H as _ <-.
      eapply reachable_put_state; [done..|]. rewrite Hflags.
      unfold set_cmpct_flags. same_tracked.
    - unfold ProcessSendCmpctMsg in H. rewrite Hs in H.
      destruct (_ || _); [done|]. by injection H as _ <-. }
  split; [exact Hsh|]. split; [exact Hsc|]. split; [|split; [|split]].
  - intros env ForNode banscore RI ML h state src l. unfold BlockChecked.
    destruct (vs_IsInvalid state).
    + destruct (src !! h) as [[source punish]|]; [|done].
      destruct (_ && _ && _); [|done]. cbn [fst snd].
      assert (reachable pc
                (upd_state source
                   (fun s => set_rejects
                               (rejects s ++ [{| chRejectCode := vs_GetRejectCode state mod 256;
                                                 strRejectReason :=
                                                   substring 0 ML (vs_GetRejectReason state);
                                                 hashBlock := h |}]) s) st)) as Hr1
        by (apply reachable_other_fields; [done|]; intros s; same_tracked).
      destruct (_ && punish); [by apply reachable_Misbehaving|done].
    + destruct (_ && _ && _); [|done].
      destruct (src !! h) as [[source punish]|]; [|done].
      by destruct (MaybeSetPeerAsAnnouncingHeaderAndIDs pc ForNode source l st).
  - intros env V pindex_ have_block have_connman fW nodes r st' ev H.
    unfold RelayCmpctBlock in H. destruct pindex_ as [p|]; [|by injection H as _ <- _].
    destruct (_ && _); [|by injection H as _ <- _].
    destruct (RelayCmpctBlock_nodes pc env V p fW nodes st) as [[st1 ev1]|] eqn:Hn; [|done].
    cbn [mbind option_bind] in H. injection H as _ <- _.
    by eapply RelayCmpctBlock_nodes_reachable.
  - intros C R banscore IsReachable hashKey nodes interrupt count nNow pfrom vAddr
      r pfrom' st' ev H.
    unfold ProcessAddrMsg in H.
    destruct (_ && _); [by injection H as _ _ <- _|].
    destruct (_ <? _)%nat; [injection H as _ _ <- _; by apply reachable_Misbehaving|].
    destruct (ProcessAddrMsg_loop _ _ _ _ _ _ _ _ _ _ _ _ _) as [[[ok|] ev1]|];
      [| |done]; cbn [mbind option_bind fst snd] in H; by injection H as _ _ <- _.
  - intros st' Hst' nodeid state Hs.
    assert (reachable pc st') as Hr'.
    { destruct Hst' as [(pfrom & r & H)|(pfrom & fA & nV & r & H)];
        [by eapply Hsh|by eapply Hsc]. }
    pose proof (reachable_Inv _ _ Hr') as HI.
    pose proof (reachable_Inv2 _ _ Hr') as [HR _].
    split; [by eapply (inv_length _ HI)|].
    intros it entry Hin. by eapply (reg_map _ HR).
Qed.

(** After a [sendheaders] message of peer 7, whose block 4 is in flight, the
    block is still registered. *)
Lemma reachable_other_handlers_witness :
  exists st',
    ProcessSendHeadersMsg (ex_peer 7) ex_two_peers_downloading = Some (true, st')
    /\ reachable ex_pc st'.
Proof.
  destruct (reachable_other_handlers ex_pc ex_two_peers_downloading
              ex_two_peers_downloading_reachable) as (Hsh & _).
  destruct (ProcessSendHeadersMsg (ex_peer 7) ex_two_peers_downloading) as [[r st']|] eqn:H;
    [|by vm_compute in H].
  assert (r = true) as -> by (vm_compute in H; by injection H as <- _).
  exists st'. split; [done|]. by eapply Hsh.
Defined.


(** ** A block announcement spares a peer from eviction *)

(** X29: [UpdateLastBlockAnnounceTime] writes nothing but the announcement
    time of the given peer, and after it [EvictExtraOutboundPeers] does not
    disconnect that peer as long as it visits another evictable peer whose
    last block announcement is older than the recorded time. *)
Theorem UpdateLastBlockAnnounceTime_spares MIN extra nodes
    (ForNode : NodeId -> option TimedNode) t node time st ev (other : TimedNode) orow :
  (forall id n, ForNode id = Some n -> GetId n = id) ->
  EvictExtraOutboundPeers MIN extra nodes ForNode t
    (UpdateLastBlockAnnounceTime node time st) = Some ev ->
  other ∈ nodes -> evictable st other orow -> GetId other ≠ node ->
  m_last_block_announcement orow < time ->
  (SetDisconnect node ∉ ev)
  /\ (forall p, p ≠ node ->
        State (UpdateLastBlockAnnounceTime node time st) p = State st p)
  /\ State (UpdateLastBlockAnnounceTime node time st) node
     = set_m_last_block_announcement time <$> State st node
  /\ frame st (UpdateLastBlockAnnounceTime node time st).
Proof.
  intros HFor H Hother Hev Hne Hold.
  assert (forall p, p ≠ node ->
            State (UpdateLastBlockAnnounceTime node time st) p = State st p) as Hrest.
  { intros p Hp. unfold UpdateLastBlockAnnounceTime.
    destruct (State st node); [|done]. unfold State, upd_state. cbn.
    by rewrite lookup_alter_ne. }
  assert (State (UpdateLastBlockAnnounceTime node time st) node
          = set_m_last_block_announcement time <$> State st node) as Hnode.
  { unfold UpdateLastBlockAnnounceTime. destruct (State st node) as [s|] eqn:Hs.
    - unfold State, upd_state in *. cbn. by rewrite lookup_alter_eq, Hs.
    - by rewrite Hs. }
  split; [|split; [exact Hrest|split; [exact Hnode|]]].
  2:{ unfold UpdateLastBlockAnnounceTime. destruct (State st node); [|apply frame_refl].
      apply frame_upd_state. by intros s. }
  set (st1 := UpdateLastBlockAnnounceTime node time st) in *.
  assert (evictable st1 other orow) as Hev1.
  { destruct Hev as (? & ? & ? & ?). split; [done|]. split; [done|]. split; [|done].
    by rewrite Hrest. }
  intros Hin. unfold EvictExtraOutboundPeers in H.
  destruct (0 <? extra); [|injection H as <-; by apply elem_of_nil in Hin].
  destruct (evict_scan_spec st1 nodes (-1, INT64_MAX)) as (Hsrc & _ & Hmin).
  cbv zeta in Hsrc, Hmin.
  set (res := foldl (evict_scan st1) (-1, INT64_MAX) nodes) in *.
  destruct (Z.eqb_spec res.1 (-1)) as [|Hw]; cbn [negb] in H;
    [injection H as <-; by apply elem_of_nil in Hin|].
  destruct Hsrc as [Hres|(cand & row & Hcand & Hcev & Hid & Hann)];
    [by rewrite Hres in Hw|].
  destruct (ForNode res.1) as [pnode|] eqn:Hp;
    [|injection H as <-; by apply elem_of_nil in Hin].
  pose proof (HFor _ _ Hp) as Hpid.
  destruct (State st1 (GetId pnode)) as [state|] eqn:Hs; [|done].
  cbn [mbind option_bind] in H.
  destruct (_ && _); [|injection H as <-; by apply elem_of_nil in Hin].
  injection H as <-.
  apply elem_of_cons in Hin as [Hin|Hin];
    [|by apply list_elem_of_singleton in Hin].
  injection Hin as Hnodeid.
  destruct Hcev as (_ & _ & Hrow & _).
  rewrite Hid, <- Hpid, <- Hnodeid, Hnode in Hrow.
  destruct (State st node) as [s|]; [|done]. injection Hrow as <-.
  specialize (Hmin other orow Hother Hev1). rewrite <- Hann in Hmin.
  cbn in Hmin. lia.
Qed.

(** Peer 8 would be evicted (its announcement at time 20 is the oldest), but
    after it announces a block at time 60 peer 7 is evicted instead. *)
Lemma UpdateLastBlockAnnounceTime_spares_witness :
  EvictExtraOutboundPeers 30 1 [ex_timed 7; ex_timed 8] ex_ForTimedNode 100
    (UpdateLastBlockAnnounceTime 8 60 ex_evict_table)
  = Some [SetDisconnect 7; SetTryNewOutboundPeer false]
  /\ (@SetDisconnect 8 ∉ [SetDisconnect 7; SetTryNewOutboundPeer false]).
Proof.
  assert (EvictExtraOutboundPeers 30 1 [ex_timed 7; ex_timed 8] ex_ForTimedNode 100
            (UpdateLastBlockAnnounceTime 8 60 ex_evict_table)
          = Some [SetDisconnect 7; SetTryNewOutboundPeer false]) as H
    by (vm_compute; reflexivity).
  split; [exact H|].
  eapply (UpdateLastBlockAnnounceTime_spares 30 1 [ex_timed 7; ex_timed 8] ex_ForTimedNode
            100 8 60 ex_evict_table _ (ex_timed 7)
            (set_m_last_block_announcement 50 ex_row)).
  - intros id n Hn. unfold ex_ForTimedNode in Hn.
    destruct (Z.eqb_spec id 7) as [->|]; [by injection Hn as <-|].
    destruct (Z.eqb_spec id 8) as [->|]; [by injection Hn as <-|done].
  - exact H.
  - apply list_elem_of_here.
  - split; [reflexivity|]. split; [reflexivity|]. split; [reflexivity|reflexivity].
  - vm_compute. discriminate.
  - vm_compute. reflexivity.
Defined.


(** ** The in-flight queries *)

Lemma NoDup_fst_inj {A B} (l : list (A * B)) x y :
  NoDup (fst <$> l) -> x ∈ l -> y ∈ l -> x.1 = y.1 -> x = y.
Proof.
  induction l as [|z l IH]; intros Hnd Hx Hy Heq; [by apply elem_of_nil in Hx|].
  cbn [fmap list_fmap] in Hnd. apply NoDup_cons in Hnd as [Hz Hnd].
  apply elem_of_cons in Hx as [->|Hx]; apply elem_of_cons in Hy as [->|Hy].
  - done.
  - exfalso. apply Hz. rewrite Heq. apply list_elem_of_fmap. by exists y.
  - exfalso. apply Hz. rewrite <- Heq. apply list_elem_of_fmap. by exists x.
  - by apply IH.
Qed.

Lemma omap_length_le {A B} (f : A -> option B) (l : list A) :
  (length (omap f l) <= length l)%nat.
Proof. induction l as [|x l IH]; [done|]. cbn. destruct (f x); simpl; lia. Qed.

Lemma elem_of_queued_hashes m h :
  h ∈ queued_hashes m <->
  exists peer state it entry,
    m !! peer = Some state /\ (it, entry) ∈ vBlocksInFlight state /\ hash entry = h.
Proof.
  unfold queued_hashes. rewrite list_elem_of_bind. split.
  - intros ([peer state] & Hh & Hps). apply elem_of_map_to_list in Hps.
    apply list_elem_of_fmap in Hh as ([it entry] & -> & He).
    by exists peer, state, it, entry.
  - intros (peer & state & it & entry & Hs & He & <-).
    exists (peer, state). split; [|by apply elem_of_map_to_list].
    apply list_elem_of_fmap. by exists (it, entry).
Qed.

Lemma queued_hashes_NoDup st : Registered st -> NoDup (queued_hashes (mapNodeState st)).
Proof.
  intros HR. unfold queued_hashes. apply NoDup_bind.
  - intros [p1 s1] [p2 s2] h Hp1%elem_of_map_to_list Hp2%elem_of_map_to_list
      ([it1 e1] & -> & He1)%list_elem_of_fmap ([it2 e2] & Hh & He2)%list_elem_of_fmap.
    cbn [fst snd] in *.
    pose proof (reg_map _ HR p1 s1 it1 e1 Hp1 He1) as H1.
    pose proof (reg_map _ HR p2 s2 it2 e2 Hp2 He2) as H2.
    rewrite Hh, H2 in H1. injection H1 as -> _. unfold State in *. congruence.
  - intros [p s] Hps%elem_of_map_to_list. cbn [snd].
    pose proof (reg_nodes _ HR p s Hps) as Hnd.
    apply NoDup_fmap_2_strong; [|by eapply NoDup_fmap_1].
    intros [it1 e1] [it2 e2] He1 He2 Hh. cbn [snd] in Hh.
    pose proof (reg_map _ HR p s it1 e1 Hps He1) as H1.
    pose proof (reg_map _ HR p s it2 e2 Hps He2) as H2.
    rewrite Hh, H2 in H1. injection H1 as ->.
    by eapply (NoDup_fst_inj _ (it1, e1) (it1, e2)).
  - apply NoDup_map_to_list.
Qed.

Lemma queued_hashes_keys st h :
  Inv st -> Registered st ->
  h ∈ queued_hashes (mapNodeState st) <-> is_Some (mapBlocksInFlight st !! h).
Proof.
  intros HI HR. rewrite elem_of_queued_hashes. split.
  - intros (peer & state & it & entry & Hs & He & <-).
    rewrite (reg_map _ HR peer state it entry Hs He). by eexists.
  - intros [[peer it] Hh].
    destruct (inv_flight _ HI _ _ _ Hh) as (state & entry & Hs & Hd & Hhash).
    exists peer, state, it, entry. split; [done|]. split; [|done].
    by apply list_deref_elem_of.
Qed.

Lemma in_flight_size st :
  Inv st -> Registered st ->
  size (mapBlocksInFlight st) = length (queued_hashes (mapNodeState st)).
Proof.
  intros HI HR. rewrite <- length_map_to_list, <- (length_fmap fst).
  apply Permutation_length, NoDup_Permutation.
  - apply NoDup_fst_map_to_list.
  - by apply queued_hashes_NoDup.
  - intros h. rewrite queued_hashes_keys by done.
    rewrite list_elem_of_fmap. split.
    + intros ([h' v] & -> & Hv%elem_of_map_to_list). by exists v.
    + intros [v Hv]. exists (h, v). split; [done|]. by apply elem_of_map_to_list.
Qed.

(** X30: in every state the process can reach, [GetInFlightBlockCount] is
    the number of blocks queued by all peers together, no block being queued
    twice; [DoseBlockInFlight] holds of a hash exactly when some peer queues a
    block of that hash; and [GetNodeStateStats] fails exactly for an unknown
    peer, and otherwise reports the misbehaviour score of the peer and adds at
    most as many heights as the peer has blocks in flight, which is at most
    the number of all blocks in flight. *)
Theorem reachable_in_flight_queries pc st :
  reachable pc st ->
  GetInFlightBlockCount st
  = wrap32 (Z.of_nat (length (queued_hashes (mapNodeState st))))
  /\ NoDup (queued_hashes (mapNodeState st))
  /\ (forall h,
        DoseBlockInFlight h st = true <->
        exists peer state it entry,
          State st peer = Some state /\ (it, entry) ∈ vBlocksInFlight state
          /\ hash entry = h)
  /\ (forall env nodeid stats,
        match State st nodeid with
        | None => GetNodeStateStats env nodeid stats st = (false, stats)
        | Some state =>
            exists heights,
              GetNodeStateStats env nodeid stats st
              = (true,
                 {| stats_nMisbehavior := nMisbehavior state;
                    stats_nSyncHeight :=
                      from_option (fun p => nHeight (blk env p)) (-1)
                        (pindexBestKnownBlock state);
                    stats_nCommonHeight :=
                      from_option (fun p => nHeight (blk env p)) (-1)
                        (pindexLastCommonBlock state);
                    stats_vHeightInFlight := stats_vHeightInFlight stats ++ heights |})
              /\ Z.of_nat (length heights) <= nBlocksInFlight state
              /\ nBlocksInFlight state <= Z.of_nat (size (mapBlocksInFlight st))
              /\ forall ht, ht ∈ heights ->
                   exists it entry p,
                     (it, entry) ∈ vBlocksInFlight state /\ pindex entry = Some p
                     /\ ht = nHeight (blk env p)
        end).
Proof.
  intros Hreach. pose proof (reachable_Inv _ _ Hreach) as HI.
  pose proof (reachable_Inv2 _ _ Hreach) as [HR _].
  split; [unfold GetInFlightBlockCount; by rewrite in_flight_size|].
  split; [by apply queued_hashes_NoDup|]. split.
  - intros h. unfold DoseBlockInFlight. rewrite bool_decide_eq_true.
    rewrite <- queued_hashes_keys by done. apply elem_of_queued_hashes.
  - intros env nodeid stats. unfold GetNodeStateStats.
    destruct (State st nodeid) as [state|] eqn:Hs; [|done].
    eexists. split; [reflexivity|].
    destruct (inv_length _ HI _ _ Hs) as [Hlen _]. split; [|split].
    + rewrite Hlen. apply inj_le, omap_length_le.
    + rewrite Hlen, in_flight_size by done. apply inj_le.
      unfold queued_hashes.
      assert ((nodeid, state) ∈ map_to_list (mapNodeState st)) as Hin
        by (by apply elem_of_map_to_list).
      apply list_elem_of_split in Hin as (l1 & l2 & ->).
      rewrite bind_app, bind_cons, !length_app, length_fmap. cbn [snd]. lia.
    + intros ht ([it entry] & Hin & Hp)%list_elem_of_omap. cbn [snd] in Hp.
      destruct (pindex entry) as [p|] eqn:Hpi; [|done]. injection Hp as <-.
      by exists it, entry, p.
Qed.

(** Block 4 is the one block in flight, from peer 7. *)
Lemma reachable_in_flight_queries_witness :
  GetInFlightBlockCount ex_two_peers_downloading = 1
  /\ NoDup (queued_hashes (mapNodeState ex_two_peers_downloading)).
Proof.
  destruct (reachable_in_flight_queries ex_pc ex_two_peers_downloading
              ex_two_peers_downloading_reachable) as (Hcount & Hnd & _).
  split; [vm_compute; reflexivity|exact Hnd].
Defined.
